(** * dflow-mcp: a shallow embedding of the tool dispatcher and its transports

    The repository forwards Model Context Protocol tool calls to a REST API,
    through a stdio server and a number of HTTP deployment variants.  This
    development embeds

    - the JavaScript values the handlers move around, and the platform
      functions the source calls on them: [String], [Object.entries],
      [JSON.stringify] (module [JS]), [URL] and [URLSearchParams] (module
      [Url]), [fetch] and the effects of a handler (module [Net]);
    - the outbound clients (module [Client]): the class [DFlowAPIClient] of
      the stdio server (src/unnamed/part_007, also in part_006 and in the Bun
      server) and the function [apiRequest] of the serverless variants;
    - the tool-call handler of the stdio server (module [Stdio],
      src/unnamed/part_007);
    - the HTTP handlers, one module each: [Deno] (src/unnamed/part_003),
      [ApiMcp] (src/.netlify/functions/api-mcp.js), [McpIndex]
      (src/unnamed/part_004, the function [mcp]), [ClaudeDesktop]
      (src/unnamed/part_005), [McpApi] and [BunWeb] (the function and the web
      server of src/.netlify/functions/mcp-api.js), [V2Bootstrap] and [V2Sse]
      (src/.netlify/functions/mcp-v2-bootstrap and mcp-v2-sse), with what they
      share in module [Http] and a side-by-side view in module [Variants];
    - the catalogs of tool descriptors of the stdio server (module
      [Catalog], src/unnamed/part_007) and of the function [mcp] (module
      [McpCatalog], src/unnamed/part_004);
    - the server factory (module [Factory], src/unnamed/part_006): the
      client [createServer] configures and the handlers for prompts,
      resources and tool calls it registers;
    - the edition of the function [mcp] that writes a log (module
      [McpLogged], src/.netlify/functions/mcp/index.js);

    and proves the properties the specification states about them (part
    "Proofs"), and further properties the code itself shows (part "Further
    properties of the code", stated with the notions of module [Notions]).

    Conventions.  A string is a sequence of bytes (UTF-8).  A JavaScript
    object is the list of its own enumerable entries in the order
    [Object.entries] yields them, which for keys that are not array indices
    is insertion order; keys of such a list are distinct.  Numbers are
    modelled by integers: every number the handlers build or compare is one,
    and an integer below 10^21 in magnitude prints in JavaScript as its
    decimal numeral.  Each HTTP handler takes its catalog of tool
    descriptors as a parameter; the theorems that depend on a catalog
    instantiate it. *)

From Stdlib Require Import String Ascii List ZArith NArith Bool Lia DecimalString.
Set Warnings "-register-all".
Import ListNotations.
Open Scope string_scope.
Open Scope Z_scope.

(* ===================================================================== *)
(** * JavaScript values *)
(* ===================================================================== *)

Module JS.

Inductive value : Type :=
  | VUndefined
  | VNull
  | VBool (b : bool)
  | VNum (z : Z)
  | VStr (s : string)
  | VArr (elems : list value)
  | VObj (entries : list (string * value)).

Definition obj := list (string * value).

(** Primitive values: what a [throw] of a non-[Error] carries. *)
Inductive prim : Type :=
  | PUndefined
  | PNull
  | PBool (b : bool)
  | PNum (z : Z)
  | PStr (s : string).

(** An instance of [Error] (or of a subclass): its [name] and [message]. *)
Record js_error := mkError { err_name : string; err_message : string }.

Inductive thrown : Type :=
  | ThrowError (e : js_error)
  | ThrowPrim (p : prim).

(** [new Error(msg)] *)
Definition Error (msg : string) : js_error := mkError "Error" msg.
Definition TypeError (msg : string) : js_error := mkError "TypeError" msg.

(** How an evaluation ends: with a value, with an exception, or never (an
    awaited promise that does not settle). *)
Inductive completion (A : Type) : Type :=
  | Normal (a : A)
  | Throw (t : thrown)
  | Hang.
Arguments Normal {A} a.
Arguments Throw {A} t.
Arguments Hang {A}.

Definition cbind {A B} (c : completion A) (k : A -> completion B) : completion B :=
  match c with
  | Normal a => k a
  | Throw t => Throw t
  | Hang => Hang
  end.

(** ** Property access *)

Fixpoint lookup (k : string) (o : obj) : option value :=
  match o with
  | [] => None
  | (k', v) :: rest => if String.eqb k k' then Some v else lookup k rest
  end.

Definition has_key (k : string) (o : obj) : bool :=
  match lookup k o with Some _ => true | None => false end.

(** [v.k] for a key [k] that no prototype defines (every key the handlers
    read is such a key).  Reading a property of [undefined] or [null] throws. *)
Definition cannot_read (k : string) : js_error :=
  TypeError ("Cannot read properties of undefined (reading '" ++ k ++ "')").

Definition get_prop (v : value) (k : string) : completion value :=
  match v with
  | VUndefined | VNull => Throw (ThrowError (cannot_read k))
  | VObj o => Normal (match lookup k o with Some x => x | None => VUndefined end)
  | _ => Normal VUndefined
  end.

(** [o.k] on an object. *)
Definition prop (o : obj) (k : string) : value :=
  match lookup k o with Some x => x | None => VUndefined end.

(** The rest of an object pattern: [const { k1, k2, ...rest } = o]. *)
Definition omit (ks : list string) (o : obj) : obj :=
  filter (fun kv => negb (existsb (String.eqb (fst kv)) ks)) o.

(** [s.startsWith(p)] *)
Fixpoint starts_with (p s : string) : bool :=
  match p with
  | EmptyString => true
  | String a p' =>
      match s with
      | EmptyString => false
      | String b s' => Ascii.eqb a b && starts_with p' s'
      end
  end.

(** ** Truthiness and strict equality with a string literal *)

Definition truthy (v : value) : bool :=
  match v with
  | VUndefined | VNull => false
  | VBool b => b
  | VNum z => negb (z =? 0)
  | VStr s => negb (String.eqb s "")
  | VArr _ | VObj _ => true
  end.

(** [v === 'lit'] *)
Definition is_str (v : value) (lit : string) : bool :=
  match v with
  | VStr s => String.eqb s lit
  | _ => false
  end.

(** [a || b] *)
Definition or_else (a b : value) : value := if truthy a then a else b.

Definition is_nullish (v : value) : bool :=
  match v with
  | VUndefined | VNull => true
  | _ => false
  end.

Definition Array_isArray (v : value) : bool :=
  match v with
  | VArr _ => true
  | _ => false
  end.

(** ** [String(v)] and template-literal conversion *)

(** The decimal digits of an integer, with its sign: what [String] gives for
    the integers below 10^21 in magnitude.  From there on JavaScript prints
    a number with an exponent; the numbers of this development (limits,
    counts, indices, status codes, ids) are far below. *)
Definition string_of_Z (z : Z) : string := NilZero.string_of_int (Z.to_int z).

Definition cannot_convert : js_error :=
  TypeError "Cannot convert object to primitive value".

(** An object parsed from JSON converts through [Object.prototype.toString]
    unless it has an own [toString] entry, which is then not callable and
    leaves no way to a primitive.  An array joins its elements with commas,
    [undefined] and [null] elements giving the empty string. *)
Fixpoint ToString (v : value) : completion string :=
  match v with
  | VUndefined => Normal "undefined"
  | VNull => Normal "null"
  | VBool true => Normal "true"
  | VBool false => Normal "false"
  | VNum z => Normal (string_of_Z z)
  | VStr s => Normal s
  | VArr l =>
      cbind
        ((fix each (l : list value) : completion (list string) :=
            match l with
            | [] => Normal []
            | x :: rest =>
                cbind (if is_nullish x then Normal "" else ToString x) (fun sx =>
                cbind (each rest) (fun sr => Normal (sx :: sr)))
            end) l)
        (fun parts => Normal (String.concat "," parts))
  | VObj o =>
      if has_key "toString" o then Throw (ThrowError cannot_convert)
      else Normal "[object Object]"
  end.

Definition String_of_prim (p : prim) : string :=
  match p with
  | PUndefined => "undefined"
  | PNull => "null"
  | PBool true => "true"
  | PBool false => "false"
  | PNum z => string_of_Z z
  | PStr s => s
  end.

(** [error instanceof Error ? error.message : String(error)] *)
Definition error_message_of (error : thrown) : string :=
  match error with
  | ThrowError e => err_message e
  | ThrowPrim p => String_of_prim p
  end.

(** [error.message] in a [catch]: the message of an [Error]; a primitive
    has none, and reading it from [undefined] or [null] throws. *)
Definition message_prop (error : thrown) : completion value :=
  match error with
  | ThrowError e => Normal (VStr (err_message e))
  | ThrowPrim PUndefined | ThrowPrim PNull => Throw (ThrowError (cannot_read "message"))
  | ThrowPrim _ => Normal VUndefined
  end.

(** [v.k] where [v] is known not to be [undefined] or [null]. *)
Definition dot (v : value) (k : string) : value :=
  match v with
  | VObj o => prop o k
  | _ => VUndefined
  end.

(** ** [Object.entries] *)

Fixpoint index_entries (i : Z) (l : list value) : obj :=
  match l with
  | [] => []
  | x :: rest => (string_of_Z i, x) :: index_entries (i + 1) rest
  end.

Fixpoint char_values (s : string) : list value :=
  match s with
  | EmptyString => []
  | String c rest => VStr (String c EmptyString) :: char_values rest
  end.

(** On a string the entries are its code units, here its bytes. *)
Definition Object_entries (v : value) : completion obj :=
  match v with
  | VUndefined | VNull =>
      Throw (ThrowError (TypeError "Cannot convert undefined or null to object"))
  | VObj o => Normal o
  | VArr l => Normal (index_entries 0 l)
  | VStr s => Normal (index_entries 0 (char_values s))
  | VBool _ | VNum _ => Normal []
  end.

(** ** [JSON.stringify] *)

Definition hex_digit (n : N) : ascii :=
  ascii_of_N (if (n <? 10)%N then 48 + n else 87 + n)%N.

Definition newline : string := String (ascii_of_N 10) EmptyString.
Definition dquote : string := String (ascii_of_N 34) EmptyString.

Definition quote_char (c : ascii) : string :=
  let n := N_of_ascii c in
  if (n =? 34)%N then "\" ++ dquote
  else if (n =? 92)%N then "\\"
  else if (n =? 8)%N then "\b"
  else if (n =? 12)%N then "\f"
  else if (n =? 10)%N then "\n"
  else if (n =? 13)%N then "\r"
  else if (n =? 9)%N then "\t"
  else if (n <? 32)%N then
    "\u00" ++ String (hex_digit (n / 16)) (String (hex_digit (n mod 16)) EmptyString)
  else String c EmptyString.

Fixpoint quote_body (s : string) : string :=
  match s with
  | EmptyString => EmptyString
  | String c rest => quote_char c ++ quote_body rest
  end.

Definition quote (s : string) : string := dquote ++ quote_body s ++ dquote.

(** [JSON.stringify(v, null, gap)] at the current indentation; [None] is
    JavaScript's [undefined] result.  [gap] is empty for the compact form. *)
Fixpoint serialize (gap indent : string) (v : value) : option string :=
  let compact := String.eqb gap "" in
  let inner := indent ++ gap in
  let wrap (opening closing : string) (parts : list string) : string :=
    match parts with
    | [] => opening ++ closing
    | _ =>
        if compact then opening ++ String.concat "," parts ++ closing
        else opening ++ newline ++ inner
             ++ String.concat ("," ++ newline ++ inner) parts
             ++ newline ++ indent ++ closing
    end in
  match v with
  | VUndefined => None
  | VNull => Some "null"
  | VBool true => Some "true"
  | VBool false => Some "false"
  | VNum z => Some (string_of_Z z)
  | VStr s => Some (quote s)
  | VArr l =>
      Some (wrap "[" "]"
        ((fix elems (l : list value) : list string :=
            match l with
            | [] => []
            | x :: rest =>
                match serialize gap inner x with
                | Some s => s
                | None => "null"
                end :: elems rest
            end) l))
  | VObj o =>
      Some (wrap "{" "}"
        ((fix members (o : list (string * value)) : list string :=
            match o with
            | [] => []
            | (k, x) :: rest =>
                match serialize gap inner x with
                | Some s =>
                    (quote k ++ ":" ++ (if compact then "" else " ") ++ s)
                      :: members rest
                | None => members rest
                end
            end) o))
  end.

(** [JSON.stringify(v)] *)
Definition JSON_stringify (v : value) : option string := serialize "" "" v.

(** [JSON.stringify(v, null, 2)] *)
Definition JSON_stringify_pretty (v : value) : option string := serialize "  " "" v.

(** A property whose value may be [undefined]: a string result or nothing. *)
Definition str_or_undefined (s : option string) : value :=
  match s with
  | Some x => VStr x
  | None => VUndefined
  end.

(** The content block every variant wraps a tool result in. *)
Definition text_block (text : value) : value :=
  VObj [("type", VStr "text"); ("text", text)].

(** Values [JSON.parse] (and [response.json()]) can produce. *)
Fixpoint is_json (v : value) : bool :=
  match v with
  | VUndefined => false
  | VNull | VBool _ | VNum _ | VStr _ => true
  | VArr l => forallb is_json l
  | VObj o => forallb (fun kv => is_json (snd kv)) o
  end.

End JS.

(* ===================================================================== *)
(** * URLs and query strings *)
(* ===================================================================== *)

Module Url.
Import JS.

Definition in_range (lo hi : N) (c : ascii) : bool :=
  let n := N_of_ascii c in ((lo <=? n) && (n <=? hi))%N.

Definition is_alnum (c : ascii) : bool :=
  in_range 48 57 c || in_range 65 90 c || in_range 97 122 c.

Definition is_code (n : N) (c : ascii) : bool := (N_of_ascii c =? n)%N.

(** Bytes the [application/x-www-form-urlencoded] serializer leaves as they
    are: alphanumerics and [*], [-], [.], [_]. *)
Definition form_safe (c : ascii) : bool :=
  is_alnum c || is_code 42 c || is_code 45 c || is_code 46 c || is_code 95 c.

Definition HEX_digit (n : N) : ascii :=
  ascii_of_N (if (n <? 10)%N then 48 + n else 55 + n)%N.

Definition percent_byte (c : ascii) : string :=
  let n := N_of_ascii c in
  String "%" (String (HEX_digit (n / 16)) (String (HEX_digit (n mod 16)) EmptyString)).

Definition form_encode_char (c : ascii) : string :=
  if is_code 32 c then "+"
  else if form_safe c then String c EmptyString
  else percent_byte c.

Fixpoint form_encode (s : string) : string :=
  match s with
  | EmptyString => EmptyString
  | String c rest => form_encode_char c ++ form_encode rest
  end.

Definition pairs := list (string * string).

Definition urlencoded_serialize (ps : pairs) : string :=
  String.concat "&" (map (fun kv => form_encode (fst kv) ++ "=" ++ form_encode (snd kv)) ps).

(** The parser of an existing query, used when a URL that already has one
    gets a parameter appended. *)
Definition hex_value (c : ascii) : option N :=
  let n := N_of_ascii c in
  if in_range 48 57 c then Some (n - 48)%N
  else if in_range 65 70 c then Some (n - 55)%N
  else if in_range 97 102 c then Some (n - 87)%N
  else None.

Fixpoint percent_decode (s : string) : string :=
  match s with
  | EmptyString => EmptyString
  | String c rest =>
      match rest with
      | String h (String l rest') =>
          match (if is_code 37 c then hex_value h else None), hex_value l with
          | Some a, Some b => String (ascii_of_N (16 * a + b)) (percent_decode rest')
          | _, _ => String c (percent_decode rest)
          end
      | _ => String c (percent_decode rest)
      end
  end.

Fixpoint take_until (stop : ascii -> bool) (s : string) : string * string :=
  match s with
  | EmptyString => (EmptyString, EmptyString)
  | String c rest =>
      if stop c then (EmptyString, s)
      else let (a, b) := take_until stop rest in (String c a, b)
  end.

Fixpoint split_on (d : N) (s : string) : list string :=
  match s with
  | EmptyString => [EmptyString]
  | String c rest =>
      if is_code d c then EmptyString :: split_on d rest
      else match split_on d rest with
           | [] => [String c EmptyString]
           | w :: ws => String c w :: ws
           end
  end.

Fixpoint plus_to_space (s : string) : string :=
  match s with
  | EmptyString => EmptyString
  | String c rest => String (if is_code 43 c then " "%char else c) (plus_to_space rest)
  end.

Definition drop_first (s : string) : string :=
  match s with
  | EmptyString => EmptyString
  | String _ rest => rest
  end.

Definition urlencoded_parse (q : string) : pairs :=
  flat_map
    (fun piece =>
       if String.eqb piece "" then []
       else let (k, v) := take_until (is_code 61) piece in
            [(percent_decode (plus_to_space k),
              percent_decode (plus_to_space (drop_first v)))])
    (split_on 38 q).

(** A parsed URL with its [searchParams] list.  [hash] keeps its leading
    [#] when there is a fragment. *)
Record URL := mkURL {
  origin : string;
  pathname : string;
  query : option string;
  searchParams : pairs;
  hash : string
}.

Definition invalid_url : thrown := ThrowError (TypeError "Invalid URL").

Definition path_end (c : ascii) : bool := is_code 63 c || is_code 35 c.
Definition authority_end (c : ascii) : bool := is_code 47 c || path_end c.

(** The part of a URL after its authority: path, query and fragment. *)
Definition parse_tail (orig tail : string) : URL :=
  let (path, r) := take_until path_end tail in
  let (q, h) :=
    match r with
    | String c r' =>
        if is_code 63 c then let (q, h) := take_until (is_code 35) r' in (Some q, h)
        else (None, r)
    | EmptyString => (None, EmptyString)
    end in
  mkURL orig (if String.eqb path "" then "/" else path) q
    (urlencoded_parse (match q with Some x => x | None => "" end)) h.

(** [new URL(s)] for an [http] or [https] URL.  The path is taken byte for
    byte: the parser's rewriting of a path (percent-encoding of spaces and
    the like, removal of dot segments) is not modelled, so the result is
    exact for paths that need none. *)
Definition new_URL (s : string) : completion URL :=
  let (scheme, r0) := take_until (is_code 58) s in
  if negb (String.eqb scheme "https" || String.eqb scheme "http") then Throw invalid_url
  else if negb (starts_with "://" r0) then Throw invalid_url
  else
    let r1 := drop_first (drop_first (drop_first r0)) in
    let (authority, tail) := take_until authority_end r1 in
    if String.eqb authority "" then Throw invalid_url
    else Normal (parse_tail (scheme ++ "://" ++ authority) tail).

(** [new URL(path, base)] for a [path] that starts with a slash, as every
    path the handlers build does. *)
Definition new_URL_base (path base : string) : completion URL :=
  cbind (new_URL base) (fun b => Normal (parse_tail (origin b) path)).

(** [url.searchParams.append(k, v)]: the pair joins the list, and the
    query of the URL becomes the serialization of the list. *)
Definition searchParams_append (k v : string) (u : URL) : URL :=
  let ps := (searchParams u ++ [(k, v)])%list in
  mkURL (origin u) (pathname u) (Some (urlencoded_serialize ps)) ps (hash u).

(** [url.search] *)
Definition search (u : URL) : string :=
  match query u with
  | None => ""
  | Some q => if String.eqb q "" then "" else "?" ++ q
  end.

(** [url.toString()] *)
Definition href (u : URL) : string :=
  origin u ++ pathname u
  ++ match query u with None => "" | Some q => "?" ++ q end
  ++ hash u.

End Url.

(* ===================================================================== *)
(** * The network and the effects of a handler *)
(* ===================================================================== *)

Module Net.
Import JS.

(** One call of [fetch]: method, URL and request body.  Every call of the
    repository sends the one header [Content-Type: application/json]. *)
Record fetch_call := mkCall {
  fc_method : string;
  fc_url : string;
  fc_body : option string
}.

(** A response: its status and what reading its body gives, as text by
    [response.text()] and as JSON by [response.json()]. *)
Record response := mkResponse {
  resp_status : Z;
  resp_text : completion string;
  resp_json : completion value
}.

(** [response.ok] *)
Definition resp_ok (r : response) : bool :=
  (200 <=? resp_status r) && (resp_status r <=? 299).

Inductive settlement : Type :=
  | Responds (r : response)
  | Rejects (t : thrown).

(** What the upstream does with a call when left alone: the [fetch] promise
    settles after some milliseconds, or never. *)
Inductive behaviour : Type :=
  | Settles (at_ms : N) (s : settlement)
  | Never.

Definition world := fetch_call -> behaviour.

(** A handler reads the world, appends to the log of calls it issued, and
    completes.  The log survives an exception. *)
Definition M (A : Type) : Type :=
  world -> list fetch_call -> completion A * list fetch_call.

Definition ret {A} (a : A) : M A := fun _ log => (Normal a, log).

Definition bind {A B} (m : M A) (k : A -> M B) : M B :=
  fun w log =>
    match m w log with
    | (Normal a, log') => k a w log'
    | (Throw t, log') => (Throw t, log')
    | (Hang, log') => (Hang, log')
    end.

Definition throw {A} (t : thrown) : M A := fun _ log => (Throw t, log).

Definition throw_error {A} (e : js_error) : M A := throw (ThrowError e).

(** A computation without effects, such as a conversion that may throw, or
    the awaiting of a promise whose outcome is known. *)
Definition lift {A} (c : completion A) : M A := fun _ log => (c, log).

(** [try { body } catch (error) { handler }] *)
Definition try_catch {A} (body : M A) (handler : thrown -> M A) : M A :=
  fun w log =>
    match body w log with
    | (Throw t, log') => handler t w log'
    | r => r
    end.

(** Running a handler from an empty log. *)
Definition run {A} (m : M A) (w : world) : completion A * list fetch_call := m w [].

Definition settled (s : settlement) : completion response :=
  match s with
  | Responds r => Normal r
  | Rejects t => Throw t
  end.

(** [await fetch(url, init)] with no abort signal. *)
Definition fetch (c : fetch_call) : M response :=
  fun w log =>
    (match w c with
     | Settles _ s => settled s
     | Never => Hang
     end, (log ++ [c])%list).

(** The rejection of a [fetch] whose signal was aborted. *)
Definition abort_error : js_error := mkError "AbortError" "The operation was aborted.".

(** Whether the promise settles before a timer of [timeout] milliseconds,
    started with the call, fires. *)
Definition completes_within (timeout : N) (b : behaviour) : bool :=
  match b with
  | Settles t _ => (t <=? timeout)%N
  | Never => false
  end.

(** The delay of a timer: [setTimeout] keeps it as a signed 32-bit number
    of milliseconds, and a delay that does not fit is replaced by 1. *)
Definition MAX_DELAY : N := 2147483647.

Definition timer_delay (timeout : N) : N :=
  if (MAX_DELAY <? timeout)%N then 1%N else timeout.

(** [await fetch(url, { signal: controller.signal })] under
    [setTimeout(() => controller.abort(), timeout)]: when the timer fires
    first, the signal aborts the call and the promise rejects with the
    abort error. *)
Definition fetch_with_signal (timeout : N) (c : fetch_call) : M response :=
  fun w log =>
    (match w c with
     | Settles t s =>
         if completes_within (timer_delay timeout) (Settles t s) then settled s
         else Throw (ThrowError abort_error)
     | Never => Throw (ThrowError abort_error)
     end, (log ++ [c])%list).

End Net.

Declare Scope js_scope.
Delimit Scope js_scope with js.
Notation "x <- m ;; k" := (Net.bind m (fun x => k))
  (at level 100, m at next level, right associativity) : js_scope.

(* ===================================================================== *)
(** * The outbound clients *)
(* ===================================================================== *)

Module Client.
Import JS Url Net.
Local Open Scope js_scope.

(** ** [DFlowAPIClient], the client of the stdio server *)

Definition BASE_URL : string := "https://prediction-markets-api.dflow.net".
Definition DEFAULT_TIMEOUT : N := 30000.

Record DFlowAPIClient := mkClient { baseUrl : string; timeout : N }.

Fixpoint strip_final_slash (s : string) : string :=
  match s with
  | EmptyString => EmptyString
  | String c rest =>
      if String.eqb rest "" then (if is_code 47 c then EmptyString else s)
      else String c (strip_final_slash rest)
  end.

(** [new DFlowAPIClient(baseUrl = BASE_URL, timeout = DEFAULT_TIMEOUT)] *)
Definition new_DFlowAPIClient (base : option string) (tmo : option N) : DFlowAPIClient :=
  mkClient
    (strip_final_slash (match base with Some b => b | None => BASE_URL end))
    (match tmo with Some t => t | None => DEFAULT_TIMEOUT end).

(** [const apiClient = new DFlowAPIClient();] *)
Definition apiClient : DFlowAPIClient := new_DFlowAPIClient None None.

Definition makeUrl (c : DFlowAPIClient) (path : string) : string :=
  baseUrl c ++ (if starts_with "/" path then path else "/" ++ path).

(** [error instanceof Error && error.name === 'AbortError'] *)
Definition is_abort (t : thrown) : bool :=
  match t with
  | ThrowError e => String.eqb (err_name e) "AbortError"
  | ThrowPrim _ => false
  end.

Definition http_error (r : response) (text : string) : js_error :=
  Error ("HTTP " ++ string_of_Z (resp_status r) ++ ": " ++ text).

(** [request(method, path, options)], with the one option its callers
    pass, the body.  The timer is cleared as soon as the [fetch] promise
    settles, so the reading of the body is not bounded. *)
Definition request_try (c : DFlowAPIClient) (method path : string) (body : option string)
  : M value :=
  let url := makeUrl c path in
  response <- fetch_with_signal (timeout c) (mkCall method url body) ;;
  if negb (resp_ok response) then
    text <- lift (resp_text response) ;;
    throw_error (http_error response text)
  else lift (resp_json response).

Definition request_catch (error : thrown) : M value :=
  if is_abort error then throw_error (Error "Request timeout")
  else throw error.

Definition request (c : DFlowAPIClient) (method path : string) (body : option string)
  : M value :=
  try_catch (request_try c method path body) request_catch.

(** The loop of [get]: every entry with a value other than [undefined] and
    [null] is appended, converted by [String]. *)
Fixpoint append_defined (entries : obj) (url : URL) : completion URL :=
  match entries with
  | [] => Normal url
  | (key, value) :: rest =>
      if negb (is_nullish value) then
        cbind (ToString value) (fun s =>
          append_defined rest (searchParams_append key s url))
      else append_defined rest url
  end.

(** [get(path, params)]; [params] is [None] when the argument is left out. *)
Definition get (c : DFlowAPIClient) (path : string) (params : option obj) : M value :=
  url <- lift (new_URL (makeUrl c path)) ;;
  url <- lift (match params with
               | Some o => append_defined o url
               | None => Normal url
               end) ;;
  request c "GET" (pathname url ++ search url) None.

(** [post(path, data)] *)
Definition post (c : DFlowAPIClient) (path : string) (data : value) : M value :=
  request c "POST" path (if truthy data then JSON_stringify data else None).

(** ** [apiRequest], the client of the serverless variants *)

Definition SERVERLESS_BASE_URL : string := "https://api.llm.dflow.org".

(** The loop of [apiRequest]: every entry is appended. *)
Fixpoint append_all (entries : obj) (url : URL) : completion URL :=
  match entries with
  | [] => Normal url
  | (key, value) :: rest =>
      cbind (ToString value) (fun s =>
        append_all rest (searchParams_append key s url))
  end.

Definition apiRequest (method path : string) (params : value) : M value :=
  url <- lift (new_URL_base path SERVERLESS_BASE_URL) ;;
  url <- lift (if truthy params && String.eqb method "GET" then
                 cbind (Object_entries params) (fun entries => append_all entries url)
               else Normal url) ;;
  response <- fetch (mkCall method (href url)
                       (if String.eqb method "POST" && truthy params
                        then JSON_stringify params else None)) ;;
  if negb (resp_ok response) then
    text <- lift (resp_text response) ;;
    throw_error (http_error response text)
  else lift (resp_json response).

End Client.

(* ===================================================================== *)
(** * The stdio server: the tool-call handler *)
(* ===================================================================== *)

Module Stdio.
Import JS Url Net Client.
Local Open Scope js_scope.

(** [switch (name) { case ...: ...; default: ... }] over string labels. *)
Fixpoint switch {A} (name : string) (cases : list (string * A)) (default : A) : A :=
  match cases with
  | [] => default
  | (label, body) :: rest => if String.eqb name label then body else switch name rest default
  end.

(** A template literal with one or two substitutions. *)
Definition tpl1 (a : string) (x : value) (b : string) : M string :=
  lift (cbind (ToString x) (fun sx => Normal (a ++ sx ++ b))).

Definition tpl2 (a : string) (x : value) (b : string) (y : value) (c : string) : M string :=
  lift (cbind (ToString x) (fun sx =>
        cbind (ToString y) (fun sy => Normal (a ++ sx ++ b ++ sy ++ c)))).

(** [ErrorCode.MethodNotFound] *)
Definition MethodNotFound : Z := -32601.

Section Handler.

(** The SDK's error class: how [new McpError(code, message)] names itself
    and words its message is the SDK's business. *)
Variable McpError : Z -> string -> js_error.

(** The cases of the switch, in source order. *)
Definition tool_cases (toolArgs : obj) : list (string * M value) :=
  [ ("get_event",
       path <- tpl1 "/api/v1/event/" (prop toolArgs "event_id") "" ;;
       get apiClient path (Some [("withNestedMarkets", prop toolArgs "withNestedMarkets")]));
    ("get_events", get apiClient "/api/v1/events" (Some toolArgs));
    ("get_market",
       path <- tpl1 "/api/v1/market/" (prop toolArgs "market_id") "" ;;
       get apiClient path None);
    ("get_market_by_mint",
       path <- tpl1 "/api/v1/market/by-mint/" (prop toolArgs "mint_address") "" ;;
       get apiClient path None);
    ("get_markets", get apiClient "/api/v1/markets" (Some toolArgs));
    ("get_markets_batch", post apiClient "/api/v1/markets/batch" (VObj toolArgs));
    ("get_trades", get apiClient "/api/v1/trades" (Some toolArgs));
    ("get_trades_by_mint",
       let trade_mint := prop toolArgs "mint_address" in
       let trade_params := omit ["mint_address"] toolArgs in
       path <- tpl1 "/api/v1/trades/by-mint/" trade_mint "" ;;
       get apiClient path (Some trade_params));
    ("get_forecast_percentile_history",
       let series_ticker := prop toolArgs "series_ticker" in
       let event_id := prop toolArgs "event_id" in
       let forecast_params := omit ["series_ticker"; "event_id"] toolArgs in
       path <- tpl2 "/api/v1/event/" series_ticker "/" event_id
                    "/forecast_percentile_history" ;;
       get apiClient path (Some forecast_params));
    ("get_forecast_percentile_history_by_mint",
       let forecast_mint := prop toolArgs "mint_address" in
       let forecast_mint_params := omit ["mint_address"] toolArgs in
       path <- tpl1 "/api/v1/event/by-mint/" forecast_mint
                    "/forecast_percentile_history" ;;
       get apiClient path (Some forecast_mint_params));
    ("get_event_candlesticks",
       let event_ticker := prop toolArgs "ticker" in
       let event_candle_params := omit ["ticker"] toolArgs in
       path <- tpl1 "/api/v1/event/" event_ticker "/candlesticks" ;;
       get apiClient path (Some event_candle_params));
    ("get_market_candlesticks",
       let market_ticker := prop toolArgs "ticker" in
       let market_candle_params := omit ["ticker"] toolArgs in
       path <- tpl1 "/api/v1/market/" market_ticker "/candlesticks" ;;
       get apiClient path (Some market_candle_params));
    ("get_market_candlesticks_by_mint",
       let candle_mint := prop toolArgs "mint_address" in
       let candle_mint_params := omit ["mint_address"] toolArgs in
       path <- tpl1 "/api/v1/market/by-mint/" candle_mint "/candlesticks" ;;
       get apiClient path (Some candle_mint_params));
    ("get_live_data",
       get apiClient "/api/v1/live_data"
         (Some [("milestoneIds", prop toolArgs "milestoneIds")]));
    ("get_live_data_by_event",
       let live_event_ticker := prop toolArgs "event_ticker" in
       let live_event_params := omit ["event_ticker"] toolArgs in
       path <- tpl1 "/api/v1/live_data/by-event/" live_event_ticker "" ;;
       get apiClient path (Some live_event_params));
    ("get_live_data_by_mint",
       let live_mint := prop toolArgs "mint_address" in
       let live_mint_params := omit ["mint_address"] toolArgs in
       path <- tpl1 "/api/v1/live_data/by-mint/" live_mint "" ;;
       get apiClient path (Some live_mint_params));
    ("get_series", get apiClient "/api/v1/series" (Some toolArgs));
    ("get_series_by_ticker",
       path <- tpl1 "/api/v1/series/" (prop toolArgs "series_ticker") "" ;;
       get apiClient path None);
    ("get_outcome_mints", get apiClient "/api/v1/outcome_mints" (Some toolArgs));
    ("filter_outcome_mints", post apiClient "/api/v1/filter_outcome_mints" (VObj toolArgs));
    ("get_tags_by_categories", get apiClient "/api/v1/tags_by_categories" None);
    ("get_filters_by_sports", get apiClient "/api/v1/filters_by_sports" None);
    ("search_events", get apiClient "/api/v1/search" (Some toolArgs)) ].

(** The names the switch knows. *)
Definition tool_names : list string := map fst (tool_cases []).

(** The body of the [try] up to the assignment of [result]. *)
Definition dispatch (name : string) (toolArgs : obj) : M value :=
  switch name (tool_cases toolArgs)
    (throw_error (McpError MethodNotFound ("Unknown tool: " ++ name))).

Definition success_result (result : value) : value :=
  VObj [("content", VArr [text_block (str_or_undefined (JSON_stringify_pretty result))])].

Definition error_result (name : string) (error : thrown) : value :=
  VObj [("content",
         VArr [text_block (VStr ("Error calling " ++ name ++ ": " ++ error_message_of error))]);
        ("isError", VBool true)].

(** The handler registered for [CallToolRequestSchema].  The SDK has
    checked the request against the schema: [name] is a string and
    [arguments] is an object or absent. *)
Definition call_tool (name : string) (args : option obj) : M value :=
  let toolArgs := match args with Some o => o | None => [] end in
  try_catch
    (result <- dispatch name toolArgs ;;
     ret (success_result result))
    (fun error => ret (error_result name error)).

End Handler.

End Stdio.

(* ===================================================================== *)
(** * The HTTP transports: what they share *)
(* ===================================================================== *)

Module Http.
Import JS Url Net Client.
Local Open Scope js_scope.

(** The inbound body as [JSON.parse] (or [req.json()]) finds it. *)
Inductive inbound : Type :=
  | Malformed (message : string)
  | Parsed (v : value).

Definition JSON_parse (b : inbound) : completion value :=
  match b with
  | Malformed m => Throw (ThrowError (mkError "SyntaxError" m))
  | Parsed v => Normal v
  end.

(** The body of a response: none, a text, or [JSON.stringify] of a value. *)
Inductive payload : Type :=
  | NoBody
  | Text (s : string)
  | Json (v : value).

(** A response: status and body.  The headers (content type and CORS) are
    constants of each variant and are left out. *)
Record Response := mkResp { statusCode : Z; body : payload }.

Definition json_response (status : Z) (v : value) : Response := mkResp status (Json v).

(** The event a serverless function receives. *)
Record Event := mkEvent {
  httpMethod : string;
  requestContext : value;
  event_body : inbound
}.

(** The request a Deno or Bun server receives, its URL already parsed. *)
Record Request := mkRequest {
  req_method : string;
  req_origin : string;
  req_pathname : string;
  req_body : inbound
}.

Definition jsonrpc_result (id result : value) : value :=
  VObj [("jsonrpc", VStr "2.0"); ("id", id); ("result", result)].

Definition jsonrpc_error (id error : value) : value :=
  VObj [("jsonrpc", VStr "2.0"); ("id", id); ("error", error)].

Definition tool_content (result : value) : value :=
  VObj [("content", VArr [text_block (str_or_undefined (JSON_stringify_pretty result))])].

(** [switch (name)] over string labels, [name] being any value. *)
Fixpoint switch_value {A} (v : value) (cases : list (string * A)) (default : A) : A :=
  match cases with
  | [] => default
  | (label, body) :: rest => if is_str v label then body else switch_value v rest default
  end.

(** [throw new Error(`Unknown tool: ${name}`)] *)
Definition unknown_tool (name : value) : M value :=
  shown <- lift (ToString name) ;;
  throw_error (Error ("Unknown tool: " ++ shown)).

(** A path with a substituted last segment. *)
Definition path_with (a : string) (x : value) : M string :=
  lift (cbind (ToString x) (fun sx => Normal (a ++ sx))).

(** The two cases the five-tool variants add to the three list tools.
    [toolArgs] is truthy there, so reading its properties cannot throw. *)
Definition market_by_mint_case (toolArgs : value) : M value :=
  path <- path_with "/api/v1/markets/by-mint/" (dot toolArgs "mint") ;;
  apiRequest "GET" path VUndefined.

Definition live_data_path (toolArgs : value) : M string :=
  if truthy (dot toolArgs "event_ticker") then
    path_with "/api/v1/events/live-data/" (dot toolArgs "event_ticker")
  else if truthy (dot toolArgs "market_ticker") then
    path_with "/api/v1/markets/live-data/" (dot toolArgs "market_ticker")
  else ret "/api/v1/live-data".

Definition five_tool_cases (toolArgs : value) : list (string * M value) :=
  [ ("get_events", apiRequest "GET" "/api/v1/events" toolArgs);
    ("get_markets", apiRequest "GET" "/api/v1/markets" toolArgs);
    ("get_trades", apiRequest "GET" "/api/v1/trades" toolArgs);
    ("get_market_by_mint", market_by_mint_case toolArgs);
    ("get_live_data", path <- live_data_path toolArgs ;; apiRequest "GET" path VUndefined) ].

(** [const { name, arguments: args } = v;] *)
Definition destructure_call (v : value) : completion (value * value) :=
  cbind (get_prop v "name") (fun name => Normal (name, dot v "arguments")).

Definition models_result : value :=
  VObj [("models",
         VArr [VObj [("id", VStr "dflow-prediction-markets");
                     ("name", VStr "DFlow Prediction Markets");
                     ("description",
                      VStr "Access prediction market events, markets, trades, and live data");
                     ("provider", VStr "dflow-mcp-server");
                     ("capabilities", VArr [VStr "tools"; VStr "text-generation"])]])].

(** [SERVER_INFO] of the variants that have one. *)
Definition server_info (extra_capabilities : obj) (description : string) : value :=
  VObj [("protocolVersion", VStr "2025-06-18");
        ("capabilities",
         VObj ([("tools", VObj [("listChanged", VBool false)]);
                ("prompts", VObj []);
                ("resources", VObj [])] ++ extra_capabilities)%list);
        ("serverInfo",
         VObj [("name", VStr "dflow-mcp-server");
               ("version", VStr "1.0.0");
               ("description", VStr description)])].

Definition SERVER_INFO : value :=
  server_info [] "Prediction Market Metadata API server for DFlow platform".

(** [TOOLS.map(tool => ({ name, description, inputSchema }))] *)
Definition tool_summaries (TOOLS : list obj) : value :=
  VArr (map (fun tool => VObj [("name", prop tool "name");
                               ("description", prop tool "description");
                               ("inputSchema", prop tool "inputSchema")]) TOOLS).

Definition tools_value (TOOLS : list obj) : value := VArr (map VObj TOOLS).

(** What a client reads in a JSON body under a key: [undefined] when the
    body is no JSON object or has no such key. *)
Definition body_field (r : Response) (k : string) : value :=
  match body r with
  | Json v => dot v k
  | _ => VUndefined
  end.

End Http.

(* ===================================================================== *)
(** * The Deno server *)
(* ===================================================================== *)

Module Deno.
Import JS Url Net Client Http.
Local Open Scope js_scope.

Section Server.

Variable TOOLS : list obj.
(** The static page, a template over [url.origin]. *)
Variable index_html : string -> string.

Definition tool_cases (toolArgs : value) : list (string * M value) :=
  [ ("get_events", apiRequest "GET" "/api/v1/events" toolArgs);
    ("get_markets", apiRequest "GET" "/api/v1/markets" toolArgs) ].

Definition handler (req : Request) : M Response :=
  if String.eqb (req_method req) "POST" then
    try_catch
      (body <- lift (JSON_parse (req_body req)) ;;
       method <- lift (get_prop body "method") ;;
       if is_str method "tools.list" || is_str method "tools/list" then
         ret (json_response 200
                (jsonrpc_result (dot body "id") (VObj [("tools", tools_value TOOLS)])))
       else if is_str method "tools.call" || is_str method "tools/call" then
         call <- lift (destructure_call (dot body "params")) ;;
         let (name, args) := call : value * value in
         let toolArgs := or_else args (VObj []) in
         try_catch
           (result <- switch_value name (tool_cases toolArgs) (unknown_tool name) ;;
            ret (json_response 200 (jsonrpc_result (dot body "id") (tool_content result))))
           (fun error =>
              ret (json_response 200
                     (jsonrpc_error (dot body "id")
                        (VObj [("code", VNum (-32603));
                               ("message", VStr (error_message_of error))]))))
       else
         ret (json_response 200
                (jsonrpc_error (dot body "id")
                   (VObj [("code", VNum (-32601)); ("message", VStr "Method not found")]))))
      (fun _ =>
         ret (json_response 400
                (jsonrpc_error VNull
                   (VObj [("code", VNum (-32700)); ("message", VStr "Parse error")]))))
  else if String.eqb (req_method req) "GET" && String.eqb (req_pathname req) "/" then
    ret (mkResp 200 (Text (index_html (req_origin req))))
  else if String.eqb (req_pathname req) "/health" then
    ret (json_response 200
           (VObj [("status", VStr "ok"); ("service", VStr "dflow-mcp");
                  ("version", VStr "1.0.0");
                  ("tools", VNum (Z.of_nat (length TOOLS)))]))
  else ret (mkResp 404 (Text "Not Found")).

End Server.
End Deno.

(* ===================================================================== *)
(** * The serverless function [api-mcp] *)
(* ===================================================================== *)

Module ApiMcp.
Import JS Url Net Client Http.
Local Open Scope js_scope.

Section Function.

Variable TOOLS : list obj.

Definition tool_cases (toolArgs : value) : list (string * M value) :=
  [ ("get_events", apiRequest "GET" "/api/v1/events" toolArgs);
    ("get_markets", apiRequest "GET" "/api/v1/markets" toolArgs);
    ("get_trades", apiRequest "GET" "/api/v1/trades" toolArgs) ].

Definition handler (event : Event) : M Response :=
  if negb (String.eqb (httpMethod event) "POST") then
    ret (json_response 405 (VObj [("error", VStr "Method not allowed")]))
  else
    try_catch
      (request <- lift (JSON_parse (event_body event)) ;;
       method <- lift (get_prop request "method") ;;
       if is_str method "tools.list" || is_str method "tools/list" then
         ret (json_response 200
                (jsonrpc_result (dot request "id") (VObj [("tools", tools_value TOOLS)])))
       else if is_str method "tools.call" || is_str method "tools/call" then
         call <- lift (destructure_call (dot request "params")) ;;
         let (name, args) := call : value * value in
         let toolArgs := or_else args (VObj []) in
         try_catch
           (result <- switch_value name (tool_cases toolArgs) (unknown_tool name) ;;
            ret (json_response 200 (jsonrpc_result (dot request "id") (tool_content result))))
           (fun error =>
              message <- lift (message_prop error) ;;
              ret (json_response 200
                     (jsonrpc_error (dot request "id")
                        (VObj [("code", VNum (-32603)); ("message", message)]))))
       else
         ret (json_response 200
                (jsonrpc_error (dot request "id")
                   (VObj [("code", VNum (-32601)); ("message", VStr "Method not found")]))))
      (fun _ =>
         ret (json_response 400
                (jsonrpc_error VNull
                   (VObj [("code", VNum (-32700)); ("message", VStr "Parse error")])))).

End Function.
End ApiMcp.

(* ===================================================================== *)
(** * The serverless function [mcp] *)
(* ===================================================================== *)

Module McpIndex.
Import JS Url Net Client Http.
Local Open Scope js_scope.

(** [a === b] for the values compared here: a catalog name against a
    requested name.  Two objects are never the same object. *)
Definition strict_eq (a b : value) : bool :=
  match a, b with
  | VUndefined, VUndefined => true
  | VNull, VNull => true
  | VBool x, VBool y => Bool.eqb x y
  | VNum x, VNum y => x =? y
  | VStr x, VStr y => String.eqb x y
  | _, _ => false
  end.

Definition available_methods : list string :=
  ["getModels"; "connectMCPServer"; "initialize"; "tools/list"; "tools/call";
   "tools/describe"; "server/info"].

Section Function.

Variable TOOLS : list obj.

Definition ok (v : value) : Response := json_response 200 v.

Definition connect_result : value :=
  VObj [("name", dot (dot SERVER_INFO "serverInfo") "name");
        ("version", dot (dot SERVER_INFO "serverInfo") "version");
        ("description", dot (dot SERVER_INFO "serverInfo") "description");
        ("capabilities", dot SERVER_INFO "capabilities");
        ("tools", tool_summaries TOOLS);
        ("connected", VBool true);
        ("server_url", VStr "https://dflow.opensvm.com/api/mcp")].

(** The [tools/call] branch. *)
Definition tools_call (request : value) : M Response :=
  call <- lift (destructure_call (dot request "params")) ;;
  let (name, args) := call : value * value in
  let toolArgs := or_else args (VObj []) in
  try_catch
    (result <- switch_value name (five_tool_cases toolArgs) (unknown_tool name) ;;
     ret (ok (jsonrpc_result (dot request "id") (tool_content result))))
    (fun error =>
       message <- lift (message_prop error) ;;
       ret (ok (jsonrpc_error (dot request "id")
                  (VObj [("code", VNum (-32603));
                         ("message", message);
                         ("data", VObj [("tool", name); ("arguments", toolArgs)])])))).

(** The [tools/describe] branch. *)
Definition tools_describe (request : value) : M Response :=
  toolName <- lift (get_prop (dot request "params") "name") ;;
  match find (fun t => strict_eq (prop t "name") toolName) TOOLS with
  | None =>
      shown <- lift (ToString toolName) ;;
      ret (ok (jsonrpc_error (dot request "id")
                 (VObj [("code", VNum (-32602));
                        ("message", VStr ("Tool not found: " ++ shown))])))
  | Some tool => ret (ok (jsonrpc_result (dot request "id") (VObj tool)))
  end.

Definition method_not_found (request : value) : Response :=
  ok (jsonrpc_error (dot request "id")
        (VObj [("code", VNum (-32601));
               ("message", VStr "Method not found");
               ("data", VObj [("available_methods", VArr (map VStr available_methods))])])).

(** The body of the outer [try], after the parse. *)
Definition route (request : value) : M Response :=
  method <- lift (get_prop request "method") ;;
  if is_str method "getModels" then
    ret (ok (jsonrpc_result (dot request "id") models_result))
  else if is_str method "connectMCPServer" then
    ret (ok (jsonrpc_result (dot request "id") connect_result))
  else if is_str method "initialize" then
    ret (ok (jsonrpc_result (dot request "id") SERVER_INFO))
  else if is_str method "tools/list" then
    ret (ok (jsonrpc_result (dot request "id") (VObj [("tools", tools_value TOOLS)])))
  else if is_str method "tools/call" then tools_call request
  else if is_str method "tools/describe" then tools_describe request
  else if is_str method "server/info" then
    ret (ok (jsonrpc_result (dot request "id") SERVER_INFO))
  else ret (method_not_found request).

Definition catch_all (data : value) : Response :=
  ok (jsonrpc_error VNull
        (VObj [("code", VNum (-32700));
               ("message", VStr "Parse error or internal error");
               ("data", data)])).

Definition handler (event : Event) : M Response :=
  if String.eqb (httpMethod event) "OPTIONS" then ret (mkResp 200 NoBody)
  else if negb (String.eqb (httpMethod event) "POST") then
    ret (json_response 405
           (jsonrpc_error VNull
              (VObj [("code", VNum (-32600)); ("message", VStr "Method not allowed")])))
  else
    try_catch
      (request <- lift (JSON_parse (event_body event)) ;;
       route request)
      (fun error =>
         data <- lift (message_prop error) ;;
         ret (catch_all data)).

End Function.
End McpIndex.

(* ===================================================================== *)
(** * The serverless function in the Claude Desktop dialect *)
(* ===================================================================== *)

Module ClaudeDesktop.
Import JS Url Net Client Http.
Local Open Scope js_scope.

(** [Object.keys(claudeDesktopHandlers)] *)
Definition handler_names : list string :=
  ["connectMCPServer"; "getModels"; "tools/list"; "tools/call"; "initialize"; "health"].

(** [const [a, b] = request.args;] on an array. *)
Definition destructure_pair (v : value) : value * value :=
  match v with
  | VArr (a :: b :: _) => (a, b)
  | VArr [a] => (a, VUndefined)
  | _ => (VUndefined, VUndefined)
  end.

(** A template literal written to the log: only its conversion can matter. *)
Definition log_value (v : value) : M unit :=
  _ <- lift (ToString v) ;; ret tt.

Section Function.

Variable TOOLS : list obj.
(** [new Date().toISOString()] *)
Variable now : string.

Definition connectMCPServer (request : value) : M value :=
  let (serverUrl, nullParam) := destructure_pair (dot request "args") in
  _ <- log_value serverUrl ;;
  _ <- log_value (dot request "id") ;;
  ret (VObj [("success", VBool true);
             ("connected", VBool true);
             ("name", dot (dot SERVER_INFO "serverInfo") "name");
             ("version", dot (dot SERVER_INFO "serverInfo") "version");
             ("description", dot (dot SERVER_INFO "serverInfo") "description");
             ("capabilities", dot SERVER_INFO "capabilities");
             ("tools", tool_summaries TOOLS);
             ("server_url", or_else serverUrl (VStr "https://dflow.opensvm.com/api/mcp"));
             ("status", VStr "connected");
             ("timestamp", VStr now);
             ("transport", VStr "claude_desktop_rpc");
             ("prompts", VArr []);
             ("resources", VArr []);
             ("protocolVersion", dot SERVER_INFO "protocolVersion")]).

Definition getModels (request : value) : M value :=
  ret (VObj (("success", VBool true) ::
             match models_result with VObj o => o | _ => [] end)).

Definition tools_list (request : value) : M value :=
  ret (VObj [("success", VBool true); ("tools", tools_value TOOLS)]).

Definition tools_call (request : value) : M value :=
  let (toolName, args) := destructure_pair (dot request "args") in
  let toolArgs := or_else args (VObj []) in
  _ <- log_value toolName ;;
  try_catch
    (result <- switch_value toolName (five_tool_cases toolArgs) (unknown_tool toolName) ;;
     ret (VObj [("success", VBool true); ("result", tool_content result)]))
    (fun error =>
       message <- lift (message_prop error) ;;
       ret (VObj [("success", VBool false);
                  ("error", message);
                  ("data", VObj [("tool", toolName); ("arguments", toolArgs)])])).

Definition initialize (request : value) : M value :=
  ret (VObj (("success", VBool true) ::
             match SERVER_INFO with VObj o => o | _ => [] end)).

Definition health (request : value) : M value :=
  ret (VObj [("success", VBool true);
             ("status", VStr "healthy");
             ("timestamp", VStr now);
             ("version", dot (dot SERVER_INFO "serverInfo") "version");
             ("methods", VArr (map VStr handler_names));
             ("transport", VStr "claude_desktop_rpc");
             ("tools_available", VNum (Z.of_nat (length TOOLS)))]).

(** The table of handlers: its own entries. *)
Definition claudeDesktopHandlers : list (string * (value -> M value)) :=
  [ ("connectMCPServer", connectMCPServer);
    ("getModels", getModels);
    ("tools/list", tools_list);
    ("tools/call", tools_call);
    ("initialize", initialize);
    ("health", health) ].

(** The own entry of a table under a key. *)
Fixpoint handler_for (key : string) (table : list (string * (value -> M value)))
  : option (value -> M value) :=
  match table with
  | [] => None
  | (k, h) :: rest => if String.eqb key k then Some h else handler_for key rest
  end.

(** The names the table answers to besides its own: those of
    [Object.prototype], which it inherits. *)
Definition inherited_names : list string :=
  [ "constructor"; "__defineGetter__"; "__defineSetter__"; "hasOwnProperty";
    "__lookupGetter__"; "__lookupSetter__"; "isPrototypeOf"; "propertyIsEnumerable";
    "toString"; "valueOf"; "__proto__"; "toLocaleString" ].

(** [claudeDesktopHandlers[name](request)] for an inherited name: the
    member of [Object.prototype] is called on the table with the request,
    an object, as its one argument.
    - [constructor] is [Object], which returns the object it is given;
    - [toString] and [toLocaleString] print the table, [valueOf] returns
      it, and its entries, functions all, are left out of the JSON text;
    - [hasOwnProperty] and [propertyIsEnumerable] convert the request to a
      key, which the table does not have; [isPrototypeOf] finds the table
      in no prototype chain;
    - [__lookupGetter__] and [__lookupSetter__] convert the request to a
      key and find no accessor; [__defineGetter__] and [__defineSetter__]
      refuse the missing second argument;
    - [__proto__] is [Object.prototype] itself, no function. *)
Definition inherited_member (name : string) (request : value) : M value :=
  if String.eqb name "constructor" then ret request
  else if String.eqb name "toString" || String.eqb name "toLocaleString" then
    ret (VStr "[object Object]")
  else if String.eqb name "valueOf" then ret (VObj [])
  else if String.eqb name "hasOwnProperty" || String.eqb name "propertyIsEnumerable" then
    _ <- lift (ToString request) ;; ret (VBool false)
  else if String.eqb name "isPrototypeOf" then ret (VBool false)
  else if String.eqb name "__lookupGetter__" || String.eqb name "__lookupSetter__" then
    _ <- lift (ToString request) ;; ret VUndefined
  else if String.eqb name "__defineGetter__" then
    throw_error (TypeError "Object.prototype.__defineGetter__: Expecting function")
  else if String.eqb name "__defineSetter__" then
    throw_error (TypeError "Object.prototype.__defineSetter__: Expecting function")
  else throw_error (TypeError "claudeDesktopHandlers[methodName] is not a function").

(** [claudeDesktopHandlers[key]]: the own entry under the key, or the
    member inherited under it. *)
Definition member_for (key : string) : option (value -> M value) :=
  match handler_for key claudeDesktopHandlers with
  | Some h => Some h
  | None =>
      if existsb (String.eqb key) inherited_names then Some (inherited_member key)
      else None
  end.

Definition method_not_found (request : value) : Response :=
  json_response 200
    (VObj [("success", VBool false);
           ("error", VStr "Method not found");
           ("data",
            VObj [("available_methods", VArr (map VStr handler_names));
                  ("request_detected",
                   VStr (if truthy (dot request "args") then "claude_desktop" else "unknown"));
                  ("formats_supported", VArr [VStr "claude_desktop_rpc"]);
                  ("claude_desktop_example",
                   VObj [("args", VArr [VStr "https://dflow.opensvm.com/api/mcp"; VNull]);
                         ("id", VStr "request_id");
                         ("method", VStr "connectMCPServer");
                         ("type", VStr "rpc")])])]).

(** The body of the outer [try], after the parse. *)
Definition route (request : value) : M Response :=
  args <- lift (get_prop request "args") ;;
  if truthy args && Array_isArray args && truthy (dot request "method")
     && is_str (dot request "type") "rpc" then
    key <- lift (ToString (dot request "method")) ;;
    match member_for key with
    | Some h =>
        response <- h request ;;
        ret (json_response 200 response)
    | None => ret (method_not_found request)
    end
  else ret (method_not_found request).

Definition handler (event : Event) : M Response :=
  path <- lift (get_prop (requestContext event) "path") ;;
  let requestPath := or_else path (VStr "") in
  _ <- log_value requestPath ;;
  if String.eqb (httpMethod event) "OPTIONS" then ret (mkResp 200 NoBody)
  else if negb (String.eqb (httpMethod event) "POST") then
    ret (json_response 405
           (VObj [("success", VBool false); ("error", VStr "Method not allowed")]))
  else
    try_catch
      (match event_body event with
       | Malformed _ =>
           ret (json_response 400
                  (VObj [("success", VBool false); ("error", VStr "Invalid JSON format")]))
       | Parsed request => route request
       end)
      (fun error =>
         data <- lift (message_prop error) ;;
         ret (json_response 500
                (VObj [("success", VBool false);
                       ("error", VStr "Internal error");
                       ("data", data)]))).

End Function.
End ClaudeDesktop.

(* ===================================================================== *)
(** * The serverless function [mcp-api] *)
(* ===================================================================== *)

Module McpApi.
Import JS Url Net Client Http.
Local Open Scope js_scope.

Definition available_methods : list string := ["initialize"; "tools/list"; "tools/call"].

Section Function.

Variable TOOLS : list obj.

(** The cases of this variant read the arguments as they come: there is no
    default for a call without arguments, and reading a property of them
    can throw. *)
Definition tool_cases (args : value) : list (string * M value) :=
  [ ("get_events", apiRequest "GET" "/api/v1/events" args);
    ("get_markets", apiRequest "GET" "/api/v1/markets" args);
    ("get_trades", apiRequest "GET" "/api/v1/trades" args);
    ("get_market_by_mint",
       mint <- lift (get_prop args "mint") ;;
       path <- path_with "/api/v1/markets/by-mint/" mint ;;
       apiRequest "GET" path VUndefined);
    ("get_live_data",
       event_ticker <- lift (get_prop args "event_ticker") ;;
       path <- live_data_path args ;;
       apiRequest "GET" path args) ].

Definition tools_call (request : value) : M value :=
  call <- lift (destructure_call (dot request "params")) ;;
  let (name, args) := call : value * value in
  try_catch
    (result <- switch_value name (tool_cases args) (unknown_tool name) ;;
     ret (jsonrpc_result (dot request "id") (tool_content result)))
    (fun error =>
       message <- lift (message_prop error) ;;
       ret (jsonrpc_error (dot request "id")
              (VObj [("code", VNum (-32603));
                     ("message", message);
                     ("data", VObj [("tool", name); ("arguments", args)])]))).

Definition method_not_found (request : value) : value :=
  jsonrpc_error (dot request "id")
    (VObj [("code", VNum (-32601));
           ("message", VStr "Method not found");
           ("data", VObj [("available_methods", VArr (map VStr available_methods))])]).

Definition invalid_request (request : value) : value :=
  jsonrpc_error (dot request "id")
    (VObj [("code", VNum (-32600)); ("message", VStr "Invalid request format")]).

(** The body of the [try], after the parse. *)
Definition route (request : value) : M Response :=
  jsonrpc <- lift (get_prop request "jsonrpc") ;;
  let method := dot request "method" in
  response <-
    (if is_str jsonrpc "2.0" && truthy method then
       if is_str method "initialize" then
         ret (jsonrpc_result (dot request "id") SERVER_INFO)
       else if is_str method "tools/list" then
         ret (jsonrpc_result (dot request "id") (VObj [("tools", tools_value TOOLS)]))
       else if is_str method "tools/call" then tools_call request
       else ret (method_not_found request)
     else ret (invalid_request request)) ;;
  ret (json_response 200 response).

Definition handler (event : Event) : M Response :=
  path <- lift (get_prop (requestContext event) "path") ;;
  let requestPath := or_else path (VStr "") in
  _ <- ClaudeDesktop.log_value requestPath ;;
  if String.eqb (httpMethod event) "OPTIONS" then ret (mkResp 200 NoBody)
  else if negb (String.eqb (httpMethod event) "POST") then
    ret (json_response 405
           (jsonrpc_error VNull
              (VObj [("code", VNum (-32600)); ("message", VStr "Method not allowed")])))
  else
    try_catch
      (request <- lift (JSON_parse (event_body event)) ;;
       route request)
      (fun error =>
         data <- lift (message_prop error) ;;
         ret (json_response 500
                (jsonrpc_error VNull
                   (VObj [("code", VNum (-32603));
                          ("message", VStr "Internal error");
                          ("data", data)])))).

End Function.
End McpApi.

(* ===================================================================== *)
(** * The serverless function [mcp-v2-bootstrap] *)
(* ===================================================================== *)

Module V2Bootstrap.
Import JS Url Net Client Http.
Local Open Scope js_scope.

Definition available_endpoints : value :=
  VArr [VStr "/mcp/v2/bootstrap"; VStr "/mcp/v2/connect";
        VStr "/mcp/v2/tools/list"; VStr "/mcp/v2/tools/call"].

(** [requestPath.startsWith(p)]; a path that is no string has no such
    method. *)
Definition startsWith (requestPath : value) (p : string) : completion bool :=
  match requestPath with
  | VStr s => Normal (starts_with p s)
  | _ => Throw (ThrowError (TypeError "requestPath.startsWith is not a function"))
  end.

Section Function.

Variable TOOLS : list obj.
Variable now : string.

Definition handleBootstrap (request : value) : M value :=
  id <- lift (get_prop request "id") ;;
  ret (jsonrpc_result (or_else id (VStr "bootstrap-response"))
         (VObj [("name", dot (dot SERVER_INFO "serverInfo") "name");
                ("version", dot (dot SERVER_INFO "serverInfo") "version");
                ("description", dot (dot SERVER_INFO "serverInfo") "description");
                ("protocolVersion", dot SERVER_INFO "protocolVersion");
                ("capabilities", dot SERVER_INFO "capabilities");
                ("serverInfo", dot SERVER_INFO "serverInfo");
                ("tools", tool_summaries TOOLS);
                ("prompts", VArr []);
                ("resources", VArr []);
                ("connected", VBool true);
                ("server_url", VStr "https://dflow.opensvm.com/mcp/v2");
                ("status", VStr "connected");
                ("timestamp", VStr now);
                ("transport", VStr "http_post");
                ("implementation", VStr "netlify-functions-mcp-v2");
                ("endpoints",
                 VObj [("bootstrap", VStr "/mcp/v2/bootstrap");
                       ("connect", VStr "/mcp/v2/connect");
                       ("tools_list", VStr "/mcp/v2/tools/list");
                       ("tools_call", VStr "/mcp/v2/tools/call")])])).

Definition parse_error (message : string) : Response :=
  json_response 400
    (jsonrpc_error VNull
       (VObj [("code", VNum (-32700));
              ("message", VStr "Parse error");
              ("data", VStr message)])).

Definition supported (request requestPath : value) : value :=
  jsonrpc_result (dot request "id")
    (VObj [("status", VStr "mcp_v2_supported");
           ("method", dot request "method");
           ("path", requestPath);
           ("available_endpoints", available_endpoints);
           ("tools", tools_value TOOLS)]).

Definition method_not_found (request requestPath : value) : value :=
  jsonrpc_error (dot request "id")
    (VObj [("code", VNum (-32601));
           ("message", VStr "Method not found");
           ("data",
            VObj [("request_path", requestPath);
                  ("available_endpoints", available_endpoints);
                  ("formats_supported", VArr [VStr "mcp_v2"]);
                  ("protocol_version", VStr "2025-06-18")])]).

(** The body of the outer [try], after the parse. *)
Definition route (requestPath request : value) : M Response :=
  if is_str requestPath "/mcp/v2/bootstrap" then
    response <- handleBootstrap request ;;
    ret (json_response 200 response)
  else
    method <- lift (get_prop request "method") ;;
    under_v2 <- lift (if truthy method then startsWith requestPath "/mcp/v2/"
                      else Normal false) ;;
    if under_v2 then
      _ <- ClaudeDesktop.log_value method ;;
      _ <- ClaudeDesktop.log_value requestPath ;;
      ret (json_response 200 (supported request requestPath))
    else ret (json_response 200 (method_not_found request requestPath)).

Definition handler (event : Event) : M Response :=
  path <- lift (get_prop (requestContext event) "path") ;;
  let requestPath := or_else path (VStr "") in
  _ <- ClaudeDesktop.log_value requestPath ;;
  if String.eqb (httpMethod event) "OPTIONS" then ret (mkResp 200 NoBody)
  else if negb (String.eqb (httpMethod event) "POST") then
    ret (json_response 405
           (jsonrpc_error VNull
              (VObj [("code", VNum (-32600)); ("message", VStr "Method not allowed")])))
  else
    try_catch
      (match event_body event with
       | Malformed message => ret (parse_error message)
       | Parsed request => route requestPath request
       end)
      (fun error =>
         data <- lift (message_prop error) ;;
         ret (json_response 500
                (jsonrpc_error VNull
                   (VObj [("code", VNum (-32603));
                          ("message", VStr "Internal error");
                          ("data", data)])))).

End Function.
End V2Bootstrap.

(* ===================================================================== *)
(** * The serverless function [mcp-v2-sse] *)
(* ===================================================================== *)

Module V2Sse.
Import JS Url Net Client Http.
Local Open Scope js_scope.

Definition SERVER_INFO : value :=
  server_info [("sse", VBool true)]
    "Prediction Market Metadata API server for DFlow platform with SSE support".

(** The text a template prints for [JSON.stringify(data)]. *)
Definition stringified (data : value) : string :=
  match JSON_stringify data with
  | Some s => s
  | None => "undefined"
  end.

Definition formatSSEEvent (type : string) (data : value) (id : string) : string :=
  (if String.eqb id "" then "" else "id: " ++ id ++ newline)
  ++ (if String.eqb type "" then "" else "event: " ++ type ++ newline)
  ++ "data: " ++ stringified data ++ newline ++ newline.

Definition sse_headers : value :=
  VObj [("Access-Control-Allow-Origin", VStr "*");
        ("Access-Control-Allow-Methods", VStr "GET, POST, OPTIONS");
        ("Access-Control-Allow-Headers",
         VStr "Content-Type, Authorization, x-api-key, Last-Event-ID");
        ("Content-Type", VStr "text/event-stream");
        ("Cache-Control", VStr "no-cache");
        ("Connection", VStr "keep-alive");
        ("X-Accel-Buffering", VStr "no")].

Definition sse_body (events : list (string * value)) (requestId : string) : string :=
  String.concat "" (map (fun event => formatSSEEvent (fst event) (snd event) requestId) events).

(** [createSSEResponse(events, requestId)], the object it returns. *)
Definition createSSEResponse (events : list (string * value)) (requestId : string) : value :=
  VObj [("statusCode", VNum 200);
        ("headers", sse_headers);
        ("body", VStr (sse_body events requestId))].

Definition available_methods : list string := ["bootstrap"; "tools/list"; "tools/call"].

Section Function.

Variable TOOLS : list obj.
(** [new Date().toISOString()] and [Date.now()] *)
Variable now : string.
Variable now_ms : Z.

Definition handleBootstrap (request : value) : M value :=
  id <- lift (get_prop request "id") ;;
  ret (jsonrpc_result (or_else id (VStr "bootstrap-response"))
         (VObj [("name", dot (dot SERVER_INFO "serverInfo") "name");
                ("version", dot (dot SERVER_INFO "serverInfo") "version");
                ("description", dot (dot SERVER_INFO "serverInfo") "description");
                ("protocolVersion", dot SERVER_INFO "protocolVersion");
                ("capabilities", dot SERVER_INFO "capabilities");
                ("serverInfo", dot SERVER_INFO "serverInfo");
                ("tools", tool_summaries TOOLS);
                ("prompts", VArr []);
                ("resources", VArr []);
                ("connected", VBool true);
                ("server_url", VStr "https://dflow.opensvm.com/mcp/v2");
                ("status", VStr "connected");
                ("timestamp", VStr now);
                ("transport", VStr "http_post_with_sse");
                ("implementation", VStr "netlify-functions-mcp-v2-sse");
                ("sse",
                 VObj [("supported", VBool true);
                       ("endpoint", VStr "/mcp/v2/events");
                       ("keep_alive", VBool true);
                       ("retry_time", VNum 3000)]);
                ("endpoints",
                 VObj [("bootstrap", VStr "/mcp/v2/bootstrap");
                       ("events", VStr "/mcp/v2/events");
                       ("tools_list", VStr "/mcp/v2/tools/list");
                       ("tools_call", VStr "/mcp/v2/tools/call")])])).

Definition sse_events : list (string * value) :=
  [ ("connected",
       VObj [("status", VStr "connected");
             ("server", dot (dot SERVER_INFO "serverInfo") "name");
             ("timestamp", VStr now)]);
    ("tools_available",
       VObj [("tools", tools_value TOOLS);
             ("count", VNum (Z.of_nat (length TOOLS)))]);
    ("ready",
       VObj [("status", VStr "ready");
             ("capabilities", dot SERVER_INFO "capabilities");
             ("transport", VStr "sse")]) ].

Definition handleSSEEvents : value :=
  createSSEResponse sse_events ("sse-" ++ string_of_Z now_ms).

(** An object with a status and a text body, returned as the response. *)
Definition as_response (v : value) : Response :=
  mkResp (match dot v "statusCode" with VNum z => z | _ => 200 end)
         (match dot v "body" with VStr s => Text s | _ => NoBody end).

Definition handleToolsList (request : value) : M value :=
  id <- lift (get_prop request "id") ;;
  ret (jsonrpc_result id
         (VObj [("tools", tools_value TOOLS);
                ("transport", VStr "sse_supported");
                ("streaming", VBool true)])).

Definition handleToolsCall (request : value) : M value :=
  call <- lift (destructure_call (dot request "params")) ;;
  let (name, args) := call : value * value in
  let toolArgs := or_else args (VObj []) in
  _ <- ClaudeDesktop.log_value name ;;
  try_catch
    (result <- switch_value name (five_tool_cases toolArgs) (unknown_tool name) ;;
     ret (createSSEResponse
            [ ("tool_started", VObj [("tool", name); ("arguments", toolArgs)]);
              ("tool_result",
                 VObj [("tool", name);
                       ("result", result);
                       ("content",
                        VArr [text_block (str_or_undefined (JSON_stringify_pretty result))])]);
              ("tool_completed", VObj [("tool", name); ("success", VBool true)]) ]
            ("tool-" ++ string_of_Z now_ms)))
    (fun error =>
       message <- lift (message_prop error) ;;
       ret (createSSEResponse
              [ ("tool_started", VObj [("tool", name); ("arguments", toolArgs)]);
                ("tool_error",
                   VObj [("tool", name); ("error", message); ("arguments", toolArgs)]);
                ("tool_completed", VObj [("tool", name); ("success", VBool false)]) ]
              ("tool-error-" ++ string_of_Z now_ms))).

Definition parse_error (message : string) : Response :=
  json_response 400
    (jsonrpc_error VNull
       (VObj [("code", VNum (-32700));
              ("message", VStr "Parse error");
              ("data", VStr message)])).

Definition method_not_found (request : value) : value :=
  jsonrpc_error (dot request "id")
    (VObj [("code", VNum (-32601));
           ("message", VStr "Method not found");
           ("data",
            VObj [("available_methods", VArr (map VStr available_methods));
                  ("sse_endpoint", VStr "/mcp/v2/events");
                  ("format", VStr "mcp_v2_sse")])]).

(** The body of the outer [try], after the parse. *)
Definition route (requestPath request : value) : M Response :=
  response <-
    (if is_str requestPath "/mcp/v2/bootstrap" then handleBootstrap request
     else
       method <- lift (get_prop request "method") ;;
       if is_str method "tools/list" then handleToolsList request
       else if is_str method "tools/call" then handleToolsCall request
       else ret (method_not_found request)) ;;
  ret (json_response 200 response).

Definition handler (event : Event) : M Response :=
  path <- lift (get_prop (requestContext event) "path") ;;
  let requestPath := or_else path (VStr "") in
  _ <- ClaudeDesktop.log_value requestPath ;;
  if String.eqb (httpMethod event) "OPTIONS" then ret (mkResp 200 NoBody)
  else if String.eqb (httpMethod event) "GET" && is_str requestPath "/mcp/v2/events" then
    ret (as_response handleSSEEvents)
  else if negb (String.eqb (httpMethod event) "POST") then
    ret (json_response 405
           (jsonrpc_error VNull
              (VObj [("code", VNum (-32600)); ("message", VStr "Method not allowed")])))
  else
    try_catch
      (match event_body event with
       | Malformed message => ret (parse_error message)
       | Parsed request => route requestPath request
       end)
      (fun error =>
         data <- lift (message_prop error) ;;
         ret (json_response 500
                (jsonrpc_error VNull
                   (VObj [("code", VNum (-32603));
                          ("message", VStr "Internal error");
                          ("data", data)])))).

End Function.
End V2Sse.

(* ===================================================================== *)
(** * The Bun web server *)
(* ===================================================================== *)

Module BunWeb.
Import JS Url Net Client Http.
Local Open Scope js_scope.

Section Server.

Variable TOOLS : list obj.
(** The static page. *)
Variable index_html : string.
(** [server.request(request, schema)] of the SDK. *)
Variable server_request : value -> M value.

Definition fetch_handler (req : Request) : M Response :=
  if String.eqb (req_method req) "POST" && String.eqb (req_pathname req) "/" then
    try_catch
      (body <- lift (JSON_parse (req_body req)) ;;
       jsonrpc <- lift (get_prop body "jsonrpc") ;;
       if is_str (dot body "method") "tools.list" then
         ret (json_response 200
                (jsonrpc_result (dot body "id") (VObj [("tools", tools_value TOOLS)])))
       else if is_str (dot body "method") "tools.call" then
         name <- lift (get_prop (dot body "params") "name") ;;
         let toolRequest :=
           VObj [("params",
                  VObj [("name", name);
                        ("arguments", dot (dot body "params") "arguments")])] in
         try_catch
           (result <- server_request toolRequest ;;
            ret (json_response 200 (jsonrpc_result (dot body "id") result)))
           (fun error =>
              ret (json_response 200
                     (jsonrpc_error (dot body "id")
                        (VObj [("code", VNum (-32603));
                               ("message", VStr (error_message_of error))]))))
       else
         ret (json_response 200
                (jsonrpc_error (dot body "id")
                   (VObj [("code", VNum (-32601)); ("message", VStr "Method not found")]))))
      (fun _ =>
         ret (json_response 400
                (jsonrpc_error VNull
                   (VObj [("code", VNum (-32700)); ("message", VStr "Parse error")]))))
  else if String.eqb (req_pathname req) "/" && String.eqb (req_method req) "GET" then
    ret (mkResp 200 (Text index_html))
  else if String.eqb (req_pathname req) "/health" then
    ret (json_response 200
           (VObj [("status", VStr "ok"); ("service", VStr "dflow-mcp");
                  ("version", VStr "1.0.0");
                  ("tools", VNum (Z.of_nat (length TOOLS)))]))
  else ret (mkResp 404 (Text "Not Found")).

End Server.
End BunWeb.

(* ===================================================================== *)
(** * The HTTP variants side by side *)
(* ===================================================================== *)

Module Variants.
Import JS Url Net Client Http.

Inductive variant : Type :=
  | DenoServer
  | ApiMcpFunction
  | McpFunction
  | ClaudeDesktopFunction
  | McpApiFunction
  | V2BootstrapFunction
  | V2SseFunction
  | BunWebServer.

Section Post.

(** The catalog, the static pages, the SDK call of the Bun server and the
    clock, shared by all variants for the comparison. *)
Variable TOOLS : list obj.
Variable index_html : string -> string.
Variable bun_index_html : string.
Variable server_request : value -> M value.
Variable now : string.
Variable now_ms : Z.

(** A [POST] of a body to the JSON-RPC endpoint of a variant.  [path] is
    the path a serverless function is reached under; the Deno server
    answers a [POST] under every path, the Bun server under [/] alone. *)
Definition post_to (v : variant) (path : string) (b : inbound) : M Response :=
  let event := mkEvent "POST" (VObj [("path", VStr path)]) b in
  match v with
  | DenoServer => Deno.handler TOOLS index_html (mkRequest "POST" "http://localhost:8000" path b)
  | ApiMcpFunction => ApiMcp.handler TOOLS event
  | McpFunction => McpIndex.handler TOOLS event
  | ClaudeDesktopFunction => ClaudeDesktop.handler TOOLS now event
  | McpApiFunction => McpApi.handler TOOLS event
  | V2BootstrapFunction => V2Bootstrap.handler TOOLS now event
  | V2SseFunction => V2Sse.handler TOOLS now now_ms event
  | BunWebServer =>
      BunWeb.fetch_handler TOOLS bun_index_html server_request
        (mkRequest "POST" "http://localhost:3000" "/" b)
  end.

End Post.

(** The methods the router of a variant tells apart. *)
Definition recognized_methods (v : variant) : list string :=
  match v with
  | DenoServer | ApiMcpFunction => ["tools.list"; "tools/list"; "tools.call"; "tools/call"]
  | McpFunction => McpIndex.available_methods
  | ClaudeDesktopFunction => ClaudeDesktop.handler_names
  | McpApiFunction => McpApi.available_methods
  | V2BootstrapFunction => []
  | V2SseFunction => ["tools/list"; "tools/call"]
  | BunWebServer => ["tools.list"; "tools.call"]
  end.

End Variants.

(* ===================================================================== *)
(** * The catalog of the stdio server *)
(* ===================================================================== *)

(** The tool descriptors of src/unnamed/part_007, one definition for each
    element of the array [TOOLS], in source order. *)
Module Catalog.
Import JS.

Definition get_event_tool : obj :=
  [ ("name", VStr "get_event");
    ("description",
     VStr "Get a single event by ticker. Returns event metadata including series ticker, subtitle, markets, strike information and volume.");
    ("inputSchema", VObj
     [ ("type", VStr "object");
       ("properties", VObj
        [ ("event_id", VObj [("type", VStr "string"); ("description", VStr "Event ticker")]);
          ("withNestedMarkets", VObj
           [ ("type", VStr "boolean");
             ("description", VStr "Include nested markets (optional)") ]) ]);
       ("required", VArr [VStr "event_id"]) ]) ].

Definition get_events_tool : obj :=
  [ ("name", VStr "get_events");
    ("description",
     VStr "Get a paginated list of all events with optional filtering and sorting.");
    ("inputSchema", VObj
     [ ("type", VStr "object");
       ("properties", VObj
        [ ("limit", VObj
           [ ("type", VStr "integer");
             ("minimum", VNum 0);
             ("description", VStr "Maximum number of events to return") ]);
          ("cursor", VObj
           [ ("type", VStr "integer");
             ("minimum", VNum 0);
             ("description", VStr "Pagination cursor") ]);
          ("withNestedMarkets", VObj
           [ ("type", VStr "boolean");
             ("description", VStr "Include nested markets") ]);
          ("seriesTickers", VObj
           [ ("type", VStr "string");
             ("description", VStr "Filter by series tickers (comma-separated)") ]);
          ("isInitialized", VObj
           [ ("type", VStr "boolean");
             ("description", VStr "Filter by initialization status") ]);
          ("status", VObj
           [ ("type", VStr "string");
             ("description", VStr "Filter by event status") ]);
          ("sort", VObj
           [ ("type", VStr "string");
             ("enum", VArr
               [ VStr "volume";
                 VStr "volume24h";
                 VStr "liquidity";
                 VStr "openInterest";
                 VStr "startDate" ]);
             ("description", VStr "Sort field") ]) ]);
       ("required", VArr []) ]) ].

Definition get_market_tool : obj :=
  [ ("name", VStr "get_market");
    ("description", VStr "Get details of a market by ticker.");
    ("inputSchema", VObj
     [ ("type", VStr "object");
       ("properties", VObj
        [ ("market_id", VObj
           [ ("type", VStr "string");
             ("description", VStr "Market ticker") ]) ]);
       ("required", VArr [VStr "market_id"]) ]) ].

Definition get_market_by_mint_tool : obj :=
  [ ("name", VStr "get_market_by_mint");
    ("description", VStr "Get a market by looking up its mint address.");
    ("inputSchema", VObj
     [ ("type", VStr "object");
       ("properties", VObj
        [ ("mint_address", VObj
           [ ("type", VStr "string");
             ("description", VStr "Ledger or outcome mint address") ]) ]);
       ("required", VArr [VStr "mint_address"]) ]) ].

Definition get_markets_tool : obj :=
  [ ("name", VStr "get_markets");
    ("description", VStr "Get a paginated list of markets with optional filtering.");
    ("inputSchema", VObj
     [ ("type", VStr "object");
       ("properties", VObj
        [ ("limit", VObj
           [ ("type", VStr "integer");
             ("minimum", VNum 0);
             ("description", VStr "Number of markets to return") ]);
          ("cursor", VObj
           [ ("type", VStr "integer");
             ("minimum", VNum 0);
             ("description", VStr "Pagination cursor") ]);
          ("isInitialized", VObj
           [ ("type", VStr "boolean");
             ("description", VStr "Filter by initialization status") ]);
          ("status", VObj [("type", VStr "string"); ("description", VStr "Filter by status")]);
          ("sort", VObj
           [ ("type", VStr "string");
             ("enum", VArr
               [ VStr "volume";
                 VStr "volume24h";
                 VStr "liquidity";
                 VStr "openInterest";
                 VStr "startDate" ]);
             ("description", VStr "Sort field") ]) ]);
       ("required", VArr []) ]) ].

Definition get_markets_batch_tool : obj :=
  [ ("name", VStr "get_markets_batch");
    ("description",
     VStr "Get multiple markets by tickers and/or mint addresses (up to 100 results).");
    ("inputSchema", VObj
     [ ("type", VStr "object");
       ("properties", VObj
        [ ("tickers", VObj
           [ ("type", VStr "array");
             ("items", VObj [("type", VStr "string")]);
             ("description", VStr "Array of market tickers") ]);
          ("mints", VObj
           [ ("type", VStr "array");
             ("items", VObj [("type", VStr "string")]);
             ("description", VStr "Array of mint addresses") ]) ]);
       ("required", VArr []) ]) ].

Definition get_trades_tool : obj :=
  [ ("name", VStr "get_trades");
    ("description",
     VStr "Get a paginated list of trades across markets with optional filtering.");
    ("inputSchema", VObj
     [ ("type", VStr "object");
       ("properties", VObj
        [ ("limit", VObj
           [ ("type", VStr "integer");
             ("minimum", VNum 0);
             ("description", VStr "Number of trades to return") ]);
          ("cursor", VObj [("type", VStr "string"); ("description", VStr "Pagination cursor")]);
          ("ticker", VObj
           [ ("type", VStr "string");
             ("description", VStr "Filter by market ticker") ]);
          ("minTs", VObj
           [ ("type", VStr "integer");
             ("minimum", VNum 0);
             ("description", VStr "Minimum timestamp filter") ]);
          ("maxTs", VObj
           [ ("type", VStr "integer");
             ("minimum", VNum 0);
             ("description", VStr "Maximum timestamp filter") ]) ]);
       ("required", VArr []) ]) ].

Definition get_trades_by_mint_tool : obj :=
  [ ("name", VStr "get_trades_by_mint");
    ("description", VStr "Get trades for a market identified by a mint address.");
    ("inputSchema", VObj
     [ ("type", VStr "object");
       ("properties", VObj
        [ ("mint_address", VObj
           [ ("type", VStr "string");
             ("description", VStr "Mint address") ]);
          ("limit", VObj
           [ ("type", VStr "integer");
             ("minimum", VNum 0);
             ("description", VStr "Number of trades to return") ]);
          ("cursor", VObj [("type", VStr "string"); ("description", VStr "Pagination cursor")]);
          ("minTs", VObj
           [ ("type", VStr "integer");
             ("minimum", VNum 0);
             ("description", VStr "Minimum timestamp filter") ]);
          ("maxTs", VObj
           [ ("type", VStr "integer");
             ("minimum", VNum 0);
             ("description", VStr "Maximum timestamp filter") ]) ]);
       ("required", VArr [VStr "mint_address"]) ]) ].

Definition get_forecast_percentile_history_tool : obj :=
  [ ("name", VStr "get_forecast_percentile_history");
    ("description",
     VStr "Get historical raw and formatted forecast numbers for an event at specified percentiles.");
    ("inputSchema", VObj
     [ ("type", VStr "object");
       ("properties", VObj
        [ ("series_ticker", VObj
           [ ("type", VStr "string");
             ("description", VStr "Series ticker") ]);
          ("event_id", VObj [("type", VStr "string"); ("description", VStr "Event ticker")]);
          ("percentiles", VObj
           [ ("type", VStr "string");
             ("description", VStr "Comma-separated list of percentiles") ]);
          ("startTs", VObj
           [ ("type", VStr "integer");
             ("minimum", VNum 0);
             ("description", VStr "Start timestamp") ]);
          ("endTs", VObj
           [ ("type", VStr "integer");
             ("minimum", VNum 0);
             ("description", VStr "End timestamp") ]);
          ("periodInterval", VObj
           [ ("type", VStr "integer");
             ("minimum", VNum 0);
             ("description", VStr "Sampling interval in seconds") ]) ]);
       ("required", VArr
         [ VStr "series_ticker";
           VStr "event_id";
           VStr "percentiles";
           VStr "startTs";
           VStr "endTs";
           VStr "periodInterval" ]) ]) ].

Definition get_forecast_percentile_history_by_mint_tool : obj :=
  [ ("name", VStr "get_forecast_percentile_history_by_mint");
    ("description",
     VStr "Get forecast history by looking up an event using a market mint address.");
    ("inputSchema", VObj
     [ ("type", VStr "object");
       ("properties", VObj
        [ ("mint_address", VObj
           [ ("type", VStr "string");
             ("description", VStr "Market mint address") ]);
          ("percentiles", VObj
           [ ("type", VStr "string");
             ("description", VStr "Comma-separated list of percentiles") ]);
          ("startTs", VObj
           [ ("type", VStr "integer");
             ("minimum", VNum 0);
             ("description", VStr "Start timestamp") ]);
          ("endTs", VObj
           [ ("type", VStr "integer");
             ("minimum", VNum 0);
             ("description", VStr "End timestamp") ]);
          ("periodInterval", VObj
           [ ("type", VStr "integer");
             ("minimum", VNum 0);
             ("description", VStr "Sampling interval in seconds") ]) ]);
       ("required", VArr
         [ VStr "mint_address";
           VStr "percentiles";
           VStr "startTs";
           VStr "endTs";
           VStr "periodInterval" ]) ]) ].

Definition get_event_candlesticks_tool : obj :=
  [ ("name", VStr "get_event_candlesticks");
    ("description",
     VStr "Get event candlesticks from the Kalshi API. Resolves series ticker automatically.");
    ("inputSchema", VObj
     [ ("type", VStr "object");
       ("properties", VObj
        [ ("ticker", VObj [("type", VStr "string"); ("description", VStr "Event ticker")]);
          ("startTs", VObj
           [ ("type", VStr "integer");
             ("minimum", VNum 0);
             ("description", VStr "Start timestamp") ]);
          ("endTs", VObj
           [ ("type", VStr "integer");
             ("minimum", VNum 0);
             ("description", VStr "End timestamp") ]);
          ("periodInterval", VObj
           [ ("type", VStr "integer");
             ("minimum", VNum 0);
             ("description", VStr "Interval size in seconds") ]) ]);
       ("required", VArr
         [ VStr "ticker";
           VStr "startTs";
           VStr "endTs";
           VStr "periodInterval" ]) ]) ].

Definition get_market_candlesticks_tool : obj :=
  [ ("name", VStr "get_market_candlesticks");
    ("description", VStr "Get market candlesticks. Resolves series ticker automatically.");
    ("inputSchema", VObj
     [ ("type", VStr "object");
       ("properties", VObj
        [ ("ticker", VObj [("type", VStr "string"); ("description", VStr "Market ticker")]);
          ("startTs", VObj
           [ ("type", VStr "integer");
             ("minimum", VNum 0);
             ("description", VStr "Start timestamp") ]);
          ("endTs", VObj
           [ ("type", VStr "integer");
             ("minimum", VNum 0);
             ("description", VStr "End timestamp") ]);
          ("periodInterval", VObj
           [ ("type", VStr "integer");
             ("minimum", VNum 0);
             ("description", VStr "Interval size in seconds") ]) ]);
       ("required", VArr
         [ VStr "ticker";
           VStr "startTs";
           VStr "endTs";
           VStr "periodInterval" ]) ]) ].

Definition get_market_candlesticks_by_mint_tool : obj :=
  [ ("name", VStr "get_market_candlesticks_by_mint");
    ("description", VStr "Get candlesticks by looking up a market by mint address.");
    ("inputSchema", VObj
     [ ("type", VStr "object");
       ("properties", VObj
        [ ("mint_address", VObj
           [ ("type", VStr "string");
             ("description", VStr "Mint address") ]);
          ("startTs", VObj
           [ ("type", VStr "integer");
             ("minimum", VNum 0);
             ("description", VStr "Start timestamp") ]);
          ("endTs", VObj
           [ ("type", VStr "integer");
             ("minimum", VNum 0);
             ("description", VStr "End timestamp") ]);
          ("periodInterval", VObj
           [ ("type", VStr "integer");
             ("minimum", VNum 0);
             ("description", VStr "Interval size in seconds") ]) ]);
       ("required", VArr
         [ VStr "mint_address";
           VStr "startTs";
           VStr "endTs";
           VStr "periodInterval" ]) ]) ].

Definition get_live_data_tool : obj :=
  [ ("name", VStr "get_live_data");
    ("description", VStr "Get live data from the Kalshi API for specific milestones.");
    ("inputSchema", VObj
     [ ("type", VStr "object");
       ("properties", VObj
        [ ("milestoneIds", VObj
           [ ("type", VStr "array");
             ("items", VObj [("type", VStr "string")]);
             ("description", VStr "Array of milestone IDs") ]) ]);
       ("required", VArr [VStr "milestoneIds"]) ]) ].

Definition get_live_data_by_event_tool : obj :=
  [ ("name", VStr "get_live_data_by_event");
    ("description", VStr "Get live data for all milestones of an event.");
    ("inputSchema", VObj
     [ ("type", VStr "object");
       ("properties", VObj
        [ ("event_ticker", VObj
           [ ("type", VStr "string");
             ("description", VStr "Event ticker") ]);
          ("minimumStartDate", VObj
           [ ("type", VStr "string");
             ("description", VStr "Filter milestones after this date") ]);
          ("category", VObj
           [ ("type", VStr "string");
             ("description", VStr "Filter by category") ]);
          ("competition", VObj
           [ ("type", VStr "string");
             ("description", VStr "Filter by competition") ]);
          ("sourceId", VObj
           [ ("type", VStr "string");
             ("description", VStr "Filter by data source") ]);
          ("type", VObj
           [ ("type", VStr "string");
             ("description", VStr "Filter by milestone type") ]) ]);
       ("required", VArr [VStr "event_ticker"]) ]) ].

Definition get_live_data_by_mint_tool : obj :=
  [ ("name", VStr "get_live_data_by_mint");
    ("description", VStr "Get live data by looking up an event from a market mint address.");
    ("inputSchema", VObj
     [ ("type", VStr "object");
       ("properties", VObj
        [ ("mint_address", VObj
           [ ("type", VStr "string");
             ("description", VStr "Mint address") ]);
          ("minimumStartDate", VObj
           [ ("type", VStr "string");
             ("description", VStr "Filter milestones after this date") ]);
          ("category", VObj
           [ ("type", VStr "string");
             ("description", VStr "Filter by category") ]);
          ("competition", VObj
           [ ("type", VStr "string");
             ("description", VStr "Filter by competition") ]);
          ("sourceId", VObj
           [ ("type", VStr "string");
             ("description", VStr "Filter by data source") ]);
          ("type", VObj
           [ ("type", VStr "string");
             ("description", VStr "Filter by milestone type") ]) ]);
       ("required", VArr [VStr "mint_address"]) ]) ].

Definition get_series_tool : obj :=
  [ ("name", VStr "get_series");
    ("description", VStr "Get all series templates with optional filtering.");
    ("inputSchema", VObj
     [ ("type", VStr "object");
       ("properties", VObj
        [ ("category", VObj
           [ ("type", VStr "string");
             ("description", VStr "Filter by series category") ]);
          ("tags", VObj [("type", VStr "string"); ("description", VStr "Filter by tags")]);
          ("isInitialized", VObj
           [ ("type", VStr "boolean");
             ("description", VStr "Filter by initialization status") ]);
          ("status", VObj
           [ ("type", VStr "string");
             ("description", VStr "Filter by series status") ]) ]);
       ("required", VArr []) ]) ].

Definition get_series_by_ticker_tool : obj :=
  [ ("name", VStr "get_series_by_ticker");
    ("description", VStr "Get a single series by its ticker.");
    ("inputSchema", VObj
     [ ("type", VStr "object");
       ("properties", VObj
        [ ("series_ticker", VObj
           [ ("type", VStr "string");
             ("description", VStr "Series ticker") ]) ]);
       ("required", VArr [VStr "series_ticker"]) ]) ].

Definition get_outcome_mints_tool : obj :=
  [ ("name", VStr "get_outcome_mints");
    ("description", VStr "Get a flat list of yes and no outcome mint pubkeys.");
    ("inputSchema", VObj
     [ ("type", VStr "object");
       ("properties", VObj
        [ ("minCloseTs", VObj
           [ ("type", VStr "integer");
             ("minimum", VNum 0);
             ("description", VStr "Filter by minimum close timestamp") ]) ]);
       ("required", VArr []) ]) ].

Definition filter_outcome_mints_tool : obj :=
  [ ("name", VStr "filter_outcome_mints");
    ("description", VStr "Filter a list of addresses and return only outcome mints.");
    ("inputSchema", VObj
     [ ("type", VStr "object");
       ("properties", VObj
        [ ("addresses", VObj
           [ ("type", VStr "array");
             ("items", VObj [("type", VStr "string")]);
             ("maxItems", VNum 200);
             ("description", VStr "Array of addresses to filter") ]) ]);
       ("required", VArr [VStr "addresses"]) ]) ].

Definition get_tags_by_categories_tool : obj :=
  [ ("name", VStr "get_tags_by_categories");
    ("description", VStr "Get a mapping of series categories to tags.");
    ("inputSchema", VObj
     [ ("type", VStr "object");
       ("properties", VObj []);
       ("required", VArr []) ]) ].

Definition get_filters_by_sports_tool : obj :=
  [ ("name", VStr "get_filters_by_sports");
    ("description",
     VStr "Get filtering options for each sport including scopes and competitions.");
    ("inputSchema", VObj
     [ ("type", VStr "object");
       ("properties", VObj []);
       ("required", VArr []) ]) ].

Definition search_events_tool : obj :=
  [ ("name", VStr "search_events");
    ("description", VStr "Search events with nested markets by title or ticker.");
    ("inputSchema", VObj
     [ ("type", VStr "object");
       ("properties", VObj
        [ ("q", VObj [("type", VStr "string"); ("description", VStr "Search query")]);
          ("sort", VObj
           [ ("type", VStr "string");
             ("enum", VArr
               [ VStr "volume";
                 VStr "volume24h";
                 VStr "liquidity";
                 VStr "openInterest";
                 VStr "startDate" ]);
             ("description", VStr "Sort field") ]);
          ("order", VObj
           [ ("type", VStr "string");
             ("enum", VArr [VStr "desc"; VStr "asc"]);
             ("description", VStr "Sort order") ]);
          ("limit", VObj
           [ ("type", VStr "integer");
             ("minimum", VNum 0);
             ("description", VStr "Number of results to return") ]);
          ("cursor", VObj
           [ ("type", VStr "integer");
             ("minimum", VNum 0);
             ("description", VStr "Pagination cursor") ]);
          ("withNestedMarkets", VObj
           [ ("type", VStr "boolean");
             ("description", VStr "Include nested markets") ]);
          ("withMarketAccounts", VObj
           [ ("type", VStr "boolean");
             ("description", VStr "Include market accounts") ]) ]);
       ("required", VArr [VStr "q"]) ]) ].

(** [const TOOLS: Tool[] = [...]] *)
Definition TOOLS : list obj :=
  [ get_event_tool; get_events_tool; get_market_tool; get_market_by_mint_tool;
    get_markets_tool; get_markets_batch_tool; get_trades_tool; get_trades_by_mint_tool;
    get_forecast_percentile_history_tool; get_forecast_percentile_history_by_mint_tool;
    get_event_candlesticks_tool; get_market_candlesticks_tool;
    get_market_candlesticks_by_mint_tool; get_live_data_tool; get_live_data_by_event_tool;
    get_live_data_by_mint_tool; get_series_tool; get_series_by_ticker_tool;
    get_outcome_mints_tool; filter_outcome_mints_tool; get_tags_by_categories_tool;
    get_filters_by_sports_tool; search_events_tool ].

(** The handler registered for [ListToolsRequestSchema]. *)
Definition list_tools : value := VObj [("tools", VArr (map VObj TOOLS))].

End Catalog.

(* ===================================================================== *)
(** * The catalog of the serverless function [mcp] *)
(* ===================================================================== *)

(** The tool descriptors of src/unnamed/part_004. *)
Module McpCatalog.
Import JS.

Definition get_events_tool : obj :=
  [ ("name", VStr "get_events");
    ("description",
     VStr "Get a paginated list of all events with optional filtering and sorting.");
    ("inputSchema", VObj
     [ ("type", VStr "object");
       ("properties", VObj
        [ ("limit", VObj
           [ ("type", VStr "integer");
             ("minimum", VNum 0);
             ("maximum", VNum 100);
             ("description", VStr "Maximum number of events to return (0-100)") ]);
          ("cursor", VObj
           [ ("type", VStr "integer");
             ("minimum", VNum 0);
             ("description", VStr "Pagination cursor for fetching next page") ]) ]);
       ("required", VArr []) ]) ].

Definition get_markets_tool : obj :=
  [ ("name", VStr "get_markets");
    ("description", VStr "Get a paginated list of markets with optional filtering.");
    ("inputSchema", VObj
     [ ("type", VStr "object");
       ("properties", VObj
        [ ("limit", VObj
           [ ("type", VStr "integer");
             ("minimum", VNum 0);
             ("maximum", VNum 100);
             ("description", VStr "Number of markets to return (0-100)") ]);
          ("cursor", VObj
           [ ("type", VStr "integer");
             ("minimum", VNum 0);
             ("description", VStr "Pagination cursor for fetching next page") ]) ]);
       ("required", VArr []) ]) ].

Definition get_trades_tool : obj :=
  [ ("name", VStr "get_trades");
    ("description",
     VStr "Get a paginated list of trades across markets with optional filtering.");
    ("inputSchema", VObj
     [ ("type", VStr "object");
       ("properties", VObj
        [ ("limit", VObj
           [ ("type", VStr "integer");
             ("minimum", VNum 0);
             ("maximum", VNum 100);
             ("description", VStr "Number of trades to return (0-100)") ]);
          ("cursor", VObj
           [ ("type", VStr "string");
             ("description", VStr "Pagination cursor for fetching next page") ]) ]);
       ("required", VArr []) ]) ].

Definition get_market_by_mint_tool : obj :=
  [ ("name", VStr "get_market_by_mint");
    ("description", VStr "Get market details by token mint address.");
    ("inputSchema", VObj
     [ ("type", VStr "object");
       ("properties", VObj
        [ ("mint", VObj
           [ ("type", VStr "string");
             ("description", VStr "Token mint address to look up market") ]) ]);
       ("required", VArr [VStr "mint"]) ]) ].

Definition get_live_data_tool : obj :=
  [ ("name", VStr "get_live_data");
    ("description", VStr "Get live data for events and markets.");
    ("inputSchema", VObj
     [ ("type", VStr "object");
       ("properties", VObj
        [ ("event_ticker", VObj
           [ ("type", VStr "string");
             ("description", VStr "Event ticker for live data") ]);
          ("market_ticker", VObj
           [ ("type", VStr "string");
             ("description", VStr "Market ticker for live data") ]) ]);
       ("required", VArr []) ]) ].

(** [const TOOLS = [...]] *)
Definition TOOLS : list obj :=
  [ get_events_tool; get_markets_tool; get_trades_tool; get_market_by_mint_tool;
    get_live_data_tool ].

End McpCatalog.

(* ===================================================================== *)
(** * The server factory *)
(* ===================================================================== *)

(** [createServer(config)] of src/unnamed/part_006: the client it
    configures and the handlers it registers. *)
Module Factory.
Import JS Url Net Client Stdio.
Local Open Scope js_scope.

(** [interface ServerConfig { apiUrl?: string; requestTimeout?: number }];
    the timeout is a number of milliseconds. *)
Record ServerConfig := mkConfig {
  apiUrl : option string;
  requestTimeout : option N
}.

(** [ErrorCode.InvalidRequest] *)
Definition InvalidRequest : Z := -32600.

(** [args?.key] *)
Definition optional_prop (args : option obj) (k : string) : value :=
  match args with
  | Some o => prop o k
  | None => VUndefined
  end.

(** The one message a prompt is answered with. *)
Definition user_message (text : string) : value :=
  VObj [("messages",
         VArr [VObj [("role", VStr "user");
                     ("content", VObj [("type", VStr "text"); ("text", VStr text)])]])].

Definition prompt_argument (name description : string) (required : bool) : value :=
  VObj [("name", VStr name); ("description", VStr description); ("required", VBool required)].

(** The handler registered for [ListPromptsRequestSchema]. *)
Definition list_prompts : value :=
  VObj [("prompts",
         VArr [VObj [("name", VStr "analyze_market_trends");
                     ("description",
                      VStr "Analyze prediction market trends and provide insights on volume, liquidity, and price movements");
                     ("arguments",
                      VArr [prompt_argument "market_filter"
                              "Filter markets by category (e.g., politics, sports, crypto)" false;
                            prompt_argument "time_range"
                              "Time range for analysis (e.g., 24h, 7d, 30d)" false])];
               VObj [("name", VStr "compare_events");
                     ("description",
                      VStr "Compare multiple prediction market events side-by-side");
                     ("arguments",
                      VArr [prompt_argument "event_ids"
                              "Comma-separated list of event tickers to compare" true])]])].

Definition resource (uri name description mimeType : string) : value :=
  VObj [("uri", VStr uri); ("name", VStr name); ("description", VStr description);
        ("mimeType", VStr mimeType)].

(** The handler registered for [ListResourcesRequestSchema]. *)
Definition list_resources : value :=
  VObj [("resources",
         VArr [resource "dflow://api/events" "Prediction Market Events"
                 "Real-time feed of all prediction market events" "application/json";
               resource "dflow://api/markets" "Active Markets"
                 "Currently active prediction markets with live data" "application/json";
               resource "dflow://api/docs" "API Documentation"
                 "Complete API documentation and usage examples" "text/markdown"])].

(** The text of the resource [dflow://api/docs], line by line. *)
Definition docs : string :=
  String.concat newline
    [ "# DFlow Prediction Market API";
      "";
      "## Available Tools";
      "- get_events: Get all events";
      "- get_markets: Get all markets";
      "- get_trades: Get trade history";
      "- And 21 more specialized tools...";
      "";
      "## Example Usage";
      "1. List events: get_events with limit parameter";
      "2. Get specific event: get_event with event_id";
      "3. Analyze trades: get_trades with filtering options";
      "";
      "For full documentation, visit: https://dflow.opensvm.com";
      "" ].

Definition resource_contents (uri mimeType : string) (text : value) : value :=
  VObj [("contents",
         VArr [VObj [("uri", VStr uri); ("mimeType", VStr mimeType); ("text", text)]])].

Section Server.

(** The SDK's error class, as for the stdio server. *)
Variable McpError : Z -> string -> js_error.
(** The argument of [createServer]; [None] when it is left out. *)
Variable config : option ServerConfig.

(** [config?.apiUrl || BASE_URL] *)
Definition configured_url : string :=
  match config with
  | Some c =>
      match apiUrl c with
      | Some u => if String.eqb u "" then BASE_URL else u
      | None => BASE_URL
      end
  | None => BASE_URL
  end.

(** [config?.requestTimeout || DEFAULT_TIMEOUT] *)
Definition configured_timeout : N :=
  match config with
  | Some c =>
      match requestTimeout c with
      | Some t => if (t =? 0)%N then DEFAULT_TIMEOUT else t
      | None => DEFAULT_TIMEOUT
      end
  | None => DEFAULT_TIMEOUT
  end.

(** [const apiClient = new DFlowAPIClient(..., ...);] *)
Definition apiClient : DFlowAPIClient :=
  new_DFlowAPIClient (Some configured_url) (Some configured_timeout).

(** The handler registered for [GetPromptRequestSchema]. *)
Definition get_prompt (name : string) (args : option obj) : M value :=
  if String.eqb name "analyze_market_trends" then
    let filter := or_else (optional_prop args "market_filter") (VStr "all markets") in
    let timeRange := or_else (optional_prop args "time_range") (VStr "24h") in
    text <- tpl2 "Analyze prediction market trends for " filter " over the past " timeRange
                 ". Use get_events and get_markets tools to gather data, then provide insights on volume trends, liquidity patterns, and notable price movements." ;;
    ret (user_message text)
  else if String.eqb name "compare_events" then
    let eventIds := or_else (optional_prop args "event_ids") (VStr "") in
    text <- tpl1 "Compare the following prediction market events: " eventIds
                 ". Use get_event tool for each event and provide a side-by-side comparison of volume, liquidity, markets, and recent activity." ;;
    ret (user_message text)
  else throw_error (McpError InvalidRequest ("Unknown prompt: " ++ name)).

(** The handler registered for [ReadResourceRequestSchema]. *)
Definition read_resource (uri : string) : M value :=
  if String.eqb uri "dflow://api/events" then
    events <- get apiClient "/api/v1/events" (Some [("limit", VNum 10)]) ;;
    ret (resource_contents uri "application/json"
           (str_or_undefined (JSON_stringify_pretty events)))
  else if String.eqb uri "dflow://api/markets" then
    markets <- get apiClient "/api/v1/markets" (Some [("limit", VNum 10)]) ;;
    ret (resource_contents uri "application/json"
           (str_or_undefined (JSON_stringify_pretty markets)))
  else if String.eqb uri "dflow://api/docs" then
    ret (resource_contents uri "text/markdown" (VStr docs))
  else throw_error (McpError InvalidRequest ("Unknown resource: " ++ uri)).

(** The handler registered for [CallToolRequestSchema]: the switch of the
    stdio server, over the configured client. *)
Definition tool_cases (toolArgs : obj) : list (string * M value) :=
  [ ("get_event",
       path <- tpl1 "/api/v1/event/" (prop toolArgs "event_id") "" ;;
       get apiClient path (Some [("withNestedMarkets", prop toolArgs "withNestedMarkets")]));
    ("get_events", get apiClient "/api/v1/events" (Some toolArgs));
    ("get_market",
       path <- tpl1 "/api/v1/market/" (prop toolArgs "market_id") "" ;;
       get apiClient path None);
    ("get_market_by_mint",
       path <- tpl1 "/api/v1/market/by-mint/" (prop toolArgs "mint_address") "" ;;
       get apiClient path None);
    ("get_markets", get apiClient "/api/v1/markets" (Some toolArgs));
    ("get_markets_batch", post apiClient "/api/v1/markets/batch" (VObj toolArgs));
    ("get_trades", get apiClient "/api/v1/trades" (Some toolArgs));
    ("get_trades_by_mint",
       let trade_mint := prop toolArgs "mint_address" in
       let trade_params := omit ["mint_address"] toolArgs in
       path <- tpl1 "/api/v1/trades/by-mint/" trade_mint "" ;;
       get apiClient path (Some trade_params));
    ("get_forecast_percentile_history",
       let series_ticker := prop toolArgs "series_ticker" in
       let event_id := prop toolArgs "event_id" in
       let forecast_params := omit ["series_ticker"; "event_id"] toolArgs in
       path <- tpl2 "/api/v1/event/" series_ticker "/" event_id
                    "/forecast_percentile_history" ;;
       get apiClient path (Some forecast_params));
    ("get_forecast_percentile_history_by_mint",
       let forecast_mint := prop toolArgs "mint_address" in
       let forecast_mint_params := omit ["mint_address"] toolArgs in
       path <- tpl1 "/api/v1/event/by-mint/" forecast_mint
                    "/forecast_percentile_history" ;;
       get apiClient path (Some forecast_mint_params));
    ("get_event_candlesticks",
       let event_ticker := prop toolArgs "ticker" in
       let event_candle_params := omit ["ticker"] toolArgs in
       path <- tpl1 "/api/v1/event/" event_ticker "/candlesticks" ;;
       get apiClient path (Some event_candle_params));
    ("get_market_candlesticks",
       let market_ticker := prop toolArgs "ticker" in
       let market_candle_params := omit ["ticker"] toolArgs in
       path <- tpl1 "/api/v1/market/" market_ticker "/candlesticks" ;;
       get apiClient path (Some market_candle_params));
    ("get_market_candlesticks_by_mint",
       let candle_mint := prop toolArgs "mint_address" in
       let candle_mint_params := omit ["mint_address"] toolArgs in
       path <- tpl1 "/api/v1/market/by-mint/" candle_mint "/candlesticks" ;;
       get apiClient path (Some candle_mint_params));
    ("get_live_data",
       get apiClient "/api/v1/live_data"
         (Some [("milestoneIds", prop toolArgs "milestoneIds")]));
    ("get_live_data_by_event",
       let live_event_ticker := prop toolArgs "event_ticker" in
       let live_event_params := omit ["event_ticker"] toolArgs in
       path <- tpl1 "/api/v1/live_data/by-event/" live_event_ticker "" ;;
       get apiClient path (Some live_event_params));
    ("get_live_data_by_mint",
       let live_mint := prop toolArgs "mint_address" in
       let live_mint_params := omit ["mint_address"] toolArgs in
       path <- tpl1 "/api/v1/live_data/by-mint/" live_mint "" ;;
       get apiClient path (Some live_mint_params));
    ("get_series", get apiClient "/api/v1/series" (Some toolArgs));
    ("get_series_by_ticker",
       path <- tpl1 "/api/v1/series/" (prop toolArgs "series_ticker") "" ;;
       get apiClient path None);
    ("get_outcome_mints", get apiClient "/api/v1/outcome_mints" (Some toolArgs));
    ("filter_outcome_mints", post apiClient "/api/v1/filter_outcome_mints" (VObj toolArgs));
    ("get_tags_by_categories", get apiClient "/api/v1/tags_by_categories" None);
    ("get_filters_by_sports", get apiClient "/api/v1/filters_by_sports" None);
    ("search_events", get apiClient "/api/v1/search" (Some toolArgs)) ].

(** The names the switch knows. *)
Definition tool_names : list string := map fst (tool_cases []).

(** The body of the [try] up to the assignment of [result]. *)
Definition dispatch (name : string) (toolArgs : obj) : M value :=
  switch name (tool_cases toolArgs)
    (throw_error (McpError MethodNotFound ("Unknown tool: " ++ name))).

Definition success_result (result : value) : value :=
  VObj [("content", VArr [text_block (str_or_undefined (JSON_stringify_pretty result))])].

Definition error_result (name : string) (error : thrown) : value :=
  VObj [("content",
         VArr [text_block (VStr ("Error calling " ++ name ++ ": " ++ error_message_of error))]);
        ("isError", VBool true)].

(** The handler registered for [CallToolRequestSchema].  The SDK has
    checked the request against the schema: [name] is a string and
    [arguments] is an object or absent. *)
Definition call_tool (name : string) (args : option obj) : M value :=
  let toolArgs := match args with Some o => o | None => [] end in
  try_catch
    (result <- dispatch name toolArgs ;;
     ret (success_result result))
    (fun error => ret (error_result name error)).

End Server.

End Factory.

(* ===================================================================== *)
(** * The serverless function [mcp] with its log *)
(* ===================================================================== *)

(** src/.netlify/functions/mcp/index.js: the function [mcp] with a line
    written to the log at every step, a [health] method and two more
    members in the result of [connectMCPServer].  The lines written to the
    log serialize values that are already built, which cannot throw, and
    are left out; the property reads they make are kept. *)
Module McpLogged.
Import JS Url Net Client Http.
Local Open Scope js_scope.

Definition available_methods : list string :=
  ["getModels"; "connectMCPServer"; "initialize"; "tools/list"; "tools/call";
   "tools/describe"; "server/info"; "health"].

Section Function.

Variable TOOLS : list obj.
(** [new Date().toISOString()] *)
Variable now : string.

Definition ok (v : value) : Response := json_response 200 v.

Definition connect_result : value :=
  VObj [("name", dot (dot SERVER_INFO "serverInfo") "name");
        ("version", dot (dot SERVER_INFO "serverInfo") "version");
        ("description", dot (dot SERVER_INFO "serverInfo") "description");
        ("capabilities", dot SERVER_INFO "capabilities");
        ("tools", tool_summaries TOOLS);
        ("connected", VBool true);
        ("server_url", VStr "https://dflow.opensvm.com/api/mcp");
        ("status", VStr "connected");
        ("timestamp", VStr now)].

Definition health_result : value :=
  VObj [("status", VStr "healthy");
        ("timestamp", VStr now);
        ("version", dot (dot SERVER_INFO "serverInfo") "version");
        ("methods", VArr (map VStr available_methods))].

(** The [tools/call] branch. *)
Definition tools_call (request : value) : M Response :=
  call <- lift (destructure_call (dot request "params")) ;;
  let (name, args) := call : value * value in
  let toolArgs := or_else args (VObj []) in
  try_catch
    (result <- switch_value name (five_tool_cases toolArgs) (unknown_tool name) ;;
     ret (ok (jsonrpc_result (dot request "id") (tool_content result))))
    (fun error =>
       message <- lift (message_prop error) ;;
       ret (ok (jsonrpc_error (dot request "id")
                  (VObj [("code", VNum (-32603));
                         ("message", message);
                         ("data", VObj [("tool", name); ("arguments", toolArgs)])])))).

(** The [tools/describe] branch. *)
Definition tools_describe (request : value) : M Response :=
  toolName <- lift (get_prop (dot request "params") "name") ;;
  match find (fun t => McpIndex.strict_eq (prop t "name") toolName) TOOLS with
  | None =>
      shown <- lift (ToString toolName) ;;
      ret (ok (jsonrpc_error (dot request "id")
                 (VObj [("code", VNum (-32602));
                        ("message", VStr ("Tool not found: " ++ shown))])))
  | Some tool => ret (ok (jsonrpc_result (dot request "id") (VObj tool)))
  end.

Definition method_not_found (request : value) : Response :=
  ok (jsonrpc_error (dot request "id")
        (VObj [("code", VNum (-32601));
               ("message", VStr "Method not found");
               ("data", VObj [("available_methods", VArr (map VStr available_methods))])])).

(** The body of the outer [try], after the parse.  The first line written
    to the log reads [request.method]. *)
Definition route (request : value) : M Response :=
  method <- lift (get_prop request "method") ;;
  if is_str method "getModels" then
    ret (ok (jsonrpc_result (dot request "id") models_result))
  else if is_str method "connectMCPServer" then
    ret (ok (jsonrpc_result (dot request "id") connect_result))
  else if is_str method "initialize" then
    ret (ok (jsonrpc_result (dot request "id") SERVER_INFO))
  else if is_str method "tools/list" then
    ret (ok (jsonrpc_result (dot request "id") (VObj [("tools", tools_value TOOLS)])))
  else if is_str method "tools/call" then tools_call request
  else if is_str method "tools/describe" then tools_describe request
  else if is_str method "server/info" then
    ret (ok (jsonrpc_result (dot request "id") SERVER_INFO))
  else if is_str method "health" then
    ret (ok (jsonrpc_result (dot request "id") health_result))
  else ret (method_not_found request).

Definition catch_all (data : value) : Response :=
  ok (jsonrpc_error VNull
        (VObj [("code", VNum (-32700));
               ("message", VStr "Parse error or internal error");
               ("data", data)])).

(** [headers] is the member of the event that the first line written to
    the log reads, before anything else and outside the [try]. *)
Definition handler (headers : value) (event : Event) : M Response :=
  host <- lift (get_prop headers "host") ;;
  path <- lift (get_prop (requestContext event) "path") ;;
  userAgent <- lift (get_prop headers "user-agent") ;;
  if String.eqb (httpMethod event) "OPTIONS" then ret (mkResp 200 NoBody)
  else if negb (String.eqb (httpMethod event) "POST") then
    ret (json_response 405
           (jsonrpc_error VNull
              (VObj [("code", VNum (-32600)); ("message", VStr "Method not allowed")])))
  else
    try_catch
      (request <- lift (JSON_parse (event_body event)) ;;
       route request)
      (fun error =>
         data <- lift (message_prop error) ;;
         ret (catch_all data)).

End Function.
End McpLogged.

(* ===================================================================== *)
(** * The words of the specification *)
(* ===================================================================== *)

(** The definitions of this module follow the specification, not the
    source: they say what a call is expected to put on the wire, and the
    theorems below compare the source with them. *)
Module Spec.
Import JS Url Net Client.

(** The entries with a defined (non-null, non-undefined) value. *)
Definition defined_entries (o : obj) : obj :=
  filter (fun kv => negb (is_nullish (snd kv))) o.

(** Entries as query parameters, each value as a string; the conversion of
    the first value that has no string form fails. *)
Fixpoint convert_entries (o : obj) : completion pairs :=
  match o with
  | [] => Normal []
  | (k, v) :: rest =>
      cbind (ToString v) (fun s =>
      cbind (convert_entries rest) (fun ps => Normal ((k, s) :: ps)))
  end.

(** The query string of a parameter list: nothing when the list is empty. *)
Definition query_string (ps : pairs) : string :=
  match ps with
  | [] => ""
  | _ => "?" ++ urlencoded_serialize ps
  end.

Fixpoint all_chars (f : ascii -> bool) (s : string) : bool :=
  match s with
  | EmptyString => true
  | String c rest => f c && all_chars f rest
  end.

(** A path without query or fragment delimiter. *)
Definition path_only (s : string) : bool := all_chars (fun c => negb (path_end c)) s.

(** A path segment of letters, digits, [-], [_], [.] and [~] that is no dot
    segment: the URL parser leaves such a segment as it is. *)
Definition segment_char (c : ascii) : bool :=
  is_alnum c || is_code 45 c || is_code 95 c || is_code 46 c || is_code 126 c.

Definition plain_segment (s : string) : bool :=
  all_chars segment_char s && negb (String.eqb s ".") && negb (String.eqb s "..").

(** Appending a list of pairs to the parameters of a URL in one step. *)
Definition append_pairs (ps : pairs) (u : URL) : URL :=
  match ps with
  | [] => u
  | _ =>
      let all := (searchParams u ++ ps)%list in
      mkURL (origin u) (pathname u) (Some (urlencoded_serialize all)) all (hash u)
  end.

(** The routing rules of the tools that take the mint address as a path
    segment and forward the rest: tool, path before and after the segment. *)
Definition by_mint_routes : list (string * (string * string)) :=
  [ ("get_trades_by_mint", ("/api/v1/trades/by-mint/", ""));
    ("get_forecast_percentile_history_by_mint",
       ("/api/v1/event/by-mint/", "/forecast_percentile_history"));
    ("get_market_candlesticks_by_mint", ("/api/v1/market/by-mint/", "/candlesticks"));
    ("get_live_data_by_mint", ("/api/v1/live_data/by-mint/", "")) ].

(** The tools of the five-tool variants. *)
Definition five_tool_names : list string :=
  ["get_events"; "get_markets"; "get_trades"; "get_market_by_mint"; "get_live_data"].

(** The name a [tools/call] request asks for. *)
Definition requested_tool (o : obj) : value := dot (prop o "params") "name".

(** The code of the JSON-RPC error a response carries. *)
Definition error_code (r : Http.Response) : value :=
  dot (Http.body_field r "error") "code".

(** A JSON-RPC error envelope for an unreadable request: version, a null
    id and the code of a parse error. *)
Definition parse_error_envelope (r : Http.Response) : Prop :=
  Http.body_field r "jsonrpc" = VStr "2.0"
  /\ Http.body_field r "id" = VNull
  /\ error_code r = VNum (-32700).

(** The method-not-found answer without data, of the plain variants. *)
Definition plain_method_not_found (id : value) : Http.Response :=
  Http.json_response 200
    (Http.jsonrpc_error id
       (VObj [("code", VNum (-32601)); ("message", VStr "Method not found")])).

(** The response of a catch-all handler: an error with a null id. *)
Definition catch_all_response (r : Http.Response) : Prop :=
  Http.body_field r "id" = VNull
  /\ (error_code r = VNum (-32700) \/ error_code r = VNum (-32603)).

(** A computation that, in a given world, ends with a JSON value or with
    an exception, never hanging. *)
Definition settles_json (w : world) (m : M value) : Prop :=
  forall log,
    match fst (m w log) with
    | Normal v => is_json v = true
    | Throw _ => True
    | Hang => False
    end.

(** A response that echoes the id of a request, or comes from a catch-all. *)
Definition echoes_id (o : obj) (r : Http.Response) : Prop :=
  Http.body_field r "id" = prop o "id" \/ catch_all_response r.

(** Every response a computation can return has a property. *)
Definition answers_with {A} (P : A -> Prop) (m : M A) : Prop :=
  forall w log r log', m w log = (Normal r, log') -> P r.

(** Everything a computation can throw in a world has a property. *)
Definition throws_only {A} (P : thrown -> Prop) (w : world) (m : M A) : Prop :=
  forall log t log', m w log = (Throw t, log') -> P t.

(** A thrown value whose [message] can be read: an [Error], or a
    primitive other than [undefined] and [null]. *)
Definition has_message (t : thrown) : Prop := exists v, message_prop t = Normal v.

(** A world whose failures, of a call or of the reading of a body, are
    thrown values with a message, as those of [fetch] are. *)
Definition errors_have_message (w : world) : Prop :=
  forall c t s, w c = Settles t s ->
    match s with
    | Rejects e => has_message e
    | Responds r =>
        (forall e, resp_text r = Throw e -> has_message e)
        /\ (forall e, resp_json r = Throw e -> has_message e)
    end.

(** A value [String] converts. *)
Definition converts (v : value) : Prop := exists s, ToString v = Normal s.

(** The methods for which a variant reads the parameters of the request. *)
Definition param_methods (v : Variants.variant) : list string :=
  match v with
  | Variants.DenoServer | Variants.ApiMcpFunction => ["tools.call"; "tools/call"]
  | Variants.McpFunction => ["tools/call"; "tools/describe"]
  | Variants.McpApiFunction => ["tools/call"]
  | Variants.BunWebServer => ["tools.call"]
  | _ => []
  end.

(** A request that has parameters when its method is one for which the
    variant reads them. *)
Definition params_in_reach (v : Variants.variant) (o : obj) : Prop :=
  forall n, In n (param_methods v) -> is_str (prop o "method") n = true ->
            is_nullish (prop o "params") = false.

(** A world whose responses can be read to the end, with a JSON value as
    the JSON they carry. *)
Definition readable (r : response) : Prop :=
  resp_text r <> Hang /\
  resp_json r <> Hang /\
  (forall v, resp_json r = Normal v -> is_json v = true).

Definition responsive (w : world) : Prop :=
  forall c t r, w c = Settles t (Responds r) -> readable r.

End Spec.

(* ===================================================================== *)
(** * Sample worlds and inputs *)
(* ===================================================================== *)

Module Examples.
Import JS Url Net Client.

(** An upstream that never answers. *)
Definition never : world := fun _ => Never.

(** An upstream that cannot be reached. *)
Definition unreachable : world :=
  fun _ => Settles 5 (Rejects (ThrowError (TypeError "fetch failed"))).

(** An upstream that answers every call after 10 ms with status 200 and
    the given JSON. *)
Definition ok_response (v : value) : response := mkResponse 200 (Normal "") (Normal v).
Definition answers (v : value) : world := fun _ => Settles 10 (Responds (ok_response v)).

Definition sample_event : value := VObj [("ticker", VStr "US-PRESIDENT-2024")].

(** An upstream that sends the head of its response after 10 ms, with
    status 200, and never ends the body. *)
Definition stalls : world :=
  fun _ => Settles 10 (Responds (mkResponse 200 Hang Hang)).

(** A JSON text, written with an apostrophe for each quotation mark. *)
Fixpoint json_text (s : string) : string :=
  match s with
  | EmptyString => EmptyString
  | String c rest =>
      String (if Ascii.eqb c "'"%char then ascii_of_N 34 else c) (json_text rest)
  end.

(** An event as the upstream may describe it: nested objects and lists,
    empty ones, a number, a boolean, [null], and a string that holds
    quotation marks. *)
Definition nested_event : value :=
  VObj [("ticker", VStr "US-PRESIDENT-2024");
        ("title", VStr (json_text "Who wins '2024'?"));
        ("markets", VArr [VObj [("yes", VNum 52); ("open", VBool true)]; VObj []]);
        ("winner", VNull);
        ("tags", VArr [])].

(** Its text as [JSON.stringify(event, null, 2)] prints it. *)
Definition nested_event_text : string :=
  json_text "{
  'ticker': 'US-PRESIDENT-2024',
  'title': 'Who wins \'2024\'?',
  'markets': [
    {
      'yes': 52,
      'open': true
    },
    {}
  ],
  'winner': null,
  'tags': []
}".

(** A [tools/call] request of JSON-RPC, and the event that posts a request
    to a serverless function. *)
Definition tools_call_request (id : value) (name : string) (arguments : value) : value :=
  VObj [("jsonrpc", VStr "2.0"); ("id", id); ("method", VStr "tools/call");
        ("params", VObj [("name", VStr name); ("arguments", arguments)])].

Definition post_event (request : value) : Http.Event :=
  Http.mkEvent "POST" (VObj [("path", VStr "/api/mcp")]) (Http.Parsed request).

(** The error class as recent versions of the SDK define it. *)
Definition sdk_error (code : Z) (message : string) : js_error :=
  mkError "McpError" ("MCP error " ++ string_of_Z code ++ ": " ++ message).

End Examples.

(* ===================================================================== *)
(** * Notions for the properties of the code *)
(* ===================================================================== *)

(** What the theorems of the last part are stated with: conditions on
    arguments and worlds, shapes of requests and responses, and tables of
    the routes a theorem ranges over.  Nothing here is code of the
    repository. *)
Module Notions.
Import JS Url Net Client Http Spec.

(** ** Query strings *)

(** The bytes that delimit the pieces of a query and the fragment. *)
Definition no_delimiter (c : ascii) : bool :=
  negb (is_code 38 c) && negb (is_code 61 c) && negb (is_code 35 c).

(** What the serializer writes for a pair. *)
Definition written (kv : string * string) : string :=
  form_encode (fst kv) ++ "=" ++ form_encode (snd kv).

(** ** Base URLs *)

(** A scheme and an authority that make an origin. *)
Definition is_origin (scheme authority : string) : bool :=
  (String.eqb scheme "https" || String.eqb scheme "http")
  && all_chars (fun c => negb (authority_end c)) authority
  && negb (String.eqb authority "").

(** A path the URL parser leaves as it is: letters, digits, [-], [_] and
    [/] only, so nothing to percent-encode and no dot segment. *)
Definition plain_path (s : string) : bool :=
  all_chars (fun c => is_alnum c || is_code 45 c || is_code 95 c || is_code 47 c) s.

(** The path of a base URL: none, or a plain path from the root. *)
Definition is_path_prefix (prefix : string) : bool :=
  plain_path prefix && (String.eqb prefix "" || starts_with "/" prefix).

(** ** Arguments *)

(** A value [String] converts. *)
Definition convertible (v : value) : bool :=
  match ToString v with
  | Normal _ => true
  | _ => false
  end.

Definition all_convertible (o : obj) : bool := forallb (fun kv => convertible (snd kv)) o.

(** The tools of the stdio server that take one argument as a path
    segment: the tool, the key of the argument, the path before and after
    the segment, and whether the remaining arguments are forwarded as query
    parameters. *)
Definition path_argument_routes : list (string * (string * (string * (string * bool)))) :=
  [ ("get_market", ("market_id", ("/api/v1/market/", ("", false))));
    ("get_market_by_mint", ("mint_address", ("/api/v1/market/by-mint/", ("", false))));
    ("get_series_by_ticker", ("series_ticker", ("/api/v1/series/", ("", false))));
    ("get_trades_by_mint", ("mint_address", ("/api/v1/trades/by-mint/", ("", true))));
    ("get_forecast_percentile_history_by_mint",
       ("mint_address", ("/api/v1/event/by-mint/", ("/forecast_percentile_history", true))));
    ("get_event_candlesticks", ("ticker", ("/api/v1/event/", ("/candlesticks", true))));
    ("get_market_candlesticks", ("ticker", ("/api/v1/market/", ("/candlesticks", true))));
    ("get_market_candlesticks_by_mint",
       ("mint_address", ("/api/v1/market/by-mint/", ("/candlesticks", true))));
    ("get_live_data_by_event", ("event_ticker", ("/api/v1/live_data/by-event/", ("", true))));
    ("get_live_data_by_mint", ("mint_address", ("/api/v1/live_data/by-mint/", ("", true)))) ].

(** The resources read from the upstream, with the path of each. *)
Definition resource_routes : list (string * string) :=
  [ ("dflow://api/events", "/api/v1/events");
    ("dflow://api/markets", "/api/v1/markets") ].

(** The tools of the five-tool variants, from their switch. *)
Definition five_tools : list string := map fst (five_tool_cases VUndefined).

(** ** Worlds and calls *)

(** An upstream that answers every call after 10 ms with a status and a
    text that is no JSON. *)
Definition refuses (status : Z) (text : string) : world :=
  fun _ =>
    Settles 10
      (Responds (mkResponse status (Normal text)
                   (Throw (ThrowError (mkError "SyntaxError" "Unexpected token"))))).

(** A computation that is one request of a client, of a path under
    [/api/v1/]. *)
Definition one_request (c : DFlowAPIClient) (m : M value) : Prop :=
  exists method path body,
    (method = "GET" \/ method = "POST")
    /\ starts_with "/api/v1/" path = true
    /\ forall w log, m w log = request c method path body w log.

(** A computation that issues no outbound call. *)
Definition quiet {A} (m : M A) : Prop := forall w log, snd (m w log) = log.

(** A computation that issues exactly one outbound call. *)
Definition calls_once {A} (call : fetch_call) (m : M A) : Prop :=
  forall w log, snd (m w log) = (log ++ [call])%list.

(** A call of the serverless client as the handlers issue it: a [GET]
    without a body, of a URL of the upstream. *)
Definition upstream_get (call : fetch_call) : Prop :=
  fc_method call = "GET"
  /\ fc_body call = None
  /\ starts_with (SERVERLESS_BASE_URL ++ "/") (fc_url call) = true.

(** A computation that issues no outbound call, or one, an [upstream_get]. *)
Definition at_most_one_get {A} (m : M A) : Prop :=
  forall w log,
    snd (m w log) = log
    \/ exists call, upstream_get call /\ snd (m w log) = (log ++ [call])%list.

(** What [apiRequest] does with the response of its call. *)
Definition read_response (response : response) : M value :=
  if negb (resp_ok response) then
    bind (lift (resp_text response)) (fun text => throw_error (http_error response text))
  else lift (resp_json response).

(** ** Requests *)

(** A [tools/call] request for a tool, with the arguments the handler
    works on: those given, or the empty object. *)
Definition calls_tool (o : obj) (name : string) (a : obj) : Prop :=
  prop o "method" = VStr "tools/call"
  /\ exists p, prop o "params" = VObj p
               /\ prop p "name" = VStr name
               /\ or_else (prop p "arguments") (VObj []) = VObj a.

(** A [tools/call] request of JSON-RPC 2.0 for a tool, with the arguments
    as they come. *)
Definition calls_tool_with (o : obj) (name : string) (args : value) : Prop :=
  prop o "jsonrpc" = VStr "2.0"
  /\ prop o "method" = VStr "tools/call"
  /\ exists p, prop o "params" = VObj p
               /\ prop p "name" = VStr name
               /\ prop p "arguments" = args.

(** A [tools/describe] request for a name. *)
Definition describes (o : obj) (name : string) : Prop :=
  prop o "method" = VStr "tools/describe"
  /\ exists p, prop o "params" = VObj p /\ prop p "name" = VStr name.

(** The methods the two editions of the function [mcp] answer alike. *)
Definition shared_methods : list string :=
  ["getModels"; "initialize"; "tools/list"; "tools/call"; "tools/describe"; "server/info"].

(** A body that is no JSON, that parses to [null], or that asks for one
    of these methods. *)
Definition asks_shared (b : inbound) : Prop :=
  match b with
  | Malformed _ => True
  | Parsed request =>
      request = VNull \/ exists m, In m shared_methods /\ dot request "method" = VStr m
  end.

(** The names every object answers to, through [Object.prototype]. *)
Definition Object_prototype_names : list string :=
  [ "constructor"; "__defineGetter__"; "__defineSetter__"; "hasOwnProperty";
    "__lookupGetter__"; "__lookupSetter__"; "isPrototypeOf"; "propertyIsEnumerable";
    "toString"; "valueOf"; "__proto__"; "toLocaleString" ].

(** A body whose method, as a key, is none of these names: looked up in a
    table of handlers, it finds a handler of the table or nothing. *)
Definition names_no_inherited (b : inbound) : Prop :=
  match b with
  | Malformed _ => True
  | Parsed v =>
      forall s, ToString (dot v "method") = Normal s -> ~ In s Object_prototype_names
  end.

(** A body whose method is [tools/call]. *)
Definition is_tools_call (b : inbound) : bool :=
  match b with
  | Parsed v => is_str (dot v "method") "tools/call"
  | Malformed _ => false
  end.

(** ** Results and responses *)

(** The error result of the stdio handler with a text. *)
Definition error_text_result (text : string) : value :=
  VObj [("content", VArr [VObj [("type", VStr "text"); ("text", VStr text)]]);
        ("isError", VBool true)].

(** The values under a key in the elements of a listing: the names of the
    tools or prompts listed, the URIs of the resources. *)
Definition listed (listing : value) (collection key : string) : list value :=
  match dot listing collection with
  | VArr l => map (fun x => dot x key) l
  | _ => []
  end.

(** A JSON-RPC envelope as the handlers build it: version, id, and either
    a result or an error with a numeric code.  (In the text of the body a
    member whose value is [undefined] is left out.) *)
Definition is_envelope (v : value) : Prop :=
  exists id,
    (exists result, v = jsonrpc_result id result)
    \/ (exists error code, v = jsonrpc_error id error /\ dot error "code" = VNum code).

Definition envelope (r : Response) : Prop :=
  exists v, body r = Json v /\ is_envelope v.

(** A response of the Claude Desktop dialect: an object with the flag
    [success], which is off when the status is not 200. *)
Definition has_success_flag (v : value) : Prop :=
  exists flag, dot v "success" = VBool flag.

Definition dialect_response (r : Response) : Prop :=
  exists v flag,
    body r = Json v /\ dot v "success" = VBool flag
    /\ (statusCode r <> 200 -> flag = false).

(** ** Event streams *)

(** A text without line feed and carriage return. *)
Definition line_break (c : ascii) : bool := is_code 10 c || is_code 13 c.

Definition single_line (s : string) : bool := all_chars (fun c => negb (line_break c)) s.

(** The compact form of an array or an object, from the texts of its parts. *)
Definition compact_wrap (opening closing : string) (parts : list string) : string :=
  match parts with
  | [] => opening ++ closing
  | _ => opening ++ String.concat "," parts ++ closing
  end.

(** The lines of a text, split at its line feeds. *)
Definition lines (s : string) : list string := split_on 10 s.

(** The lines of one event of a stream with an id. *)
Definition event_lines (id : string) (event : string * value) : list string :=
  [ "id: " ++ id; "event: " ++ fst event; "data: " ++ V2Sse.stringified (snd event); "" ].

End Notions.

(* ===================================================================== *)
(** * Proofs *)
(* ===================================================================== *)

Import JS Url Net Client Spec Stdio Examples Http Variants.
Local Open Scope js_scope.

(** ** Strings and URLs *)

Lemma append_empty_r (x : string) : x ++ "" = x.
Proof. induction x as [| c x' IH]; cbn; [reflexivity | now rewrite IH]. Qed.

Lemma append_assoc (x y z : string) : (x ++ y) ++ z = x ++ (y ++ z).
Proof. induction x as [| c x' IH]; cbn; [reflexivity | now rewrite IH]. Qed.

(** Scanning over a prefix without stop character. *)
Lemma take_until_all stop a rest :
  all_chars (fun c => negb (stop c)) a = true ->
  take_until stop (a ++ rest)
  = (a ++ fst (take_until stop rest), snd (take_until stop rest)).
Proof.
  induction a as [| c a' IH]; cbn [all_chars take_until append].
  - intros _. destruct (take_until stop rest). reflexivity.
  - intros H. apply andb_true_iff in H. destruct H as [Hc Hr].
    apply negb_true_iff in Hc. rewrite Hc. rewrite (IH Hr). reflexivity.
Qed.

Lemma take_until_at stop a c rest :
  all_chars (fun c => negb (stop c)) a = true -> stop c = true ->
  take_until stop (a ++ String c rest) = (a, String c rest).
Proof.
  intros Ha Hc. rewrite (take_until_all _ _ _ Ha).
  cbn [take_until]. rewrite Hc. cbn [fst snd]. now rewrite append_empty_r.
Qed.

Lemma take_until_path_only s :
  path_only s = true -> take_until path_end s = (s, EmptyString).
Proof.
  intros H. unfold path_only in H.
  pose proof (take_until_all path_end s EmptyString H) as E.
  cbn [take_until fst snd] in E.
  rewrite !append_empty_r in E. exact E.
Qed.

Lemma all_chars_app f a b :
  all_chars f (a ++ b) = all_chars f a && all_chars f b.
Proof.
  induction a as [| c rest IH]; cbn [all_chars append].
  - reflexivity.
  - rewrite IH. apply andb_assoc.
Qed.

Lemma all_chars_weaken (f g : ascii -> bool) s :
  (forall c, f c = true -> g c = true) -> all_chars f s = true -> all_chars g s = true.
Proof.
  intros Hfg. induction s as [| c rest IH]; cbn [all_chars].
  - reflexivity.
  - intros H. apply andb_true_iff in H. destruct H as [Hc Hr].
    rewrite (Hfg _ Hc), (IH Hr). reflexivity.
Qed.

Lemma segment_char_no_delimiter c : segment_char c = true -> negb (path_end c) = true.
Proof.
  unfold segment_char, is_alnum, in_range, path_end, is_code.
  intros Hc.
  destruct (N_of_ascii c =? 63)%N eqn:E1.
  - apply N.eqb_eq in E1. rewrite E1 in Hc. discriminate.
  - destruct (N_of_ascii c =? 35)%N eqn:E2.
    + apply N.eqb_eq in E2. rewrite E2 in Hc. discriminate.
    + reflexivity.
Qed.

(** A plain segment has no query or fragment delimiter. *)
Lemma plain_segment_path_only s : plain_segment s = true -> path_only s = true.
Proof.
  unfold plain_segment. intros H.
  apply andb_true_iff in H. destruct H as [H _].
  apply andb_true_iff in H. destruct H as [H _].
  unfold path_only.
  exact (all_chars_weaken _ _ s segment_char_no_delimiter H).
Qed.

Lemma path_only_app a b :
  path_only a = true -> path_only b = true -> path_only (a ++ b) = true.
Proof.
  unfold path_only. intros Ha Hb. rewrite all_chars_app, Ha, Hb. reflexivity.
Qed.

(** The parse of scheme, authority and tail. *)
Lemma new_URL_parts scheme authority c tail :
  (String.eqb scheme "https" || String.eqb scheme "http") = true ->
  all_chars (fun c => negb (is_code 58 c)) scheme = true ->
  all_chars (fun c => negb (authority_end c)) authority = true ->
  String.eqb authority "" = false ->
  authority_end c = true ->
  new_URL (scheme ++ String ":" (String "/" (String "/" (authority ++ String c tail))))
  = Normal (parse_tail (scheme ++ "://" ++ authority) (String c tail)).
Proof.
  intros Hs Hsc Ha Hne Hc. unfold new_URL.
  rewrite (take_until_at (is_code 58) scheme ":" _ Hsc eq_refl).
  rewrite Hs. cbn [negb].
  assert (P : forall x, starts_with "://" (String ":" (String "/" (String "/" x))) = true)
    by reflexivity.
  rewrite P. cbn [negb drop_first].
  rewrite (take_until_at authority_end authority c tail Ha Hc).
  rewrite Hne. reflexivity.
Qed.

Lemma new_URL_default_base p :
  path_only p = true ->
  new_URL (BASE_URL ++ String "/" p)
  = Normal (mkURL BASE_URL (String "/" p) None [] EmptyString).
Proof.
  intros H.
  assert (Hp : path_only (String "/" p) = true) by exact H.
  change (BASE_URL ++ String "/" p)
    with ("https" ++ String ":" (String "/" (String "/"
            ("prediction-markets-api.dflow.net" ++ String "/" p)))).
  rewrite new_URL_parts by reflexivity.
  unfold parse_tail.
  rewrite (take_until_path_only _ Hp). reflexivity.
Qed.

Lemma new_URL_no_hang s : new_URL s <> Hang.
Proof.
  unfold new_URL.
  destruct (take_until (is_code 58) s) as [scheme r0].
  destruct (negb _); [discriminate |].
  destruct (negb _); [discriminate |].
  destruct (take_until authority_end _) as [authority tail].
  destruct (String.eqb authority ""); discriminate.
Qed.

(** The serialization of a list with a pair is not empty. *)
Lemma serialize_nonempty p ps : String.eqb (urlencoded_serialize (p :: ps)) "" = false.
Proof.
  unfold urlencoded_serialize. cbn [map String.concat].
  assert (G : forall a b, String.eqb (a ++ String "=" b) "" = false).
  { intros a b. destruct a; reflexivity. }
  destruct (map _ ps).
  - apply G.
  - rewrite append_assoc. apply G.
Qed.


(** ** Conversions *)

(** Induction over values, through the lists of arrays and objects. *)
Section ValueInduction.
Variable P : value -> Prop.
Hypothesis Hundef : P VUndefined.
Hypothesis Hnull : P VNull.
Hypothesis Hbool : forall b, P (VBool b).
Hypothesis Hnum : forall z, P (VNum z).
Hypothesis Hstr : forall s, P (VStr s).
Hypothesis Harr : forall l, Forall P l -> P (VArr l).
Hypothesis Hobj : forall o, Forall (fun kv => P (snd kv)) o -> P (VObj o).

Fixpoint value_induction (v : value) : P v :=
  match v with
  | VUndefined => Hundef
  | VNull => Hnull
  | VBool b => Hbool b
  | VNum z => Hnum z
  | VStr s => Hstr s
  | VArr l =>
      Harr l ((fix go (l : list value) : Forall P l :=
                 match l with
                 | [] => Forall_nil _
                 | x :: rest => Forall_cons _ (value_induction x) (go rest)
                 end) l)
  | VObj o =>
      Hobj o ((fix go (o : list (string * value)) : Forall (fun kv => P (snd kv)) o :=
                 match o with
                 | [] => Forall_nil _
                 | (k, x) :: rest =>
                     Forall_cons (k, x) (value_induction x) (go rest)
                 end) o)
  end.
End ValueInduction.

(** A conversion to string ends: with a string, or with the type error. *)
Lemma ToString_cases v :
  (exists s, ToString v = Normal s) \/ ToString v = Throw (ThrowError cannot_convert).
Proof.
  induction v as [| | b | z | s | l IH | o IH] using value_induction.
  - left; eexists; reflexivity.
  - left; eexists; reflexivity.
  - left; destruct b; eexists; reflexivity.
  - left; eexists; reflexivity.
  - left; eexists; reflexivity.
  - cbn [ToString].
    assert (E : (exists parts,
                   (fix each (l : list value) : completion (list string) :=
                      match l with
                      | [] => Normal []
                      | x :: rest =>
                          cbind (if is_nullish x then Normal "" else ToString x) (fun sx =>
                          cbind (each rest) (fun sr => Normal (sx :: sr)))
                      end) l = Normal parts)
                \/ (fix each (l : list value) : completion (list string) :=
                      match l with
                      | [] => Normal []
                      | x :: rest =>
                          cbind (if is_nullish x then Normal "" else ToString x) (fun sx =>
                          cbind (each rest) (fun sr => Normal (sx :: sr)))
                      end) l = Throw (ThrowError cannot_convert)).
    { induction IH as [| x rest Hx _ IHrest].
      - left; eexists; reflexivity.
      - cbn -[ToString]. destruct (is_nullish x).
        + cbn [cbind]. destruct IHrest as [[sr ->] | ->]; cbn [cbind].
          * left; eexists; reflexivity.
          * right; reflexivity.
        + destruct Hx as [[sx ->] | ->]; cbn [cbind].
          * destruct IHrest as [[sr ->] | ->]; cbn [cbind].
            -- left; eexists; reflexivity.
            -- right; reflexivity.
          * right; reflexivity. }
    destruct E as [[parts ->] | ->]; cbn [cbind].
    + left; eexists; reflexivity.
    + right; reflexivity.
  - cbn [ToString]. destruct (has_key "toString" o).
    + right; reflexivity.
    + left; eexists; reflexivity.
Qed.

(** A JSON value serializes to text. *)
Lemma serialize_json gap indent v :
  is_json v = true -> exists s, serialize gap indent v = Some s.
Proof.
  destruct v as [| | [|] | z | s | l | o]; cbn [is_json]; intros H;
    try discriminate; eexists; reflexivity.
Qed.

(** The rest of an object pattern has none of the keys taken out. *)
Lemma omit_keys ks o k : In k ks -> ~ In k (map fst (omit ks o)).
Proof.
  intros Hk. unfold omit. induction o as [| [k' v] rest IH]; cbn [filter map fst].
  - intros [].
  - destruct (existsb (String.eqb k') ks) eqn:E; cbn [negb].
    + exact IH.
    + cbn [map fst]. intros [H | H]; [| exact (IH H)].
      subst k'. assert (existsb (String.eqb k) ks = true).
      { apply existsb_exists. exists k. split; [exact Hk | apply String.eqb_refl]. }
      congruence.
Qed.

(** An object with one key leaves an empty rest when the key is taken. *)
Lemma omit_only k o :
  (forall k', k' <> k -> lookup k' o = None) -> omit [k] o = [].
Proof.
  intros H. unfold omit. induction o as [| [k' v] rest IH]; cbn [filter existsb fst].
  - reflexivity.
  - destruct (String.eqb_spec k' k) as [-> | Hne].
    + cbn. apply IH. intros k' Hk'. specialize (H k' Hk'). cbn [lookup] in H.
      destruct (String.eqb_spec k' k); [contradiction | exact H].
    + specialize (H k' Hne). cbn [lookup] in H. rewrite String.eqb_refl in H. discriminate.
Qed.

Lemma defined_entries_keys o k : In k (map fst (defined_entries o)) -> In k (map fst o).
Proof.
  unfold defined_entries. induction o as [| [k' v] rest IH]; cbn [filter map fst snd].
  - intros [].
  - destruct (negb (is_nullish v)); cbn [map fst In]; intros H.
    + destruct H as [H | H]; [left; exact H | right; exact (IH H)].
    + right. exact (IH H).
Qed.

(** The conversion keeps the keys, in order. *)
Lemma convert_entries_keys o ps :
  convert_entries o = Normal ps -> map fst ps = map fst o.
Proof.
  revert ps. induction o as [| [k v] rest IH]; intros ps; cbn [convert_entries].
  - intros H. inversion H. reflexivity.
  - destruct (ToString v); cbn [cbind]; try discriminate.
    destruct (convert_entries rest); cbn [cbind]; try discriminate.
    intros H. inversion H. cbn. f_equal. apply IH. reflexivity.
Qed.


(** ** The effect monad *)

(** Binding a computation without effects. *)
Lemma bind_lift {A B} (c : completion A) (k : A -> M B) w log :
  bind (lift c) k w log =
  match c with
  | Normal a => k a w log
  | Throw t => (Throw t, log)
  | Hang => (Hang, log)
  end.
Proof. unfold bind, lift. destruct c; reflexivity. Qed.

(** The calls a handler issued are those of its dispatch. *)
Lemma try_ret_log {A} (m : M value) (f : value -> A) (g : thrown -> A) w log :
  snd (try_catch (bind m (fun x => ret (f x))) (fun e => ret (g e)) w log) = snd (m w log).
Proof.
  unfold try_catch, bind, ret. destruct (m w log) as [[v | t |] log']; reflexivity.
Qed.

Lemma settles_bind_lift {A} w (c : completion A) (k : A -> M value) :
  c <> Hang -> (forall a, settles_json w (k a)) -> settles_json w (bind (lift c) k).
Proof.
  intros Hc Hk log. rewrite bind_lift. destruct c as [a | t |].
  - apply Hk.
  - exact I.
  - congruence.
Qed.

(** Rules to establish a property of every response a handler returns,
    following the structure of the handler. *)
Section AnswersWith.
Context {A : Type} (P : A -> Prop).

Lemma answers_ret a : P a -> answers_with P (ret a).
Proof. intros H w log r log' E. inversion E; subst. exact H. Qed.

Lemma answers_throw t : answers_with P (throw t).
Proof. intros w log r log' E. discriminate E. Qed.

Lemma answers_bind {B} (m : M B) (k : B -> M A) :
  (forall b, answers_with P (k b)) -> answers_with P (bind m k).
Proof.
  intros H w log r log' E. unfold bind in E.
  destruct (m w log) as [[b | t |] l]; try discriminate E.
  exact (H b w l r log' E).
Qed.

Lemma answers_bind_with {B} (Q : B -> Prop) (m : M B) (k : B -> M A) :
  answers_with Q m -> (forall b, Q b -> answers_with P (k b)) ->
  answers_with P (bind m k).
Proof.
  intros Hm H w log r log' E. unfold bind in E.
  destruct (m w log) as [[b | t |] l] eqn:Em; try discriminate E.
  exact (H b (Hm w log b l Em) w l r log' E).
Qed.

Lemma answers_try (body : M A) (handler : thrown -> M A) :
  answers_with P body -> (forall t, answers_with P (handler t)) ->
  answers_with P (try_catch body handler).
Proof.
  intros Hb Hh w log r log' E. unfold try_catch in E.
  destruct (body w log) as [[a | t |] l] eqn:Eb; try discriminate E.
  - inversion E; subst. exact (Hb w log r log' Eb).
  - exact (Hh t w l r log' E).
Qed.
End AnswersWith.

Ltac answers :=
  repeat first
    [ apply answers_ret
    | apply answers_throw
    | apply answers_bind; intros
    | apply answers_try; [| intros]
    | match goal with
      | |- answers_with _ (if ?c then _ else _) => destruct c
      | |- answers_with _ (let (_, _) := ?p in _) => destruct p
      | |- answers_with _ (match ?x with _ => _ end) => destruct x
      end ].

Ltac echo := first [ left; reflexivity | right; split; [reflexivity | cbn; auto] ].


(** ** The timeout of [request] *)

(** The log of [request] is one call longer, whatever the upstream does. *)
Lemma request_log c method path body w log :
  snd (request c method path body w log)
  = (log ++ [mkCall method (makeUrl c path) body])%list.
Proof.
  unfold request, try_catch, request_try, request_catch, bind, fetch_with_signal.
  destruct (w _) as [t [r | e] | ]; cbn [completes_within settled].
  - destruct (t <=? timer_delay (timeout c))%N.
    + destruct (negb (resp_ok r)).
      * unfold lift, throw_error, throw.
        destruct (resp_text r); cbn; try reflexivity.
        all: match goal with |- context [is_abort ?x] => destruct (is_abort x) end;
          reflexivity.
      * unfold lift. destruct (resp_json r); cbn; try reflexivity.
        destruct (is_abort t0); reflexivity.
    + reflexivity.
  - destruct (t <=? timer_delay (timeout c))%N; cbn; [destruct (is_abort e) |]; reflexivity.
  - reflexivity.
Qed.

(** The timer never waits longer than the timeout it is given, and waits
    exactly that long when the timeout fits. *)
Lemma timer_delay_fits timeout : (timeout <= MAX_DELAY)%N -> timer_delay timeout = timeout.
Proof.
  intros H. unfold timer_delay.
  destruct (N.ltb_spec MAX_DELAY timeout); [lia | reflexivity].
Qed.

Lemma timer_delay_overflow timeout : (MAX_DELAY < timeout)%N -> timer_delay timeout = 1%N.
Proof.
  intros H. unfold timer_delay.
  destruct (N.ltb_spec MAX_DELAY timeout); [reflexivity | lia].
Qed.

Lemma completes_within_delay timeout b :
  completes_within timeout b = false -> completes_within (timer_delay timeout) b = false.
Proof.
  destruct b as [t s |]; cbn [completes_within]; [| reflexivity].
  intros H. apply N.leb_gt in H. apply N.leb_gt.
  unfold timer_delay, MAX_DELAY in *. destruct (N.ltb_spec 2147483647 timeout); lia.
Qed.

(** A call that does not settle in time ends in the timeout error. *)
Lemma request_times_out c method path body w log :
  completes_within (timeout c) (w (mkCall method (makeUrl c path) body)) = false ->
  request c method path body w log
  = (Throw (ThrowError (Error "Request timeout")),
     (log ++ [mkCall method (makeUrl c path) body])%list).
Proof.
  intros H. apply completes_within_delay in H.
  unfold request, try_catch, request_try, bind, fetch_with_signal.
  destruct (w _) as [t s | ]; [rewrite H |]; reflexivity.
Qed.

(** Whatever else the attempt throws leaves [request] as it is. *)
Lemma request_rethrows c method path body w log t log' :
  request_try c method path body w log = (Throw t, log') ->
  is_abort t = false ->
  request c method path body w log = (Throw t, log').
Proof.
  intros H Hab. unfold request, try_catch. rewrite H.
  unfold request_catch. rewrite Hab. reflexivity.
Qed.

(** A timely answer with a success status gives its JSON. *)
Lemma request_success c method path body w log t r v :
  w (mkCall method (makeUrl c path) body) = Settles t (Responds r) ->
  (t <=? timer_delay (timeout c))%N = true ->
  resp_ok r = true ->
  resp_json r = Normal v ->
  request c method path body w log
  = (Normal v, (log ++ [mkCall method (makeUrl c path) body])%list).
Proof.
  intros Hw Ht Hok Hj.
  unfold request, try_catch, request_try, bind, fetch_with_signal.
  rewrite Hw. cbn [completes_within settled]. rewrite Ht, Hok. cbn [negb].
  unfold lift. rewrite Hj. reflexivity.
Qed.

(** A result of [request] is the JSON of a response. *)
Lemma request_normal c method path body w log v log' :
  request c method path body w log = (Normal v, log') ->
  exists t r, w (mkCall method (makeUrl c path) body) = Settles t (Responds r)
              /\ resp_json r = Normal v.
Proof.
  unfold request, try_catch, request_try, request_catch, bind, fetch_with_signal.
  destruct (w _) as [t [r | e] | ]; cbn [completes_within settled].
  - destruct (t <=? timer_delay (timeout c))%N.
    + destruct (negb (resp_ok r)).
      * unfold lift, throw_error, throw.
        destruct (resp_text r); cbn; try discriminate.
        all: match goal with |- context [is_abort ?x] => destruct (is_abort x) end;
          discriminate.
      * unfold lift. destruct (resp_json r) eqn:E; cbn; try discriminate.
        -- intros H. inversion H; subst. eauto.
        -- destruct (is_abort t0); discriminate.
    + discriminate.
  - destruct (t <=? timer_delay (timeout c))%N; cbn; [destruct (is_abort e) |]; discriminate.
  - discriminate.
Qed.

(** In a responsive world [request] does not hang. *)
Lemma request_no_hang c method path body w log log' :
  responsive w -> request c method path body w log <> (Hang, log').
Proof.
  intros Hw.
  unfold request, try_catch, request_try, request_catch, bind, fetch_with_signal.
  destruct (w _) as [t [r | e] | ] eqn:E; cbn [completes_within settled].
  - destruct (Hw _ _ _ E) as (Ht & Hj & _).
    destruct (t <=? timer_delay (timeout c))%N.
    + destruct (negb (resp_ok r)).
      * unfold lift, throw_error, throw.
        destruct (resp_text r); cbn; try congruence.
        all: match goal with |- context [is_abort ?x] => destruct (is_abort x) end;
          discriminate.
      * unfold lift. destruct (resp_json r); cbn; try congruence.
        destruct (is_abort t0); discriminate.
    + discriminate.
  - destruct (t <=? timer_delay (timeout c))%N; cbn; [destruct (is_abort e) |]; discriminate.
  - discriminate.
Qed.

(** In a responsive world the client settles, with JSON when it succeeds. *)
Lemma request_settles c method path body w :
  responsive w -> settles_json w (request c method path body).
Proof.
  intros Hw log.
  destruct (request c method path body w log) as [[v | t |] log'] eqn:E; cbn [fst].
  - destruct (request_normal _ _ _ _ _ _ _ _ E) as (t & r & Hc & Hj).
    destruct (Hw _ _ _ Hc) as (_ & _ & H). exact (H v Hj).
  - exact I.
  - exact (request_no_hang _ _ _ _ _ _ _ Hw E).
Qed.

(** Claim C3, where it fails.  The upstream sends the head of its response
    in time and never ends the body: the timer is cleared when the head
    arrives, the call of the default client stays pending beyond its
    timeout, and no timeout error is raised. *)
Lemma stalled_body_is_not_timed_out :
  completes_within (timeout apiClient)
    (stalls (mkCall "GET" (BASE_URL ++ "/api/v1/events") None)) = true
  /\ run (request apiClient "GET" "/api/v1/events" None) stalls
     = (Hang, [mkCall "GET" (BASE_URL ++ "/api/v1/events") None]).
Proof. split; reflexivity. Qed.

(** Claim C3, amended.  The default timeout of the client is 30000 ms.
    When the [fetch] promise of a call does not settle within the timeout of
    the client, the signal aborts it: the attempt ends in the abort error,
    and the caller of [request] receives [Error('Request timeout')] instead.
    Any other error of the attempt reaches the caller unchanged.  The
    timeout bounds nothing else: once the promise has settled with a
    success status before the timer fires, the call ends as the reading of
    the body ends, and stays pending when that never ends. *)
Theorem request_timeout_error (c : DFlowAPIClient) (method path : string)
    (body : option string) (w : world) :
  let call := mkCall method (makeUrl c path) body in
  timeout apiClient = 30000%N /\
  (completes_within (timeout c) (w call) = false ->
     run (request_try c method path body) w = (Throw (ThrowError abort_error), [call]) /\
     run (request c method path body) w
     = (Throw (ThrowError (Error "Request timeout")), [call])) /\
  (forall t log,
     run (request_try c method path body) w = (Throw t, log) ->
     is_abort t = false ->
     run (request c method path body) w = (Throw t, log)) /\
  (forall t r,
     w call = Settles t (Responds r) ->
     (t <= timeout c)%N ->
     (timeout c <= 2147483647)%N ->
     resp_ok r = true ->
     (forall v, resp_json r = Normal v ->
        run (request c method path body) w = (Normal v, [call]))
     /\ (resp_json r = Hang -> run (request c method path body) w = (Hang, [call]))).
Proof.
  cbv zeta. split; [reflexivity | split; [| split]].
  - intros H. split.
    + pose proof (completes_within_delay _ _ H) as H'.
      unfold run, request_try, bind, fetch_with_signal.
      destruct (w _) as [t s |]; [rewrite H' |]; reflexivity.
    + apply (request_times_out c method path body w []). exact H.
  - intros t log H Hab. apply request_rethrows; assumption.
  - intros t r Hw Ht Hfit Hok.
    assert (Hd : (t <=? timer_delay (timeout c))%N = true)
      by (rewrite (timer_delay_fits _ Hfit); apply N.leb_le; exact Ht).
    split.
    + intros v Hj. exact (request_success c method path body w [] t r v Hw Hd Hok Hj).
    + intros Hj. unfold run, request, try_catch, request_try, bind, fetch_with_signal.
      rewrite Hw. cbn [completes_within settled]. rewrite Hd, Hok. cbn [negb].
      unfold lift. rewrite Hj. reflexivity.
Qed.

Lemma request_timeout_error_witness :
  run (request apiClient "GET" "/api/v1/events" None) never
  = (Throw (ThrowError (Error "Request timeout")),
     [mkCall "GET" (BASE_URL ++ "/api/v1/events") None])
  /\ run (request apiClient "GET" "/api/v1/events" None) unreachable
     = (Throw (ThrowError (TypeError "fetch failed")),
        [mkCall "GET" (BASE_URL ++ "/api/v1/events") None])
  /\ run (request apiClient "GET" "/api/v1/events" None) (answers sample_event)
     = (Normal sample_event, [mkCall "GET" (BASE_URL ++ "/api/v1/events") None]).
Proof.
  split; [| split].
  - exact (proj2 (proj1 (proj2
      (request_timeout_error apiClient "GET" "/api/v1/events" None never)) eq_refl)).
  - exact (proj1 (proj2 (proj2
      (request_timeout_error apiClient "GET" "/api/v1/events" None unreachable)))
      _ _ eq_refl eq_refl).
  - refine (proj1 (proj2 (proj2 (proj2
      (request_timeout_error apiClient "GET" "/api/v1/events" None (answers sample_event))))
      10%N (ok_response sample_event) eq_refl _ _ eq_refl) sample_event eq_refl).
    + change (10 <= 30000)%N. lia.
    + change (30000 <= 2147483647)%N. lia.
Defined.


(** ** The query string of [get] *)

(** Appending one pair, then some, is appending them all. *)
Lemma append_pairs_cons k s ps u :
  append_pairs ps (searchParams_append k s u) = append_pairs ((k, s) :: ps) u.
Proof.
  unfold append_pairs, searchParams_append. cbn [searchParams origin pathname hash].
  destruct ps as [| p ps'].
  - reflexivity.
  - rewrite <- app_assoc. reflexivity.
Qed.

(** The loop of [get] appends the defined entries, in order, or throws
    what the first failing conversion throws. *)
Lemma append_defined_spec o u :
  append_defined o u
  = cbind (convert_entries (defined_entries o)) (fun ps => Normal (append_pairs ps u)).
Proof.
  revert u. induction o as [| [k v] rest IH]; intros u.
  - reflexivity.
  - cbn [append_defined defined_entries filter snd].
    destruct (negb (is_nullish v)) eqn:E.
    + cbn [convert_entries]. destruct (ToString v) as [s | t |]; cbn [cbind].
      * rewrite IH. fold (defined_entries rest).
        destruct (convert_entries (defined_entries rest)) as [ps | t |]; cbn [cbind].
        -- rewrite append_pairs_cons. reflexivity.
        -- reflexivity.
        -- reflexivity.
      * reflexivity.
      * reflexivity.
    + apply IH.
Qed.

Lemma append_defined_no_hang o u : append_defined o u <> Hang.
Proof.
  revert u. induction o as [| [k v] rest IH]; intros u; cbn [append_defined].
  - discriminate.
  - destruct (negb (is_nullish v)); [| apply IH].
    destruct (ToString_cases v) as [[s H] | H]; rewrite H; cbn [cbind].
    + apply IH.
    + discriminate.
Qed.

Lemma apiClient_base : baseUrl apiClient = BASE_URL.
Proof. reflexivity. Qed.

Lemma makeUrl_default p : makeUrl apiClient (String "/" p) = BASE_URL ++ String "/" p.
Proof. reflexivity. Qed.

(** With the default client, [get] on a plain path is [request] on the path
    followed by the query string of the defined entries. *)
Lemma get_default p o ps w log :
  path_only p = true ->
  convert_entries (defined_entries o) = Normal ps ->
  get apiClient (String "/" p) (Some o) w log
  = request apiClient "GET" (String "/" p ++ query_string ps) None w log.
Proof.
  intros Hp Hc. unfold get.
  rewrite makeUrl_default, bind_lift, (new_URL_default_base _ Hp).
  rewrite bind_lift, append_defined_spec, Hc. cbn [cbind].
  destruct ps as [| q ps'].
  - reflexivity.
  - unfold append_pairs, search. cbn [query pathname searchParams app].
    rewrite serialize_nonempty. reflexivity.
Qed.

Lemma get_default_none p w log :
  path_only p = true ->
  get apiClient (String "/" p) None w log
  = request apiClient "GET" (String "/" p) None w log.
Proof.
  intros Hp. unfold get.
  rewrite makeUrl_default, bind_lift, (new_URL_default_base _ Hp).
  rewrite bind_lift. cbn [pathname search query].
  now rewrite append_empty_r.
Qed.

(** A failing conversion stops [get] before any call. *)
Lemma get_default_throws p o t w log :
  path_only p = true ->
  convert_entries (defined_entries o) = Throw t ->
  get apiClient (String "/" p) (Some o) w log = (Throw t, log).
Proof.
  intros Hp Hc. unfold get.
  rewrite makeUrl_default, bind_lift, (new_URL_default_base _ Hp).
  rewrite bind_lift, append_defined_spec, Hc. reflexivity.
Qed.

(** The query of a [get] of the default client, for every parameter
    mapping: the entries with a value, in order, and nothing else. *)
Lemma get_serializes_defined p o ps w :
  path_only p = true ->
  convert_entries (defined_entries o) = Normal ps ->
  snd (run (get apiClient (String "/" p) (Some o)) w)
  = [mkCall "GET" (BASE_URL ++ String "/" p ++ query_string ps) None].
Proof.
  intros Hp Hc. unfold run. rewrite (get_default _ _ _ _ _ Hp Hc), request_log.
  reflexivity.
Qed.

Lemma get_settles c path params w :
  responsive w -> settles_json w (get c path params).
Proof.
  intros Hw. unfold get.
  apply settles_bind_lift; [apply new_URL_no_hang |]. intros url.
  apply settles_bind_lift.
  - destruct params; [apply append_defined_no_hang | discriminate].
  - intros url'. apply request_settles. exact Hw.
Qed.

Lemma post_settles c path data w :
  responsive w -> settles_json w (post c path data).
Proof. intros Hw. unfold post. apply request_settles. exact Hw. Qed.


(** A [get] that is not answered in time ends in the timeout error, and the
    stdio handler reports it as the error of the tool. *)
Lemma get_times_out p o ps w :
  path_only p = true ->
  convert_entries (defined_entries o) = Normal ps ->
  completes_within (timeout apiClient)
    (w (mkCall "GET" (BASE_URL ++ String "/" p ++ query_string ps) None)) = false ->
  run (get apiClient (String "/" p) (Some o)) w
  = (Throw (ThrowError (Error "Request timeout")),
     [mkCall "GET" (BASE_URL ++ String "/" p ++ query_string ps) None]).
Proof.
  intros Hp Hc Hw. unfold run. rewrite (get_default _ _ _ _ _ Hp Hc).
  exact (request_times_out apiClient "GET" (String "/" p ++ query_string ps) None w [] Hw).
Qed.

Lemma get_events_times_out McpError :
  fst (run (call_tool McpError "get_events" (Some [("limit", VNum 5)])) never)
  = Normal (VObj [("content",
                   VArr [text_block (VStr "Error calling get_events: Request timeout")]);
                  ("isError", VBool true)]).
Proof.
  unfold run, call_tool, try_catch, bind.
  change (dispatch McpError "get_events" [("limit", VNum 5)] never [])
    with (run (get apiClient (String "/" "api/v1/events") (Some [("limit", VNum 5)])) never).
  rewrite (get_times_out "api/v1/events" _ [("limit", "5")] never); reflexivity.
Qed.

(** ** The stdio handler: routing *)

(** The example of the specification: an [undefined] cursor is left out. *)
Lemma get_events_undefined_cursor McpError w :
  snd (run (call_tool McpError "get_events"
              (Some [("limit", VNum 5); ("cursor", VUndefined)])) w)
  = [mkCall "GET" (BASE_URL ++ "/api/v1/events?limit=5") None].
Proof.
  unfold run, call_tool. rewrite try_ret_log.
  change (dispatch McpError "get_events" [("limit", VNum 5); ("cursor", VUndefined)] w [])
    with (get apiClient (String "/" "api/v1/events")
            (Some [("limit", VNum 5); ("cursor", VUndefined)]) w []).
  apply (get_serializes_defined "api/v1/events" _ [("limit", "5")] w); reflexivity.
Qed.

(** Claim C4.  The call of [get_event] with event [US-PRESIDENT-2024] and
    [withNestedMarkets: true] issues exactly one outbound call, the [GET] of
    [{base}/api/v1/event/US-PRESIDENT-2024?withNestedMarkets=true]; when the
    upstream answers it in time with a success status and a JSON body, the
    result is exactly one text content block holding that body, printed
    with an indentation of two spaces: for the body [nested_event], the text
    [nested_event_text]. *)
Theorem get_event_scenario (McpError : Z -> string -> js_error) (w : world) :
  let args := [("event_id", VStr "US-PRESIDENT-2024"); ("withNestedMarkets", VBool true)] in
  let call :=
    mkCall "GET"
      (BASE_URL ++ "/api/v1/event/US-PRESIDENT-2024?withNestedMarkets=true") None in
  snd (run (call_tool McpError "get_event" (Some args)) w) = [call] /\
  forall t r json,
    w call = Settles t (Responds r) ->
    (t <= 30000)%N ->
    resp_ok r = true ->
    resp_json r = Normal json ->
    is_json json = true ->
    (exists text,
       JSON_stringify_pretty json = Some text /\
       fst (run (call_tool McpError "get_event" (Some args)) w)
       = Normal (VObj [("content", VArr [VObj [("type", VStr "text"); ("text", VStr text)]])]))
    /\ (json = nested_event ->
        fst (run (call_tool McpError "get_event" (Some args)) w)
        = Normal (VObj [("content",
                         VArr [VObj [("type", VStr "text");
                                     ("text", VStr nested_event_text)]])])).
Proof.
  cbv zeta.
  assert (E : forall log,
    dispatch McpError "get_event"
      [("event_id", VStr "US-PRESIDENT-2024"); ("withNestedMarkets", VBool true)] w log
    = request apiClient "GET"
        ("/api/v1/event/US-PRESIDENT-2024?withNestedMarkets=true") None w log).
  { intros log.
    change (dispatch McpError "get_event"
              [("event_id", VStr "US-PRESIDENT-2024"); ("withNestedMarkets", VBool true)] w log)
      with (get apiClient (String "/" "api/v1/event/US-PRESIDENT-2024")
              (Some [("withNestedMarkets", VBool true)]) w log).
    rewrite (get_default _ _ [("withNestedMarkets", "true")]) by reflexivity.
    reflexivity. }
  split.
  - unfold run, call_tool, try_catch, bind. rewrite E.
    pose proof (request_log apiClient "GET"
      "/api/v1/event/US-PRESIDENT-2024?withNestedMarkets=true" None w []) as L.
    destruct (request _ _ _ _ w []) as [[v | t |] log]; cbn [snd] in L |- *; exact L.
  - intros t r json Hw Ht Hok Hj Hjson.
    assert (R : forall text,
              JSON_stringify_pretty json = Some text ->
              fst (run (call_tool McpError "get_event"
                          (Some [("event_id", VStr "US-PRESIDENT-2024");
                                 ("withNestedMarkets", VBool true)])) w)
              = Normal (VObj [("content",
                               VArr [VObj [("type", VStr "text"); ("text", VStr text)]])])).
    { intros text Htext.
      unfold run, call_tool, try_catch, bind. rewrite E.
      rewrite (request_success apiClient _ _ _ _ _ t r json Hw (proj2 (N.leb_le _ _) Ht) Hok Hj).
      unfold ret, success_result. rewrite Htext. reflexivity. }
    split.
    + destruct (serialize_json "  " "" json Hjson) as [text Htext].
      exists text. split; [exact Htext | exact (R text Htext)].
    + intros ->. apply R. vm_compute. reflexivity.
Qed.

Lemma get_event_scenario_witness :
  fst (run (call_tool sdk_error "get_event"
              (Some [("event_id", VStr "US-PRESIDENT-2024");
                     ("withNestedMarkets", VBool true)]))
           (answers nested_event))
  = Normal (VObj [("content",
                   VArr [VObj [("type", VStr "text"); ("text", VStr nested_event_text)]])]).
Proof.
  refine (proj2 (proj2 (get_event_scenario sdk_error (answers nested_event))
                   10%N (ok_response nested_event) nested_event
                   eq_refl _ eq_refl eq_refl eq_refl) eq_refl).
  lia.
Defined.

(** Claim C5.  The call of [get_markets_batch] with tickers [A] and [B]
    issues exactly one outbound call, the [POST] of
    [{base}/api/v1/markets/batch] whose body is the JSON text
    [{'tickers':['A','B']}], the apostrophes standing for quotation marks;
    and a [post] of any client issues exactly one call, to the base followed
    by the path as given, with no query added. *)
Theorem markets_batch_scenario (McpError : Z -> string -> js_error) (w : world) :
  snd (run (call_tool McpError "get_markets_batch"
              (Some [("tickers", VArr [VStr "A"; VStr "B"])])) w)
  = [mkCall "POST" "https://prediction-markets-api.dflow.net/api/v1/markets/batch"
       (Some (json_text "{'tickers':['A','B']}"))]
  /\ forall (c : DFlowAPIClient) (path : string) (data : value),
       snd (run (post c (String "/" path) data) w)
       = [mkCall "POST" (baseUrl c ++ String "/" path)
            (if truthy data then JSON_stringify data else None)].
Proof.
  split.
  - unfold run, call_tool. rewrite try_ret_log.
    change (dispatch McpError "get_markets_batch" [("tickers", VArr [VStr "A"; VStr "B"])] w [])
      with (post apiClient "/api/v1/markets/batch"
              (VObj [("tickers", VArr [VStr "A"; VStr "B"])]) w []).
    unfold post. rewrite request_log. reflexivity.
  - intros c path data. unfold run, post. rewrite request_log. reflexivity.
Qed.

Lemma markets_batch_scenario_witness :
  snd (run (call_tool sdk_error "get_markets_batch"
              (Some [("tickers", VArr [VStr "A"; VStr "B"])])) never)
  = [mkCall "POST" "https://prediction-markets-api.dflow.net/api/v1/markets/batch"
       (Some (json_text "{'tickers':['A','B']}"))].
Proof. exact (proj1 (markets_batch_scenario sdk_error never)). Defined.

(** The routes of the by-mint tools, read off the switch. *)
Lemma by_mint_dispatch McpError tool a b toolArgs :
  In (tool, (a, b)) by_mint_routes ->
  dispatch McpError tool toolArgs
  = bind (tpl1 a (prop toolArgs "mint_address") b)
         (fun path => get apiClient path (Some (omit ["mint_address"] toolArgs))).
Proof.
  intros H. cbn [by_mint_routes In] in H.
  destruct H as [H | [H | [H | [H | []]]]]; inversion H; subst; reflexivity.
Qed.

Lemma by_mint_prefix tool a b :
  In (tool, (a, b)) by_mint_routes ->
  exists a', a = String "/" a' /\ path_only a' = true /\ path_only b = true.
Proof.
  intros H. cbn [by_mint_routes In] in H.
  destruct H as [H | [H | [H | [H | []]]]]; inversion H; subst;
    eexists; (split; [reflexivity | split; reflexivity]).
Qed.

(** Claim C9.  For [get_live_data_by_mint] and the other tools that take
    the mint address as a path segment: called with a plain mint address,
    the handler issues exactly one call, the [GET] of the route with the
    address substituted, followed by the query string of the remaining
    arguments that have a value; [mint_address] is not among the
    parameters, and when no argument but [mint_address] is given there is no
    query string at all. *)
Theorem by_mint_forwarding (McpError : Z -> string -> js_error) (w : world)
    (tool a b : string) (toolArgs : obj) (m : string) (ps : pairs) :
  In (tool, (a, b)) by_mint_routes ->
  prop toolArgs "mint_address" = VStr m ->
  plain_segment m = true ->
  convert_entries (defined_entries (omit ["mint_address"] toolArgs)) = Normal ps ->
  snd (run (call_tool McpError tool (Some toolArgs)) w)
  = [mkCall "GET" (BASE_URL ++ a ++ m ++ b ++ query_string ps) None]
  /\ ~ In "mint_address" (map fst ps)
  /\ ((forall k, k <> "mint_address" -> lookup k toolArgs = None) ->
      snd (run (call_tool McpError tool (Some toolArgs)) w)
      = [mkCall "GET" (BASE_URL ++ a ++ m ++ b) None]).
Proof.
  intros Hroute Hmint Hplain Hps.
  destruct (by_mint_prefix _ _ _ Hroute) as (a' & -> & Ha & Hb).
  assert (L : snd (run (call_tool McpError tool (Some toolArgs)) w)
              = [mkCall "GET" (BASE_URL ++ String "/" a' ++ m ++ b ++ query_string ps) None]).
  { unfold run, call_tool. rewrite try_ret_log.
    rewrite (by_mint_dispatch _ _ _ _ _ Hroute).
    unfold tpl1. rewrite Hmint. cbn [ToString cbind]. rewrite bind_lift.
    change (String "/" a' ++ m ++ b) with (String "/" (a' ++ m ++ b)).
    rewrite (get_default _ _ ps); [| | exact Hps].
    - rewrite request_log. cbn [app]. unfold makeUrl.
      cbn [starts_with Ascii.eqb Bool.eqb andb append]. 
      rewrite apiClient_base. cbn [append].
      rewrite !append_assoc. reflexivity.
    - apply path_only_app; [exact Ha |].
      apply path_only_app; [apply plain_segment_path_only; exact Hplain | exact Hb]. }
  split; [exact L | split].
  - rewrite (convert_entries_keys _ _ Hps). intros H.
    apply defined_entries_keys in H. revert H. apply omit_keys. left. reflexivity.
  - intros Honly. rewrite L.
    rewrite (omit_only _ _ Honly) in Hps. cbn in Hps. inversion Hps; subst.
    cbn [query_string]. now rewrite !append_empty_r.
Qed.

Lemma by_mint_forwarding_witness :
  snd (run (call_tool sdk_error "get_live_data_by_mint"
              (Some [("mint_address", VStr "So11111111111111111111111111111111111111112");
                     ("minimumStartDate", VStr "2024-01-01");
                     ("category", VStr "Sports")]))
           (answers sample_event))
  = [mkCall "GET"
       (BASE_URL ++ "/api/v1/live_data/by-mint/"
        ++ "So11111111111111111111111111111111111111112" ++ ""
        ++ "?minimumStartDate=2024-01-01&category=Sports") None].
Proof.
  apply (by_mint_forwarding sdk_error (answers sample_event)
           "get_live_data_by_mint" "/api/v1/live_data/by-mint/" ""
           [("mint_address", VStr "So11111111111111111111111111111111111111112");
            ("minimumStartDate", VStr "2024-01-01");
            ("category", VStr "Sports")]
           "So11111111111111111111111111111111111111112"
           [("minimumStartDate", "2024-01-01"); ("category", "Sports")]).
  - cbn. tauto.
  - reflexivity.
  - reflexivity.
  - reflexivity.
Defined.


(** ** The stdio handler: totality *)

Lemma tpl1_get_settles a x b params w :
  responsive w ->
  settles_json w (bind (tpl1 a x b) (fun path => get apiClient path params)).
Proof.
  intros Hw. unfold tpl1. apply settles_bind_lift.
  - destruct (ToString_cases x) as [[s H] | H]; rewrite H; discriminate.
  - intros path. apply get_settles. exact Hw.
Qed.

Lemma tpl2_get_settles a x b y c params w :
  responsive w ->
  settles_json w (bind (tpl2 a x b y c) (fun path => get apiClient path params)).
Proof.
  intros Hw. unfold tpl2. apply settles_bind_lift.
  - destruct (ToString_cases x) as [[s H] | H]; rewrite H; cbn [cbind]; [| discriminate].
    destruct (ToString_cases y) as [[s' H'] | H']; rewrite H'; discriminate.
  - intros path. apply get_settles. exact Hw.
Qed.

(** What holds of every case and of the default holds of the switch. *)
Lemma switch_all {A} (P : A -> Prop) name (cases : list (string * A)) d :
  Forall (fun c => P (snd c)) cases -> P d -> P (switch name cases d).
Proof.
  intros Hc Hd. induction Hc as [| [label body] rest Hb _ IH]; cbn [switch].
  - exact Hd.
  - destruct (String.eqb name label); [exact Hb | exact IH].
Qed.

(** Every route of the dispatcher settles in a responsive world. *)
Lemma dispatch_settles McpError name toolArgs w :
  responsive w -> settles_json w (dispatch McpError name toolArgs).
Proof.
  intros Hw. unfold dispatch. apply switch_all.
  - unfold tool_cases.
    repeat (apply Forall_cons;
            [cbn [snd];
             first [ apply get_settles; exact Hw
                   | apply post_settles; exact Hw
                   | apply tpl1_get_settles; exact Hw
                   | apply tpl2_get_settles; exact Hw ] |]).
    apply Forall_nil.
  - intros log. exact I.
Qed.

(** The sample world is responsive. *)
Lemma answers_responsive v : is_json v = true -> responsive (answers v).
Proof.
  intros Hv c t r H. unfold answers in H. inversion H; subst.
  unfold readable, ok_response; cbn.
  split; [discriminate | split; [discriminate |]].
  intros v' Hv'. inversion Hv'; subst. exact Hv.
Qed.

(** Claim C10.  In a world whose responses can be read to the end and carry
    JSON, the stdio handler returns for every tool name and every arguments
    object, given or not: its result has exactly one text block, without
    [isError] when the dispatch produced a value and with [isError: true]
    when the dispatch threw, whatever it threw.  It never throws. *)
Theorem call_tool_total (McpError : Z -> string -> js_error) (name : string)
    (args : option obj) (w : world) :
  responsive w ->
  let toolArgs := match args with Some o => o | None => [] end in
  (exists result text,
     fst (run (dispatch McpError name toolArgs) w) = Normal result
     /\ JSON_stringify_pretty result = Some text
     /\ fst (run (call_tool McpError name args) w)
        = Normal (VObj [("content", VArr [VObj [("type", VStr "text"); ("text", VStr text)]])]))
  \/ (exists error,
        fst (run (dispatch McpError name toolArgs) w) = Throw error
        /\ fst (run (call_tool McpError name args) w)
           = Normal (VObj [("content",
                            VArr [VObj [("type", VStr "text");
                                        ("text",
                                         VStr ("Error calling " ++ name ++ ": "
                                               ++ error_message_of error))]]);
                           ("isError", VBool true)])).
Proof.
  intros Hw toolArgs.
  pose proof (dispatch_settles McpError name toolArgs w Hw []) as H.
  unfold run, call_tool, try_catch, bind. fold toolArgs.
  destruct (dispatch McpError name toolArgs w []) as [[v | t |] log]; cbn [fst] in H |- *.
  - left. destruct (serialize_json "  " "" v H) as [text Ht].
    exists v, text. split; [reflexivity | split; [exact Ht |]].
    unfold success_result, JSON_stringify_pretty. rewrite Ht. reflexivity.
  - right. exists t. split; reflexivity.
  - contradiction.
Qed.

Lemma call_tool_total_witness :
  exists r, fst (run (call_tool sdk_error "get_series" None) (answers sample_event)) = Normal r.
Proof.
  destruct (call_tool_total sdk_error "get_series" None (answers sample_event)
              (answers_responsive sample_event eq_refl))
    as [(result & text & _ & _ & H) | (error & _ & H)];
    eexists; exact H.
Defined.


(** ** The serverless client *)

(** The log of [apiRequest], once its URL and body are known. *)
Lemma apiRequest_log method path params u0 u w log :
  new_URL_base path SERVERLESS_BASE_URL = Normal u0 ->
  (if truthy params && String.eqb method "GET"
   then cbind (Object_entries params) (fun entries => append_all entries u0)
   else Normal u0) = Normal u ->
  snd (apiRequest method path params w log)
  = (log ++ [mkCall method (href u)
               (if String.eqb method "POST" && truthy params
                then JSON_stringify params else None)])%list.
Proof.
  intros H0 H1. unfold apiRequest.
  rewrite bind_lift, H0, bind_lift, H1.
  unfold bind, fetch.
  destruct (w _) as [t [r | e] |]; cbn [settled]; try reflexivity.
  destruct (negb (resp_ok r)).
  - unfold lift, throw_error, throw. destruct (resp_text r); reflexivity.
  - unfold lift. destruct (resp_json r); reflexivity.
Qed.

(** Claim C1, at the input where the serverless client breaks it.  A
    [tools/call] of [get_events] with a limit of 5 and a [null] cursor makes
    the [mcp] function send [cursor=null] upstream, where the client of the
    stdio server, given the same arguments, sends the limit alone. *)
Theorem apiRequest_forwards_null (TOOLS : list obj) (McpError : Z -> string -> js_error)
    (w : world) :
  let arguments := [("limit", VNum 5); ("cursor", VNull)] in
  snd (run (McpIndex.handler TOOLS
              (post_event (tools_call_request (VNum 1) "get_events" (VObj arguments)))) w)
  = [mkCall "GET" "https://api.llm.dflow.org/api/v1/events?limit=5&cursor=null" None]
  /\ snd (run (call_tool McpError "get_events" (Some arguments)) w)
     = [mkCall "GET" "https://prediction-markets-api.dflow.net/api/v1/events?limit=5" None].
Proof.
  cbv zeta. split.
  - pose proof (apiRequest_log "GET" "/api/v1/events"
                  (VObj [("limit", VNum 5); ("cursor", VNull)]) _ _ w [] eq_refl eq_refl) as L.
    unfold run. cbv -[apiRequest].
    destruct (apiRequest _ _ _ w []) as [[v | t |] log]; cbn [snd] in L; subst log;
      try reflexivity.
    destruct t as [e | [| | b | z | s]]; reflexivity.
  - unfold run, call_tool. 
    change (dispatch McpError "get_events" [("limit", VNum 5); ("cursor", VNull)])
      with (get apiClient (String "/" "api/v1/events")
              (Some [("limit", VNum 5); ("cursor", VNull)])).
    unfold try_catch, bind.
    rewrite (get_default _ _ [("limit", "5")]) by reflexivity.
    pose proof (request_log apiClient "GET" "/api/v1/events?limit=5" None w []) as L.
    destruct (request _ _ _ _ w []) as [[v | t |] log]; cbn [snd] in L |- *; exact L.
Qed.


(** ** Unknown tools *)

(** A name without a case goes to the default. *)
Lemma switch_unknown {A} name (cases : list (string * A)) d :
  ~ In name (map fst cases) -> switch name cases d = d.
Proof.
  induction cases as [| [label body] rest IH]; cbn [switch map fst In]; intros H.
  - reflexivity.
  - destruct (String.eqb_spec name label) as [-> | Hne].
    + exfalso. apply H. left. reflexivity.
    + apply IH. intros Hin. apply H. right. exact Hin.
Qed.

Lemma switch_value_unknown {A} v (cases : list (string * A)) d :
  (forall n, In n (map fst cases) -> is_str v n = false) -> switch_value v cases d = d.
Proof.
  induction cases as [| [label body] rest IH]; cbn [switch_value map fst In]; intros H.
  - reflexivity.
  - rewrite (H label (or_introl eq_refl)). apply IH. intros n Hn. apply H. right. exact Hn.
Qed.

(** An unknown name takes the stdio handler to its error result. *)
Lemma call_tool_unknown McpError name args w log :
  ~ In name tool_names ->
  call_tool McpError name args w log
  = (Normal (error_result name
               (ThrowError (McpError MethodNotFound ("Unknown tool: " ++ name)))), log).
Proof.
  intros H. unfold call_tool, dispatch.
  rewrite switch_unknown by exact H. reflexivity.
Qed.

Lemma route_tools_call TOOLS o :
  prop o "method" = VStr "tools/call" ->
  McpIndex.route TOOLS (VObj o) = McpIndex.tools_call (VObj o).
Proof.
  intros H. unfold McpIndex.route. cbn [get_prop]. fold (prop o "method").
  rewrite H. reflexivity.
Qed.

(** What [unknown_tool] throws has a message. *)
Lemma unknown_tool_throws name w log :
  exists e, unknown_tool name w log = (Throw (ThrowError e), log)
            /\ (forall n, name = VStr n -> e = Error ("Unknown tool: " ++ n)).
Proof.
  unfold unknown_tool. rewrite bind_lift.
  destruct (ToString_cases name) as [[s Hs] | Ht].
  - rewrite Hs. eexists. split; [reflexivity |].
    intros n ->. cbn in Hs. inversion Hs. reflexivity.
  - rewrite Ht. eexists. split; [reflexivity |].
    intros n ->. discriminate.
Qed.

(** Claim C2.  A call of a tool the dispatcher does not know ends in an
    error result and issues no outbound call.  The stdio handler returns
    one text block naming the tool, flagged [isError]; the [mcp] function
    returns a JSON-RPC error and no result, with code -32603, the message
    [Unknown tool: name] and the tool in its data when the request names a
    tool, and with the code of its catch-all when the request has no
    parameters to read a name from.  Neither throws, neither hangs. *)
Theorem unknown_tool_is_error (McpError : Z -> string -> js_error) (TOOLS : list obj)
    (w : world) (name : string) (args : option obj) (context : value) (o : obj) :
  ~ In name tool_names ->
  prop o "method" = VStr "tools/call" ->
  (forall n, In n five_tool_names -> is_str (requested_tool o) n = false) ->
  run (call_tool McpError name args) w
  = (Normal
       (VObj [("content",
               VArr [text_block
                       (VStr ("Error calling " ++ name ++ ": "
                              ++ err_message
                                   (McpError MethodNotFound ("Unknown tool: " ++ name))))]);
              ("isError", VBool true)]), [])
  /\ (exists resp,
        run (McpIndex.handler TOOLS (mkEvent "POST" context (Parsed (VObj o)))) w
        = (Normal resp, [])
        /\ statusCode resp = 200
        /\ body_field resp "result" = VUndefined
        /\ (error_code resp = VNum (-32603) \/ error_code resp = VNum (-32700)))
  /\ (forall p n,
        prop o "params" = VObj p ->
        prop p "name" = VStr n ->
        run (McpIndex.handler TOOLS (mkEvent "POST" context (Parsed (VObj o)))) w
        = (Normal
             (json_response 200
                (jsonrpc_error (prop o "id")
                   (VObj [("code", VNum (-32603));
                          ("message", VStr ("Unknown tool: " ++ n));
                          ("data",
                           VObj [("tool", VStr n);
                                 ("arguments",
                                  or_else (prop p "arguments") (VObj []))])]))), [])).
Proof.
  intros Hname Hmethod Hunknown.
  split; [apply call_tool_unknown; exact Hname |].
  assert (E : forall w log,
    McpIndex.handler TOOLS (mkEvent "POST" context (Parsed (VObj o))) w log
    = try_catch (McpIndex.tools_call (VObj o))
        (fun error => bind (lift (message_prop error))
                        (fun data => ret (McpIndex.catch_all data))) w log).
  { intros w0 log. rewrite <- (route_tools_call TOOLS o Hmethod). reflexivity. }
  unfold run. rewrite E. clear E. unfold McpIndex.tools_call, requested_tool in *.
  cbn [dot] in *. fold (prop o "params") in *. fold (prop o "id").
  split.
  - destruct (prop o "params") as [| | b | z | s | l | p] eqn:Hp;
      cbn [destructure_call get_prop cbind dot] in *;
      try (eexists; split; [reflexivity | cbn; auto]; fail).
    fold (prop p "name") in *.
    unfold try_catch at 1. rewrite bind_lift.
    rewrite (switch_value_unknown (prop p "name") _ _) by exact Hunknown.
    unfold try_catch, bind at 1.
    destruct (unknown_tool_throws (prop p "name") w []) as (e & -> & _).
    cbn. eexists; split; [reflexivity | cbn; auto].
  - intros p n Hp Hn. rewrite Hp in *. cbn [destructure_call get_prop cbind dot] in *.
    fold (prop p "name") in *. fold (prop p "arguments"). rewrite Hn in *.
    unfold try_catch at 1. rewrite bind_lift.
    rewrite (switch_value_unknown (VStr n) _ _) by exact Hunknown.
    reflexivity.
Qed.

Lemma unknown_tool_is_error_witness :
  run (call_tool sdk_error "get_weather" None) never
  = (Normal
       (VObj [("content",
               VArr [text_block
                       (VStr ("Error calling get_weather: "
                              ++ "MCP error -32601: Unknown tool: get_weather"))]);
              ("isError", VBool true)]), []).
Proof.
  apply (unknown_tool_is_error sdk_error [] never "get_weather" None VUndefined
           [("jsonrpc", VStr "2.0"); ("id", VNum 3); ("method", VStr "tools/call");
            ("params", VObj [("name", VStr "get_weather")])]).
  - cbn. intuition discriminate.
  - reflexivity.
  - intros n H. cbn in H. intuition (subst; reflexivity).
Defined.


(** ** Bodies that are no JSON *)

(** [path || ''] is the path. *)
Lemma or_else_path p : or_else (VStr p) (VStr "") = VStr p.
Proof. unfold or_else. cbn [truthy]. destruct (String.eqb_spec p ""); subst; reflexivity. Qed.

Lemma log_value_string {A} s (k : unit -> M A) : bind (ClaudeDesktop.log_value (VStr s)) k = k tt.
Proof. reflexivity. Qed.

(** Claim C6, where it fails.  The function of the Claude Desktop dialect
    answers a body that is no JSON with status 400 and an object of its own
    dialect: no JSON-RPC version, no id, no error code. *)
Lemma claude_desktop_malformed_body :
  run (post_to [] (fun _ => "") "" (fun _ => ret VNull) "2025-01-01T00:00:00.000Z" 0
         ClaudeDesktopFunction "/api/mcp" (Malformed "Unexpected token"))
      never
  = (Normal (json_response 400
               (VObj [("success", VBool false); ("error", VStr "Invalid JSON format")])),
     [])
  /\ ~ parse_error_envelope
         (json_response 400
            (VObj [("success", VBool false); ("error", VStr "Invalid JSON format")])).
Proof.
  split.
  - reflexivity.
  - intros (H & _). discriminate H.
Qed.

(** Claim C6, amended.  A [POST] whose body is no JSON is answered, without
    any outbound call: by the Deno server, [api-mcp], [mcp],
    [mcp-v2-bootstrap], [mcp-v2-sse] and the Bun server with a JSON-RPC error
    envelope of code -32700 and id null; by the function of the Claude
    Desktop dialect with status 400 and the object
    [{success: false, error: 'Invalid JSON format'}]. *)
Theorem malformed_body_answer (TOOLS : list obj) (index_html : string -> string)
    (bun_index_html : string) (server_request : value -> M value)
    (now : string) (now_ms : Z)
    (v : variant) (path message : string) (w : world) :
  exists r,
    run (post_to TOOLS index_html bun_index_html server_request now now_ms v path (Malformed message)) w
    = (Normal r, [])
    /\ match v with
       | ClaudeDesktopFunction =>
           r = json_response 400
                 (VObj [("success", VBool false); ("error", VStr "Invalid JSON format")])
       | McpApiFunction => True
       | _ => parse_error_envelope r
       end.
Proof.
  destruct v; destruct path as [| c path']; cbv; eexists; (split; [reflexivity |]);
    try exact I; try reflexivity; repeat split.
Qed.


(** ** Unknown methods *)

(** The answer of each variant to a method its router does not know. *)
Lemma deno_unknown_method TOOLS html path o w :
  (forall n, In n (recognized_methods DenoServer) -> is_str (prop o "method") n = false) ->
  run (Deno.handler TOOLS html (mkRequest "POST" "http://localhost:8000" path (Parsed (VObj o)))) w
  = (Normal (plain_method_not_found (prop o "id")), []).
Proof.
  intros H. unfold run, Deno.handler.
  cbn [req_method req_body String.eqb Ascii.eqb Bool.eqb JSON_parse].
  unfold try_catch. rewrite bind_lift, bind_lift. cbn [get_prop]. fold (prop o "method").
  rewrite !H by (cbn; tauto). reflexivity.
Qed.

Lemma api_mcp_unknown_method TOOLS context o w :
  (forall n, In n (recognized_methods ApiMcpFunction) -> is_str (prop o "method") n = false) ->
  run (ApiMcp.handler TOOLS (mkEvent "POST" context (Parsed (VObj o)))) w
  = (Normal (plain_method_not_found (prop o "id")), []).
Proof.
  intros H. unfold run, ApiMcp.handler.
  cbn [httpMethod event_body String.eqb Ascii.eqb Bool.eqb JSON_parse negb].
  unfold try_catch. rewrite bind_lift, bind_lift. cbn [get_prop]. fold (prop o "method").
  rewrite !H by (cbn; tauto). reflexivity.
Qed.

Lemma bun_unknown_method TOOLS html server_request o w :
  (forall n, In n (recognized_methods BunWebServer) -> is_str (prop o "method") n = false) ->
  run (BunWeb.fetch_handler TOOLS html server_request
         (mkRequest "POST" "http://localhost:3000" "/" (Parsed (VObj o)))) w
  = (Normal (plain_method_not_found (prop o "id")), []).
Proof.
  intros H. unfold run, BunWeb.fetch_handler.
  cbn [req_method req_pathname req_body String.eqb Ascii.eqb Bool.eqb JSON_parse andb].
  unfold try_catch. rewrite bind_lift, bind_lift. cbn [get_prop dot]. fold (prop o "method").
  rewrite !H by (cbn; tauto). reflexivity.
Qed.

Lemma mcp_unknown_method TOOLS context o w :
  (forall n, In n (recognized_methods McpFunction) -> is_str (prop o "method") n = false) ->
  run (McpIndex.handler TOOLS (mkEvent "POST" context (Parsed (VObj o)))) w
  = (Normal (McpIndex.method_not_found (VObj o)), []).
Proof.
  intros H. unfold run, McpIndex.handler, McpIndex.route.
  cbn [httpMethod event_body String.eqb Ascii.eqb Bool.eqb JSON_parse negb].
  unfold try_catch. rewrite bind_lift, bind_lift. cbn [get_prop]. fold (prop o "method").
  rewrite !H by (cbn; tauto). reflexivity.
Qed.

Lemma mcp_api_unknown_method TOOLS path o w :
  (forall n, In n (recognized_methods McpApiFunction) -> is_str (prop o "method") n = false) ->
  is_str (prop o "jsonrpc") "2.0" && truthy (prop o "method") = true ->
  run (McpApi.handler TOOLS (mkEvent "POST" (VObj [("path", VStr path)]) (Parsed (VObj o)))) w
  = (Normal (json_response 200 (McpApi.method_not_found (VObj o))), []).
Proof.
  intros H Hrpc. unfold run, McpApi.handler, McpApi.route.
  cbn [httpMethod event_body requestContext JSON_parse].
  rewrite bind_lift. cbn [get_prop lookup String.eqb Ascii.eqb Bool.eqb].
  rewrite or_else_path, log_value_string.
  cbn [String.eqb Ascii.eqb Bool.eqb negb].
  unfold try_catch. rewrite bind_lift, bind_lift. cbn [get_prop dot].
  fold (prop o "method"). fold (prop o "jsonrpc").
  rewrite Hrpc. rewrite !H by (cbn; tauto). reflexivity.
Qed.

Lemma v2_sse_unknown_method TOOLS now now_ms path o w :
  (forall n, In n (recognized_methods V2SseFunction) -> is_str (prop o "method") n = false) ->
  String.eqb path "/mcp/v2/bootstrap" = false ->
  run (V2Sse.handler TOOLS now now_ms
         (mkEvent "POST" (VObj [("path", VStr path)]) (Parsed (VObj o)))) w
  = (Normal (json_response 200 (V2Sse.method_not_found (VObj o))), []).
Proof.
  intros H Hpath. unfold run, V2Sse.handler, V2Sse.route.
  cbn [httpMethod event_body requestContext JSON_parse].
  rewrite bind_lift. cbn [get_prop lookup String.eqb Ascii.eqb Bool.eqb].
  rewrite or_else_path, log_value_string.
  cbn [String.eqb Ascii.eqb Bool.eqb negb andb is_str].
  rewrite Hpath.
  unfold try_catch. unfold bind at 1. rewrite bind_lift. cbn [get_prop].
  fold (prop o "method").
  rewrite !H by (cbn; tauto). reflexivity.
Qed.

(** Each method the [mcp] function lists is one its router takes: the
    answer to it is never the method-not-found error. *)
Lemma mcp_listed_methods_routed TOOLS context o n :
  In n McpIndex.available_methods ->
  prop o "method" = VStr n ->
  answers_with (fun r => error_code r <> VNum (-32601))
    (McpIndex.handler TOOLS (mkEvent "POST" context (Parsed (VObj o)))).
Proof.
  intros Hn Hm. unfold McpIndex.handler.
  cbn [httpMethod event_body String.eqb Ascii.eqb Bool.eqb JSON_parse negb].
  change (bind (lift (Normal (VObj o))) ?k) with (k (VObj o)). cbv beta.
  apply answers_try; [| intros; answers; discriminate].
  unfold McpIndex.route. cbn [get_prop]. fold (prop o "method"). rewrite Hm.
  change (bind (lift (Normal (VStr n))) ?k) with (k (VStr n)). cbv beta.
  cbn [McpIndex.available_methods In] in Hn.
  destruct Hn as [<- | [<- | [<- | [<- | [<- | [<- | [<- | []]]]]]]];
    cbn [is_str String.eqb Ascii.eqb Bool.eqb];
    unfold McpIndex.tools_call, McpIndex.tools_describe;
    answers; discriminate.
Qed.

(** The other answers of [mcp-api] and of the v2 functions: a request that
    is not of version 2.0 or has no method, the bootstrap path, and the
    paths under [/mcp/v2/]. *)
Lemma mcp_api_invalid_request TOOLS path o w :
  is_str (prop o "jsonrpc") "2.0" && truthy (prop o "method") = false ->
  run (McpApi.handler TOOLS (mkEvent "POST" (VObj [("path", VStr path)]) (Parsed (VObj o)))) w
  = (Normal (json_response 200 (McpApi.invalid_request (VObj o))), []).
Proof.
  intros Hrpc. unfold run, McpApi.handler, McpApi.route.
  cbn [httpMethod event_body requestContext JSON_parse].
  rewrite bind_lift. cbn [get_prop lookup String.eqb Ascii.eqb Bool.eqb].
  rewrite or_else_path, log_value_string.
  cbn [String.eqb Ascii.eqb Bool.eqb negb].
  unfold try_catch. rewrite bind_lift, bind_lift. cbn [get_prop dot].
  fold (prop o "method"). fold (prop o "jsonrpc").
  rewrite Hrpc. reflexivity.
Qed.

Lemma v2_sse_bootstrap_path TOOLS now now_ms o w :
  exists result,
    run (V2Sse.handler TOOLS now now_ms
           (mkEvent "POST" (VObj [("path", VStr "/mcp/v2/bootstrap")]) (Parsed (VObj o)))) w
    = (Normal (json_response 200
                 (jsonrpc_result (or_else (prop o "id") (VStr "bootstrap-response")) result)),
       []).
Proof. eexists. cbv. reflexivity. Qed.

Lemma v2_bootstrap_bootstrap_path TOOLS now o w :
  exists result,
    run (V2Bootstrap.handler TOOLS now
           (mkEvent "POST" (VObj [("path", VStr "/mcp/v2/bootstrap")]) (Parsed (VObj o)))) w
    = (Normal (json_response 200
                 (jsonrpc_result (or_else (prop o "id") (VStr "bootstrap-response")) result)),
       []).
Proof. eexists. cbv. reflexivity. Qed.

Lemma v2_bootstrap_off_path TOOLS now path o w :
  String.eqb path "/mcp/v2/bootstrap" = false ->
  run (V2Bootstrap.handler TOOLS now
         (mkEvent "POST" (VObj [("path", VStr path)]) (Parsed (VObj o)))) w
  = try_catch
      (under_v2 <- lift (Normal (truthy (prop o "method") && starts_with "/mcp/v2/" path)) ;;
       if under_v2 : bool then
         _ <- ClaudeDesktop.log_value (prop o "method") ;;
         ret (json_response 200 (V2Bootstrap.supported TOOLS (VObj o) (VStr path)))
       else ret (json_response 200 (V2Bootstrap.method_not_found (VObj o) (VStr path))))
      (fun error =>
         data <- lift (message_prop error) ;;
         ret (json_response 500
                (jsonrpc_error VNull
                   (VObj [("code", VNum (-32603));
                          ("message", VStr "Internal error");
                          ("data", data)]))))
      w [].
Proof.
  intros Hpath. unfold run, V2Bootstrap.handler, V2Bootstrap.route.
  cbn [httpMethod event_body requestContext JSON_parse].
  rewrite bind_lift. cbn [get_prop lookup String.eqb Ascii.eqb Bool.eqb].
  rewrite or_else_path, log_value_string.
  cbn [String.eqb Ascii.eqb Bool.eqb negb is_str]. rewrite Hpath.
  fold (prop o "method").
  change (bind (lift (Normal (prop o "method"))) ?k) with (k (prop o "method")). cbv beta.
  unfold V2Bootstrap.startsWith.
  destruct (truthy (prop o "method")); cbn [andb]; reflexivity.
Qed.

(** The function of the Claude Desktop dialect has no handler under a
    name that is neither a key of its table nor inherited by it. *)
Lemma member_for_unknown TOOLS now key :
  ~ In key ClaudeDesktop.handler_names ->
  ~ In key ClaudeDesktop.inherited_names ->
  ClaudeDesktop.member_for TOOLS now key = None.
Proof.
  intros Hown Hinh. unfold ClaudeDesktop.member_for.
  assert (E : ClaudeDesktop.handler_for key (ClaudeDesktop.claudeDesktopHandlers TOOLS now)
              = None).
  { unfold ClaudeDesktop.claudeDesktopHandlers. cbn [ClaudeDesktop.handler_for].
    cbn [ClaudeDesktop.handler_names In] in Hown.
    repeat match goal with
           | |- context [String.eqb key ?n] =>
               destruct (String.eqb_spec key n); [exfalso; apply Hown; subst; tauto |]
           end.
    reflexivity. }
  rewrite E.
  destruct (existsb (String.eqb key) ClaudeDesktop.inherited_names) eqn:Ex; [| reflexivity].
  exfalso. apply existsb_exists in Ex. destruct Ex as (name & Hin & Hname).
  apply String.eqb_eq in Hname. subst name. exact (Hinh Hin).
Qed.

Lemma claude_unknown_method TOOLS now path o key w :
  ToString (prop o "method") = Normal key ->
  ~ In key ClaudeDesktop.handler_names ->
  ~ In key ClaudeDesktop.inherited_names ->
  run (ClaudeDesktop.handler TOOLS now
         (mkEvent "POST" (VObj [("path", VStr path)]) (Parsed (VObj o)))) w
  = (Normal (ClaudeDesktop.method_not_found (VObj o)), []).
Proof.
  intros Hkey Hown Hinh. unfold run, ClaudeDesktop.handler, ClaudeDesktop.route.
  cbn [httpMethod event_body requestContext].
  rewrite bind_lift. cbn [get_prop lookup String.eqb Ascii.eqb Bool.eqb].
  rewrite or_else_path, log_value_string.
  cbn [String.eqb Ascii.eqb Bool.eqb negb].
  unfold try_catch. rewrite bind_lift.
  destruct (_ && _); [| reflexivity].
  cbn [dot]. fold (prop o "method"). rewrite Hkey, bind_lift.
  rewrite (member_for_unknown TOOLS now key Hown Hinh). reflexivity.
Qed.

(** Claim C7, where it fails.  The Deno server answers an unknown method
    with code -32601 and a message, and an error object without data. *)
Lemma deno_unknown_method_has_no_data :
  run (post_to [] (fun _ => "") "" (fun _ => ret VNull) "2025-01-01T00:00:00.000Z" 0
         DenoServer "/"
         (Parsed (VObj [("jsonrpc", VStr "2.0"); ("id", VNum 1);
                        ("method", VStr "resources/list")])))
      never
  = (Normal (plain_method_not_found (VNum 1)), [])
  /\ error_code (plain_method_not_found (VNum 1)) = VNum (-32601)
  /\ dot (body_field (plain_method_not_found (VNum 1)) "error") "data" = VUndefined.
Proof. repeat split. Qed.

(** Claim C7, amended.  What each variant answers, without an outbound
    call, to a parsed request object whose method is none of those its
    router tells apart.
    - The Deno server, [api-mcp] and the Bun server: a JSON-RPC error of
      code -32601 with the id of the request, code and message alone.
    - [mcp]: the same with its seven methods in [data.available_methods].
    - [mcp-api]: the same with its three methods, for a request of version
      2.0 with a method; otherwise the error -32600.
    - [mcp-v2-sse]: on its bootstrap path a bootstrap result; elsewhere the
      error -32601 with [bootstrap], [tools/list] and [tools/call] listed.
    - [mcp-v2-bootstrap], which routes by path and not by method: on its
      bootstrap path a bootstrap result; under [/mcp/v2/], for a request
      with a method, a result of status [mcp_v2_supported]; elsewhere the
      error -32601 with its endpoints in [data].
    - The function of the Claude Desktop dialect, for a method name that
      is no key of its table and no member of [Object.prototype]: the
      object [{success: false, error: 'Method not found', data}] of its
      dialect, with its six handlers in [data.available_methods]. *)
Theorem unknown_method_answer (TOOLS : list obj) (index_html : string -> string)
    (bun_index_html : string) (server_request : value -> M value)
    (now : string) (now_ms : Z)
    (v : variant) (path : string) (o : obj) (w : world) :
  (forall n, In n (recognized_methods v) -> is_str (prop o "method") n = false) ->
  let outcome :=
    run (post_to TOOLS index_html bun_index_html server_request now now_ms v path
           (Parsed (VObj o))) w in
  let id := prop o "id" in
  let error (code : Z) (message : string) (data : list (string * value)) :=
    (Normal (json_response 200
               (jsonrpc_error id
                  (VObj ([("code", VNum code); ("message", VStr message)] ++ data)%list))),
     @nil fetch_call) in
  let not_found := error (-32601) "Method not found" in
  let bootstrap :=
    exists result,
      outcome
      = (Normal (json_response 200
                   (jsonrpc_result (or_else id (VStr "bootstrap-response")) result)),
         []) in
  match v with
  | DenoServer | ApiMcpFunction | BunWebServer => outcome = not_found []
  | McpFunction =>
      outcome
      = not_found
          [("data",
            VObj [("available_methods",
                   VArr (map VStr ["getModels"; "connectMCPServer"; "initialize";
                                   "tools/list"; "tools/call"; "tools/describe";
                                   "server/info"]))])]
  | McpApiFunction =>
      if is_str (prop o "jsonrpc") "2.0" && truthy (prop o "method") then
        outcome
        = not_found
            [("data",
              VObj [("available_methods",
                     VArr (map VStr ["initialize"; "tools/list"; "tools/call"]))])]
      else outcome = error (-32600) "Invalid request format" []
  | V2SseFunction =>
      if String.eqb path "/mcp/v2/bootstrap" then bootstrap
      else
        outcome
        = not_found
            [("data",
              VObj [("available_methods",
                     VArr [VStr "bootstrap"; VStr "tools/list"; VStr "tools/call"]);
                    ("sse_endpoint", VStr "/mcp/v2/events");
                    ("format", VStr "mcp_v2_sse")])]
  | V2BootstrapFunction =>
      if String.eqb path "/mcp/v2/bootstrap" then bootstrap
      else if truthy (prop o "method") && starts_with "/mcp/v2/" path then
        converts (prop o "method") ->
        exists result,
          outcome = (Normal (json_response 200 (jsonrpc_result id result)), [])
          /\ dot result "status" = VStr "mcp_v2_supported"
      else
        outcome
        = not_found
            [("data",
              VObj [("request_path", VStr path);
                    ("available_endpoints",
                     VArr [VStr "/mcp/v2/bootstrap"; VStr "/mcp/v2/connect";
                           VStr "/mcp/v2/tools/list"; VStr "/mcp/v2/tools/call"]);
                    ("formats_supported", VArr [VStr "mcp_v2"]);
                    ("protocol_version", VStr "2025-06-18")])]
  | ClaudeDesktopFunction =>
      (exists key,
         ToString (prop o "method") = Normal key
         /\ ~ In key ["connectMCPServer"; "getModels"; "tools/list"; "tools/call";
                      "initialize"; "health"]
         /\ ~ In key ClaudeDesktop.inherited_names) ->
      exists data,
        outcome
        = (Normal (json_response 200
                     (VObj [("success", VBool false);
                            ("error", VStr "Method not found");
                            ("data",
                             VObj (("available_methods",
                                    VArr (map VStr ["connectMCPServer"; "getModels";
                                                    "tools/list"; "tools/call";
                                                    "initialize"; "health"]))
                                   :: data))])),
           [])
  end.
Proof.
  intros H outcome id error not_found bootstrap.
  subst outcome id error not_found bootstrap. destruct v; cbn [post_to].
  - apply deno_unknown_method. exact H.
  - apply api_mcp_unknown_method. exact H.
  - apply mcp_unknown_method. exact H.
  - intros (key & Hkey & Hown & Hinh). eexists.
    rewrite (claude_unknown_method TOOLS now path o key w Hkey Hown Hinh). reflexivity.
  - destruct (is_str (prop o "jsonrpc") "2.0" && truthy (prop o "method")) eqn:Hrpc.
    + apply mcp_api_unknown_method; assumption.
    + apply mcp_api_invalid_request. exact Hrpc.
  - destruct (String.eqb_spec path "/mcp/v2/bootstrap") as [-> | Hpath].
    + apply v2_bootstrap_bootstrap_path.
    + apply String.eqb_neq in Hpath. rewrite (v2_bootstrap_off_path TOOLS now path o w Hpath).
      destruct (truthy (prop o "method") && starts_with "/mcp/v2/" path).
      * intros [shown Hshown]. eexists. split.
        -- unfold try_catch. rewrite bind_lift. unfold ClaudeDesktop.log_value.
           rewrite Hshown. reflexivity.
        -- reflexivity.
      * reflexivity.
  - destruct (String.eqb_spec path "/mcp/v2/bootstrap") as [-> | Hpath].
    + apply v2_sse_bootstrap_path.
    + apply String.eqb_neq in Hpath. apply v2_sse_unknown_method; assumption.
  - apply bun_unknown_method. exact H.
Qed.

Lemma unknown_method_answer_witness :
  run (post_to [] (fun _ => "") "" (fun _ => ret VNull) "2025-01-01T00:00:00.000Z" 0
         McpFunction "/api/mcp"
         (Parsed (VObj [("jsonrpc", VStr "2.0"); ("id", VStr "a-1");
                        ("method", VStr "resources/list")])))
      never
  = (Normal (json_response 200
               (jsonrpc_error (VStr "a-1")
                  (VObj [("code", VNum (-32601));
                         ("message", VStr "Method not found");
                         ("data",
                          VObj [("available_methods",
                                 VArr (map VStr ["getModels"; "connectMCPServer";
                                                 "initialize"; "tools/list"; "tools/call";
                                                 "tools/describe"; "server/info"]))])]))),
     []).
Proof.
  apply (unknown_method_answer [] (fun _ => "") "" (fun _ => ret VNull)
           "2025-01-01T00:00:00.000Z" 0 McpFunction "/api/mcp"
           [("jsonrpc", VStr "2.0"); ("id", VStr "a-1"); ("method", VStr "resources/list")]
           never).
  intros n H. cbn in H. intuition (subst; reflexivity).
Defined.


(** ** The id of a response *)

(** What a computation throws. *)
Section ThrowsOnly.
Context {A : Type} (P : thrown -> Prop) (w : world).

Lemma throws_ret (a : A) : throws_only P w (ret a).
Proof. intros log t log' E. discriminate E. Qed.

Lemma throws_lift (c : completion A) :
  (forall t, c = Throw t -> P t) -> throws_only P w (lift c).
Proof. intros H log t log' E. apply H. unfold lift in E. congruence. Qed.

Lemma throws_throw t : P t -> throws_only P w (throw t : M A).
Proof. intros H log t' log' E. unfold throw in E. inversion E; subst. exact H. Qed.

Lemma throws_bind {B} (m : M B) (k : B -> M A) :
  throws_only P w m -> (forall b, throws_only P w (k b)) -> throws_only P w (bind m k).
Proof.
  intros Hm Hk log t log' E. unfold bind in E.
  destruct (m w log) as [[b | t0 |] l] eqn:Em.
  - exact (Hk b l t log' E).
  - inversion E; subst. exact (Hm log t log' Em).
  - discriminate E.
Qed.

Lemma throws_try (Q : thrown -> Prop) (body : M A) (handler : thrown -> M A) :
  throws_only Q w body -> (forall t, Q t -> throws_only P w (handler t)) ->
  throws_only P w (try_catch body handler).
Proof.
  intros Hb Hh log t log' E. unfold try_catch in E.
  destruct (body w log) as [[a | t0 |] l] eqn:Eb; try discriminate E.
  exact (Hh t0 (Hb log t0 l Eb) l t log' E).
Qed.

Lemma throws_switch_value (v : value) (cases : list (string * M A)) (default : M A) :
  Forall (fun c => throws_only P w (snd c)) cases ->
  throws_only P w default ->
  throws_only P w (switch_value v cases default).
Proof.
  intros Hc Hd. induction Hc as [| [label body] rest Hb _ IH]; cbn [switch_value].
  - exact Hd.
  - destruct (is_str v label); [exact Hb | exact IH].
Qed.
End ThrowsOnly.

Lemma throws_anything {A} w (m : M A) : throws_only (fun _ => True) w m.
Proof. intros log t log' _. exact I. Qed.

(** A response of a [try] whose body cannot throw is a response of the
    body. *)
Lemma try_guard {A} (P : A -> Prop) (body : M A) (handler : thrown -> M A) w :
  answers_with P body -> throws_only (fun _ => False) w body ->
  forall log r log', try_catch body handler w log = (Normal r, log') -> P r.
Proof.
  intros Ha Ht log r log' E. unfold try_catch in E.
  destruct (body w log) as [[a | t |] l] eqn:Eb.
  - inversion E; subst. exact (Ha w log r log' Eb).
  - destruct (Ht log t l Eb).
  - discriminate E.
Qed.

(** What the conversions and the client throw has a message. *)
Lemma error_has_message e : has_message (ThrowError e).
Proof. eexists. reflexivity. Qed.

Lemma ToString_throws v t : ToString v = Throw t -> has_message t.
Proof.
  intros E. destruct (ToString_cases v) as [[s H] | H]; rewrite H in E.
  - discriminate E.
  - inversion E. apply error_has_message.
Qed.

Lemma get_prop_throws v k t : get_prop v k = Throw t -> has_message t.
Proof. destruct v; cbn; intros E; inversion E; apply error_has_message. Qed.

Lemma get_prop_present v k :
  is_nullish v = false -> get_prop v k = Normal (dot v k).
Proof. destruct v; cbn; intros H; try discriminate H; reflexivity. Qed.

Lemma destructure_call_present v :
  is_nullish v = false ->
  destructure_call v = Normal (dot v "name", dot v "arguments").
Proof. intros H. unfold destructure_call. rewrite (get_prop_present v "name" H). reflexivity. Qed.

Lemma append_all_throws entries u t : append_all entries u = Throw t -> has_message t.
Proof.
  revert u. induction entries as [| [k v] rest IH]; intros u; cbn [append_all].
  - discriminate.
  - destruct (ToString v) as [s | t' |] eqn:E; cbn [cbind].
    + apply IH.
    + intros H. inversion H; subst. exact (ToString_throws v t E).
    + discriminate.
Qed.

Lemma apiRequest_throws w method path params :
  errors_have_message w -> throws_only has_message w (apiRequest method path params).
Proof.
  intros Hw. unfold apiRequest.
  change (new_URL_base path SERVERLESS_BASE_URL)
    with (Normal (parse_tail "https://api.llm.dflow.org" path)).
  change (bind (lift (Normal ?u)) ?k) with (k u). cbv beta.
  apply throws_bind.
  - apply throws_lift. intros t.
    destruct (truthy params && String.eqb method "GET"); [| discriminate].
    destruct params; cbn [Object_entries cbind]; intros E;
      first [ discriminate E
            | inversion E; apply error_has_message
            | exact (append_all_throws _ _ _ E) ].
  - intros url log t log'. unfold bind, fetch.
    destruct (w _) as [at_ms [r | e] |] eqn:Ew; cbn [settled]; try discriminate.
    + destruct (Hw _ _ _ Ew) as [Htext Hjson].
      destruct (negb (resp_ok r)).
      * unfold lift, throw_error, throw.
        destruct (resp_text r) as [text | e |] eqn:Et; try discriminate.
        -- intros E. inversion E. apply error_has_message.
        -- intros E. inversion E; subst. exact (Htext t eq_refl).
      * unfold lift. destruct (resp_json r) as [v | e |] eqn:Ej; try discriminate.
        intros E. inversion E; subst. exact (Hjson t eq_refl).
    + intros E. inversion E; subst. exact (Hw _ _ _ Ew).
Qed.

Lemma path_with_throws w a x : throws_only has_message w (path_with a x).
Proof.
  unfold path_with. apply throws_lift. intros t.
  destruct (ToString x) as [s | t' |] eqn:E; cbn [cbind]; try discriminate.
  intros H. inversion H; subst. exact (ToString_throws x t E).
Qed.

Lemma unknown_tool_throws_message w name : throws_only has_message w (unknown_tool name).
Proof.
  unfold unknown_tool. apply throws_bind.
  - apply throws_lift. intros t. apply ToString_throws.
  - intros shown. apply throws_throw, error_has_message.
Qed.

Lemma live_data_path_throws w toolArgs : throws_only has_message w (live_data_path toolArgs).
Proof.
  unfold live_data_path.
  repeat match goal with
         | |- throws_only _ _ (if ?c then _ else _) => destruct c
         end; first [apply path_with_throws | apply throws_ret].
Qed.

Lemma five_tools_throw w name toolArgs :
  errors_have_message w ->
  throws_only has_message w
    (switch_value name (five_tool_cases toolArgs) (unknown_tool name)).
Proof.
  intros Hw. apply throws_switch_value; [| apply unknown_tool_throws_message].
  unfold five_tool_cases, market_by_mint_case.
  repeat apply Forall_cons; try apply Forall_nil; cbn [snd];
    try (apply apiRequest_throws; exact Hw).
  - apply throws_bind; [apply path_with_throws | intros; apply apiRequest_throws; exact Hw].
  - apply throws_bind; [apply live_data_path_throws | intros; apply apiRequest_throws; exact Hw].
Qed.

(** The handler of an inner [catch] that reads the message. *)
Lemma message_handler_returns {A} P w error (k : value -> A) :
  has_message error ->
  throws_only P w (bind (lift (message_prop error)) (fun message => ret (k message))).
Proof.
  intros [v Hv]. rewrite Hv. change (bind (lift (Normal v)) ?f) with (f v). apply throws_ret.
Qed.

(** Each envelope variant echoes the id or answers from its catch-all. *)
Lemma deno_echoes TOOLS html path o :
  answers_with (echoes_id o)
    (Deno.handler TOOLS html (mkRequest "POST" "http://localhost:8000" path (Parsed (VObj o)))).
Proof.
  unfold Deno.handler.
  cbn [req_method req_body String.eqb Ascii.eqb Bool.eqb JSON_parse].
  change (bind (lift (Normal (VObj o))) ?k) with (k (VObj o)). cbv beta.
  answers; echo.
Qed.

Lemma api_mcp_echoes TOOLS context o :
  answers_with (echoes_id o) (ApiMcp.handler TOOLS (mkEvent "POST" context (Parsed (VObj o)))).
Proof.
  unfold ApiMcp.handler.
  cbn [httpMethod event_body String.eqb Ascii.eqb Bool.eqb JSON_parse negb].
  change (bind (lift (Normal (VObj o))) ?k) with (k (VObj o)). cbv beta.
  answers; echo.
Qed.

Lemma mcp_echoes TOOLS context o :
  answers_with (echoes_id o) (McpIndex.handler TOOLS (mkEvent "POST" context (Parsed (VObj o)))).
Proof.
  unfold McpIndex.handler.
  cbn [httpMethod event_body String.eqb Ascii.eqb Bool.eqb JSON_parse negb].
  change (bind (lift (Normal (VObj o))) ?k) with (k (VObj o)). cbv beta.
  unfold McpIndex.route, McpIndex.tools_call, McpIndex.tools_describe.
  answers; echo.
Qed.

Lemma mcp_api_echoes TOOLS path o :
  answers_with (echoes_id o)
    (McpApi.handler TOOLS (mkEvent "POST" (VObj [("path", VStr path)]) (Parsed (VObj o)))).
Proof.
  unfold McpApi.handler.
  cbn [httpMethod event_body requestContext JSON_parse get_prop lookup
       String.eqb Ascii.eqb Bool.eqb].
  change (bind (lift (Normal (VStr path))) ?k) with (k (VStr path)). cbv beta zeta.
  rewrite or_else_path, log_value_string.
  cbn [String.eqb Ascii.eqb Bool.eqb negb].
  change (bind (lift (Normal (VObj o))) ?k) with (k (VObj o)). cbv beta.
  unfold McpApi.route, McpApi.tools_call.
  apply answers_try; [| intros; answers; echo].
  apply answers_bind; intros jsonrpc.
  apply (answers_bind_with _ (fun b => dot b "id" = prop o "id")).
  - answers; reflexivity.
  - intros b Hb. apply answers_ret. left. exact Hb.
Qed.

Lemma bun_echoes TOOLS html server_request o :
  answers_with (echoes_id o)
    (BunWeb.fetch_handler TOOLS html server_request
       (mkRequest "POST" "http://localhost:3000" "/" (Parsed (VObj o)))).
Proof.
  unfold BunWeb.fetch_handler.
  cbn [req_method req_pathname req_body String.eqb Ascii.eqb Bool.eqb JSON_parse andb].
  change (bind (lift (Normal (VObj o))) ?k) with (k (VObj o)). cbv beta.
  answers; echo.
Qed.

(** With its parameters in reach, and failures that have a message, a
    request does not reach the catch-all: the id is echoed. *)
Lemma deno_echoes_params TOOLS html path o w r log :
  params_in_reach DenoServer o ->
  Deno.handler TOOLS html (mkRequest "POST" "http://localhost:8000" path (Parsed (VObj o))) w []
  = (Normal r, log) ->
  body_field r "id" = prop o "id".
Proof.
  intros Hp E. unfold Deno.handler in E.
  cbn [req_method req_body String.eqb Ascii.eqb Bool.eqb JSON_parse] in E.
  change (bind (lift (Normal (VObj o))) ?k) with (k (VObj o)) in E. cbv beta in E.
  cbn [get_prop] in E. fold (prop o "method") in E.
  change (bind (lift (Normal (prop o "method"))) ?k) with (k (prop o "method")) in E.
  cbv beta in E.
  refine (try_guard (fun r => body_field r "id" = prop o "id") _ _ w _ _ _ _ _ E).
  - answers; reflexivity.
  - destruct (_ || _); [apply throws_ret |].
    destruct (is_str (prop o "method") "tools.call" || is_str (prop o "method") "tools/call")
      eqn:Ec; [| apply throws_ret].
    assert (Hparams : is_nullish (prop o "params") = false).
    { apply orb_true_iff in Ec.
      destruct Ec as [Ec | Ec]; [apply (Hp "tools.call") | apply (Hp "tools/call")];
        cbn; auto. }
    cbn [dot]. rewrite (destructure_call_present _ Hparams).
    change (bind (lift (Normal ?x)) ?k) with (k x). cbv beta iota.
    apply (throws_try _ w (fun _ => True)); [apply throws_anything | intros; apply throws_ret].
Qed.

Lemma api_mcp_echoes_params TOOLS context o w r log :
  params_in_reach ApiMcpFunction o ->
  errors_have_message w ->
  ApiMcp.handler TOOLS (mkEvent "POST" context (Parsed (VObj o))) w [] = (Normal r, log) ->
  body_field r "id" = prop o "id".
Proof.
  intros Hp Hw E. unfold ApiMcp.handler in E.
  cbn [httpMethod event_body String.eqb Ascii.eqb Bool.eqb JSON_parse negb] in E.
  change (bind (lift (Normal (VObj o))) ?k) with (k (VObj o)) in E. cbv beta in E.
  cbn [get_prop] in E. fold (prop o "method") in E.
  change (bind (lift (Normal (prop o "method"))) ?k) with (k (prop o "method")) in E.
  cbv beta in E.
  refine (try_guard (fun r => body_field r "id" = prop o "id") _ _ w _ _ _ _ _ E).
  - answers; reflexivity.
  - destruct (_ || _); [apply throws_ret |].
    destruct (is_str (prop o "method") "tools.call" || is_str (prop o "method") "tools/call")
      eqn:Ec; [| apply throws_ret].
    assert (Hparams : is_nullish (prop o "params") = false).
    { apply orb_true_iff in Ec.
      destruct Ec as [Ec | Ec]; [apply (Hp "tools.call") | apply (Hp "tools/call")];
        cbn; auto. }
    cbn [dot]. rewrite (destructure_call_present _ Hparams).
    change (bind (lift (Normal ?x)) ?k) with (k x). cbv beta iota.
    apply (throws_try _ w has_message);
      [| intros t Ht; apply message_handler_returns; exact Ht].
    apply throws_bind; [| intros; apply throws_ret].
    apply throws_switch_value; [| apply unknown_tool_throws_message].
    unfold ApiMcp.tool_cases. repeat apply Forall_cons; try apply Forall_nil; cbn [snd];
      apply apiRequest_throws; exact Hw.
Qed.

Lemma mcp_echoes_params TOOLS context o w r log :
  params_in_reach McpFunction o ->
  converts (requested_tool o) ->
  errors_have_message w ->
  McpIndex.handler TOOLS (mkEvent "POST" context (Parsed (VObj o))) w [] = (Normal r, log) ->
  body_field r "id" = prop o "id".
Proof.
  intros Hp [shown Hshown] Hw E. unfold McpIndex.handler in E.
  cbn [httpMethod event_body String.eqb Ascii.eqb Bool.eqb JSON_parse negb] in E.
  change (bind (lift (Normal (VObj o))) ?k) with (k (VObj o)) in E. cbv beta in E.
  unfold McpIndex.route in E.
  cbn [get_prop] in E. fold (prop o "method") in E.
  change (bind (lift (Normal (prop o "method"))) ?k) with (k (prop o "method")) in E.
  cbv beta in E.
  refine (try_guard (fun r => body_field r "id" = prop o "id") _ _ w _ _ _ _ _ E).
  - unfold McpIndex.tools_call, McpIndex.tools_describe. answers; reflexivity.
  - repeat (destruct (is_str (prop o "method") _); [apply throws_ret |]).
    destruct (is_str (prop o "method") "tools/call") eqn:Ecall;
      [| destruct (is_str (prop o "method") "tools/describe") eqn:Edescribe;
         [| destruct (is_str (prop o "method") "server/info"); apply throws_ret]].
    + assert (Hparams : is_nullish (prop o "params") = false)
        by (apply (Hp "tools/call"); [cbn; auto | assumption]).
      unfold McpIndex.tools_call. cbn [dot]. rewrite (destructure_call_present _ Hparams).
      change (bind (lift (Normal ?x)) ?k) with (k x). cbv beta iota.
      apply (throws_try _ w has_message);
        [| intros t Ht; apply message_handler_returns; exact Ht].
      apply throws_bind; [| intros; apply throws_ret].
      apply five_tools_throw. exact Hw.
    + assert (Hparams : is_nullish (prop o "params") = false)
        by (apply (Hp "tools/describe"); [cbn; auto | assumption]).
      unfold McpIndex.tools_describe. cbn [dot].
      rewrite (get_prop_present _ "name" Hparams).
      change (bind (lift (Normal ?x)) ?k) with (k x). cbv beta.
      destruct (find _ TOOLS); [apply throws_ret |].
      unfold requested_tool in Hshown. rewrite Hshown.
      change (bind (lift (Normal ?x)) ?k) with (k x). apply throws_ret.
Qed.

Lemma mcp_api_echoes_params TOOLS path o w r log :
  params_in_reach McpApiFunction o ->
  errors_have_message w ->
  McpApi.handler TOOLS (mkEvent "POST" (VObj [("path", VStr path)]) (Parsed (VObj o))) w []
  = (Normal r, log) ->
  body_field r "id" = prop o "id".
Proof.
  intros Hp Hw E. unfold McpApi.handler in E.
  cbn [httpMethod event_body requestContext JSON_parse get_prop lookup
       String.eqb Ascii.eqb Bool.eqb] in E.
  change (bind (lift (Normal (VStr path))) ?k) with (k (VStr path)) in E. cbv beta zeta in E.
  rewrite or_else_path, log_value_string in E.
  cbn [String.eqb Ascii.eqb Bool.eqb negb] in E.
  change (bind (lift (Normal (VObj o))) ?k) with (k (VObj o)) in E. cbv beta in E.
  unfold McpApi.route in E. cbn [get_prop] in E. fold (prop o "jsonrpc") in E.
  change (bind (lift (Normal (prop o "jsonrpc"))) ?k) with (k (prop o "jsonrpc")) in E.
  cbv beta zeta in E.
  refine (try_guard (fun r => body_field r "id" = prop o "id") _ _ w _ _ _ _ _ E).
  - apply (answers_bind_with _ (fun b => dot b "id" = prop o "id")).
    + unfold McpApi.tools_call. answers; reflexivity.
    + intros b Hb. apply answers_ret. exact Hb.
  - apply throws_bind; [| intros; apply throws_ret].
    destruct (_ && _); [| apply throws_ret].
    cbn [dot]. fold (prop o "method").
    destruct (is_str (prop o "method") "initialize"); [apply throws_ret |].
    destruct (is_str (prop o "method") "tools/list"); [apply throws_ret |].
    destruct (is_str (prop o "method") "tools/call") eqn:Ecall; [| apply throws_ret].
    assert (Hparams : is_nullish (prop o "params") = false)
      by (apply (Hp "tools/call"); [cbn; auto | assumption]).
    unfold McpApi.tools_call. cbn [dot]. rewrite (destructure_call_present _ Hparams).
    change (bind (lift (Normal ?x)) ?k) with (k x). cbv beta iota.
    apply (throws_try _ w has_message);
      [| intros t Ht; apply message_handler_returns; exact Ht].
    apply throws_bind; [| intros; apply throws_ret].
    apply throws_switch_value; [| apply unknown_tool_throws_message].
    unfold McpApi.tool_cases. repeat apply Forall_cons; try apply Forall_nil; cbn [snd];
      try (apply apiRequest_throws; exact Hw).
    + apply throws_bind; [apply throws_lift; intros t; apply get_prop_throws | intros mint].
      apply throws_bind; [apply path_with_throws | intros; apply apiRequest_throws; exact Hw].
    + apply throws_bind; [apply throws_lift; intros t; apply get_prop_throws | intros ticker].
      apply throws_bind;
        [apply live_data_path_throws | intros; apply apiRequest_throws; exact Hw].
Qed.

Lemma bun_echoes_params TOOLS html server_request o w r log :
  params_in_reach BunWebServer o ->
  BunWeb.fetch_handler TOOLS html server_request
    (mkRequest "POST" "http://localhost:3000" "/" (Parsed (VObj o))) w []
  = (Normal r, log) ->
  body_field r "id" = prop o "id".
Proof.
  intros Hp E. unfold BunWeb.fetch_handler in E.
  cbn [req_method req_pathname req_body String.eqb Ascii.eqb Bool.eqb JSON_parse andb] in E.
  change (bind (lift (Normal (VObj o))) ?k) with (k (VObj o)) in E. cbv beta in E.
  cbn [get_prop dot] in E. fold (prop o "jsonrpc") in E. fold (prop o "method") in E.
  change (bind (lift (Normal (prop o "jsonrpc"))) ?k) with (k (prop o "jsonrpc")) in E.
  cbv beta in E.
  refine (try_guard (fun r => body_field r "id" = prop o "id") _ _ w _ _ _ _ _ E).
  - answers; reflexivity.
  - destruct (is_str (prop o "method") "tools.list"); [apply throws_ret |].
    destruct (is_str (prop o "method") "tools.call") eqn:Ecall; [| apply throws_ret].
    assert (Hparams : is_nullish (prop o "params") = false)
      by (apply (Hp "tools.call"); [cbn; auto | assumption]).
    fold (prop o "params"). rewrite (get_prop_present _ "name" Hparams).
    change (bind (lift (Normal ?x)) ?k) with (k x). cbv beta zeta.
    apply (throws_try _ w (fun _ => True)); [apply throws_anything | intros; apply throws_ret].
Qed.

Lemma answers_lift {A} (c : completion A) : answers_with (fun a => c = Normal a) (lift c).
Proof. intros w log r log' E. unfold lift in E. congruence. Qed.

(** The members the table of the Claude Desktop dialect inherits answer
    without an id, but for [constructor], which answers with the request. *)
Lemma inherited_member_id name o :
  answers_with (fun b => dot b "id" = VUndefined \/ (name = "constructor" /\ b = VObj o))
    (ClaudeDesktop.inherited_member name (VObj o)).
Proof.
  unfold ClaudeDesktop.inherited_member.
  destruct (String.eqb_spec name "constructor") as [-> | _].
  - apply answers_ret. right. split; reflexivity.
  - answers; left; reflexivity.
Qed.

(** The own entries of the table answer without an id. *)
Lemma own_handler_no_id TOOLS now key h request :
  ClaudeDesktop.handler_for key (ClaudeDesktop.claudeDesktopHandlers TOOLS now) = Some h ->
  answers_with (fun b => dot b "id" = VUndefined) (h request).
Proof.
  intros Eh. unfold ClaudeDesktop.claudeDesktopHandlers in Eh.
  cbn [ClaudeDesktop.handler_for] in Eh.
  repeat match type of Eh with
         | (if ?c then _ else _) = _ => destruct c
         end;
    inversion Eh; subst h.
  - unfold ClaudeDesktop.connectMCPServer. answers; reflexivity.
  - unfold ClaudeDesktop.getModels. answers; reflexivity.
  - unfold ClaudeDesktop.tools_list. answers; reflexivity.
  - unfold ClaudeDesktop.tools_call. answers; reflexivity.
  - unfold ClaudeDesktop.initialize. answers; reflexivity.
  - unfold ClaudeDesktop.health. answers; reflexivity.
Qed.

Lemma claude_desktop_id TOOLS now path o :
  answers_with
    (fun r => body_field r "id" = VUndefined
              \/ (ToString (prop o "method") = Normal "constructor"
                  /\ r = json_response 200 (VObj o)))
    (ClaudeDesktop.handler TOOLS now
       (mkEvent "POST" (VObj [("path", VStr path)]) (Parsed (VObj o)))).
Proof.
  unfold ClaudeDesktop.handler.
  cbn [httpMethod event_body requestContext JSON_parse get_prop lookup
       String.eqb Ascii.eqb Bool.eqb].
  change (bind (lift (Normal (VStr path))) ?k) with (k (VStr path)). cbv beta zeta.
  rewrite or_else_path, log_value_string.
  cbn [String.eqb Ascii.eqb Bool.eqb negb].
  apply answers_try; [| intros; answers; left; reflexivity].
  unfold ClaudeDesktop.route.
  apply answers_bind; intros args.
  destruct (_ && _); [| apply answers_ret; left; reflexivity].
  cbn [dot]. fold (prop o "method").
  apply (answers_bind_with _ (fun key => ToString (prop o "method") = Normal key));
    [apply answers_lift |].
  intros key Hkey. unfold ClaudeDesktop.member_for.
  destruct (ClaudeDesktop.handler_for key _) as [h |] eqn:Eh.
  - apply (answers_bind_with _ _ _ _ (own_handler_no_id TOOLS now key h (VObj o) Eh)).
    intros b Hb. apply answers_ret. left. exact Hb.
  - destruct (existsb _ _); [| apply answers_ret; left; reflexivity].
    apply (answers_bind_with _ _ _ _ (inherited_member_id key o)).
    intros b [Hb | [-> ->]]; apply answers_ret.
    + left. exact Hb.
    + right. split; [exact Hkey | reflexivity].
Qed.

(** [mcp-v2-bootstrap] echoes the id off its bootstrap path, or answers
    from its catch-all. *)
Lemma v2_bootstrap_echoes TOOLS now path o :
  String.eqb path "/mcp/v2/bootstrap" = false ->
  answers_with (echoes_id o)
    (V2Bootstrap.handler TOOLS now
       (mkEvent "POST" (VObj [("path", VStr path)]) (Parsed (VObj o)))).
Proof.
  intros Hpath. unfold V2Bootstrap.handler.
  cbn [httpMethod event_body requestContext JSON_parse get_prop lookup
       String.eqb Ascii.eqb Bool.eqb].
  change (bind (lift (Normal (VStr path))) ?k) with (k (VStr path)). cbv beta zeta.
  rewrite or_else_path, log_value_string.
  cbn [String.eqb Ascii.eqb Bool.eqb negb].
  unfold V2Bootstrap.route. cbn [is_str]. rewrite Hpath.
  answers; echo.
Qed.

(** Off the bootstrap path, a method that converts to a string keeps
    [mcp-v2-bootstrap] away from its catch-all, and [mcp-v2-sse] does not
    reach its own for a method other than [tools/call]. *)
Lemma v2_bootstrap_echoes_converts TOOLS now path o w r log :
  String.eqb path "/mcp/v2/bootstrap" = false ->
  converts (prop o "method") ->
  V2Bootstrap.handler TOOLS now
    (mkEvent "POST" (VObj [("path", VStr path)]) (Parsed (VObj o))) w []
  = (Normal r, log) ->
  body_field r "id" = prop o "id".
Proof.
  intros Hpath [shown Hshown] E. unfold V2Bootstrap.handler in E.
  cbn [httpMethod event_body requestContext JSON_parse get_prop lookup
       String.eqb Ascii.eqb Bool.eqb] in E.
  change (bind (lift (Normal (VStr path))) ?k) with (k (VStr path)) in E. cbv beta zeta in E.
  rewrite or_else_path, log_value_string in E.
  cbn [String.eqb Ascii.eqb Bool.eqb negb] in E.
  unfold V2Bootstrap.route in E. cbn [is_str] in E. rewrite Hpath in E.
  cbn [get_prop] in E. fold (prop o "method") in E.
  change (bind (lift (Normal (prop o "method"))) ?k) with (k (prop o "method")) in E.
  cbv beta in E.
  refine (try_guard (fun r => body_field r "id" = prop o "id") _ _ w _ _ _ _ _ E).
  - answers; reflexivity.
  - apply throws_bind.
    + apply throws_lift. intros t. destruct (truthy _); cbn; discriminate.
    + intros [|]; [| apply throws_ret].
      unfold ClaudeDesktop.log_value. rewrite Hshown.
      change (bind (lift (Normal ?x)) ?k) with (k x). cbv beta.
      change (bind (ret tt) ?k) with (k tt). cbv beta.
      cbn [ToString].
      change (bind (lift (Normal ?x)) ?k) with (k x). cbv beta.
      change (bind (ret tt) ?k) with (k tt). apply throws_ret.
Qed.

Lemma v2_sse_echoes_always TOOLS now now_ms path o w r log :
  String.eqb path "/mcp/v2/bootstrap" = false ->
  is_str (prop o "method") "tools/call" = false ->
  V2Sse.handler TOOLS now now_ms
    (mkEvent "POST" (VObj [("path", VStr path)]) (Parsed (VObj o))) w []
  = (Normal r, log) ->
  body_field r "id" = prop o "id".
Proof.
  intros Hpath Hcall E. unfold V2Sse.handler in E.
  cbn [httpMethod event_body requestContext JSON_parse get_prop lookup
       String.eqb Ascii.eqb Bool.eqb] in E.
  change (bind (lift (Normal (VStr path))) ?k) with (k (VStr path)) in E. cbv beta zeta in E.
  rewrite or_else_path, log_value_string in E.
  cbn [String.eqb Ascii.eqb Bool.eqb negb andb is_str] in E.
  unfold V2Sse.route in E. cbn [is_str] in E. rewrite Hpath in E.
  cbn [get_prop] in E. fold (prop o "method") in E.
  change (bind (lift (Normal (prop o "method"))) ?k) with (k (prop o "method")) in E.
  cbv beta in E. rewrite Hcall in E.
  refine (try_guard (fun r => body_field r "id" = prop o "id") _ _ w _ _ _ _ _ E).
  - apply (answers_bind_with _ (fun b => dot b "id" = prop o "id")).
    + destruct (is_str (prop o "method") "tools/list").
      * unfold V2Sse.handleToolsList. cbn [get_prop]. fold (prop o "id"). answers. reflexivity.
      * answers. reflexivity.
    + intros b Hb. apply answers_ret. exact Hb.
  - apply throws_bind; [| intros; apply throws_ret].
    destruct (is_str (prop o "method") "tools/list"); [| apply throws_ret].
    unfold V2Sse.handleToolsList. cbn [get_prop].
    change (bind (lift (Normal ?x)) ?k) with (k x). apply throws_ret.
Qed.

(** Claim C8, where it fails.  The function of the Claude Desktop dialect
    answers without an id; the catch-all of the [mcp] function answers a
    call without parameters with id null; the bootstrap of
    [mcp-v2-bootstrap] replaces the id 0; the tool call of [mcp-v2-sse] is
    answered by an event stream object without id. *)
Lemma responses_without_the_id :
  let post := post_to [] (fun _ => "") "" (fun _ => ret VNull) "2025-01-01T00:00:00.000Z" 0 in
  (exists r,
     run (post ClaudeDesktopFunction "/api/mcp"
            (Parsed (VObj [("args", VArr []); ("id", VNum 7);
                           ("method", VStr "tools/list"); ("type", VStr "rpc")]))) never
     = (Normal r, [])
     /\ body_field r "id" = VUndefined)
  /\ (exists r,
        run (post McpFunction "/api/mcp"
               (Parsed (VObj [("jsonrpc", VStr "2.0"); ("id", VNum 7);
                              ("method", VStr "tools/call")]))) never
        = (Normal r, [])
        /\ body_field r "id" = VNull)
  /\ (exists r,
        run (post V2BootstrapFunction "/mcp/v2/bootstrap"
               (Parsed (VObj [("jsonrpc", VStr "2.0"); ("id", VNum 0);
                              ("method", VStr "bootstrap")]))) never
        = (Normal r, [])
        /\ body_field r "id" = VStr "bootstrap-response")
  /\ (exists r,
        run (post V2SseFunction "/mcp/v2/tools/call"
               (Parsed (tools_call_request (VNum 7) "get_weather" (VObj [])))) never
        = (Normal r, [])
        /\ body_field r "id" = VUndefined).
Proof.
  cbv zeta. split; [| split; [| split]]; vm_compute; eexists; split; reflexivity.
Qed.

(** Claim C8, amended.  In the Deno server, [api-mcp], [mcp], [mcp-api] and
    the Bun server, every response to a parsed request object carries the id
    of the request as it came, whatever its type, or is the error of the
    catch-all handler, which carries id null; and it carries the id whenever
    the request has parameters where its method reads them (for [mcp], with
    a tool name that converts to a string) and the failures of the upstream
    have a message.  Off its bootstrap path [mcp-v2-bootstrap] does the
    same, with the id whenever the method converts to a string, and
    [mcp-v2-sse] answers every method other than [tools/call] with the id.
    The function of the Claude Desktop dialect answers without an id, but
    for the method name [constructor], which it finds through
    [Object.prototype] and answers with the request itself. *)
Theorem response_echoes_id (TOOLS : list obj) (index_html : string -> string)
    (bun_index_html : string) (server_request : value -> M value)
    (now : string) (now_ms : Z)
    (v : variant) (path : string) (o : obj) (w : world)
    (r : Response) (log : list fetch_call) :
  run (post_to TOOLS index_html bun_index_html server_request now now_ms v path
         (Parsed (VObj o))) w
  = (Normal r, log) ->
  match v with
  | ClaudeDesktopFunction =>
      body_field r "id" = VUndefined
      \/ (ToString (prop o "method") = Normal "constructor"
          /\ r = json_response 200 (VObj o))
  | V2BootstrapFunction =>
      String.eqb path "/mcp/v2/bootstrap" = false ->
      (body_field r "id" = prop o "id" \/ catch_all_response r)
      /\ (converts (prop o "method") -> body_field r "id" = prop o "id")
  | V2SseFunction =>
      String.eqb path "/mcp/v2/bootstrap" = false ->
      is_str (prop o "method") "tools/call" = false ->
      body_field r "id" = prop o "id"
  | _ =>
      (body_field r "id" = prop o "id" \/ catch_all_response r)
      /\ (params_in_reach v o ->
          (v = McpFunction -> converts (requested_tool o)) ->
          errors_have_message w ->
          body_field r "id" = prop o "id")
  end.
Proof.
  intros E. unfold run in E.
  destruct v; cbn [post_to] in E.
  - split; [exact (deno_echoes _ _ _ _ _ _ _ _ E) |].
    intros Hp _ _. exact (deno_echoes_params _ _ _ _ _ _ _ Hp E).
  - split; [exact (api_mcp_echoes _ _ _ _ _ _ _ E) |].
    intros Hp _ Hw. exact (api_mcp_echoes_params _ _ _ _ _ _ Hp Hw E).
  - split; [exact (mcp_echoes _ _ _ _ _ _ _ E) |].
    intros Hp Hc Hw. exact (mcp_echoes_params _ _ _ _ _ _ Hp (Hc eq_refl) Hw E).
  - exact (claude_desktop_id _ _ _ _ _ _ _ _ E).
  - split; [exact (mcp_api_echoes _ _ _ _ _ _ _ E) |].
    intros Hp _ Hw. exact (mcp_api_echoes_params _ _ _ _ _ _ Hp Hw E).
  - intros Hpath. split; [exact (v2_bootstrap_echoes _ _ _ _ Hpath _ _ _ _ E) |].
    intros Hc. exact (v2_bootstrap_echoes_converts _ _ _ _ _ _ _ Hpath Hc E).
  - intros Hpath Hcall. exact (v2_sse_echoes_always _ _ _ _ _ _ _ _ Hpath Hcall E).
  - split; [exact (bun_echoes _ _ _ _ _ _ _ _ E) |].
    intros Hp _ _. exact (bun_echoes_params _ _ _ _ _ _ _ Hp E).
Qed.

Lemma response_echoes_id_witness :
  body_field
    (json_response 200 (jsonrpc_result (VStr "req-9") (tool_content sample_event))) "id"
  = VStr "req-9".
Proof.
  refine (proj2 (response_echoes_id [] (fun _ => "") "" (fun _ => ret VNull)
                   "2025-01-01T00:00:00.000Z" 0 McpFunction "/api/mcp"
                   [("jsonrpc", VStr "2.0"); ("id", VStr "req-9");
                    ("method", VStr "tools/call");
                    ("params", VObj [("name", VStr "get_events");
                                     ("arguments", VObj [("limit", VNum 5)])])]
                   (answers sample_event) _
                   [mkCall "GET" "https://api.llm.dflow.org/api/v1/events?limit=5" None]
                   eq_refl) _ _ _).
  - intros n _ _. reflexivity.
  - intros _. exists "get_events". reflexivity.
  - intros c t s H. inversion H. split; intros e He; discriminate He.
Defined.


(* ===================================================================== *)
(** * Further properties of the code *)
(* ===================================================================== *)

Import Notions.

(** ** The base URL and the path *)

Lemma strip_final_slash_slash b : strip_final_slash (b ++ "/") = b.
Proof.
  induction b as [| c b' IH].
  - reflexivity.
  - cbn [append strip_final_slash].
    assert (E : String.eqb (b' ++ "/") "" = false) by (destruct b'; reflexivity).
    rewrite E, IH. reflexivity.
Qed.

Lemma strip_final_slash_other b :
  (forall b', b <> b' ++ "/") -> strip_final_slash b = b.
Proof.
  induction b as [| c b' IH]; intros H.
  - reflexivity.
  - cbn [strip_final_slash]. destruct b' as [| d b''].
    + cbn. destruct (is_code 47 c) eqn:E; [| reflexivity].
      exfalso. apply (H ""). unfold is_code in E. apply N.eqb_eq in E.
      cbn. f_equal. rewrite <- (ascii_N_embedding c), E. reflexivity.
    + cbn [String.eqb]. f_equal. apply IH. intros b0 E. apply (H (String c b0)).
      cbn. rewrite <- E. reflexivity.
Qed.

(** Property X1.  The constructor of the client drops one final slash of
    the base URL and no more, and [makeUrl] puts exactly one slash between
    the base and a path, whether or not the path brings its own. *)
Theorem base_and_path_joined_by_one_slash (b p : string) (t : option N) :
  starts_with "/" p = false ->
  let c := new_DFlowAPIClient (Some (b ++ "/")) t in
  baseUrl c = b
  /\ makeUrl c p = b ++ "/" ++ p
  /\ makeUrl c ("/" ++ p) = b ++ "/" ++ p
  /\ ((forall b', b <> b' ++ "/") ->
      baseUrl (new_DFlowAPIClient (Some b) t) = b).
Proof.
  intros Hp c.
  assert (E : baseUrl c = b) by apply strip_final_slash_slash.
  split; [exact E | split; [| split]].
  - unfold makeUrl. rewrite E, Hp. reflexivity.
  - unfold makeUrl. rewrite E. reflexivity.
  - intros H. apply strip_final_slash_other. exact H.
Qed.

Lemma base_and_path_joined_by_one_slash_witness :
  makeUrl (new_DFlowAPIClient (Some "https://example.org/") None) "api/v1/events"
  = "https://example.org/api/v1/events".
Proof.
  exact (proj1 (proj2
    (base_and_path_joined_by_one_slash "https://example.org" "api/v1/events" None eq_refl))).
Defined.

(** ** The answers of the upstream *)

(** Property X2.  When the upstream answers with a status outside
    200..299 before the timer of the client fires, [request] issues its one
    call and throws [Error('HTTP <status>: <text of the body>')].  The timer
    is the timeout of the client when that fits a timer, 2147483647 ms at
    most; a larger timeout makes the timer fire after 1 ms, and an answer
    that comes later than that ends in [Error('Request timeout')]. *)
Theorem request_http_error (c : DFlowAPIClient) (method path : string)
    (body : option string) (w : world) (t : N) (r : response) (text : string) :
  let call := mkCall method (makeUrl c path) body in
  w call = Settles t (Responds r) ->
  resp_ok r = false ->
  resp_text r = Normal text ->
  ((t <= timeout c)%N ->
   (timeout c <= 2147483647)%N ->
   run (request c method path body) w
   = (Throw (ThrowError (Error ("HTTP " ++ string_of_Z (resp_status r) ++ ": " ++ text))),
      [call]))
  /\ ((2147483647 < timeout c)%N ->
      (1 < t)%N ->
      run (request c method path body) w
      = (Throw (ThrowError (Error "Request timeout")), [call])).
Proof.
  intros call Hw Hok Htext. split.
  - intros Ht Hfit.
    unfold run, request, try_catch, request_try, bind, fetch_with_signal.
    fold call. rewrite Hw. cbn [completes_within settled].
    rewrite (timer_delay_fits _ Hfit), (proj2 (N.leb_le _ _) Ht), Hok. cbn [negb].
    unfold lift. rewrite Htext. reflexivity.
  - intros Hover Ht.
    unfold run, request, try_catch, request_try, bind, fetch_with_signal.
    fold call. rewrite Hw. cbn [completes_within settled].
    rewrite (timer_delay_overflow _ Hover), (proj2 (N.leb_gt _ _) Ht). reflexivity.
Qed.

Lemma request_http_error_witness :
  run (request apiClient "GET" "/api/v1/events" None) (refuses 503 "try again later")
  = (Throw (ThrowError (Error "HTTP 503: try again later")),
     [mkCall "GET" (BASE_URL ++ "/api/v1/events") None])
  /\ run (request (new_DFlowAPIClient None (Some 2147483648%N)) "GET" "/api/v1/events" None)
       (refuses 503 "try again later")
     = (Throw (ThrowError (Error "Request timeout")),
        [mkCall "GET" (BASE_URL ++ "/api/v1/events") None]).
Proof.
  split.
  - apply (proj1 (request_http_error apiClient "GET" "/api/v1/events" None
                    (refuses 503 "try again later") 10%N _ "try again later"
                    eq_refl eq_refl eq_refl)).
    + change (10 <= 30000)%N. lia.
    + change (30000 <= 2147483647)%N. lia.
  - apply (proj2 (request_http_error (new_DFlowAPIClient None (Some 2147483648%N))
                    "GET" "/api/v1/events" None
                    (refuses 503 "try again later") 10%N _ "try again later"
                    eq_refl eq_refl eq_refl)).
    + change (2147483647 < 2147483648)%N. lia.
    + lia.
Defined.

(** ** The query string, read back *)

(** A byte other than the percent sign decodes to itself. *)
Lemma percent_decode_plain c t :
  is_code 37 c = false -> percent_decode (String c t) = String c (percent_decode t).
Proof.
  intros H. cbn [percent_decode]. rewrite H.
  destruct t as [| h [| l t']]; reflexivity.
Qed.

(** The three ways the serializer writes a byte. *)
Lemma form_encode_char_cases c :
  (is_code 32 c = true)
  \/ (form_encode_char c = String c EmptyString
      /\ is_code 43 c = false /\ is_code 37 c = false)
  \/ (exists h l a b,
        form_encode_char c = String "%" (String h (String l EmptyString))
        /\ is_code 43 h = false /\ is_code 43 l = false
        /\ hex_value h = Some a /\ hex_value l = Some b
        /\ ascii_of_N (16 * a + b) = c).
Proof.
  destruct c as [[] [] [] [] [] [] [] []];
    first [ left; reflexivity
          | right; left; repeat split; reflexivity
          | right; right; do 4 eexists; repeat split; reflexivity ].
Qed.

Lemma decode_encode s : percent_decode (plus_to_space (form_encode s)) = s.
Proof.
  induction s as [| c rest IH].
  - reflexivity.
  - cbn [form_encode].
    destruct (form_encode_char_cases c)
      as [Hsp | [(E & Hplus & Hpct) | (h & l & a & b & E & Hh & Hl & Ha & Hb & Hc)]].
    + unfold form_encode_char. rewrite Hsp.
      cbn [append plus_to_space].
      change (is_code 43 "+") with true. cbn iota.
      rewrite percent_decode_plain by reflexivity. rewrite IH.
      unfold is_code in Hsp. apply N.eqb_eq in Hsp.
      f_equal. rewrite <- (ascii_N_embedding c), Hsp. reflexivity.
    + rewrite E. cbn [append plus_to_space]. rewrite Hplus.
      rewrite percent_decode_plain by exact Hpct. rewrite IH. reflexivity.
    + rewrite E. cbn [append plus_to_space]. rewrite Hh, Hl.
      change (is_code 43 "%") with false. cbn iota.
      cbn [percent_decode]. change (is_code 37 "%") with true. cbn iota.
      rewrite Ha, Hb, Hc, IH. reflexivity.
Qed.

Lemma form_encode_char_no_delimiter c : all_chars no_delimiter (form_encode_char c) = true.
Proof. destruct c as [[] [] [] [] [] [] [] []]; reflexivity. Qed.

Lemma form_encode_no_delimiter s : all_chars no_delimiter (form_encode s) = true.
Proof.
  induction s as [| c rest IH]; cbn [form_encode].
  - reflexivity.
  - rewrite all_chars_app, form_encode_char_no_delimiter, IH. reflexivity.
Qed.

Lemma form_encode_no (n : N) s :
  (n = 38 \/ n = 61 \/ n = 35)%N ->
  all_chars (fun c => negb (is_code n c)) (form_encode s) = true.
Proof.
  intros H. apply (all_chars_weaken no_delimiter); [| apply form_encode_no_delimiter].
  intros c Hc. unfold no_delimiter in Hc.
  apply andb_true_iff in Hc. destruct Hc as [Hc H35].
  apply andb_true_iff in Hc. destruct Hc as [H38 H61].
  destruct H as [-> | [-> | ->]]; assumption.
Qed.

Lemma split_on_none d a :
  all_chars (fun c => negb (is_code d c)) a = true -> split_on d a = [a].
Proof.
  induction a as [| x a' IH]; cbn [all_chars split_on]; intros H.
  - reflexivity.
  - apply andb_true_iff in H. destruct H as [Hx Ha]. apply negb_true_iff in Hx.
    rewrite Hx, (IH Ha). reflexivity.
Qed.

Lemma split_on_at d a c rest :
  all_chars (fun c => negb (is_code d c)) a = true -> is_code d c = true ->
  split_on d (a ++ String c rest) = a :: split_on d rest.
Proof.
  intros Ha Hc. induction a as [| x a' IH]; cbn [append split_on].
  - rewrite Hc. reflexivity.
  - cbn [all_chars] in Ha. apply andb_true_iff in Ha. destruct Ha as [Hx Ha].
    apply negb_true_iff in Hx. rewrite Hx, (IH Ha). reflexivity.
Qed.

Lemma split_on_concat pieces :
  pieces <> [] ->
  Forall (fun a => all_chars (fun c => negb (is_code 38 c)) a = true) pieces ->
  split_on 38 (String.concat "&" pieces) = pieces.
Proof.
  intros Hne H. induction H as [| a rest Ha Hrest IH]; [congruence |].
  destruct rest as [| b rest'].
  - cbn [String.concat]. apply split_on_none. exact Ha.
  - change (String.concat "&" (a :: b :: rest'))
      with (a ++ String "&" (String.concat "&" (b :: rest'))).
    rewrite (split_on_at 38 a "&" _ Ha eq_refl). f_equal. apply IH. discriminate.
Qed.

Lemma all_chars_concat f sep pieces :
  all_chars f sep = true -> Forall (fun a => all_chars f a = true) pieces ->
  all_chars f (String.concat sep pieces) = true.
Proof.
  intros Hsep H. induction H as [| a rest Ha Hrest IH]; [reflexivity |].
  destruct rest as [| b rest'].
  - exact Ha.
  - change (String.concat sep (a :: b :: rest'))
      with (a ++ sep ++ String.concat sep (b :: rest')).
    rewrite !all_chars_app, Ha, Hsep, IH. reflexivity.
Qed.

Lemma written_no n kv :
  (n = 38 \/ n = 35)%N -> all_chars (fun c => negb (is_code n c)) (written kv) = true.
Proof.
  intros H. unfold written. rewrite !all_chars_app.
  rewrite !form_encode_no by tauto.
  destruct H as [-> | ->]; reflexivity.
Qed.

(** Parsing what the serializer wrote gives the pairs back. *)
Lemma urlencoded_round_trip ps : urlencoded_parse (urlencoded_serialize ps) = ps.
Proof.
  unfold urlencoded_parse, urlencoded_serialize. fold written.
  destruct ps as [| p ps'].
  - reflexivity.
  - rewrite split_on_concat.
    + induction (p :: ps') as [| [k v] rest IH]; [reflexivity |].
      cbn [map flat_map]. rewrite IH. unfold written at 1 2. cbn [fst snd].
      assert (E : String.eqb (form_encode k ++ "=" ++ form_encode v) "" = false)
        by (destruct (form_encode k); reflexivity).
      rewrite E.
      change (form_encode k ++ "=" ++ form_encode v)
        with (form_encode k ++ String "=" (form_encode v)).
      rewrite (take_until_at (is_code 61) (form_encode k) "=" (form_encode v)
                 (form_encode_no 61 k (or_intror (or_introl eq_refl))) eq_refl).
      cbn [drop_first]. rewrite !decode_encode. reflexivity.
    + discriminate.
    + apply Forall_forall. intros a Ha. apply in_map_iff in Ha.
      destruct Ha as (kv & <- & _). apply written_no. tauto.
Qed.

Lemma serialized_no_fragment ps :
  all_chars (fun c => negb (is_code 35 c)) (urlencoded_serialize ps) = true.
Proof.
  unfold urlencoded_serialize. fold written. apply all_chars_concat; [reflexivity |].
  apply Forall_forall. intros a Ha. apply in_map_iff in Ha.
  destruct Ha as (kv & <- & _). apply written_no. tauto.
Qed.

(** The parse of a URL of the default client with a query string. *)
Lemma new_URL_with_query p ps :
  path_only p = true ->
  new_URL (BASE_URL ++ String "/" p ++ query_string ps)
  = Normal (mkURL BASE_URL (String "/" p)
              (match ps with [] => None | _ => Some (urlencoded_serialize ps) end)
              ps EmptyString).
Proof.
  intros Hp. destruct ps as [| q ps'].
  - cbn [query_string]. rewrite append_empty_r. apply new_URL_default_base. exact Hp.
  - cbn [query_string].
    change (BASE_URL ++ String "/" p ++ "?" ++ urlencoded_serialize (q :: ps'))
      with ("https" ++ String ":" (String "/" (String "/"
              ("prediction-markets-api.dflow.net"
               ++ String "/" (p ++ String "?" (urlencoded_serialize (q :: ps'))))))).
    rewrite new_URL_parts by reflexivity.
    unfold parse_tail.
    change (String "/" (p ++ String "?" (urlencoded_serialize (q :: ps'))))
      with (String "/" p ++ String "?" (urlencoded_serialize (q :: ps'))).
    rewrite (take_until_at path_end (String "/" p) "?" _ Hp eq_refl).
    change (is_code 63 "?") with true. cbn iota.
    pose proof (take_until_all (is_code 35) (urlencoded_serialize (q :: ps')) ""
                  (serialized_no_fragment (q :: ps'))) as E.
    rewrite append_empty_r in E. rewrite E. cbn [take_until fst snd].
    rewrite append_empty_r. rewrite urlencoded_round_trip. reflexivity.
Qed.

Lemma plain_path_path_only s : plain_path s = true -> path_only s = true.
Proof.
  unfold plain_path, path_only. induction s as [| c s' IH]; cbn [all_chars].
  - reflexivity.
  - intros H. apply andb_true_iff in H. destruct H as [Hc Hs].
    rewrite (IH Hs), andb_true_r. clear IH Hs.
    destruct c as [[] [] [] [] [] [] [] []]; try reflexivity; discriminate Hc.
Qed.

(** Property X3.  The URL a [get] of the default client calls reads back:
    parsed again, it has the origin of the base, the path given (a plain
    one), and as parameters exactly the entries with a value, in order,
    each with the string of its value, whatever bytes the names and values
    contain. *)
Theorem get_url_reads_back (p : string) (o : obj) (ps : pairs) (w : world) :
  plain_path p = true ->
  convert_entries (defined_entries o) = Normal ps ->
  exists url parsed,
    snd (run (get apiClient (String "/" p) (Some o)) w) = [mkCall "GET" url None]
    /\ new_URL url = Normal parsed
    /\ origin parsed = BASE_URL
    /\ pathname parsed = String "/" p
    /\ searchParams parsed = ps
    /\ hash parsed = "".
Proof.
  intros Hp Hc. apply plain_path_path_only in Hp.
  eexists. eexists. split; [| split].
  - apply (get_serializes_defined p o ps w Hp Hc).
  - apply new_URL_with_query. exact Hp.
  - repeat split.
Qed.

Lemma get_url_reads_back_witness :
  exists url parsed,
    snd (run (get apiClient "/api/v1/search"
                (Some [("q", VStr "who wins? A&B = 50%"); ("limit", VNum 5);
                       ("cursor", VUndefined)])) never)
    = [mkCall "GET" url None]
    /\ new_URL url = Normal parsed
    /\ origin parsed = BASE_URL
    /\ pathname parsed = "/api/v1/search"
    /\ searchParams parsed = [("q", "who wins? A&B = 50%"); ("limit", "5")]
    /\ hash parsed = "".
Proof.
  apply (get_url_reads_back "api/v1/search"
           [("q", VStr "who wins? A&B = 50%"); ("limit", VNum 5); ("cursor", VUndefined)]
           [("q", "who wins? A&B = 50%"); ("limit", "5")] never); reflexivity.
Defined.

(** ** A base URL with a path *)

Lemma starts_with_slash s : starts_with "/" s = true -> exists s', s = String "/" s'.
Proof.
  destruct s as [| c s']; cbn [starts_with]; [discriminate |].
  intros H. apply andb_true_iff in H. destruct H as [H _].
  apply Ascii.eqb_eq in H. subst c. eexists. reflexivity.
Qed.

(** The parse of an origin followed by a path. *)
Lemma new_URL_origin_path scheme authority tail :
  is_origin scheme authority = true ->
  new_URL (scheme ++ "://" ++ authority ++ String "/" tail)
  = Normal (parse_tail (scheme ++ "://" ++ authority) (String "/" tail)).
Proof.
  unfold is_origin. intros H.
  apply andb_true_iff in H. destruct H as [H Hne].
  apply andb_true_iff in H. destruct H as [Hs Ha].
  apply negb_true_iff in Hne.
  change (scheme ++ "://" ++ authority ++ String "/" tail)
    with (scheme ++ String ":" (String "/" (String "/" (authority ++ String "/" tail)))).
  apply new_URL_parts; try assumption; [| reflexivity].
  apply orb_true_iff in Hs. destruct Hs as [Hs | Hs]; apply String.eqb_eq in Hs;
    subst scheme; reflexivity.
Qed.

Lemma parse_tail_path orig tail :
  path_only (String "/" tail) = true ->
  parse_tail orig (String "/" tail) = mkURL orig (String "/" tail) None [] EmptyString.
Proof.
  intros H. unfold parse_tail. rewrite (take_until_path_only _ H). reflexivity.
Qed.

Lemma search_append_pairs ps u :
  query u = None -> searchParams u = [] ->
  pathname (append_pairs ps u) = pathname u
  /\ search (append_pairs ps u) = query_string ps.
Proof.
  intros Hq Hs. destruct ps as [| q ps'].
  - cbn [append_pairs query_string]. unfold search. rewrite Hq. split; reflexivity.
  - unfold append_pairs, search. cbn [query pathname]. rewrite Hs. cbn [app].
    rewrite serialize_nonempty. split; reflexivity.
Qed.

(** The calls of [get] and [post] for a base URL made of an origin and a
    path. *)
Lemma get_with_base_path (c : DFlowAPIClient) (scheme authority prefix p : string)
    (o : obj) (ps : pairs) (data : value) (w : world) :
  is_origin scheme authority = true ->
  is_path_prefix prefix = true ->
  baseUrl c = scheme ++ "://" ++ authority ++ prefix ->
  plain_path p = true ->
  convert_entries (defined_entries o) = Normal ps ->
  snd (run (get c (String "/" p) (Some o)) w)
  = [mkCall "GET" (baseUrl c ++ prefix ++ String "/" p ++ query_string ps) None]
  /\ snd (run (post c (String "/" p) data) w)
     = [mkCall "POST" (baseUrl c ++ String "/" p)
          (if truthy data then JSON_stringify data else None)].
Proof.
  intros Ho Hpre Hbase Hp Hc. apply plain_path_path_only in Hp. split.
  - unfold is_path_prefix in Hpre. apply andb_true_iff in Hpre.
    destruct Hpre as [Hpo Hpre]. apply plain_path_path_only in Hpo.
    assert (T : exists tail, prefix ++ String "/" p = String "/" tail).
    { apply orb_true_iff in Hpre. destruct Hpre as [E | E].
      - apply String.eqb_eq in E. subst prefix. eexists. reflexivity.
      - destruct (starts_with_slash _ E) as [q ->]. eexists. reflexivity. }
    destruct T as [tail Htail].
    assert (Hto : path_only (String "/" tail) = true).
    { rewrite <- Htail. apply path_only_app; [exact Hpo | exact Hp]. }
    unfold run, get.
    assert (M : makeUrl c (String "/" p)
                = scheme ++ "://" ++ authority ++ String "/" tail).
    { unfold makeUrl. cbn [starts_with Ascii.eqb Bool.eqb andb].
      rewrite Hbase, <- Htail. rewrite !append_assoc. reflexivity. }
    rewrite M, bind_lift, (new_URL_origin_path _ _ _ Ho), (parse_tail_path _ _ Hto).
    rewrite bind_lift, append_defined_spec, Hc. cbn [cbind].
    destruct (search_append_pairs ps
                (mkURL (scheme ++ "://" ++ authority) (String "/" tail) None [] "")
                eq_refl eq_refl) as [E1 E2].
    rewrite E1, E2. cbn [pathname]. rewrite request_log. cbn [app].
    unfold makeUrl. cbn [append starts_with Ascii.eqb Bool.eqb andb].
    change (String "/" (tail ++ query_string ps)) with (String "/" tail ++ query_string ps).
    rewrite <- Htail. rewrite !append_assoc. reflexivity.
  - unfold run, post. rewrite request_log. reflexivity.
Qed.

(** Property X4.  For a client whose base URL is the default origin
    followed by a path, [get] calls the base followed by that path once
    more and then the path given, because it hands the path name of the
    full URL to [request], which prepends the base again; [post] calls the
    base followed by the path given.  With a base that has no path the two
    agree.  The paths are plain ones. *)
Theorem get_repeats_base_path (c : DFlowAPIClient) (prefix p : string)
    (o : obj) (ps : pairs) (data : value) (w : world) :
  baseUrl c = BASE_URL ++ prefix ->
  is_path_prefix prefix = true ->
  plain_path p = true ->
  convert_entries (defined_entries o) = Normal ps ->
  snd (run (get c (String "/" p) (Some o)) w)
  = [mkCall "GET" (BASE_URL ++ prefix ++ prefix ++ String "/" p ++ query_string ps) None]
  /\ snd (run (post c (String "/" p) data) w)
     = [mkCall "POST" (BASE_URL ++ prefix ++ String "/" p)
          (if truthy data then JSON_stringify data else None)].
Proof.
  intros Hbase Hpre Hp Hc.
  destruct (get_with_base_path c "https" "prediction-markets-api.dflow.net" prefix p
              o ps data w eq_refl Hpre Hbase Hp Hc) as [G P].
  rewrite G, P, Hbase, !append_assoc. split; reflexivity.
Qed.

Lemma get_repeats_base_path_witness :
  snd (run (get (new_DFlowAPIClient
                   (Some "https://prediction-markets-api.dflow.net/markets/") None)
              "/api/v1/events" (Some [("limit", VNum 5)])) never)
  = [mkCall "GET"
       "https://prediction-markets-api.dflow.net/markets/markets/api/v1/events?limit=5"
       None].
Proof.
  exact (proj1 (get_repeats_base_path
                  (new_DFlowAPIClient
                     (Some "https://prediction-markets-api.dflow.net/markets/") None)
                  "/markets" "api/v1/events"
                  [("limit", VNum 5)] [("limit", "5")] VNull never
                  eq_refl eq_refl eq_refl eq_refl)).
Defined.

(** ** Every tool is one request *)

Lemma starts_with_app p z : starts_with p (p ++ z) = true.
Proof.
  induction p as [| c p' IH]; cbn [starts_with append].
  - reflexivity.
  - rewrite Ascii.eqb_refl, IH. reflexivity.
Qed.

Lemma starts_with_trans p q r :
  starts_with p q = true -> starts_with q r = true -> starts_with p r = true.
Proof.
  revert q r. induction p as [| a p' IH]; intros q r; cbn [starts_with].
  - reflexivity.
  - destruct q as [| b q']; [discriminate |].
    intros H1. apply andb_true_iff in H1. destruct H1 as [Hab H1].
    destruct r as [| c r']; cbn [starts_with]; [discriminate |].
    intros H2. apply andb_true_iff in H2. destruct H2 as [Hbc H2].
    apply Ascii.eqb_eq in Hab, Hbc. subst. rewrite Ascii.eqb_refl. cbn [andb].
    exact (IH _ _ H1 H2).
Qed.

Lemma convertible_string v : convertible v = true -> exists s, ToString v = Normal s.
Proof.
  unfold convertible. destruct (ToString v) as [s | |]; try discriminate.
  intros _. eexists. reflexivity.
Qed.

Lemma convertible_prop o k : all_convertible o = true -> convertible (prop o k) = true.
Proof.
  unfold all_convertible, prop. induction o as [| [k' v] rest IH]; cbn [forallb lookup snd].
  - reflexivity.
  - intros H. apply andb_true_iff in H. destruct H as [Hv Hr].
    destruct (String.eqb k k'); [exact Hv | exact (IH Hr)].
Qed.

Lemma convertible_filter f o :
  all_convertible o = true -> all_convertible (filter f o) = true.
Proof.
  unfold all_convertible. induction o as [| kv rest IH]; cbn [forallb filter].
  - reflexivity.
  - intros H. apply andb_true_iff in H. destruct H as [Hv Hr].
    destruct (f kv); cbn [forallb]; [rewrite Hv |]; exact (IH Hr).
Qed.

Lemma convert_entries_total o :
  all_convertible o = true -> exists ps, convert_entries o = Normal ps.
Proof.
  unfold all_convertible. induction o as [| [k v] rest IH]; cbn [forallb snd convert_entries].
  - eexists. reflexivity.
  - intros H. apply andb_true_iff in H. destruct H as [Hv Hr].
    destruct (convertible_string v Hv) as [s ->].
    destruct (IH Hr) as [ps ->]. eexists. reflexivity.
Qed.

(** The parse of a URL of the default client, whatever follows the slash. *)
Lemma new_URL_default_any tail :
  new_URL (BASE_URL ++ String "/" tail) = Normal (parse_tail BASE_URL (String "/" tail)).
Proof. exact (new_URL_origin_path "https" "prediction-markets-api.dflow.net" tail eq_refl). Qed.

Lemma pathname_append_pairs ps u : pathname (append_pairs ps u) = pathname u.
Proof. destruct ps; reflexivity. Qed.

Lemma parse_tail_pathname orig a rest :
  path_only (String "/" a) = true ->
  starts_with (String "/" a) (pathname (parse_tail orig (String "/" a ++ rest))) = true.
Proof.
  intros Ha. unfold parse_tail.
  rewrite (take_until_all path_end (String "/" a) rest Ha).
  destruct (take_until path_end rest) as [x y]. cbn [fst snd].
  destruct y as [| c r'].
  - cbn [pathname append String.eqb]. apply (starts_with_app (String "/" a)).
  - destruct (is_code 63 c).
    + destruct (take_until (is_code 35) r'). cbn [pathname append String.eqb].
      apply (starts_with_app (String "/" a)).
    + cbn [pathname append String.eqb]. apply (starts_with_app (String "/" a)).
Qed.

(** A [get] of a client with the default base is one request, of a path
    that starts as the path given starts. *)
Lemma get_is_request c a rest params :
  baseUrl c = BASE_URL ->
  path_only (String "/" a) = true ->
  match params with Some o => all_convertible o = true | None => True end ->
  exists rpath,
    starts_with (String "/" a) rpath = true
    /\ forall w log,
         get c (String "/" a ++ rest) params w log
         = request c "GET" rpath None w log.
Proof.
  intros Hb Ha Hc.
  assert (E : exists u, starts_with (String "/" a) (pathname u) = true
                        /\ match params with
                           | Some o => append_defined o (parse_tail BASE_URL (String "/" a ++ rest))
                           | None => Normal (parse_tail BASE_URL (String "/" a ++ rest))
                           end = Normal u).
  { destruct params as [o |].
    - destruct (convert_entries_total (defined_entries o)
                  (convertible_filter _ _ Hc)) as [ps Hps].
      eexists. split; [| rewrite append_defined_spec, Hps; reflexivity].
      rewrite pathname_append_pairs. apply parse_tail_pathname. exact Ha.
    - eexists. split; [| reflexivity]. apply parse_tail_pathname. exact Ha. }
  destruct E as (u & Hu & E).
  exists (pathname u ++ search u). split.
  - apply (starts_with_trans _ (pathname u)); [exact Hu | apply starts_with_app].
  - intros w log. unfold get.
    assert (U : makeUrl c (String "/" a ++ rest) = BASE_URL ++ String "/" (a ++ rest)).
    { unfold makeUrl. rewrite Hb. reflexivity. }
    rewrite U, bind_lift, new_URL_default_any.
    change (String "/" (a ++ rest)) with (String "/" a ++ rest).
    rewrite bind_lift, E. reflexivity.
Qed.

Lemma one_request_get c a params :
  baseUrl c = BASE_URL ->
  starts_with "/api/v1/" (String "/" a) = true ->
  path_only (String "/" a) = true ->
  match params with Some o => all_convertible o = true | None => True end ->
  one_request c (get c (String "/" a) params).
Proof.
  intros Hb Hpre Ha Hc.
  destruct (get_is_request c a "" params Hb Ha Hc) as (rpath & Hr & E).
  exists "GET", rpath, None. split; [left; reflexivity | split].
  - exact (starts_with_trans _ _ _ Hpre Hr).
  - intros w log. rewrite <- E. rewrite append_empty_r. reflexivity.
Qed.

Lemma one_request_post c a data :
  starts_with "/api/v1/" a = true ->
  one_request c (post c a data).
Proof.
  intros Hpre. eexists "POST", a, _. split; [right; reflexivity | split].
  - exact Hpre.
  - intros w log. reflexivity.
Qed.

Lemma one_request_tpl1 c a x b params :
  baseUrl c = BASE_URL ->
  starts_with "/api/v1/" (String "/" a) = true ->
  path_only (String "/" a) = true ->
  convertible x = true ->
  match params with Some o => all_convertible o = true | None => True end ->
  one_request c (bind (tpl1 (String "/" a) x b) (fun path => get c path params)).
Proof.
  intros Hb Hpre Ha Hx Hc.
  destruct (convertible_string x Hx) as [s Hs].
  destruct (get_is_request c a (s ++ b) params Hb Ha Hc) as (rpath & Hr & E).
  exists "GET", rpath, None. split; [left; reflexivity | split].
  - exact (starts_with_trans _ _ _ Hpre Hr).
  - intros w log. unfold tpl1. rewrite Hs. cbn [cbind]. rewrite bind_lift. apply E.
Qed.

Lemma one_request_tpl2 cl a x b y c params :
  baseUrl cl = BASE_URL ->
  starts_with "/api/v1/" (String "/" a) = true ->
  path_only (String "/" a) = true ->
  convertible x = true -> convertible y = true ->
  match params with Some o => all_convertible o = true | None => True end ->
  one_request cl (bind (tpl2 (String "/" a) x b y c) (fun path => get cl path params)).
Proof.
  intros Hb Hpre Ha Hx Hy Hc.
  destruct (convertible_string x Hx) as [s Hs].
  destruct (convertible_string y Hy) as [s' Hs'].
  destruct (get_is_request cl a (s ++ b ++ s' ++ c) params Hb Ha Hc) as (rpath & Hr & E).
  exists "GET", rpath, None. split; [left; reflexivity | split].
  - exact (starts_with_trans _ _ _ Hpre Hr).
  - intros w log. unfold tpl2. rewrite Hs, Hs'. cbn [cbind]. rewrite bind_lift. apply E.
Qed.

(** A name with a case goes to a case. *)
Lemma switch_known {A} (P : A -> Prop) name (cases : list (string * A)) d :
  Forall (fun c => P (snd c)) cases -> In name (map fst cases) -> P (switch name cases d).
Proof.
  intros Hc. induction Hc as [| [label body] rest Hb _ IH]; cbn [switch map fst In].
  - intros [].
  - intros H. destruct (String.eqb_spec name label) as [-> | Hne]; [exact Hb |].
    apply IH. destruct H as [H | H]; [congruence | exact H].
Qed.

(** The cases of a switch over the tools, one request each. *)
Ltac one_request_cases Hb Hc Hp Ho :=
  repeat (apply Forall_cons;
          [cbn [snd];
           first [ apply one_request_post; reflexivity
                 | apply one_request_get;
                   [exact Hb | reflexivity | reflexivity
                    | first [exact I | exact Hc | cbn; rewrite Hp; reflexivity]]
                 | apply one_request_tpl1;
                   [exact Hb | reflexivity | reflexivity | apply Hp
                    | first [exact I | apply Ho | cbn; rewrite Hp; reflexivity]]
                 | apply one_request_tpl2;
                   [exact Hb | reflexivity | reflexivity | apply Hp | apply Hp
                    | first [exact I | apply Ho]] ] |]);
  apply Forall_nil.

Lemma dispatch_one_request McpError name toolArgs :
  In name tool_names -> all_convertible toolArgs = true ->
  one_request apiClient (dispatch McpError name toolArgs).
Proof.
  intros Hname Hc. unfold dispatch.
  apply (switch_known (one_request apiClient)); [| exact Hname].
  pose proof (fun k => convertible_prop toolArgs k Hc) as Hp.
  pose proof (fun ks => convertible_filter
                (fun kv => negb (existsb (String.eqb (fst kv)) ks)) toolArgs Hc) as Ho.
  assert (Hb : baseUrl apiClient = BASE_URL) by reflexivity.
  unfold tool_cases. one_request_cases Hb Hc Hp Ho.
Qed.

Lemma factory_dispatch_one_request McpError config name toolArgs :
  Factory.configured_url config = BASE_URL ->
  In name tool_names -> all_convertible toolArgs = true ->
  one_request (Factory.apiClient config) (Factory.dispatch McpError config name toolArgs).
Proof.
  intros Hurl Hname Hc. unfold Factory.dispatch.
  apply (switch_known (one_request (Factory.apiClient config))); [| exact Hname].
  pose proof (fun k => convertible_prop toolArgs k Hc) as Hp.
  pose proof (fun ks => convertible_filter
                (fun kv => negb (existsb (String.eqb (fst kv)) ks)) toolArgs Hc) as Ho.
  assert (Hb : baseUrl (Factory.apiClient config) = BASE_URL).
  { unfold Factory.apiClient, new_DFlowAPIClient. cbn [baseUrl]. rewrite Hurl. reflexivity. }
  unfold Factory.tool_cases. one_request_cases Hb Hc Hp Ho.
Qed.

(** ** The tools of the stdio server, one call each *)

(** Property X5.  Every tool of the switch, called with arguments that
    [String] converts, issues exactly one outbound call, a [GET] or a
    [POST] to a URL that starts with the base and a [/], the same whatever
    the upstream does. *)
Theorem every_tool_is_one_call (McpError : Z -> string -> js_error) (name : string)
    (args : option obj) :
  In name tool_names ->
  all_convertible (match args with Some o => o | None => [] end) = true ->
  exists method url body,
    (method = "GET" \/ method = "POST")
    /\ starts_with (BASE_URL ++ "/") url = true
    /\ forall w, snd (run (call_tool McpError name args) w) = [mkCall method url body].
Proof.
  intros Hname Hc.
  destruct (dispatch_one_request McpError name _ Hname Hc)
    as (method & path & body & Hm & Hp & E).
  assert (Hs : starts_with "/" path = true)
    by (apply (starts_with_trans "/" "/api/v1/"); [reflexivity | exact Hp]).
  exists method, (BASE_URL ++ path), body. split; [exact Hm | split].
  - destruct (starts_with_slash path Hs) as [p' ->].
    change (String "/" p') with ("/" ++ p'). rewrite <- append_assoc.
    apply starts_with_app.
  - intros w. unfold run, call_tool. rewrite try_ret_log, E, request_log.
    unfold makeUrl.
    rewrite (starts_with_trans "/" "/api/v1/" path eq_refl Hp). reflexivity.
Qed.

Lemma every_tool_is_one_call_witness :
  exists method url body,
    (method = "GET" \/ method = "POST")
    /\ starts_with (BASE_URL ++ "/") url = true
    /\ forall w,
         snd (run (call_tool sdk_error "get_event_candlesticks"
                     (Some [("ticker", VStr "what?"); ("startTs", VNum 1)])) w)
         = [mkCall method url body].
Proof.
  apply (every_tool_is_one_call sdk_error "get_event_candlesticks"
           (Some [("ticker", VStr "what?"); ("startTs", VNum 1)])).
  - cbn. tauto.
  - reflexivity.
Defined.

(** Property X6.  When no call is answered within 30000 ms, every tool
    of the switch ends, after its one call, in the error result with the
    text [Error calling <name>: Request timeout]. *)
Theorem tool_timeout_is_reported (McpError : Z -> string -> js_error) (name : string)
    (args : option obj) (w : world) :
  In name tool_names ->
  all_convertible (match args with Some o => o | None => [] end) = true ->
  (forall call, completes_within 30000 (w call) = false) ->
  exists call,
    run (call_tool McpError name args) w
    = (Normal (error_text_result ("Error calling " ++ name ++ ": Request timeout")), [call]).
Proof.
  intros Hname Hc Hw.
  destruct (dispatch_one_request McpError name _ Hname Hc)
    as (method & path & body & _ & _ & E).
  eexists. unfold run, call_tool, try_catch, bind. rewrite E.
  rewrite (request_times_out apiClient method path body w [] (Hw _)). reflexivity.
Qed.

Lemma tool_timeout_is_reported_witness :
  exists call,
    run (call_tool sdk_error "search_events" (Some [("q", VStr "election")])) never
    = (Normal (error_text_result "Error calling search_events: Request timeout"), [call]).
Proof.
  apply (tool_timeout_is_reported sdk_error "search_events" (Some [("q", VStr "election")]) never).
  - cbn. tauto.
  - reflexivity.
  - reflexivity.
Defined.

(** Property X7.  When the upstream answers every call in time with a
    status outside 200..299, every tool of the switch ends, after its one
    call, in the error result with the text
    [Error calling <name>: HTTP <status>: <text of the body>]. *)
Theorem tool_http_error_is_reported (McpError : Z -> string -> js_error) (name : string)
    (args : option obj) (w : world) (status : Z) (text : string) :
  In name tool_names ->
  all_convertible (match args with Some o => o | None => [] end) = true ->
  (forall call, exists t r,
      w call = Settles t (Responds r) /\ (t <= 30000)%N
      /\ resp_status r = status /\ resp_text r = Normal text) ->
  (status < 200 \/ 299 < status) ->
  exists call,
    run (call_tool McpError name args) w
    = (Normal (error_text_result
                 ("Error calling " ++ name ++ ": HTTP " ++ string_of_Z status ++ ": " ++ text)),
       [call]).
Proof.
  intros Hname Hc Hw Hs.
  destruct (dispatch_one_request McpError name _ Hname Hc)
    as (method & path & body & _ & _ & E).
  destruct (Hw (mkCall method (makeUrl apiClient path) body))
    as (t & r & Hcall & Ht & Hst & Htext).
  eexists. unfold run, call_tool, try_catch, bind. rewrite E.
  unfold request, try_catch, request_try, bind, fetch_with_signal.
  rewrite Hcall. cbn [completes_within settled].
  change (timer_delay (timeout apiClient)) with 30000%N. rewrite (proj2 (N.leb_le _ _) Ht).
  assert (Hok : resp_ok r = false).
  { unfold resp_ok. rewrite Hst. apply andb_false_iff.
    destruct Hs; [left; apply Z.leb_gt | right; apply Z.leb_gt]; lia. }
  rewrite Hok. cbn [negb]. unfold lift, http_error. rewrite Htext, Hst. reflexivity.
Qed.

Lemma tool_http_error_is_reported_witness :
  exists call,
    run (call_tool sdk_error "get_market" (Some [("market_id", VStr "NOPE")]))
        (refuses 404 "market not found")
    = (Normal (error_text_result "Error calling get_market: HTTP 404: market not found"),
       [call]).
Proof.
  apply (tool_http_error_is_reported sdk_error "get_market"
           (Some [("market_id", VStr "NOPE")]) (refuses 404 "market not found")
           404 "market not found").
  - cbn. tauto.
  - reflexivity.
  - intros call. eexists. eexists.
    split; [reflexivity | split; [| split; reflexivity]]. lia.
  - right. lia.
Defined.

(** ** Arguments that are left out *)

Lemma omit_absent k o : lookup k o = None -> omit [k] o = o.
Proof.
  unfold omit. induction o as [| [k' v] rest IH]; cbn [lookup filter existsb fst].
  - reflexivity.
  - rewrite (String.eqb_sym k' k). destruct (String.eqb k k'); [discriminate |].
    intros H. cbn [orb negb]. f_equal. exact (IH H).
Qed.

Lemma path_argument_dispatch McpError tool key a b rest toolArgs :
  In (tool, (key, (a, (b, rest)))) path_argument_routes ->
  dispatch McpError tool toolArgs
  = bind (tpl1 a (prop toolArgs key) b)
         (fun path => get apiClient path
                        (if rest then Some (omit [key] toolArgs) else None)).
Proof.
  intros H. cbn [path_argument_routes In] in H.
  repeat (destruct H as [H | H]; [inversion H; subst; reflexivity |]).
  destruct H.
Qed.

Lemma path_argument_prefix tool key a b rest :
  In (tool, (key, (a, (b, rest)))) path_argument_routes ->
  exists a', a = String "/" a' /\ path_only a' = true /\ path_only b = true.
Proof.
  intros H. cbn [path_argument_routes In] in H.
  repeat (destruct H as [H | H];
          [inversion H; subst; eexists; (split; [reflexivity | split; reflexivity]) |]).
  destruct H.
Qed.

(** Property X8.  The handler does not check the arguments a tool
    requires: when the argument a tool puts into its path is left out, the
    tool calls the path with the segment [undefined], followed by the query
    string of the arguments given where the tool forwards them. *)
Theorem missing_path_argument (McpError : Z -> string -> js_error) (w : world)
    (tool key a b : string) (rest : bool) (toolArgs : obj) (ps : pairs) :
  In (tool, (key, (a, (b, rest)))) path_argument_routes ->
  lookup key toolArgs = None ->
  convert_entries (defined_entries toolArgs) = Normal ps ->
  snd (run (call_tool McpError tool (Some toolArgs)) w)
  = [mkCall "GET"
       (BASE_URL ++ a ++ "undefined" ++ b ++ (if rest then query_string ps else "")) None].
Proof.
  intros Hroute Hkey Hps.
  destruct (path_argument_prefix _ _ _ _ _ Hroute) as (a' & -> & Ha & Hb).
  unfold run, call_tool. rewrite try_ret_log.
  rewrite (path_argument_dispatch _ _ _ _ _ _ _ Hroute).
  unfold tpl1, prop. rewrite Hkey. cbn [ToString cbind]. rewrite bind_lift.
  change (String "/" a' ++ "undefined" ++ b) with (String "/" (a' ++ "undefined" ++ b)).
  assert (Hp : path_only (a' ++ "undefined" ++ b) = true).
  { apply path_only_app; [exact Ha |]. apply path_only_app; [reflexivity | exact Hb]. }
  destruct rest.
  - rewrite (omit_absent _ _ Hkey). rewrite (get_default _ _ ps _ _ Hp Hps).
    rewrite request_log. cbn [app]. unfold makeUrl.
    cbn [starts_with Ascii.eqb Bool.eqb andb append].
    rewrite apiClient_base. cbn [append]. rewrite !append_assoc. reflexivity.
  - rewrite (get_default_none _ _ _ Hp). rewrite request_log. cbn [app]. unfold makeUrl.
    cbn [starts_with Ascii.eqb Bool.eqb andb append].
    rewrite apiClient_base. cbn [append]. rewrite ?append_assoc, ?append_empty_r. reflexivity.
Qed.

Lemma missing_path_argument_witness :
  snd (run (call_tool sdk_error "get_market_candlesticks"
              (Some [("startTs", VNum 1); ("endTs", VNum 2)])) never)
  = [mkCall "GET"
       (BASE_URL ++ "/api/v1/market/" ++ "undefined" ++ "/candlesticks"
        ++ "?startTs=1&endTs=2") None].
Proof.
  apply (missing_path_argument sdk_error never "get_market_candlesticks" "ticker"
           "/api/v1/market/" "/candlesticks" true
           [("startTs", VNum 1); ("endTs", VNum 2)] [("startTs", "1"); ("endTs", "2")]).
  - cbn. tauto.
  - reflexivity.
  - reflexivity.
Defined.

(** ** A list as the value of a parameter *)

Lemma ToString_strings ids : ToString (VArr (map VStr ids)) = Normal (String.concat "," ids).
Proof.
  cbn [ToString].
  assert (E : (fix each (l : list value) : completion (list string) :=
                 match l with
                 | [] => Normal []
                 | x :: rest =>
                     cbind (if is_nullish x then Normal "" else ToString x) (fun sx =>
                     cbind (each rest) (fun sr => Normal (sx :: sr)))
                 end) (map VStr ids) = Normal ids).
  { induction ids as [| i rest IH]; [reflexivity |].
    cbn [map]. cbn -[ToString]. cbn [ToString cbind]. rewrite IH. reflexivity. }
  rewrite E. reflexivity.
Qed.

(** Property X9.  [get_live_data] sends [milestoneIds] and nothing else: a
    list of strings goes out as one parameter, the strings joined by commas
    and then encoded, and without [milestoneIds] the call has no query
    string, whatever other arguments are given. *)
Theorem live_data_ids_joined (McpError : Z -> string -> js_error) (w : world)
    (toolArgs : obj) (ids : list string) :
  (prop toolArgs "milestoneIds" = VArr (map VStr ids) ->
   snd (run (call_tool McpError "get_live_data" (Some toolArgs)) w)
   = [mkCall "GET"
        (BASE_URL ++ "/api/v1/live_data?milestoneIds=" ++ form_encode (String.concat "," ids))
        None])
  /\ (is_nullish (prop toolArgs "milestoneIds") = true ->
      snd (run (call_tool McpError "get_live_data" (Some toolArgs)) w)
      = [mkCall "GET" (BASE_URL ++ "/api/v1/live_data") None]).
Proof.
  assert (D : dispatch McpError "get_live_data" toolArgs
              = get apiClient (String "/" "api/v1/live_data")
                  (Some [("milestoneIds", prop toolArgs "milestoneIds")])) by reflexivity.
  split; intros H; unfold run, call_tool; rewrite try_ret_log, D.
  - rewrite (get_default "api/v1/live_data" _
               [("milestoneIds", String.concat "," ids)] _ _ eq_refl).
    + rewrite request_log. reflexivity.
    + rewrite H. cbn [defined_entries filter snd is_nullish negb convert_entries].
      rewrite ToString_strings. reflexivity.
  - rewrite (get_default "api/v1/live_data" _ [] _ _ eq_refl).
    + rewrite request_log. reflexivity.
    + cbn [defined_entries filter snd]. rewrite H. reflexivity.
Qed.

Lemma live_data_ids_joined_witness :
  snd (run (call_tool sdk_error "get_live_data"
              (Some [("milestoneIds", VArr (map VStr ["m 1"; "m2"])); ("limit", VNum 3)]))
           never)
  = [mkCall "GET" (BASE_URL ++ "/api/v1/live_data?milestoneIds=m+1%2Cm2") None].
Proof.
  exact (proj1 (live_data_ids_joined sdk_error never
                  [("milestoneIds", VArr (map VStr ["m 1"; "m2"])); ("limit", VNum 3)]
                  ["m 1"; "m2"]) eq_refl).
Defined.

(** ** The catalog and the switch *)

Lemma catalog_names :
  listed Catalog.list_tools "tools" "name" = map VStr tool_names.
Proof. reflexivity. Qed.

Lemma in_map_VStr name l : In (VStr name) (map VStr l) <-> In name l.
Proof.
  rewrite in_map_iff. split.
  - intros (x & E & H). inversion E. subst. exact H.
  - intros H. exists name. split; [reflexivity | exact H].
Qed.

Lemma NoDup_map_VStr l : NoDup l -> NoDup (map VStr l).
Proof.
  induction 1 as [| x l Hx _ IH]; cbn [map]; constructor.
  - rewrite in_map_VStr. exact Hx.
  - exact IH.
Qed.

Lemma tool_names_distinct : NoDup tool_names.
Proof.
  unfold tool_names. cbn [map fst tool_cases].
  repeat (constructor; [cbn [In]; intuition discriminate |]). constructor.
Qed.

(** Property X10.  The list of tools and the switch agree: the names the
    handler of [tools/list] returns are distinct, a call of a listed tool
    reaches the upstream with one call, and a call of any other name ends
    in the error result for an unknown tool, without a call. *)
Theorem listed_tools_are_dispatched (McpError : Z -> string -> js_error) (name : string)
    (args : option obj) (w : world) :
  let names := listed Catalog.list_tools "tools" "name" in
  NoDup names
  /\ (In (VStr name) names ->
      all_convertible (match args with Some o => o | None => [] end) = true ->
      exists call, snd (run (call_tool McpError name args) w) = [call])
  /\ (~ In (VStr name) names ->
      run (call_tool McpError name args) w
      = (Normal (error_text_result
                   ("Error calling " ++ name ++ ": "
                    ++ err_message (McpError MethodNotFound ("Unknown tool: " ++ name)))),
         [])).
Proof.
  cbv zeta. rewrite catalog_names. split; [| split].
  - apply NoDup_map_VStr, tool_names_distinct.
  - rewrite in_map_VStr. intros Hname Hc.
    destruct (dispatch_one_request McpError name _ Hname Hc)
      as (method & path & body & _ & _ & E).
    eexists. unfold run, call_tool. rewrite try_ret_log, E, request_log. reflexivity.
  - rewrite in_map_VStr. intros Hname. apply call_tool_unknown. exact Hname.
Qed.

Lemma listed_tools_are_dispatched_witness :
  (exists call, snd (run (call_tool sdk_error "get_series" None) never) = [call])
  /\ run (call_tool sdk_error "get_weather" None) never
     = (Normal (error_text_result
                  "Error calling get_weather: MCP error -32601: Unknown tool: get_weather"),
        []).
Proof.
  split.
  - apply (proj1 (proj2 (listed_tools_are_dispatched sdk_error "get_series" None never))).
    + cbn. tauto.
    + reflexivity.
  - apply (proj2 (proj2 (listed_tools_are_dispatched sdk_error "get_weather" None never))).
    cbn. intuition discriminate.
Defined.

(** ** The server factory *)

Lemma factory_default_client config :
  Factory.configured_url config = BASE_URL ->
  Factory.configured_timeout config = DEFAULT_TIMEOUT ->
  Factory.apiClient config = apiClient.
Proof.
  intros Hu Ht. unfold Factory.apiClient. rewrite Hu, Ht. reflexivity.
Qed.

(** Property X11.  A server made by [createServer] without configuration,
    or with a configuration whose URL is missing or empty and whose timeout
    is missing or zero, has the client of the stdio server and answers a
    tool call as the stdio server does. *)
Theorem factory_default_is_stdio (McpError : Z -> string -> js_error)
    (config : option Factory.ServerConfig) (name : string) (args : option obj) :
  (forall c, config = Some c ->
     (Factory.apiUrl c = None \/ Factory.apiUrl c = Some "")
     /\ (Factory.requestTimeout c = None \/ Factory.requestTimeout c = Some 0%N)) ->
  Factory.apiClient config = apiClient
  /\ Factory.call_tool McpError config name args = call_tool McpError name args.
Proof.
  intros H.
  assert (E : Factory.apiClient config = apiClient).
  { apply factory_default_client.
    - unfold Factory.configured_url. destruct config as [c |]; [| reflexivity].
      destruct (H c eq_refl) as [[-> | ->] _]; reflexivity.
    - unfold Factory.configured_timeout. destruct config as [c |]; [| reflexivity].
      destruct (H c eq_refl) as [_ [-> | ->]]; reflexivity. }
  split; [exact E |].
  unfold Factory.call_tool, Factory.dispatch, Factory.tool_cases. rewrite E. reflexivity.
Qed.

Lemma factory_default_is_stdio_witness :
  Factory.call_tool sdk_error (Some (Factory.mkConfig (Some "") (Some 0%N))) "get_events" None
  = call_tool sdk_error "get_events" None.
Proof.
  apply (factory_default_is_stdio sdk_error
           (Some (Factory.mkConfig (Some "") (Some 0%N))) "get_events" None).
  intros c E. inversion E. cbn. tauto.
Defined.

(** Property X12.  A configured [requestTimeout] other than zero is the
    timeout of the client of [createServer]: when no call is answered within
    it, every tool ends, after its one call, in the error result with the
    text [Error calling <name>: Request timeout]. *)
Theorem factory_timeout_applies (McpError : Z -> string -> js_error)
    (c : Factory.ServerConfig) (t : N) (name : string) (args : option obj) (w : world) :
  Factory.requestTimeout c = Some t ->
  t <> 0%N ->
  Factory.apiUrl c = None ->
  In name tool_names ->
  all_convertible (match args with Some o => o | None => [] end) = true ->
  (forall call, completes_within t (w call) = false) ->
  timeout (Factory.apiClient (Some c)) = t
  /\ exists call,
       run (Factory.call_tool McpError (Some c) name args) w
       = (Normal (error_text_result ("Error calling " ++ name ++ ": Request timeout")),
          [call]).
Proof.
  intros Ht Hne Hu Hname Hc Hw.
  assert (T : timeout (Factory.apiClient (Some c)) = t).
  { unfold Factory.apiClient, new_DFlowAPIClient, Factory.configured_timeout.
    cbn [timeout]. rewrite Ht. destruct (N.eqb_spec t 0); [contradiction | reflexivity]. }
  split; [exact T |].
  assert (U : Factory.configured_url (Some c) = BASE_URL).
  { unfold Factory.configured_url. rewrite Hu. reflexivity. }
  destruct (factory_dispatch_one_request McpError (Some c) name _ U Hname Hc)
    as (method & path & body & _ & _ & E).
  eexists. unfold run, Factory.call_tool, try_catch, bind. rewrite E.
  rewrite request_times_out; [reflexivity |]. rewrite T. apply Hw.
Qed.

Lemma factory_timeout_applies_witness :
  exists call,
    run (Factory.call_tool sdk_error (Some (Factory.mkConfig None (Some 5%N))) "get_events" None)
        (answers sample_event)
    = (Normal (error_text_result "Error calling get_events: Request timeout"), [call]).
Proof.
  apply (factory_timeout_applies sdk_error (Factory.mkConfig None (Some 5%N)) 5%N
           "get_events" None (answers sample_event)).
  - reflexivity.
  - discriminate.
  - reflexivity.
  - cbn. tauto.
  - reflexivity.
  - reflexivity.
Defined.

(** ** Prompts *)

(** Property X13.  The list of prompts and the handler of [prompts/get]
    agree: a listed prompt is answered with one user message, without any
    outbound call and whether or not its arguments are given; any other
    name throws the error for an invalid request, naming the prompt. *)
Theorem listed_prompts_are_served (McpError : Z -> string -> js_error) (name : string)
    (args : option obj) (w : world) :
  let names := listed Factory.list_prompts "prompts" "name" in
  (In (VStr name) names ->
   all_convertible (match args with Some o => o | None => [] end) = true ->
   exists text,
     run (Factory.get_prompt McpError name args) w = (Normal (Factory.user_message text), []))
  /\ (~ In (VStr name) names ->
      run (Factory.get_prompt McpError name args) w
      = (Throw (ThrowError (McpError Factory.InvalidRequest ("Unknown prompt: " ++ name))),
         [])).
Proof.
  cbv zeta. change (listed Factory.list_prompts "prompts" "name")
    with [VStr "analyze_market_trends"; VStr "compare_events"].
  assert (Hopt : forall k d,
            all_convertible (match args with Some o => o | None => [] end) = true ->
            convertible (or_else (Factory.optional_prop args k) (VStr d)) = true).
  { intros k d Hc. unfold or_else.
    destruct (truthy (Factory.optional_prop args k)); [| reflexivity].
    destruct args as [o |]; [apply convertible_prop; exact Hc | reflexivity]. }
  split.
  - intros Hin Hc. cbn [In] in Hin. unfold run, Factory.get_prompt.
    destruct Hin as [E | [E | []]]; inversion E; subst name; cbn [String.eqb Ascii.eqb Bool.eqb].
    + unfold tpl2.
      destruct (convertible_string _ (Hopt "market_filter" "all markets" Hc)) as [s1 ->].
      destruct (convertible_string _ (Hopt "time_range" "24h" Hc)) as [s2 ->].
      eexists. reflexivity.
    + unfold tpl1.
      destruct (convertible_string _ (Hopt "event_ids" "" Hc)) as [s1 ->].
      eexists. reflexivity.
  - intros Hin. unfold run, Factory.get_prompt.
    destruct (String.eqb_spec name "analyze_market_trends") as [-> | _].
    { exfalso. apply Hin. left. reflexivity. }
    destruct (String.eqb_spec name "compare_events") as [-> | _].
    { exfalso. apply Hin. right. left. reflexivity. }
    reflexivity.
Qed.

Lemma listed_prompts_are_served_witness :
  exists text,
    run (Factory.get_prompt sdk_error "compare_events" (Some [("event_ids", VStr "A,B")])) never
    = (Normal (Factory.user_message text), []).
Proof.
  apply (proj1 (listed_prompts_are_served sdk_error "compare_events"
                  (Some [("event_ids", VStr "A,B")]) never)).
  - cbn. tauto.
  - reflexivity.
Defined.

(** ** Resources *)

(** With the default base, [get] on a plain path is [request] on the path
    followed by the query string of the defined entries. *)
Lemma get_with_base c p o ps w log :
  baseUrl c = BASE_URL ->
  path_only p = true ->
  convert_entries (defined_entries o) = Normal ps ->
  get c (String "/" p) (Some o) w log
  = request c "GET" (String "/" p ++ query_string ps) None w log.
Proof.
  intros Hb Hp Hc. unfold get.
  assert (U : makeUrl c (String "/" p) = BASE_URL ++ String "/" p).
  { unfold makeUrl. rewrite Hb. reflexivity. }
  rewrite U, bind_lift, (new_URL_default_base _ Hp).
  rewrite bind_lift, append_defined_spec, Hc. cbn [cbind].
  destruct ps as [| q ps'].
  - reflexivity.
  - unfold append_pairs, search. cbn [query pathname searchParams app].
    rewrite serialize_nonempty. reflexivity.
Qed.

Lemma read_resource_route McpError config uri path :
  In (uri, path) resource_routes ->
  Factory.read_resource McpError config uri
  = bind (get (Factory.apiClient config) path (Some [("limit", VNum 10)]))
         (fun data => ret (Factory.resource_contents uri "application/json"
                             (str_or_undefined (JSON_stringify_pretty data)))).
Proof.
  intros H. cbn [resource_routes In] in H.
  destruct H as [H | [H | []]]; inversion H; subst; reflexivity.
Qed.

(** Property X14.  The list of resources and the handler of
    [resources/read] agree: a URI that is not listed throws the error for an
    invalid request; what the read of a listed URI returns is one content
    with that URI and the MIME type the list gives for it; and the
    documentation is read without any outbound call. *)
Theorem listed_resources_are_readable (McpError : Z -> string -> js_error)
    (config : option Factory.ServerConfig) (uri : string) (w : world) :
  let uris := listed Factory.list_resources "resources" "uri" in
  (~ In (VStr uri) uris ->
   run (Factory.read_resource McpError config uri) w
   = (Throw (ThrowError (McpError Factory.InvalidRequest ("Unknown resource: " ++ uri))), []))
  /\ (In (VStr uri) uris ->
      forall v log,
        run (Factory.read_resource McpError config uri) w = (Normal v, log) ->
        exists name description mimeType text,
          In (Factory.resource uri name description mimeType)
             (match dot Factory.list_resources "resources" with VArr l => l | _ => [] end)
          /\ v = Factory.resource_contents uri mimeType text)
  /\ (uri = "dflow://api/docs" ->
      run (Factory.read_resource McpError config uri) w
      = (Normal (Factory.resource_contents uri "text/markdown" (VStr Factory.docs)), [])).
Proof.
  cbv zeta.
  change (listed Factory.list_resources "resources" "uri")
    with [VStr "dflow://api/events"; VStr "dflow://api/markets"; VStr "dflow://api/docs"].
  split; [| split].
  - intros Hin. unfold run, Factory.read_resource.
    destruct (String.eqb_spec uri "dflow://api/events") as [-> | _].
    { exfalso. apply Hin. left. reflexivity. }
    destruct (String.eqb_spec uri "dflow://api/markets") as [-> | _].
    { exfalso. apply Hin. right. left. reflexivity. }
    destruct (String.eqb_spec uri "dflow://api/docs") as [-> | _].
    { exfalso. apply Hin. right. right. left. reflexivity. }
    reflexivity.
  - intros Hin v log. cbn [In] in Hin.
    destruct Hin as [E | [E | [E | []]]]; inversion E; subst uri.
    + rewrite (read_resource_route McpError config _ "/api/v1/events") by (cbn; tauto).
      unfold run, bind.
      destruct (get _ _ _ w []) as [[data | t |] l]; try discriminate.
      intros H. inversion H; subst. do 4 eexists. split; [| reflexivity].
      cbn. left. reflexivity.
    + rewrite (read_resource_route McpError config _ "/api/v1/markets") by (cbn; tauto).
      unfold run, bind.
      destruct (get _ _ _ w []) as [[data | t |] l]; try discriminate.
      intros H. inversion H; subst. do 4 eexists. split; [| reflexivity].
      cbn. right. left. reflexivity.
    + intros H. inversion H; subst. do 4 eexists. split; [| reflexivity].
      cbn. right. right. left. reflexivity.
  - intros ->. reflexivity.
Qed.

Lemma listed_resources_are_readable_witness :
  run (Factory.read_resource sdk_error None "dflow://api/trades") never
  = (Throw (ThrowError (sdk_error Factory.InvalidRequest "Unknown resource: dflow://api/trades")),
     []).
Proof.
  apply (proj1 (listed_resources_are_readable sdk_error None "dflow://api/trades" never)).
  cbn. intuition discriminate.
Defined.

(** Property X15.  Reading the events or the markets resource issues one
    call, the [GET] of the path with [limit=10]; its JSON comes back printed
    as the text of the content when the answer comes within the configured
    timeout and that timeout fits a timer (2147483647 ms at most); and a
    failure of the call is thrown to the caller, not turned into a result:
    a call not answered within the timeout throws
    [Error('Request timeout')]. *)
Theorem resource_read_is_one_call (McpError : Z -> string -> js_error)
    (config : option Factory.ServerConfig) (uri path : string) (w : world) :
  Factory.configured_url config = BASE_URL ->
  In (uri, path) resource_routes ->
  let call := mkCall "GET" (BASE_URL ++ path ++ "?limit=10") None in
  snd (run (Factory.read_resource McpError config uri) w) = [call]
  /\ (completes_within (Factory.configured_timeout config) (w call) = false ->
      fst (run (Factory.read_resource McpError config uri) w)
      = Throw (ThrowError (Error "Request timeout")))
  /\ (forall t r data,
        w call = Settles t (Responds r) ->
        (t <= Factory.configured_timeout config)%N ->
        (Factory.configured_timeout config <= 2147483647)%N ->
        resp_ok r = true ->
        resp_json r = Normal data ->
        fst (run (Factory.read_resource McpError config uri) w)
        = Normal (Factory.resource_contents uri "application/json"
                    (str_or_undefined (JSON_stringify_pretty data)))).
Proof.
  intros Hu Hroute call.
  assert (Hb : baseUrl (Factory.apiClient config) = BASE_URL).
  { unfold Factory.apiClient, new_DFlowAPIClient. cbn [baseUrl]. rewrite Hu. reflexivity. }
  assert (Ht : timeout (Factory.apiClient config) = Factory.configured_timeout config)
    by reflexivity.
  assert (P : exists p, path = String "/" p /\ path_only p = true).
  { cbn [resource_routes In] in Hroute.
    destruct Hroute as [H | [H | []]]; inversion H; subst; eexists; split; reflexivity. }
  destruct P as (p & -> & Hp).
  assert (M : makeUrl (Factory.apiClient config) (String "/" p ++ "?limit=10")
              = BASE_URL ++ String "/" p ++ "?limit=10").
  { unfold makeUrl. rewrite Hb. reflexivity. }
  assert (E : forall log,
            get (Factory.apiClient config) (String "/" p) (Some [("limit", VNum 10)]) w log
            = request (Factory.apiClient config) "GET" (String "/" p ++ "?limit=10") None w log).
  { intros log. apply (get_with_base _ p _ [("limit", "10")] w log Hb Hp). reflexivity. }
  rewrite (read_resource_route McpError config uri _ Hroute).
  unfold run, bind. rewrite E.
  split; [| split].
  - pose proof (request_log (Factory.apiClient config) "GET" (String "/" p ++ "?limit=10")
                  None w []) as L.
    rewrite M in L.
    destruct (request _ _ _ _ w []) as [[v | t |] log]; cbn [snd] in L |- *; exact L.
  - intros Hw. rewrite request_times_out; [reflexivity |]. rewrite M, Ht. exact Hw.
  - intros t r data Hw Htime Hfit Hok Hj.
    rewrite (request_success _ _ _ _ _ _ t r data); try assumption.
    + reflexivity.
    + rewrite M. exact Hw.
    + rewrite Ht, (timer_delay_fits _ Hfit). apply N.leb_le. exact Htime.
Qed.

Lemma resource_read_is_one_call_witness :
  fst (run (Factory.read_resource sdk_error None "dflow://api/markets") never)
  = Throw (ThrowError (Error "Request timeout"))
  /\ fst (run (Factory.read_resource sdk_error None "dflow://api/markets")
            (answers (VArr [VNum 1; VNum 2])))
     = Normal (Factory.resource_contents "dflow://api/markets" "application/json"
                 (VStr "[
  1,
  2
]")).
Proof.
  split.
  - apply (proj1 (proj2 (resource_read_is_one_call sdk_error None "dflow://api/markets"
                           "/api/v1/markets" never eq_refl (or_intror (or_introl eq_refl))))).
    reflexivity.
  - apply (proj2 (proj2 (resource_read_is_one_call sdk_error None "dflow://api/markets"
                           "/api/v1/markets" (answers (VArr [VNum 1; VNum 2])) eq_refl
                           (or_intror (or_introl eq_refl))))
             10%N (ok_response (VArr [VNum 1; VNum 2])) (VArr [VNum 1; VNum 2]) eq_refl).
    + change (10 <= 30000)%N. lia.
    + change (30000 <= 2147483647)%N. lia.
    + reflexivity.
    + reflexivity.
Defined.

(** ** Requests that stay inside *)

Section Quiet.
Context {A : Type}.

Lemma quiet_ret (a : A) : quiet (ret a).
Proof. intros w log. reflexivity. Qed.

Lemma quiet_throw t : quiet (throw t : M A).
Proof. intros w log. reflexivity. Qed.

Lemma quiet_lift (c : completion A) : quiet (lift c).
Proof. intros w log. reflexivity. Qed.

Lemma quiet_bind {B} (m : M B) (k : B -> M A) :
  quiet m -> (forall b, quiet (k b)) -> quiet (bind m k).
Proof.
  intros Hm Hk w log. unfold bind. specialize (Hm w log).
  destruct (m w log) as [[b | t |] l]; cbn [snd] in Hm |- *; subst l;
    [apply Hk | reflexivity | reflexivity].
Qed.

Lemma quiet_try (body : M A) (handler : thrown -> M A) :
  quiet body -> (forall t, quiet (handler t)) -> quiet (try_catch body handler).
Proof.
  intros Hb Hh w log. unfold try_catch. specialize (Hb w log).
  destruct (body w log) as [[a | t |] l]; cbn [snd] in Hb |- *; subst l;
    [reflexivity | apply Hh | reflexivity].
Qed.
End Quiet.

Ltac quiet :=
  repeat first
    [ apply quiet_ret
    | apply quiet_throw
    | apply quiet_lift
    | apply quiet_bind; [| intros]
    | apply quiet_try; [| intros]
    | match goal with
      | |- quiet (if ?c then _ else _) => destruct c
      | |- quiet (let (_, _) := ?p in _) => destruct p
      | |- quiet (match ?x with _ => _ end) => destruct x
      end ].

Lemma quiet_log_value v : quiet (ClaudeDesktop.log_value v).
Proof. unfold ClaudeDesktop.log_value. quiet. Qed.

Lemma not_eqb s n : s <> n -> String.eqb s n = false.
Proof. intros H. apply String.eqb_neq. exact H. Qed.

Lemma claude_handler_quiet TOOLS now key h :
  key <> "tools/call" ->
  ClaudeDesktop.handler_for key (ClaudeDesktop.claudeDesktopHandlers TOOLS now) = Some h ->
  forall request, quiet (h request).
Proof.
  intros Hkey. unfold ClaudeDesktop.claudeDesktopHandlers. cbn [ClaudeDesktop.handler_for].
  repeat match goal with
         | |- context [String.eqb key ?n] =>
             destruct (String.eqb_spec key n);
             [ first [ contradiction
                     | intros E; inversion E; subst h; intros request;
                       first [ unfold ClaudeDesktop.connectMCPServer;
                               destruct (ClaudeDesktop.destructure_pair _);
                               repeat (apply quiet_bind; [apply quiet_log_value | intros]);
                               apply quiet_ret
                             | apply quiet_ret ] ] |]
         end.
  discriminate.
Qed.

Lemma inherited_member_quiet name request :
  quiet (ClaudeDesktop.inherited_member name request).
Proof. unfold ClaudeDesktop.inherited_member, throw_error. quiet. Qed.

Ltac step :=
  match goal with
  | |- quiet (bind (lift (Normal ?x)) ?k) =>
      change (bind (lift (Normal x)) k) with (k x); cbv beta
  end.

Lemma deno_quiet TOOLS html path o s :
  prop o "method" = VStr s -> String.eqb s "tools/call" = false ->
  String.eqb s "tools.call" = false ->
  quiet (Deno.handler TOOLS html (mkRequest "POST" "http://localhost:8000" path (Parsed (VObj o)))).
Proof.
  intros Hm H1 H2. unfold Deno.handler.
  cbn [req_method req_body String.eqb Ascii.eqb Bool.eqb JSON_parse].
  apply quiet_try; [| intros; quiet].
  step. cbn [get_prop]. fold (prop o "method"). rewrite Hm. step.
  cbn [is_str]. rewrite H1, H2. cbn [orb]. quiet.
Qed.

Lemma api_mcp_quiet TOOLS context o s :
  prop o "method" = VStr s -> String.eqb s "tools/call" = false ->
  String.eqb s "tools.call" = false ->
  quiet (ApiMcp.handler TOOLS (mkEvent "POST" context (Parsed (VObj o)))).
Proof.
  intros Hm H1 H2. unfold ApiMcp.handler.
  cbn [httpMethod event_body String.eqb Ascii.eqb Bool.eqb JSON_parse negb].
  apply quiet_try; [| intros; quiet].
  step. cbn [get_prop]. fold (prop o "method"). rewrite Hm. step.
  cbn [is_str]. rewrite H1, H2. cbn [orb]. quiet.
Qed.

Lemma mcp_quiet TOOLS context o s :
  prop o "method" = VStr s -> String.eqb s "tools/call" = false ->
  quiet (McpIndex.handler TOOLS (mkEvent "POST" context (Parsed (VObj o)))).
Proof.
  intros Hm H1. unfold McpIndex.handler.
  cbn [httpMethod event_body String.eqb Ascii.eqb Bool.eqb JSON_parse negb].
  apply quiet_try; [| intros; quiet].
  step. unfold McpIndex.route. cbn [get_prop]. fold (prop o "method"). rewrite Hm. step.
  cbn [is_str]. rewrite H1. unfold McpIndex.tools_describe. quiet.
Qed.

Lemma claude_quiet TOOLS now context o s :
  prop o "method" = VStr s -> String.eqb s "tools/call" = false ->
  quiet (ClaudeDesktop.handler TOOLS now (mkEvent "POST" context (Parsed (VObj o)))).
Proof.
  intros Hm H1. unfold ClaudeDesktop.handler.
  cbn [httpMethod event_body requestContext String.eqb Ascii.eqb Bool.eqb negb].
  apply quiet_bind; [quiet | intros p].
  apply quiet_bind; [apply quiet_log_value | intros _].
  apply quiet_try; [| intros; quiet].
  unfold ClaudeDesktop.route. apply quiet_bind; [quiet | intros args].
  destruct (_ && _); [| quiet].
  cbn [dot]. fold (prop o "method"). rewrite Hm. cbn [ToString]. step.
  unfold ClaudeDesktop.member_for.
  destruct (ClaudeDesktop.handler_for s _) as [h |] eqn:E.
  - apply quiet_bind; [| intros; quiet].
    apply (claude_handler_quiet TOOLS now s h); [| exact E].
    intros ->. discriminate.
  - destruct (existsb _ _); [| quiet].
    apply quiet_bind; [apply inherited_member_quiet | intros; quiet].
Qed.

Lemma mcp_api_quiet TOOLS context o s :
  prop o "method" = VStr s -> String.eqb s "tools/call" = false ->
  quiet (McpApi.handler TOOLS (mkEvent "POST" context (Parsed (VObj o)))).
Proof.
  intros Hm H1. unfold McpApi.handler.
  cbn [httpMethod event_body requestContext String.eqb Ascii.eqb Bool.eqb negb JSON_parse].
  apply quiet_bind; [quiet | intros p].
  apply quiet_bind; [apply quiet_log_value | intros _].
  apply quiet_try; [| intros; quiet].
  step. unfold McpApi.route. apply quiet_bind; [quiet | intros jsonrpc].
  apply quiet_bind; [| intros; quiet].
  cbn [dot]. fold (prop o "method"). rewrite Hm. cbn [is_str]. rewrite H1. quiet.
Qed.

Lemma v2_bootstrap_quiet TOOLS now e : quiet (V2Bootstrap.handler TOOLS now e).
Proof.
  unfold V2Bootstrap.handler.
  apply quiet_bind; [quiet | intros p].
  apply quiet_bind; [apply quiet_log_value | intros _].
  unfold V2Bootstrap.route, V2Bootstrap.handleBootstrap.
  quiet; apply quiet_log_value.
Qed.

Lemma v2_sse_quiet TOOLS now now_ms context o s :
  prop o "method" = VStr s -> String.eqb s "tools/call" = false ->
  quiet (V2Sse.handler TOOLS now now_ms (mkEvent "POST" context (Parsed (VObj o)))).
Proof.
  intros Hm H1. unfold V2Sse.handler.
  cbn [httpMethod event_body requestContext String.eqb Ascii.eqb Bool.eqb negb andb].
  apply quiet_bind; [quiet | intros p].
  apply quiet_bind; [apply quiet_log_value | intros _].
  apply quiet_try; [| intros; quiet].
  unfold V2Sse.route. apply quiet_bind; [| intros; quiet].
  destruct (is_str _ _); [unfold V2Sse.handleBootstrap; quiet |].
  cbn [get_prop]. fold (prop o "method"). rewrite Hm. step.
  cbn [is_str]. rewrite H1. unfold V2Sse.handleToolsList. quiet.
Qed.

Lemma bun_quiet TOOLS html server_request o s :
  prop o "method" = VStr s -> String.eqb s "tools.call" = false ->
  quiet (BunWeb.fetch_handler TOOLS html server_request
           (mkRequest "POST" "http://localhost:3000" "/" (Parsed (VObj o)))).
Proof.
  intros Hm H2. unfold BunWeb.fetch_handler.
  cbn [req_method req_pathname req_body String.eqb Ascii.eqb Bool.eqb JSON_parse andb].
  apply quiet_try; [| intros; quiet].
  step. apply quiet_bind; [quiet | intros jsonrpc].
  cbn [dot]. fold (prop o "method"). rewrite Hm. cbn [is_str]. rewrite H2. quiet.
Qed.

Lemma quiet_bind_throw {A B} t (k : A -> M B) : quiet (bind (lift (Throw t)) k).
Proof. intros w log. reflexivity. Qed.

Lemma malformed_quiet TOOLS index_html bun_index_html server_request now now_ms v path message :
  quiet (post_to TOOLS index_html bun_index_html server_request now now_ms v path
           (Malformed message)).
Proof.
  unfold post_to. destruct v.
  - unfold Deno.handler. cbn [req_method req_body String.eqb Ascii.eqb Bool.eqb JSON_parse].
    apply quiet_try; [apply quiet_bind_throw | intros; quiet].
  - unfold ApiMcp.handler.
    cbn [httpMethod event_body String.eqb Ascii.eqb Bool.eqb JSON_parse negb].
    apply quiet_try; [apply quiet_bind_throw | intros; quiet].
  - unfold McpIndex.handler.
    cbn [httpMethod event_body String.eqb Ascii.eqb Bool.eqb JSON_parse negb].
    apply quiet_try; [apply quiet_bind_throw | intros; quiet].
  - unfold ClaudeDesktop.handler.
    cbn [httpMethod event_body requestContext String.eqb Ascii.eqb Bool.eqb negb].
    apply quiet_bind; [quiet | intros p].
    apply quiet_bind; [apply quiet_log_value | intros _].
    apply quiet_try; [| intros]; quiet.
  - unfold McpApi.handler.
    cbn [httpMethod event_body requestContext String.eqb Ascii.eqb Bool.eqb negb JSON_parse].
    apply quiet_bind; [quiet | intros p].
    apply quiet_bind; [apply quiet_log_value | intros _].
    apply quiet_try; [apply quiet_bind_throw | intros; quiet].
  - apply v2_bootstrap_quiet.
  - unfold V2Sse.handler.
    cbn [httpMethod event_body requestContext String.eqb Ascii.eqb Bool.eqb negb andb].
    apply quiet_bind; [quiet | intros p].
    apply quiet_bind; [apply quiet_log_value | intros _].
    apply quiet_try; [| intros]; quiet.
  - unfold BunWeb.fetch_handler.
    cbn [req_method req_pathname req_body String.eqb Ascii.eqb Bool.eqb JSON_parse andb].
    apply quiet_try; [apply quiet_bind_throw | intros; quiet].
Qed.

(** Property X16.  In every HTTP variant, a body that is no JSON and a
    request whose method is a string other than [tools/call] and
    [tools.call] are answered without any outbound call. *)
Theorem only_tool_calls_reach_upstream (TOOLS : list obj) (index_html : string -> string)
    (bun_index_html : string) (server_request : value -> M value) (now : string)
    (now_ms : Z) (v : variant) (path : string) (o : obj) (s message : string) (w : world) :
  prop o "method" = VStr s ->
  s <> "tools/call" ->
  s <> "tools.call" ->
  snd (run (post_to TOOLS index_html bun_index_html server_request now now_ms v path
              (Parsed (VObj o))) w) = []
  /\ snd (run (post_to TOOLS index_html bun_index_html server_request now now_ms v path
                 (Malformed message)) w) = [].
Proof.
  intros Hm H1 H2.
  apply not_eqb in H1. apply not_eqb in H2.
  split; [| apply malformed_quiet].
  unfold run, post_to. destruct v.
  - apply (deno_quiet TOOLS index_html path o s Hm H1 H2).
  - apply (api_mcp_quiet TOOLS _ o s Hm H1 H2).
  - apply (mcp_quiet TOOLS _ o s Hm H1).
  - apply (claude_quiet TOOLS now _ o s Hm H1).
  - apply (mcp_api_quiet TOOLS _ o s Hm H1).
  - apply v2_bootstrap_quiet.
  - apply (v2_sse_quiet TOOLS now now_ms _ o s Hm H1).
  - apply (bun_quiet TOOLS bun_index_html server_request o s Hm H2).
Qed.

Lemma only_tool_calls_reach_upstream_witness :
  snd (run (post_to McpCatalog.TOOLS (fun _ => "") "" (fun _ => ret VNull)
              "2025-01-01T00:00:00.000Z" 0 McpFunction "/api/mcp"
              (Parsed (VObj [("jsonrpc", VStr "2.0"); ("id", VNum 1);
                             ("method", VStr "tools/list")]))) never) = [].
Proof.
  refine (proj1 (only_tool_calls_reach_upstream McpCatalog.TOOLS (fun _ => "") ""
                   (fun _ => ret VNull) "2025-01-01T00:00:00.000Z" 0 McpFunction "/api/mcp"
                   [("jsonrpc", VStr "2.0"); ("id", VNum 1); ("method", VStr "tools/list")]
                   "tools/list" "" never eq_refl _ _)); discriminate.
Defined.

(** ** The envelope of a response *)

Lemma is_envelope_result id result : is_envelope (jsonrpc_result id result).
Proof. exists id. left. eexists. reflexivity. Qed.

Lemma is_envelope_error id error code :
  dot error "code" = VNum code -> is_envelope (jsonrpc_error id error).
Proof. intros H. exists id. right. exists error, code. split; [reflexivity | exact H]. Qed.

Lemma result_envelope status id result :
  envelope (json_response status (jsonrpc_result id result)).
Proof. eexists. split; [reflexivity | apply is_envelope_result]. Qed.

Lemma error_envelope status id error code :
  dot error "code" = VNum code ->
  envelope (json_response status (jsonrpc_error id error)).
Proof. intros H. eexists. split; [reflexivity | exact (is_envelope_error id error code H)]. Qed.

Lemma value_envelope status v : is_envelope v -> envelope (json_response status v).
Proof. intros H. eexists. split; [reflexivity | exact H]. Qed.

Ltac envelopes :=
  answers;
  first [ apply result_envelope
        | eapply error_envelope; reflexivity
        | apply is_envelope_result
        | eapply is_envelope_error; reflexivity ].

Ltac enter path :=
  cbn [httpMethod event_body requestContext get_prop lookup String.eqb Ascii.eqb Bool.eqb];
  change (bind (lift (Normal (VStr path))) ?k) with (k (VStr path)); cbv beta zeta;
  rewrite or_else_path, log_value_string;
  cbn [String.eqb Ascii.eqb Bool.eqb negb andb is_str].

Lemma deno_envelopes TOOLS html path b :
  answers_with envelope
    (Deno.handler TOOLS html (mkRequest "POST" "http://localhost:8000" path b)).
Proof.
  unfold Deno.handler. cbn [req_method req_body String.eqb Ascii.eqb Bool.eqb].
  envelopes.
Qed.

Lemma api_mcp_envelopes TOOLS context b :
  answers_with envelope (ApiMcp.handler TOOLS (mkEvent "POST" context b)).
Proof.
  unfold ApiMcp.handler. cbn [httpMethod event_body String.eqb Ascii.eqb Bool.eqb negb].
  envelopes.
Qed.

Lemma mcp_envelopes TOOLS context b :
  answers_with envelope (McpIndex.handler TOOLS (mkEvent "POST" context b)).
Proof.
  unfold McpIndex.handler. cbn [httpMethod event_body String.eqb Ascii.eqb Bool.eqb negb].
  unfold McpIndex.route, McpIndex.tools_call, McpIndex.tools_describe,
    McpIndex.method_not_found, McpIndex.catch_all, McpIndex.ok.
  envelopes.
Qed.

Lemma mcp_api_envelopes TOOLS path b :
  answers_with envelope
    (McpApi.handler TOOLS (mkEvent "POST" (VObj [("path", VStr path)]) b)).
Proof.
  unfold McpApi.handler. enter path.
  apply answers_try; [| intros; envelopes].
  apply answers_bind; intros request.
  unfold McpApi.route. apply answers_bind; intros jsonrpc.
  apply (answers_bind_with _ is_envelope).
  - unfold McpApi.tools_call, McpApi.method_not_found, McpApi.invalid_request. envelopes.
  - intros v Hv. apply answers_ret. apply value_envelope. exact Hv.
Qed.

Lemma v2_bootstrap_envelopes TOOLS now path b :
  answers_with envelope
    (V2Bootstrap.handler TOOLS now (mkEvent "POST" (VObj [("path", VStr path)]) b)).
Proof.
  unfold V2Bootstrap.handler. enter path.
  apply answers_try; [| intros; envelopes].
  destruct b as [message | request]; [unfold V2Bootstrap.parse_error; envelopes |].
  unfold V2Bootstrap.route.
  destruct (is_str (VStr path) _).
  - apply (answers_bind_with _ is_envelope).
    + unfold V2Bootstrap.handleBootstrap. envelopes.
    + intros v Hv. apply answers_ret. apply value_envelope. exact Hv.
  - unfold V2Bootstrap.supported, V2Bootstrap.method_not_found. envelopes.
Qed.

Lemma v2_sse_envelopes TOOLS now now_ms path b :
  is_tools_call b = false ->
  answers_with envelope
    (V2Sse.handler TOOLS now now_ms (mkEvent "POST" (VObj [("path", VStr path)]) b)).
Proof.
  intros Hb. unfold V2Sse.handler. enter path.
  apply answers_try; [| intros; envelopes].
  destruct b as [message | request]; [unfold V2Sse.parse_error; envelopes |].
  unfold V2Sse.route.
  apply (answers_bind_with _ is_envelope).
  - destruct (is_str (VStr path) _); [unfold V2Sse.handleBootstrap; envelopes |].
    cbn [is_tools_call] in Hb.
    destruct request as [| | x | z | s | l | o];
      try (cbn [get_prop]; envelopes; fail).
    cbn [get_prop dot] in *. fold (prop o "method") in *.
    change (bind (lift (Normal (prop o "method"))) ?k) with (k (prop o "method")).
    cbv beta. rewrite Hb.
    unfold V2Sse.handleToolsList, V2Sse.method_not_found. envelopes.
  - intros v Hv. apply answers_ret. apply value_envelope. exact Hv.
Qed.

Lemma bun_envelopes TOOLS html server_request b :
  answers_with envelope
    (BunWeb.fetch_handler TOOLS html server_request
       (mkRequest "POST" "http://localhost:3000" "/" b)).
Proof.
  unfold BunWeb.fetch_handler.
  cbn [req_method req_pathname req_body String.eqb Ascii.eqb Bool.eqb andb].
  envelopes.
Qed.

(** Property X17.  Every response to a [POST] is a JSON-RPC envelope, a
    result or an error under a version and an id, in every variant but the
    Claude Desktop dialect, whatever the body; for [mcp-v2-sse] this holds
    of every body but a tool call, which it answers with the object of an
    event stream. *)
Theorem responses_are_envelopes (TOOLS : list obj) (index_html : string -> string)
    (bun_index_html : string) (server_request : value -> M value) (now : string)
    (now_ms : Z) (v : variant) (path : string) (b : inbound) (w : world) (r : Response)
    (log : list fetch_call) :
  v <> ClaudeDesktopFunction ->
  (v = V2SseFunction -> is_tools_call b = false) ->
  run (post_to TOOLS index_html bun_index_html server_request now now_ms v path b) w
  = (Normal r, log) ->
  envelope r.
Proof.
  intros Hv Hsse. unfold run, post_to. destruct v.
  - apply deno_envelopes.
  - apply api_mcp_envelopes.
  - apply mcp_envelopes.
  - contradiction.
  - apply mcp_api_envelopes.
  - apply v2_bootstrap_envelopes.
  - apply v2_sse_envelopes. apply Hsse. reflexivity.
  - apply bun_envelopes.
Qed.

Lemma responses_are_envelopes_witness :
  envelope (json_response 400
              (jsonrpc_error VNull
                 (VObj [("code", VNum (-32700)); ("message", VStr "Parse error")]))).
Proof.
  apply (responses_are_envelopes [] (fun _ => "") "" (fun _ => ret VNull)
           "2025-01-01T00:00:00.000Z" 0 DenoServer "/" (Malformed "Unexpected token")
           never _ []).
  - discriminate.
  - discriminate.
  - reflexivity.
Defined.

(** ** The dialect of Claude Desktop *)

Lemma flagged status v flag :
  dot v "success" = VBool flag -> (status <> 200 -> flag = false) ->
  dialect_response (json_response status v).
Proof. intros H Hs. exists v, flag. split; [reflexivity | split; assumption]. Qed.

Ltac flags :=
  answers;
  first [ eexists; reflexivity
        | eapply flagged; [reflexivity | first [ reflexivity | intros H; now contradiction H ] ] ].

Lemma claude_desktop_flags TOOLS now path b :
  names_no_inherited b ->
  answers_with dialect_response
    (ClaudeDesktop.handler TOOLS now (mkEvent "POST" (VObj [("path", VStr path)]) b)).
Proof.
  intros Hn. unfold ClaudeDesktop.handler. enter path.
  apply answers_try; [| intros; flags].
  destruct b as [message | request]; [flags |].
  unfold ClaudeDesktop.route.
  apply answers_bind; intros args.
  destruct (_ && _); [| unfold ClaudeDesktop.method_not_found; flags].
  apply (answers_bind_with _ (fun key => ToString (dot request "method") = Normal key));
    [apply answers_lift |].
  intros key Hkey. unfold ClaudeDesktop.member_for.
  destruct (ClaudeDesktop.handler_for key _) as [h |] eqn:Eh.
  - apply (answers_bind_with _ has_success_flag).
    + unfold ClaudeDesktop.claudeDesktopHandlers in Eh.
      cbn [ClaudeDesktop.handler_for] in Eh.
      repeat match type of Eh with
             | (if ?c then _ else _) = _ => destruct c
             end;
        inversion Eh; subst h.
      * unfold ClaudeDesktop.connectMCPServer. flags.
      * unfold ClaudeDesktop.getModels. flags.
      * unfold ClaudeDesktop.tools_list. flags.
      * unfold ClaudeDesktop.tools_call. flags.
      * unfold ClaudeDesktop.initialize. flags.
      * unfold ClaudeDesktop.health. flags.
    + intros v [flag Hv]. apply answers_ret. eapply flagged; [exact Hv |].
      intros H. now contradiction H.
  - destruct (existsb _ _) eqn:Ex; [| unfold ClaudeDesktop.method_not_found; flags].
    exfalso. apply existsb_exists in Ex. destruct Ex as (name & Hin & Hname).
    apply String.eqb_eq in Hname. subst name.
    exact (Hn key Hkey Hin).
Qed.

(** Property X18.  Every response of the Claude Desktop dialect to a
    [POST] is an object with the flag [success], and the flag is off
    whenever the status is not 200.  The method of the request is to be
    none of the names every object answers to: under those names the table
    of handlers finds the members of [Object.prototype], whose answers have
    no flag. *)
Theorem claude_desktop_success_flag (TOOLS : list obj) (now path : string) (b : inbound)
    (w : world) (r : Response) (log : list fetch_call) :
  names_no_inherited b ->
  run (ClaudeDesktop.handler TOOLS now (mkEvent "POST" (VObj [("path", VStr path)]) b)) w
  = (Normal r, log) ->
  dialect_response r.
Proof. intros Hn H. exact (claude_desktop_flags TOOLS now path b Hn w [] r log H). Qed.

Lemma claude_desktop_success_flag_witness :
  dialect_response
    (json_response 200
       (VObj [("success", VBool true); ("tools", tools_value McpCatalog.TOOLS)])).
Proof.
  apply (claude_desktop_success_flag McpCatalog.TOOLS "2025-01-01T00:00:00.000Z" "/api/mcp"
           (Parsed (VObj [("args", VArr []); ("id", VStr "r1"); ("method", VStr "tools/list");
                          ("type", VStr "rpc")]))
           never _ []).
  - intros s H. inversion H. cbn. intuition discriminate.
  - reflexivity.
Defined.

(** ** The serverless client and its one call *)

Lemma new_URL_base_serverless path :
  new_URL_base path SERVERLESS_BASE_URL
  = Normal (parse_tail "https://api.llm.dflow.org" path).
Proof. reflexivity. Qed.

Lemma append_all_total a u :
  all_convertible a = true -> exists u', append_all a u = Normal u'.
Proof.
  unfold all_convertible. revert u.
  induction a as [| [k v] rest IH]; intros u; cbn [forallb snd append_all].
  - eexists. reflexivity.
  - intros H. apply andb_true_iff in H. destruct H as [Hv Hr].
    destruct (convertible_string v Hv) as [s ->]. cbn [cbind]. apply IH. exact Hr.
Qed.

(** A [GET] of [apiRequest] is one [fetch], then the reading of the
    response. *)
Lemma apiRequest_get path params :
  match params with
  | VObj a => all_convertible a = true
  | VUndefined => True
  | _ => False
  end ->
  exists url, forall w log,
    apiRequest "GET" path params w log
    = bind (fetch (mkCall "GET" url None)) read_response w log.
Proof.
  intros H. unfold apiRequest.
  destruct params as [| | | | | | a]; try contradiction.
  - eexists. intros w log. rewrite bind_lift, new_URL_base_serverless.
    cbn [truthy andb]. rewrite bind_lift. reflexivity.
  - destruct (append_all_total a (parse_tail "https://api.llm.dflow.org" path) H) as [u Hu].
    exists (href u). intros w log. rewrite bind_lift, new_URL_base_serverless.
    cbn [truthy andb String.eqb Ascii.eqb Bool.eqb Object_entries cbind].
    rewrite bind_lift, Hu. reflexivity.
Qed.

Lemma path_with_string {B} a x s (k : string -> M B) :
  ToString x = Normal s -> bind (path_with a x) k = k (a ++ s).
Proof. intros H. unfold path_with. rewrite H. reflexivity. Qed.

(** Each of the five tools is one [fetch]. *)
Lemma five_tools_fetch name a :
  In name five_tools -> all_convertible a = true ->
  exists url, forall w log,
    switch_value (VStr name) (five_tool_cases (VObj a)) (unknown_tool (VStr name)) w log
    = bind (fetch (mkCall "GET" url None)) read_response w log.
Proof.
  intros Hname Ha. cbn [five_tools five_tool_cases map fst In] in Hname.
  destruct Hname as [<- | [<- | [<- | [<- | [<- | []]]]]];
    cbn [switch_value five_tool_cases is_str String.eqb Ascii.eqb Bool.eqb].
  - apply apiRequest_get. exact Ha.
  - apply apiRequest_get. exact Ha.
  - apply apiRequest_get. exact Ha.
  - unfold market_by_mint_case. cbn [dot].
    destruct (convertible_string _ (convertible_prop a "mint" Ha)) as [s Hs].
    rewrite (path_with_string _ _ _ _ Hs). apply apiRequest_get. exact I.
  - unfold live_data_path. cbn [dot].
    destruct (truthy (prop a "event_ticker")).
    + destruct (convertible_string _ (convertible_prop a "event_ticker" Ha)) as [s Hs].
      rewrite (path_with_string _ _ _ _ Hs). apply apiRequest_get. exact I.
    + destruct (truthy (prop a "market_ticker")).
      * destruct (convertible_string _ (convertible_prop a "market_ticker" Ha)) as [s Hs].
        rewrite (path_with_string _ _ _ _ Hs). apply apiRequest_get. exact I.
      * apply apiRequest_get. exact I.
Qed.

(** The [mcp] function on a call of a tool: the switch, and what the
    handler makes of its outcome. *)
Lemma mcp_handler_tool_call TOOLS context o name a :
  calls_tool o name a ->
  forall w log,
    McpIndex.handler TOOLS (mkEvent "POST" context (Parsed (VObj o))) w log
    = try_catch
        (try_catch
           (bind (switch_value (VStr name) (five_tool_cases (VObj a)) (unknown_tool (VStr name)))
              (fun result =>
                 ret (McpIndex.ok (jsonrpc_result (prop o "id") (tool_content result)))))
           (fun error =>
              bind (lift (message_prop error)) (fun message =>
              ret (McpIndex.ok
                     (jsonrpc_error (prop o "id")
                        (VObj [("code", VNum (-32603));
                               ("message", message);
                               ("data", VObj [("tool", VStr name);
                                              ("arguments", VObj a)])]))))))
        (fun error =>
           bind (lift (message_prop error)) (fun data => ret (McpIndex.catch_all data)))
        w log.
Proof.
  intros (Hm & p & Hp & Hn & Ha) w log.
  unfold McpIndex.handler.
  cbn [httpMethod event_body String.eqb Ascii.eqb Bool.eqb JSON_parse negb].
  change (bind (lift (Normal (VObj o))) ?k) with (k (VObj o)). cbv beta.
  rewrite (route_tools_call TOOLS o Hm).
  unfold McpIndex.tools_call. cbn [dot]. fold (prop o "params"). fold (prop o "id").
  rewrite Hp. cbn [destructure_call get_prop cbind dot].
  fold (prop p "name"). fold (prop p "arguments").
  change (bind (lift (Normal (prop p "name", prop p "arguments"))) ?k)
    with (k (prop p "name", prop p "arguments")).
  cbv beta iota zeta. rewrite Hn, Ha. reflexivity.
Qed.

(** Property X19.  The serverless client has no timeout: when the
    upstream never answers, a call of one of the five tools of the [mcp]
    function issues its one call and never returns. *)
Theorem serverless_call_never_times_out (TOOLS : list obj) (context : value) (o : obj)
    (name : string) (a : obj) (w : world) :
  calls_tool o name a ->
  In name five_tools ->
  all_convertible a = true ->
  (forall call, w call = Never) ->
  exists call,
    run (McpIndex.handler TOOLS (mkEvent "POST" context (Parsed (VObj o)))) w = (Hang, [call]).
Proof.
  intros Hcall Hname Ha Hw.
  destruct (five_tools_fetch name a Hname Ha) as [url E].
  exists (mkCall "GET" url None).
  unfold run. rewrite (mcp_handler_tool_call TOOLS context o name a Hcall).
  unfold try_catch at 1 2. unfold bind at 1. rewrite E.
  unfold bind, fetch. rewrite Hw. reflexivity.
Qed.

Lemma serverless_call_never_times_out_witness :
  exists call,
    run (McpIndex.handler McpCatalog.TOOLS
           (post_event (tools_call_request (VNum 1) "get_events" (VObj [("limit", VNum 5)]))))
        never
    = (Hang, [call]).
Proof.
  apply (serverless_call_never_times_out McpCatalog.TOOLS
           (VObj [("path", VStr "/api/mcp")])
           [("jsonrpc", VStr "2.0"); ("id", VNum 1); ("method", VStr "tools/call");
            ("params", VObj [("name", VStr "get_events");
                             ("arguments", VObj [("limit", VNum 5)])])]
           "get_events" [("limit", VNum 5)] never).
  - split; [reflexivity |]. eexists. repeat split.
  - cbn. tauto.
  - reflexivity.
  - reflexivity.
Defined.

(** Property X20.  When the upstream answers with a status outside
    200..299, however late, a call of one of the five tools of the [mcp]
    function is answered with the JSON-RPC error -32603 under the id of the
    request, with the message [HTTP <status>: <text of the body>] and the
    tool and its arguments as data. *)
Theorem serverless_failure_has_diagnostics (TOOLS : list obj) (context : value) (o : obj)
    (name : string) (a : obj) (w : world) (status : Z) (text : string) :
  calls_tool o name a ->
  In name five_tools ->
  all_convertible a = true ->
  (forall call, exists t r,
      w call = Settles t (Responds r)
      /\ resp_status r = status /\ resp_text r = Normal text) ->
  (status < 200 \/ 299 < status) ->
  exists call,
    run (McpIndex.handler TOOLS (mkEvent "POST" context (Parsed (VObj o)))) w
    = (Normal
         (json_response 200
            (jsonrpc_error (prop o "id")
               (VObj [("code", VNum (-32603));
                      ("message",
                       VStr ("HTTP " ++ string_of_Z status ++ ": " ++ text));
                      ("data", VObj [("tool", VStr name); ("arguments", VObj a)])]))),
       [call]).
Proof.
  intros Hcall Hname Ha Hw Hs.
  destruct (five_tools_fetch name a Hname Ha) as [url E].
  exists (mkCall "GET" url None).
  destruct (Hw (mkCall "GET" url None)) as (t & r & Hr & Hst & Htext).
  assert (Hok : resp_ok r = false).
  { unfold resp_ok. rewrite Hst. apply andb_false_iff.
    destruct Hs; [left; apply Z.leb_gt | right; apply Z.leb_gt]; lia. }
  unfold run. rewrite (mcp_handler_tool_call TOOLS context o name a Hcall).
  unfold try_catch at 1 2. unfold bind at 1. rewrite E.
  unfold bind at 1, fetch. rewrite Hr. cbn [settled].
  unfold read_response. rewrite Hok. cbn [negb].
  rewrite bind_lift, Htext. unfold throw_error, throw, http_error. rewrite Hst.
  reflexivity.
Qed.

Lemma serverless_failure_has_diagnostics_witness :
  exists call,
    run (McpIndex.handler McpCatalog.TOOLS
           (post_event (tools_call_request (VStr "r1") "get_market_by_mint"
                          (VObj [("mint", VStr "NOPE")]))))
        (refuses 404 "no such market")
    = (Normal
         (json_response 200
            (jsonrpc_error (VStr "r1")
               (VObj [("code", VNum (-32603));
                      ("message", VStr "HTTP 404: no such market");
                      ("data", VObj [("tool", VStr "get_market_by_mint");
                                     ("arguments", VObj [("mint", VStr "NOPE")])])]))),
       [call]).
Proof.
  apply (serverless_failure_has_diagnostics McpCatalog.TOOLS
           (VObj [("path", VStr "/api/mcp")])
           [("jsonrpc", VStr "2.0"); ("id", VStr "r1"); ("method", VStr "tools/call");
            ("params", VObj [("name", VStr "get_market_by_mint");
                             ("arguments", VObj [("mint", VStr "NOPE")])])]
           "get_market_by_mint"
           [("mint", VStr "NOPE")] (refuses 404 "no such market") 404 "no such market").
  - split; [reflexivity |]. eexists. repeat split.
  - cbn. tauto.
  - reflexivity.
  - intros call. eexists. eexists. split; [reflexivity | split; reflexivity].
  - right. lia.
Defined.

(** ** The catalog of the [mcp] function *)

Lemma strict_eq_string v n : McpIndex.strict_eq v (VStr n) = true <-> v = VStr n.
Proof.
  destruct v; cbn [McpIndex.strict_eq]; split; intros H; try discriminate.
  - apply String.eqb_eq in H. subst. reflexivity.
  - inversion H. apply String.eqb_refl.
Qed.

(** With distinct names, the search by name finds the tool of that name. *)
Lemma find_by_name TOOLS tool n :
  NoDup (map (fun t => prop t "name") TOOLS) ->
  In tool TOOLS -> prop tool "name" = VStr n ->
  find (fun t => McpIndex.strict_eq (prop t "name") (VStr n)) TOOLS = Some tool.
Proof.
  induction TOOLS as [| t rest IH]; cbn [map In find]; intros Hnd Hin Hn.
  - contradiction.
  - inversion Hnd as [| x l Hx Hrest]; subst.
    destruct (McpIndex.strict_eq (prop t "name") (VStr n)) eqn:E.
    + apply strict_eq_string in E. destruct Hin as [-> | Hin]; [reflexivity |].
      exfalso. apply Hx. rewrite E, <- Hn.
      exact (in_map (fun t => prop t "name") rest tool Hin).
    + destruct Hin as [-> | Hin].
      * apply strict_eq_string in Hn. congruence.
      * apply IH; assumption.
Qed.

Lemma find_no_name TOOLS n :
  (forall tool, In tool TOOLS -> prop tool "name" <> VStr n) ->
  find (fun t => McpIndex.strict_eq (prop t "name") (VStr n)) TOOLS = None.
Proof.
  induction TOOLS as [| t rest IH]; cbn [In find]; intros H.
  - reflexivity.
  - destruct (McpIndex.strict_eq (prop t "name") (VStr n)) eqn:E.
    + apply strict_eq_string in E. exfalso. exact (H t (or_introl eq_refl) E).
    + apply IH. intros tool Hin. apply H. right. exact Hin.
Qed.

Lemma mcp_handler_describe TOOLS context o name :
  describes o name ->
  forall w log,
    McpIndex.handler TOOLS (mkEvent "POST" context (Parsed (VObj o))) w log
    = try_catch
        (match find (fun t => McpIndex.strict_eq (prop t "name") (VStr name)) TOOLS with
         | None =>
             ret (McpIndex.ok
                    (jsonrpc_error (prop o "id")
                       (VObj [("code", VNum (-32602));
                              ("message", VStr ("Tool not found: " ++ name))])))
         | Some tool => ret (McpIndex.ok (jsonrpc_result (prop o "id") (VObj tool)))
         end)
        (fun error =>
           bind (lift (message_prop error)) (fun data => ret (McpIndex.catch_all data)))
        w log.
Proof.
  intros (Hm & p & Hp & Hn) w log.
  unfold McpIndex.handler.
  cbn [httpMethod event_body String.eqb Ascii.eqb Bool.eqb JSON_parse negb].
  change (bind (lift (Normal (VObj o))) ?k) with (k (VObj o)). cbv beta.
  unfold McpIndex.route. cbn [get_prop]. fold (prop o "method"). rewrite Hm.
  change (bind (lift (Normal (VStr "tools/describe"))) ?k) with (k (VStr "tools/describe")).
  cbv beta. cbn [is_str String.eqb Ascii.eqb Bool.eqb].
  unfold McpIndex.tools_describe. cbn [dot]. fold (prop o "params"). fold (prop o "id").
  rewrite Hp. cbn [get_prop]. fold (prop p "name"). rewrite Hn.
  change (bind (lift (Normal (VStr name))) ?k) with (k (VStr name)). cbv beta.
  destruct (find _ TOOLS); reflexivity.
Qed.

(** Property X21.  With distinct names in the catalog, [tools/describe]
    answers with the descriptor of the tool of the name asked for, and
    with the error -32602 naming the tool when the catalog has none of that
    name; either way without an outbound call. *)
Theorem describe_finds_the_tool (TOOLS : list obj) (context : value) (o : obj)
    (name : string) (w : world) :
  describes o name ->
  NoDup (map (fun t => prop t "name") TOOLS) ->
  (forall tool, In tool TOOLS -> prop tool "name" = VStr name ->
     run (McpIndex.handler TOOLS (mkEvent "POST" context (Parsed (VObj o)))) w
     = (Normal (json_response 200 (jsonrpc_result (prop o "id") (VObj tool))), []))
  /\ ((forall tool, In tool TOOLS -> prop tool "name" <> VStr name) ->
      run (McpIndex.handler TOOLS (mkEvent "POST" context (Parsed (VObj o)))) w
      = (Normal
           (json_response 200
              (jsonrpc_error (prop o "id")
                 (VObj [("code", VNum (-32602));
                        ("message", VStr ("Tool not found: " ++ name))]))), [])).
Proof.
  intros Hd Hnd. unfold run. split.
  - intros tool Hin Hn. rewrite (mcp_handler_describe TOOLS context o name Hd).
    rewrite (find_by_name TOOLS tool name Hnd Hin Hn). reflexivity.
  - intros H. rewrite (mcp_handler_describe TOOLS context o name Hd).
    rewrite (find_no_name TOOLS name H). reflexivity.
Qed.

Lemma describe_finds_the_tool_witness :
  run (McpIndex.handler McpCatalog.TOOLS
         (post_event (VObj [("jsonrpc", VStr "2.0"); ("id", VNum 7);
                            ("method", VStr "tools/describe");
                            ("params", VObj [("name", VStr "get_trades")])]))) never
  = (Normal (json_response 200 (jsonrpc_result (VNum 7) (VObj McpCatalog.get_trades_tool))), []).
Proof.
  apply (proj1 (describe_finds_the_tool McpCatalog.TOOLS (VObj [("path", VStr "/api/mcp")])
                  [("jsonrpc", VStr "2.0"); ("id", VNum 7); ("method", VStr "tools/describe");
                   ("params", VObj [("name", VStr "get_trades")])]
                  "get_trades" never
                  (conj eq_refl (ex_intro _ [("name", VStr "get_trades")] (conj eq_refl eq_refl)))
                  ltac:(repeat (constructor; [cbn [In]; intuition discriminate |]); constructor))).
  - cbn. tauto.
  - reflexivity.
Defined.

(** ** One call, then none *)

Lemma calls_once_fetch {A} call (k : response -> M A) :
  (forall r, quiet (k r)) -> calls_once call (bind (fetch call) k).
Proof.
  intros Hk w log. unfold bind, fetch.
  destruct (w call) as [t [r | e] |]; cbn [settled snd]; try reflexivity.
  apply Hk.
Qed.

Lemma calls_once_bind {A B} call (m : M A) (k : A -> M B) :
  calls_once call m -> (forall a, quiet (k a)) -> calls_once call (bind m k).
Proof.
  intros Hm Hk w log. unfold bind. specialize (Hm w log).
  destruct (m w log) as [[a | t |] l]; cbn [snd] in Hm |- *; subst l;
    [apply Hk | reflexivity | reflexivity].
Qed.

Lemma calls_once_try {A} call (body : M A) (handler : thrown -> M A) :
  calls_once call body -> (forall t, quiet (handler t)) ->
  calls_once call (try_catch body handler).
Proof.
  intros Hb Hh w log. unfold try_catch. specialize (Hb w log).
  destruct (body w log) as [[a | t |] l]; cbn [snd] in Hb |- *; subst l;
    [reflexivity | apply Hh | reflexivity].
Qed.

Lemma calls_once_ext {A} call (m m' : M A) :
  (forall w log, m w log = m' w log) -> calls_once call m' -> calls_once call m.
Proof. intros E H w log. rewrite E. apply H. Qed.

Lemma quiet_read_response r : quiet (read_response r).
Proof. unfold read_response, throw_error. quiet. Qed.

(** The [mcp] function issues one call when the switch does. *)
Lemma mcp_tool_call_once TOOLS context o name a call :
  calls_tool o name a ->
  calls_once call
    (switch_value (VStr name) (five_tool_cases (VObj a)) (unknown_tool (VStr name))) ->
  calls_once call (McpIndex.handler TOOLS (mkEvent "POST" context (Parsed (VObj o)))).
Proof.
  intros Hcall Hs.
  apply (calls_once_ext _ _ _ (mcp_handler_tool_call TOOLS context o name a Hcall)).
  apply calls_once_try; [| intros; quiet].
  apply calls_once_try; [| intros; quiet].
  apply calls_once_bind; [exact Hs | intros; quiet].
Qed.

Lemma mcp_catalog_names :
  map (fun t => prop t "name") McpCatalog.TOOLS = map VStr five_tools.
Proof. reflexivity. Qed.

(** Property X22.  The catalog of the [mcp] function and its switch
    agree: the names of the catalog are distinct, a call of a tool of the
    catalog issues exactly one outbound call, and a call of any other name
    is answered with the error -32603 for an unknown tool, without a
    call. *)
Theorem mcp_catalog_is_served (context : value) (o : obj) (name : string) (a : obj) :
  let names := map (fun t => prop t "name") McpCatalog.TOOLS in
  calls_tool o name a ->
  NoDup names
  /\ (In (VStr name) names ->
      all_convertible a = true ->
      exists call, forall w,
        snd (run (McpIndex.handler McpCatalog.TOOLS
                    (mkEvent "POST" context (Parsed (VObj o)))) w) = [call])
  /\ (~ In (VStr name) names ->
      forall w,
        run (McpIndex.handler McpCatalog.TOOLS (mkEvent "POST" context (Parsed (VObj o)))) w
        = (Normal
             (json_response 200
                (jsonrpc_error (prop o "id")
                   (VObj [("code", VNum (-32603));
                          ("message", VStr ("Unknown tool: " ++ name));
                          ("data", VObj [("tool", VStr name); ("arguments", VObj a)])]))),
           [])).
Proof.
  cbv zeta. intros Hcall. rewrite mcp_catalog_names. split; [| split].
  - apply NoDup_map_VStr. cbn.
    repeat (constructor; [cbn [In]; intuition discriminate |]). constructor.
  - rewrite in_map_VStr. intros Hname Ha.
    destruct (five_tools_fetch name a Hname Ha) as [url E].
    exists (mkCall "GET" url None). intros w. unfold run.
    refine (mcp_tool_call_once McpCatalog.TOOLS context o name a _ Hcall _ w []).
    apply (calls_once_ext _ _ _ E). apply calls_once_fetch. apply quiet_read_response.
  - rewrite in_map_VStr. intros Hname w. unfold run.
    rewrite (mcp_handler_tool_call McpCatalog.TOOLS context o name a Hcall).
    rewrite switch_value_unknown.
    + reflexivity.
    + intros n Hn. cbn [is_str]. apply String.eqb_neq. intros ->. exact (Hname Hn).
Qed.

Lemma mcp_catalog_is_served_witness :
  exists call, forall w,
    snd (run (McpIndex.handler McpCatalog.TOOLS
                (post_event (tools_call_request (VNum 1) "get_trades" VUndefined))) w)
    = [call].
Proof.
  apply (proj1 (proj2 (mcp_catalog_is_served (VObj [("path", VStr "/api/mcp")])
                         [("jsonrpc", VStr "2.0"); ("id", VNum 1); ("method", VStr "tools/call");
                          ("params", VObj [("name", VStr "get_trades");
                                           ("arguments", VUndefined)])]
                         "get_trades" []
                         (conj eq_refl
                            (ex_intro _ [("name", VStr "get_trades"); ("arguments", VUndefined)]
                               (conj eq_refl (conj eq_refl eq_refl))))))).
  - cbn. tauto.
  - reflexivity.
Defined.

(** ** The routes of [get_live_data] *)

Lemma apiRequest_plain_path p :
  path_only p = true ->
  calls_once (mkCall "GET" (SERVERLESS_BASE_URL ++ String "/" p) None)
    (apiRequest "GET" (String "/" p) VUndefined).
Proof.
  intros Hp. unfold apiRequest.
  apply (calls_once_ext _ _
           (bind (fetch (mkCall "GET" (SERVERLESS_BASE_URL ++ String "/" p) None))
              read_response)).
  - intros w log. rewrite bind_lift, new_URL_base_serverless.
    cbn [truthy andb]. rewrite bind_lift.
    rewrite (parse_tail_path _ _ Hp). unfold href. cbn [origin pathname query hash].
    rewrite !append_empty_r. reflexivity.
  - apply calls_once_fetch. apply quiet_read_response.
Qed.

Lemma live_data_switch a :
  switch_value (VStr "get_live_data") (five_tool_cases (VObj a))
    (unknown_tool (VStr "get_live_data"))
  = bind (live_data_path (VObj a)) (fun path => apiRequest "GET" path VUndefined).
Proof. reflexivity. Qed.

Lemma truthy_string s : s <> "" -> truthy (VStr s) = true.
Proof. intros H. cbn [truthy]. apply negb_true_iff, String.eqb_neq. exact H. Qed.

(** Property X23.  [get_live_data] of the [mcp] function takes its route
    from [event_ticker] first: with an event ticker it calls the live data
    of the event, whatever [market_ticker] is; without one and with a market
    ticker, the live data of the market; with neither, the live data of
    all.  No argument goes into a query string. *)
Theorem live_data_route_precedence (TOOLS : list obj) (context : value) (o a : obj)
    (w : world) :
  calls_tool o "get_live_data" a ->
  let event := prop a "event_ticker" in
  let market := prop a "market_ticker" in
  let calls :=
    snd (run (McpIndex.handler TOOLS (mkEvent "POST" context (Parsed (VObj o)))) w) in
  (forall e, event = VStr e -> e <> "" -> plain_segment e = true ->
     calls = [mkCall "GET" (SERVERLESS_BASE_URL ++ "/api/v1/events/live-data/" ++ e) None])
  /\ (forall m, truthy event = false -> market = VStr m -> m <> "" ->
      plain_segment m = true ->
      calls = [mkCall "GET" (SERVERLESS_BASE_URL ++ "/api/v1/markets/live-data/" ++ m) None])
  /\ (truthy event = false -> truthy market = false ->
      calls = [mkCall "GET" (SERVERLESS_BASE_URL ++ "/api/v1/live-data") None]).
Proof.
  intros Hcall event market calls. subst event market calls. unfold run.
  assert (R : forall p,
            path_only p = true ->
            (forall w log, live_data_path (VObj a) w log = (Normal (String "/" p), log)) ->
            snd (McpIndex.handler TOOLS (mkEvent "POST" context (Parsed (VObj o))) w [])
            = [mkCall "GET" (SERVERLESS_BASE_URL ++ String "/" p) None]).
  { intros p Hp Hl.
    refine (mcp_tool_call_once TOOLS context o "get_live_data" a _ Hcall _ w []).
    rewrite live_data_switch.
    apply (calls_once_ext _ _ (apiRequest "GET" (String "/" p) VUndefined)).
    - intros w0 log. unfold bind at 1. rewrite Hl. reflexivity.
    - apply apiRequest_plain_path. exact Hp. }
  split; [| split].
  - intros e He Hne Hplain.
    apply (R ("api/v1/events/live-data/" ++ e)).
    + apply path_only_app; [reflexivity | apply plain_segment_path_only; exact Hplain].
    + intros w0 log. unfold live_data_path. cbn [dot].
      rewrite He, (truthy_string e Hne). reflexivity.
  - intros m He Hm Hne Hplain.
    apply (R ("api/v1/markets/live-data/" ++ m)).
    + apply path_only_app; [reflexivity | apply plain_segment_path_only; exact Hplain].
    + intros w0 log. unfold live_data_path. cbn [dot].
      rewrite He, Hm, (truthy_string m Hne). reflexivity.
  - intros He Hm.
    apply (R "api/v1/live-data"); [reflexivity |].
    intros w0 log. unfold live_data_path. cbn [dot]. rewrite He, Hm. reflexivity.
Qed.

Lemma live_data_route_precedence_witness :
  snd (run (McpIndex.handler McpCatalog.TOOLS
              (post_event (tools_call_request (VNum 1) "get_live_data"
                             (VObj [("market_ticker", VStr "MKT-1");
                                    ("event_ticker", VStr "EVT-1")])))) never)
  = [mkCall "GET" (SERVERLESS_BASE_URL ++ "/api/v1/events/live-data/" ++ "EVT-1") None].
Proof.
  refine (proj1 (live_data_route_precedence McpCatalog.TOOLS (VObj [("path", VStr "/api/mcp")])
                   [("jsonrpc", VStr "2.0"); ("id", VNum 1); ("method", VStr "tools/call");
                    ("params",
                     VObj [("name", VStr "get_live_data");
                           ("arguments", VObj [("market_ticker", VStr "MKT-1");
                                               ("event_ticker", VStr "EVT-1")])])]
                   [("market_ticker", VStr "MKT-1"); ("event_ticker", VStr "EVT-1")] never
                   (conj eq_refl (ex_intro _ _ (conj eq_refl (conj eq_refl eq_refl)))))
            "EVT-1" eq_refl _ eq_refl).
  discriminate.
Defined.

(** ** The id of a bootstrap response *)

(** Property X24.  On the bootstrap path the two v2 functions answer every
    request object with status 200 and a result, under the id of the
    request when that is truthy and under [bootstrap-response] otherwise:
    an id of 0, an empty id and a null id are not echoed. *)
Theorem bootstrap_id_defaults (TOOLS : list obj) (now : string) (now_ms : Z) (o : obj)
    (w : world) :
  let event := mkEvent "POST" (VObj [("path", VStr "/mcp/v2/bootstrap")]) (Parsed (VObj o)) in
  let id := if truthy (prop o "id") then prop o "id" else VStr "bootstrap-response" in
  (exists r,
     run (V2Bootstrap.handler TOOLS now event) w = (Normal r, [])
     /\ statusCode r = 200 /\ body_field r "id" = id
     /\ body_field r "error" = VUndefined)
  /\ (exists r,
        run (V2Sse.handler TOOLS now now_ms event) w = (Normal r, [])
        /\ statusCode r = 200 /\ body_field r "id" = id
        /\ body_field r "error" = VUndefined).
Proof.
  cbv zeta. split; eexists; (split; [cbv; reflexivity | repeat split; cbv; reflexivity]).
Qed.

(** ** The frames of an event stream *)

Lemma single_line_app a b : single_line (a ++ b) = single_line a && single_line b.
Proof. apply all_chars_app. Qed.

Lemma quote_char_single_line c : single_line (quote_char c) = true.
Proof. destruct c as [[] [] [] [] [] [] [] []]; reflexivity. Qed.

Lemma quote_single_line s : single_line (quote s) = true.
Proof.
  unfold quote. rewrite !single_line_app.
  assert (E : single_line (quote_body s) = true).
  { induction s as [| c rest IH]; cbn [quote_body]; [reflexivity |].
    rewrite single_line_app, quote_char_single_line, IH. reflexivity. }
  rewrite E. reflexivity.
Qed.

Lemma string_of_Z_single_line z : single_line (string_of_Z z) = true.
Proof.
  assert (U : forall d, single_line (NilEmpty.string_of_uint d) = true).
  { induction d; cbn [NilEmpty.string_of_uint]; try reflexivity; exact IHd. }
  assert (V : forall d, single_line (NilZero.string_of_uint d) = true).
  { intros d. destruct d; try reflexivity; apply (U (_ d)). }
  unfold string_of_Z, NilZero.string_of_int.
  destruct (Z.to_int z); [apply V |].
  change (single_line (String "-" (NilZero.string_of_uint d)))
    with (single_line (NilZero.string_of_uint d)). apply V.
Qed.

Lemma single_line_concat sep parts :
  single_line sep = true -> Forall (fun a => single_line a = true) parts ->
  single_line (String.concat sep parts) = true.
Proof. apply all_chars_concat. Qed.

(** The compact form of an array and of an object. *)
Lemma serialize_compact_array indent l :
  serialize "" indent (VArr l)
  = Some (compact_wrap "[" "]"
            (map (fun x => match serialize "" (indent ++ "") x with
                           | Some s => s
                           | None => "null"
                           end) l)).
Proof.
  cbn [serialize String.eqb]. unfold compact_wrap.
  match goal with
  | |- Some (match ?a with _ => _ end) = Some (match ?b with _ => _ end) =>
      assert (E : a = b); [| rewrite E; reflexivity]
  end.
  induction l as [| x rest IH]; [reflexivity |]. cbn [map]. rewrite <- IH. reflexivity.
Qed.

Lemma serialize_compact_object indent o :
  serialize "" indent (VObj o)
  = Some (compact_wrap "{" "}"
            (flat_map (fun kx => match serialize "" (indent ++ "") (snd kx) with
                                 | Some s => [quote (fst kx) ++ ":" ++ "" ++ s]
                                 | None => []
                                 end) o)).
Proof.
  cbn [serialize String.eqb]. unfold compact_wrap.
  match goal with
  | |- Some (match ?a with _ => _ end) = Some (match ?b with _ => _ end) =>
      assert (E : a = b); [| rewrite E; reflexivity]
  end.
  induction o as [| [k x] rest IH]; [reflexivity |]. cbn [flat_map fst snd].
  rewrite <- IH. destruct (serialize "" (indent ++ "") x); reflexivity.
Qed.

Lemma wrapped_single_line opening closing parts :
  single_line opening = true -> single_line closing = true ->
  Forall (fun a => single_line a = true) parts ->
  single_line (compact_wrap opening closing parts) = true.
Proof.
  intros Ho Hc Hp. unfold compact_wrap. destruct parts as [| p ps].
  - rewrite single_line_app, Ho, Hc. reflexivity.
  - rewrite !single_line_app, Ho, Hc, (single_line_concat "," _ eq_refl Hp). reflexivity.
Qed.

(** The compact form of a value is one line. *)
Lemma compact_single_line v :
  forall indent s, serialize "" indent v = Some s -> single_line s = true.
Proof.
  induction v as [| | b | z | s0 | l IH | o IH] using value_induction; intros indent s.
  - discriminate.
  - intros H. inversion H. reflexivity.
  - destruct b; intros H; inversion H; reflexivity.
  - intros H. inversion H. apply string_of_Z_single_line.
  - intros H. inversion H. apply quote_single_line.
  - rewrite serialize_compact_array. intros H. injection H as <-.
    apply wrapped_single_line; try reflexivity.
    apply Forall_forall. intros a Ha. apply in_map_iff in Ha. destruct Ha as (x & <- & Hx).
    rewrite Forall_forall in IH. specialize (IH x Hx (indent ++ "")).
    destruct (serialize "" (indent ++ "") x); [apply (IH _ eq_refl) | reflexivity].
  - rewrite serialize_compact_object. intros H. injection H as <-.
    apply wrapped_single_line; try reflexivity.
    apply Forall_forall. intros a Ha. apply in_flat_map in Ha. destruct Ha as (kx & Hkx & Ha).
    rewrite Forall_forall in IH. specialize (IH kx Hkx (indent ++ "")).
    destruct (serialize "" (indent ++ "") (snd kx)); [| contradiction].
    destruct Ha as [<- | []].
    change (single_line (quote (fst kx) ++ String ":" s) = true).
    rewrite single_line_app, quote_single_line.
    change (single_line (String ":" s)) with (single_line s).
    exact (IH _ eq_refl).
Qed.

Lemma stringified_single_line data : single_line (V2Sse.stringified data) = true.
Proof.
  unfold V2Sse.stringified, JSON_stringify.
  destruct (serialize "" "" data) eqn:E; [| reflexivity].
  exact (compact_single_line data "" s E).
Qed.

Lemma single_line_no_feed s :
  single_line s = true -> all_chars (fun c => negb (is_code 10 c)) s = true.
Proof.
  apply all_chars_weaken. intros c H. unfold line_break in H.
  apply negb_true_iff in H. apply orb_false_iff in H. destruct H as [H _].
  rewrite H. reflexivity.
Qed.

(** A line, a line feed, and the lines that follow. *)
Lemma lines_cons a rest :
  single_line a = true -> lines (a ++ newline ++ rest) = a :: lines rest.
Proof.
  intros H. unfold lines, newline. cbn [append].
  exact (split_on_at 10 a (ascii_of_N 10) rest (single_line_no_feed a H) eq_refl).
Qed.

Lemma format_shape type data id rest :
  type <> "" -> id <> "" ->
  V2Sse.formatSSEEvent type data id ++ rest
  = ("id: " ++ id) ++ newline
    ++ (("event: " ++ type) ++ newline
        ++ (("data: " ++ V2Sse.stringified data) ++ newline ++ ("" ++ newline ++ rest))).
Proof.
  intros Ht Hi. unfold V2Sse.formatSSEEvent.
  apply String.eqb_neq in Ht, Hi. rewrite Ht, Hi.
  rewrite !append_assoc. reflexivity.
Qed.

Lemma format_lines type data id rest :
  type <> "" -> id <> "" -> single_line type = true -> single_line id = true ->
  lines (V2Sse.formatSSEEvent type data id ++ rest)
  = (event_lines id (type, data) ++ lines rest)%list.
Proof.
  intros Ht Hi Hst Hsi. rewrite (format_shape type data id rest Ht Hi).
  rewrite (lines_cons ("id: " ++ id)) by (rewrite single_line_app, Hsi; reflexivity).
  rewrite (lines_cons ("event: " ++ type)) by (rewrite single_line_app, Hst; reflexivity).
  rewrite (lines_cons ("data: " ++ V2Sse.stringified data))
    by (rewrite single_line_app, stringified_single_line; reflexivity).
  rewrite (lines_cons "" rest eq_refl). reflexivity.
Qed.

Lemma concat_cons x l : String.concat "" (x :: l) = x ++ String.concat "" l.
Proof. destruct l; cbn [String.concat]; [now rewrite append_empty_r | reflexivity]. Qed.

(** Property X25.  The body of an event stream keeps its frames whatever
    the data: each event is the three lines of its id, its type and its
    data followed by an empty line, because the compact JSON of a value has
    no line break of its own. *)
Theorem event_stream_is_framed (events : list (string * value)) (id : string) :
  id <> "" -> single_line id = true ->
  Forall (fun event => fst event <> "" /\ single_line (fst event) = true) events ->
  lines (V2Sse.sse_body events id) = (flat_map (event_lines id) events ++ [""])%list.
Proof.
  intros Hi Hsi H. unfold V2Sse.sse_body.
  induction H as [| [type data] rest [Ht Hst] _ IH]; [reflexivity |].
  cbn [map flat_map fst snd] in *.
  rewrite concat_cons, (format_lines type data id _ Ht Hi Hst Hsi), IH, <- app_assoc.
  reflexivity.
Qed.

Lemma event_stream_is_framed_witness :
  lines (V2Sse.sse_body
           [("tool_result", VObj [("text", VStr ("two" ++ newline ++ "lines"))])] "tool-1")
  = [ "id: tool-1"; "event: tool_result";
      "data: {" ++ quote "text" ++ ":" ++ quote ("two" ++ newline ++ "lines") ++ "}";
      ""; "" ].
Proof.
  apply (event_stream_is_framed
           [("tool_result", VObj [("text", VStr ("two" ++ newline ++ "lines"))])] "tool-1").
  - discriminate.
  - reflexivity.
  - repeat constructor. discriminate.
Defined.

(** ** The function [mcp-api] and the arguments of a call *)

Lemma mcp_api_handler_tool_call TOOLS path o name args :
  calls_tool_with o name args ->
  forall w log,
    McpApi.handler TOOLS (mkEvent "POST" (VObj [("path", VStr path)]) (Parsed (VObj o))) w log
    = try_catch
        (bind
           (try_catch
              (bind (switch_value (VStr name) (McpApi.tool_cases args) (unknown_tool (VStr name)))
                 (fun result => ret (jsonrpc_result (prop o "id") (tool_content result))))
              (fun error =>
                 bind (lift (message_prop error)) (fun message =>
                 ret (jsonrpc_error (prop o "id")
                        (VObj [("code", VNum (-32603));
                               ("message", message);
                               ("data", VObj [("tool", VStr name); ("arguments", args)])])))))
           (fun response => ret (json_response 200 response)))
        (fun error =>
           bind (lift (message_prop error)) (fun data =>
           ret (json_response 500
                  (jsonrpc_error VNull
                     (VObj [("code", VNum (-32603));
                            ("message", VStr "Internal error");
                            ("data", data)])))))
        w log.
Proof.
  intros (Hj & Hm & p & Hp & Hn & Ha) w log.
  unfold McpApi.handler.
  cbn [httpMethod event_body requestContext JSON_parse get_prop lookup
       String.eqb Ascii.eqb Bool.eqb].
  change (bind (lift (Normal (VStr path))) ?k) with (k (VStr path)). cbv beta zeta.
  rewrite or_else_path, log_value_string.
  cbn [String.eqb Ascii.eqb Bool.eqb negb].
  change (bind (lift (Normal (VObj o))) ?k) with (k (VObj o)). cbv beta.
  unfold McpApi.route. cbn [get_prop dot].
  fold (prop o "jsonrpc"). fold (prop o "method"). fold (prop o "id"). fold (prop o "params").
  rewrite Hj, Hm.
  change (bind (lift (Normal (VStr "2.0"))) ?k) with (k (VStr "2.0")). cbv beta.
  cbn [is_str truthy String.eqb Ascii.eqb Bool.eqb andb negb].
  unfold McpApi.tools_call. cbn [dot]. fold (prop o "params"). fold (prop o "id").
  rewrite Hp. cbn [destructure_call get_prop cbind dot].
  fold (prop p "name"). fold (prop p "arguments").
  change (bind (lift (Normal (prop p "name", prop p "arguments"))) ?k)
    with (k (prop p "name", prop p "arguments")).
  cbv beta iota zeta. rewrite Hn, Ha. reflexivity.
Qed.

(** Property X26.  The function [mcp-api] reads the arguments of a tool
    call as they come: a call of [get_market_by_mint] or of [get_live_data]
    without arguments is answered with the error -32603 whose message is
    that of reading a property of [undefined], without an outbound
    call. *)
Theorem mcp_api_needs_arguments (TOOLS : list obj) (path : string) (o : obj)
    (name key : string) (w : world) :
  In (name, key) [("get_market_by_mint", "mint"); ("get_live_data", "event_ticker")] ->
  calls_tool_with o name VUndefined ->
  run (McpApi.handler TOOLS (mkEvent "POST" (VObj [("path", VStr path)]) (Parsed (VObj o)))) w
  = (Normal
       (json_response 200
          (jsonrpc_error (prop o "id")
             (VObj [("code", VNum (-32603));
                    ("message",
                     VStr ("Cannot read properties of undefined (reading '" ++ key ++ "')"));
                    ("data", VObj [("tool", VStr name); ("arguments", VUndefined)])]))),
     []).
Proof.
  intros Hin Hcall. unfold run.
  rewrite (mcp_api_handler_tool_call TOOLS path o name VUndefined Hcall).
  cbn [In] in Hin. destruct Hin as [E | [E | []]]; inversion E; subst; reflexivity.
Qed.

Lemma mcp_api_needs_arguments_witness :
  run (McpApi.handler McpCatalog.TOOLS
         (post_event (VObj [("jsonrpc", VStr "2.0"); ("id", VNum 4);
                            ("method", VStr "tools/call");
                            ("params", VObj [("name", VStr "get_live_data")])]))) never
  = (Normal
       (json_response 200
          (jsonrpc_error (VNum 4)
             (VObj [("code", VNum (-32603));
                    ("message",
                     VStr "Cannot read properties of undefined (reading 'event_ticker')");
                    ("data", VObj [("tool", VStr "get_live_data");
                                   ("arguments", VUndefined)])]))),
     []).
Proof.
  apply (mcp_api_needs_arguments McpCatalog.TOOLS "/api/mcp"
           [("jsonrpc", VStr "2.0"); ("id", VNum 4); ("method", VStr "tools/call");
            ("params", VObj [("name", VStr "get_live_data")])]
           "get_live_data" "event_ticker" never).
  - cbn. tauto.
  - split; [reflexivity | split; [reflexivity |]]. eexists. repeat split.
Defined.

(** The loop of [apiRequest] appends every entry, in order, or throws what
    the first failing conversion throws. *)
Lemma append_all_spec a u :
  append_all a u = cbind (convert_entries a) (fun ps => Normal (append_pairs ps u)).
Proof.
  revert u. induction a as [| [k v] rest IH]; intros u.
  - reflexivity.
  - cbn [append_all convert_entries]. destruct (ToString v) as [s | t |]; cbn [cbind].
    + rewrite IH. destruct (convert_entries rest) as [ps | t |]; cbn [cbind].
      * rewrite append_pairs_cons. reflexivity.
      * reflexivity.
      * reflexivity.
    + reflexivity.
    + reflexivity.
Qed.

Lemma apiRequest_with_query p a ps :
  path_only p = true ->
  convert_entries a = Normal ps ->
  calls_once (mkCall "GET" (SERVERLESS_BASE_URL ++ String "/" p ++ query_string ps) None)
    (apiRequest "GET" (String "/" p) (VObj a)).
Proof.
  intros Hp Hc. unfold apiRequest.
  apply (calls_once_ext _ _
           (bind (fetch (mkCall "GET" (SERVERLESS_BASE_URL ++ String "/" p ++ query_string ps)
                           None))
              read_response)).
  - intros w log. rewrite bind_lift, new_URL_base_serverless.
    cbn [truthy andb String.eqb Ascii.eqb Bool.eqb Object_entries cbind].
    rewrite bind_lift, append_all_spec, Hc. cbn [cbind].
    rewrite (parse_tail_path _ _ Hp).
    destruct ps as [| q ps'].
    + unfold href. cbn [append_pairs origin pathname query hash query_string].
      rewrite !append_empty_r. reflexivity.
    + unfold href, append_pairs. cbn [origin pathname query hash query_string searchParams app].
      rewrite !append_empty_r. reflexivity.
  - apply calls_once_fetch. apply quiet_read_response.
Qed.

(** Property X27.  The function [mcp-api] forwards the arguments of
    [get_live_data] twice: the event ticker is the last segment of the path
    and, with every other argument, a query parameter as well. *)
Theorem mcp_api_live_data_query (TOOLS : list obj) (path : string) (o a : obj)
    (e : string) (ps : pairs) (w : world) :
  calls_tool_with o "get_live_data" (VObj a) ->
  prop a "event_ticker" = VStr e ->
  e <> "" ->
  plain_segment e = true ->
  convert_entries a = Normal ps ->
  snd (run (McpApi.handler TOOLS (mkEvent "POST" (VObj [("path", VStr path)])
                                    (Parsed (VObj o)))) w)
  = [mkCall "GET"
       (SERVERLESS_BASE_URL ++ "/api/v1/events/live-data/" ++ e ++ query_string ps) None]
  /\ In "event_ticker" (map fst ps).
Proof.
  intros Hcall He Hne Hplain Hps. split.
  - unfold run.
    assert (C : calls_once
                  (mkCall "GET"
                     (SERVERLESS_BASE_URL ++ "/api/v1/events/live-data/" ++ e ++ query_string ps)
                     None)
                  (McpApi.handler TOOLS (mkEvent "POST" (VObj [("path", VStr path)])
                                           (Parsed (VObj o))))).
    { apply (calls_once_ext _ _ _
               (mcp_api_handler_tool_call TOOLS path o "get_live_data" (VObj a) Hcall)).
      apply calls_once_try; [| intros; quiet].
      apply calls_once_bind; [| intros; quiet].
      apply calls_once_try; [| intros; quiet].
      apply calls_once_bind; [| intros; quiet].
      apply (calls_once_ext _ _
               (apiRequest "GET" (String "/" ("api/v1/events/live-data/" ++ e)) (VObj a))).
      - intros w0 log.
        cbn [switch_value McpApi.tool_cases is_str String.eqb Ascii.eqb Bool.eqb get_prop].
        fold (prop a "event_ticker"). rewrite He.
        change (bind (lift (Normal (VStr e))) ?k) with (k (VStr e)). cbv beta.
        unfold live_data_path. cbn [dot]. rewrite He, (truthy_string e Hne).
        reflexivity.
      - pose proof (apiRequest_with_query ("api/v1/events/live-data/" ++ e) a ps) as Q.
        cbn [append] in Q |- *. apply Q; [| exact Hps].
        apply (path_only_app "api/v1/events/live-data/" e);
          [reflexivity | apply plain_segment_path_only; exact Hplain]. }
    apply (C w []).
  - rewrite (convert_entries_keys _ _ Hps).
    unfold prop in He. clear - He. induction a as [| [k v] rest IH]; cbn [lookup] in He.
    + discriminate.
    + cbn [map fst In]. destruct (String.eqb_spec "event_ticker" k) as [-> | _].
      * left. reflexivity.
      * right. apply IH. exact He.
Qed.

Lemma mcp_api_live_data_query_witness :
  snd (run (McpApi.handler McpCatalog.TOOLS
              (post_event (tools_call_request (VNum 1) "get_live_data"
                             (VObj [("event_ticker", VStr "EVT-1")])))) never)
  = [mkCall "GET"
       (SERVERLESS_BASE_URL ++ "/api/v1/events/live-data/" ++ "EVT-1"
        ++ "?event_ticker=EVT-1") None].
Proof.
  refine (proj1 (mcp_api_live_data_query McpCatalog.TOOLS "/api/mcp"
                   [("jsonrpc", VStr "2.0"); ("id", VNum 1); ("method", VStr "tools/call");
                    ("params", VObj [("name", VStr "get_live_data");
                                     ("arguments", VObj [("event_ticker", VStr "EVT-1")])])]
                   [("event_ticker", VStr "EVT-1")] "EVT-1" [("event_ticker", "EVT-1")] never
                   (conj eq_refl (conj eq_refl
                      (ex_intro _ _ (conj eq_refl (conj eq_refl eq_refl)))))
                   eq_refl _ eq_refl eq_refl)).
  discriminate.
Defined.

(** ** Nothing but one [GET] to the upstream *)

Section AtMost.
Context {A : Type}.

Lemma quiet_at_most (m : M A) : quiet m -> at_most_one_get m.
Proof. intros H w log. left. apply H. Qed.

Lemma at_most_bind_first {B} (m : M B) (k : B -> M A) :
  quiet m -> (forall b, at_most_one_get (k b)) -> at_most_one_get (bind m k).
Proof.
  intros Hm Hk w log. unfold bind. specialize (Hm w log).
  destruct (m w log) as [[b | t |] l]; cbn [snd] in Hm |- *; subst l;
    [apply Hk | left; reflexivity | left; reflexivity].
Qed.

Lemma at_most_bind_then {B} (m : M B) (k : B -> M A) :
  at_most_one_get m -> (forall b, quiet (k b)) -> at_most_one_get (bind m k).
Proof.
  intros Hm Hk w log. unfold bind. specialize (Hm w log).
  destruct (m w log) as [[b | t |] l]; cbn [snd] in Hm |- *;
    [rewrite (Hk b w l) | |]; exact Hm.
Qed.

Lemma at_most_try (body : M A) (handler : thrown -> M A) :
  at_most_one_get body -> (forall t, quiet (handler t)) ->
  at_most_one_get (try_catch body handler).
Proof.
  intros Hb Hh w log. unfold try_catch. specialize (Hb w log).
  destruct (body w log) as [[a | t |] l]; cbn [snd] in Hb |- *;
    [| rewrite (Hh t w l) |]; exact Hb.
Qed.

Lemma at_most_switch (v : value) (cases : list (string * M A)) (default : M A) :
  Forall (fun c => at_most_one_get (snd c)) cases ->
  at_most_one_get default ->
  at_most_one_get (switch_value v cases default).
Proof.
  intros Hc Hd. induction Hc as [| [label body] rest Hb _ IH]; cbn [switch_value].
  - exact Hd.
  - destruct (is_str v label); [exact Hb | exact IH].
Qed.
End AtMost.

Lemma append_all_keeps entries u u' :
  append_all entries u = Normal u' -> origin u' = origin u /\ pathname u' = pathname u.
Proof.
  revert u. induction entries as [| [k v] rest IH]; intros u; cbn [append_all].
  - intros E. inversion E. split; reflexivity.
  - destruct (ToString v) as [s | t |]; cbn [cbind]; [| discriminate | discriminate].
    intros E. destruct (IH _ E) as [E1 E2]. rewrite E1, E2. split; reflexivity.
Qed.

Lemma parse_tail_root orig s :
  origin (parse_tail orig (String "/" s)) = orig
  /\ starts_with "/" (pathname (parse_tail orig (String "/" s))) = true.
Proof.
  unfold parse_tail. cbn [take_until]. change (path_end "/") with false. cbv iota.
  destruct (take_until path_end s) as [p r].
  destruct r as [| c r'].
  - split; reflexivity.
  - destruct (is_code 63 c).
    + destruct (take_until (is_code 35) r'). split; reflexivity.
    + split; reflexivity.
Qed.

(** A [GET] of [apiRequest] for a path from the root is one call at most,
    to the upstream. *)
Lemma apiRequest_at_most s params :
  at_most_one_get (apiRequest "GET" (String "/" s) params).
Proof.
  unfold apiRequest. rewrite new_URL_base_serverless.
  intros w log. rewrite bind_lift.
  destruct (parse_tail_root "https://api.llm.dflow.org" s) as [Ho Hp].
  set (u := parse_tail "https://api.llm.dflow.org" (String "/" s)) in *.
  change (String.eqb "GET" "POST") with false.
  change (String.eqb "GET" "GET") with true. cbn [andb].
  assert (K : forall u', origin u' = origin u -> pathname u' = pathname u ->
              exists call, upstream_get call
                /\ snd (bind (fetch (mkCall "GET" (href u') None)) read_response w log)
                   = (log ++ [call])%list).
  { intros u' E1 E2. exists (mkCall "GET" (href u') None). split.
    - split; [reflexivity | split; [reflexivity |]].
      cbn [fc_url]. unfold href. rewrite E1, E2, Ho.
      destruct (starts_with_slash _ Hp) as [p' ->].
      change (String "/" p' ++ ?x) with ("/" ++ (p' ++ x)).
      rewrite <- append_assoc. apply starts_with_app.
    - unfold bind, fetch.
      destruct (w _) as [t [r | e] |]; cbn [settled snd]; try reflexivity.
      apply (quiet_read_response r). }
  rewrite andb_true_r. destruct (truthy params).
  - destruct (Object_entries params) as [entries | t |]; cbn [cbind];
      [| left; reflexivity | left; reflexivity].
    destruct (append_all entries u) as [u' | t |] eqn:E;
      [| left; reflexivity | left; reflexivity].
    rewrite bind_lift. right. destruct (append_all_keeps _ _ _ E) as [E1 E2].
    exact (K u' E1 E2).
  - rewrite bind_lift. right. exact (K u eq_refl eq_refl).
Qed.

(** The same for a path made of a literal from the root and a converted
    value. *)
Lemma path_with_at_most a x params :
  at_most_one_get (path <- path_with (String "/" a) x ;; apiRequest "GET" path params).
Proof.
  unfold path_with. destruct (ToString x) as [sx | t |]; cbn [cbind].
  - intros w log. rewrite bind_lift. apply (apiRequest_at_most (a ++ sx) params).
  - apply quiet_at_most, quiet_bind_throw.
  - apply quiet_at_most. intros w log. reflexivity.
Qed.

Lemma live_data_at_most toolArgs params :
  at_most_one_get (path <- live_data_path toolArgs ;; apiRequest "GET" path params).
Proof.
  unfold live_data_path.
  destruct (truthy (dot toolArgs "event_ticker")); [apply path_with_at_most |].
  destruct (truthy (dot toolArgs "market_ticker")); [apply path_with_at_most |].
  intros w log. apply (apiRequest_at_most "api/v1/live-data" params).
Qed.

Lemma unknown_tool_quiet name : quiet (unknown_tool name).
Proof. unfold unknown_tool, throw_error. quiet. Qed.

Lemma five_tools_at_most name toolArgs :
  at_most_one_get (switch_value name (five_tool_cases toolArgs) (unknown_tool name)).
Proof.
  apply at_most_switch; [| apply quiet_at_most, unknown_tool_quiet].
  unfold five_tool_cases, market_by_mint_case.
  repeat apply Forall_cons; try apply Forall_nil; cbn [snd];
    first [ apply apiRequest_at_most | apply path_with_at_most | apply live_data_at_most ].
Qed.

Ltac inside :=
  solve [ quiet; first [ apply quiet_log_value | apply unknown_tool_quiet ] | quiet ].

Lemma deno_at_most TOOLS html path b :
  at_most_one_get (Deno.handler TOOLS html (mkRequest "POST" "http://localhost:8000" path b)).
Proof.
  unfold Deno.handler. cbn [req_method req_body String.eqb Ascii.eqb Bool.eqb].
  apply at_most_try; [| intros; inside].
  apply at_most_bind_first; [inside | intros body].
  apply at_most_bind_first; [inside | intros method].
  destruct (_ || _); [apply quiet_at_most; inside |].
  destruct (_ || _); [| apply quiet_at_most; inside].
  apply at_most_bind_first; [inside | intros [name args]].
  apply at_most_try; [| intros; inside].
  apply at_most_bind_then; [| intros; inside].
  apply at_most_switch; [| apply quiet_at_most, unknown_tool_quiet].
  unfold Deno.tool_cases. repeat apply Forall_cons; try apply Forall_nil; cbn [snd];
    apply apiRequest_at_most.
Qed.

Lemma api_mcp_at_most TOOLS context b :
  at_most_one_get (ApiMcp.handler TOOLS (mkEvent "POST" context b)).
Proof.
  unfold ApiMcp.handler. cbn [httpMethod event_body String.eqb Ascii.eqb Bool.eqb negb].
  apply at_most_try; [| intros; inside].
  apply at_most_bind_first; [inside | intros body].
  apply at_most_bind_first; [inside | intros method].
  destruct (_ || _); [apply quiet_at_most; inside |].
  destruct (_ || _); [| apply quiet_at_most; inside].
  apply at_most_bind_first; [inside | intros [name args]].
  apply at_most_try; [| intros; inside].
  apply at_most_bind_then; [| intros; inside].
  apply at_most_switch; [| apply quiet_at_most, unknown_tool_quiet].
  unfold ApiMcp.tool_cases. repeat apply Forall_cons; try apply Forall_nil; cbn [snd];
    apply apiRequest_at_most.
Qed.

Lemma mcp_at_most TOOLS context b :
  at_most_one_get (McpIndex.handler TOOLS (mkEvent "POST" context b)).
Proof.
  unfold McpIndex.handler. cbn [httpMethod event_body String.eqb Ascii.eqb Bool.eqb negb].
  apply at_most_try; [| intros; inside].
  apply at_most_bind_first; [inside | intros request].
  unfold McpIndex.route.
  apply at_most_bind_first; [inside | intros method].
  repeat (destruct (is_str method _); [apply quiet_at_most; inside |]).
  destruct (is_str method "tools/call").
  - unfold McpIndex.tools_call.
    apply at_most_bind_first; [inside | intros [name args]].
    apply at_most_try; [| intros; inside].
    apply at_most_bind_then; [| intros; inside].
    apply five_tools_at_most.
  - apply quiet_at_most. unfold McpIndex.tools_describe. inside.
Qed.

Lemma claude_handler_at_most TOOLS now key h :
  ClaudeDesktop.handler_for key (ClaudeDesktop.claudeDesktopHandlers TOOLS now) = Some h ->
  forall request, at_most_one_get (h request).
Proof.
  intros E request. destruct (String.eqb_spec key "tools/call") as [-> | Hkey].
  - cbn in E. inversion E. subst h. unfold ClaudeDesktop.tools_call.
    destruct (ClaudeDesktop.destructure_pair _) as [toolName args].
    apply at_most_bind_first; [apply quiet_log_value | intros _].
    apply at_most_try; [| intros; inside].
    apply at_most_bind_then; [| intros; inside].
    apply five_tools_at_most.
  - apply quiet_at_most. exact (claude_handler_quiet TOOLS now key h Hkey E request).
Qed.

Lemma claude_at_most TOOLS now context b :
  at_most_one_get (ClaudeDesktop.handler TOOLS now (mkEvent "POST" context b)).
Proof.
  unfold ClaudeDesktop.handler.
  cbn [httpMethod event_body requestContext String.eqb Ascii.eqb Bool.eqb negb].
  apply at_most_bind_first; [inside | intros p].
  apply at_most_bind_first; [apply quiet_log_value | intros _].
  apply at_most_try; [| intros; inside].
  destruct b as [message | request]; [apply quiet_at_most; inside |].
  unfold ClaudeDesktop.route.
  apply at_most_bind_first; [inside | intros args].
  destruct (_ && _); [| apply quiet_at_most; inside].
  apply at_most_bind_first; [inside | intros key].
  unfold ClaudeDesktop.member_for.
  destruct (ClaudeDesktop.handler_for key _) as [h |] eqn:E.
  - apply at_most_bind_then; [| intros; inside].
    apply (claude_handler_at_most TOOLS now key h E).
  - destruct (existsb _ _); apply quiet_at_most; [| inside].
    apply quiet_bind; [apply inherited_member_quiet | intros; quiet].
Qed.

Lemma mcp_api_at_most TOOLS context b :
  at_most_one_get (McpApi.handler TOOLS (mkEvent "POST" context b)).
Proof.
  unfold McpApi.handler.
  cbn [httpMethod event_body requestContext String.eqb Ascii.eqb Bool.eqb negb].
  apply at_most_bind_first; [inside | intros p].
  apply at_most_bind_first; [apply quiet_log_value | intros _].
  apply at_most_try; [| intros; inside].
  apply at_most_bind_first; [inside | intros request].
  unfold McpApi.route.
  apply at_most_bind_first; [inside | intros jsonrpc].
  apply at_most_bind_then; [| intros; inside].
  destruct (_ && _); [| apply quiet_at_most; inside].
  repeat (destruct (is_str _ _); [apply quiet_at_most; inside |]).
  destruct (is_str _ "tools/call"); [| apply quiet_at_most; inside].
  unfold McpApi.tools_call.
  apply at_most_bind_first; [inside | intros [name args]].
  apply at_most_try; [| intros; inside].
  apply at_most_bind_then; [| intros; inside].
  apply at_most_switch; [| apply quiet_at_most, unknown_tool_quiet].
  unfold McpApi.tool_cases. repeat apply Forall_cons; try apply Forall_nil; cbn [snd].
  - apply apiRequest_at_most.
  - apply apiRequest_at_most.
  - apply apiRequest_at_most.
  - apply at_most_bind_first; [inside | intros mint]. apply path_with_at_most.
  - apply at_most_bind_first; [inside | intros event_ticker]. apply live_data_at_most.
Qed.

Lemma v2_sse_at_most TOOLS now now_ms context b :
  at_most_one_get (V2Sse.handler TOOLS now now_ms (mkEvent "POST" context b)).
Proof.
  unfold V2Sse.handler.
  cbn [httpMethod event_body requestContext String.eqb Ascii.eqb Bool.eqb negb andb].
  apply at_most_bind_first; [inside | intros p].
  apply at_most_bind_first; [apply quiet_log_value | intros _].
  apply at_most_try; [| intros; inside].
  destruct b as [message | request]; [apply quiet_at_most; inside |].
  unfold V2Sse.route.
  apply at_most_bind_then; [| intros; inside].
  destruct (is_str _ _); [apply quiet_at_most; unfold V2Sse.handleBootstrap; inside |].
  apply at_most_bind_first; [inside | intros method].
  destruct (is_str method "tools/list");
    [apply quiet_at_most; unfold V2Sse.handleToolsList; inside |].
  destruct (is_str method "tools/call"); [| apply quiet_at_most; inside].
  unfold V2Sse.handleToolsCall.
  apply at_most_bind_first; [inside | intros [name args]].
  apply at_most_bind_first; [apply quiet_log_value | intros _].
  apply at_most_try; [| intros; inside].
  apply at_most_bind_then; [| intros; inside].
  apply five_tools_at_most.
Qed.

(** Property X28.  Whatever the body of a [POST], no HTTP variant that
    calls the upstream itself issues more than one outbound call, and the
    call it issues is a [GET] without a body whose URL starts with the
    upstream's origin and a [/]: no argument of a tool sends the call to
    another host, and none makes it a [POST]. *)
Theorem calls_stay_on_the_upstream (TOOLS : list obj) (index_html : string -> string)
    (bun_index_html : string) (server_request : value -> M value) (now : string)
    (now_ms : Z) (v : variant) (path : string) (b : inbound) (w : world) :
  v <> BunWebServer ->
  let calls :=
    snd (run (post_to TOOLS index_html bun_index_html server_request now now_ms v path b) w)
  in
  calls = []
  \/ exists url,
       calls = [mkCall "GET" url None]
       /\ starts_with (SERVERLESS_BASE_URL ++ "/") url = true.
Proof.
  intros Hv calls.
  assert (H : at_most_one_get
                (post_to TOOLS index_html bun_index_html server_request now now_ms v path b)).
  { unfold post_to. destruct v.
    - apply deno_at_most.
    - apply api_mcp_at_most.
    - apply mcp_at_most.
    - apply claude_at_most.
    - apply mcp_api_at_most.
    - apply quiet_at_most, v2_bootstrap_quiet.
    - apply v2_sse_at_most.
    - contradiction Hv. reflexivity. }
  destruct (H w []) as [E | [[method url body] [[Hm [Hb Hu]] E]]].
  - left. exact E.
  - right. cbn [fc_method fc_body fc_url] in Hm, Hb, Hu. subst method body.
    exists url. split; [exact E | exact Hu].
Qed.

Lemma calls_stay_on_the_upstream_witness :
  let calls :=
    snd (run (post_to McpCatalog.TOOLS (fun _ => "") "" (fun _ => ret VNull)
                "2025-01-01T00:00:00.000Z" 0 McpApiFunction "/api/mcp"
                (Parsed (tools_call_request (VNum 1) "get_live_data"
                           (VObj [("event_ticker", VStr "a/../b?c=d#e")]))))
           never)
  in
  calls = []
  \/ exists url,
       calls = [mkCall "GET" url None]
       /\ starts_with (SERVERLESS_BASE_URL ++ "/") url = true.
Proof.
  apply (calls_stay_on_the_upstream McpCatalog.TOOLS (fun _ => "") "" (fun _ => ret VNull)
           "2025-01-01T00:00:00.000Z" 0 McpApiFunction "/api/mcp"
           (Parsed (tools_call_request (VNum 1) "get_live_data"
                      (VObj [("event_ticker", VStr "a/../b?c=d#e")])))
           never).
  discriminate.
Defined.

(** ** The function [mcp] and its edition with a log *)

Lemma get_prop_defined v k :
  is_nullish v = false -> exists x, get_prop v k = Normal x.
Proof. destruct v; cbn; intros H; try discriminate H; eexists; reflexivity. Qed.

Lemma logged_route_agrees TOOLS now request m :
  In m shared_methods ->
  dot request "method" = VStr m ->
  McpLogged.route TOOLS now request = McpIndex.route TOOLS request.
Proof.
  intros Hin Hm. destruct request as [| | | | | | o]; try discriminate Hm.
  unfold McpLogged.route, McpIndex.route. cbn [get_prop dot] in *.
  fold (prop o "method"). rewrite Hm.
  change (bind (lift (Normal (VStr m))) ?k) with (k (VStr m)). cbv beta.
  cbn [shared_methods In] in Hin.
  repeat (destruct Hin as [<- | Hin]; [reflexivity |]). contradiction.
Qed.

(** Property X29.  The edition of the function [mcp] that writes a log
    (src/.netlify/functions/mcp/index.js) answers as the function without
    the log (src/unnamed/part_004) does: the same status, the same body and
    the same outbound calls, for every HTTP method, when the event has its
    [headers] and its [requestContext] and the body is no JSON, is [null],
    or asks for a method other than [connectMCPServer] and [health] that
    the function knows.  Without [headers] in the event it answers nothing:
    the first line of the log throws, before the [try], even for
    [OPTIONS]. *)
Theorem logged_mcp_agrees_with_mcp (TOOLS : list obj) (now : string) (headers : value)
    (e : Event) (w : world) :
  (is_nullish headers = false ->
   is_nullish (requestContext e) = false ->
   asks_shared (event_body e) ->
   run (McpLogged.handler TOOLS now headers e) w = run (McpIndex.handler TOOLS e) w)
  /\ (headers = VUndefined ->
      run (McpLogged.handler TOOLS now headers e) w
      = (Throw (ThrowError (TypeError "Cannot read properties of undefined (reading 'host')")),
         [])).
Proof.
  split.
  - intros Hh Hc Hb. unfold run, McpLogged.handler, McpIndex.handler.
    destruct (get_prop_defined headers "host" Hh) as [host ->].
    destruct (get_prop_defined (requestContext e) "path" Hc) as [path ->].
    destruct (get_prop_defined headers "user-agent" Hh) as [agent ->].
    rewrite !bind_lift.
    destruct (String.eqb (httpMethod e) "OPTIONS"); [reflexivity |].
    destruct (negb (String.eqb (httpMethod e) "POST")); [reflexivity |].
    destruct (event_body e) as [message | request]; [reflexivity |].
    destruct Hb as [-> | [m [Hin Hm]]]; [reflexivity |].
    unfold try_catch, bind. cbn [JSON_parse lift].
    rewrite (logged_route_agrees TOOLS now request m Hin Hm). reflexivity.
  - intros ->. reflexivity.
Qed.

Lemma logged_mcp_agrees_with_mcp_witness :
  run (McpLogged.handler McpCatalog.TOOLS "2025-01-01T00:00:00.000Z"
         (VObj [("host", VStr "dflow.opensvm.com")])
         (post_event (tools_call_request (VNum 7) "get_events" (VObj [("limit", VNum 5)]))))
      (answers sample_event)
  = run (McpIndex.handler McpCatalog.TOOLS
           (post_event (tools_call_request (VNum 7) "get_events" (VObj [("limit", VNum 5)]))))
      (answers sample_event).
Proof.
  refine (proj1 (logged_mcp_agrees_with_mcp McpCatalog.TOOLS "2025-01-01T00:00:00.000Z"
                   (VObj [("host", VStr "dflow.opensvm.com")])
                   (post_event (tools_call_request (VNum 7) "get_events"
                                  (VObj [("limit", VNum 5)])))
                   (answers sample_event)) eq_refl eq_refl _).
  right. exists "tools/call". split; [cbn; tauto | reflexivity].
Defined.
